(** * Configuration validation and resolution engine

    A shallow embedding of the validators and resolvers of the agent CLI
    ([config_validate.py], [config_resolve.py], [config_validate_v2.py],
    [config_resolve_v2.py]) and the properties proved about them.

    YAML documents are untyped Python values; the code inspects them with
    [isinstance], [dict.get], subscripting, [in] and truthiness.  The
    embedding keeps that shape: a [value] type, the Python primitives the
    code uses on it, and an exception monad in which [ValidationError] is
    one exception among the others Python can raise. *)

From Stdlib Require Import String Ascii List ZArith Bool Lia Permutation DecimalString.
Import ListNotations.
Local Open Scope list_scope.
Local Open Scope string_scope.
Set Warnings "-register-all".

(* ===================================================================== *)
(** * Python values, exceptions and primitives                            *)
(* ===================================================================== *)

Module Py.

(** The values [yaml.safe_load] produces that the code distinguishes:
    [None], booleans, integers, strings, sequences and mappings.  Mappings
    keep insertion order, as Python dicts do, and have string keys. *)
Inductive value : Type :=
| VNone
| VBool (b : bool)
| VInt (n : Z)
| VStr (s : string)
| VList (xs : list value)
| VDict (kvs : list (string * value)).

Definition dict := list (string * value).

(** Exceptions.  [ValidationError] carries its message; the message built by
    [_die] is [path ++ ": " ++ msg]. *)
Inductive exn : Type :=
| ValidationError (msg : string)
| YAMLError
| KeyError (key : string)
| IndexError
| TypeError
| AttributeError
| ValueError.

Inductive result (A : Type) : Type :=
| Ok (a : A)
| Raise (e : exn).
Arguments Ok {A} a.
Arguments Raise {A} e.

Definition bind {A B} (m : result A) (k : A -> result B) : result B :=
  match m with
  | Ok a => k a
  | Raise e => Raise e
  end.

Definition is_ok {A} (m : result A) : bool :=
  match m with Ok _ => true | Raise _ => false end.

Definition is_validation_error {A} (m : result A) : bool :=
  match m with Raise (ValidationError _) => true | _ => false end.

End Py.
Export Py.

Declare Scope py_scope.
Delimit Scope py_scope with py.
Notation "x <- m ;; k" := (bind m (fun x => k))
  (at level 61, m at next level, right associativity) : py_scope.
Notation "m ;;; k" := (bind m (fun _ => k))
  (at level 61, right associativity) : py_scope.
Local Open Scope py_scope.

Module PyOps.

(** ** Strings *)

(** [c in s] for a one-character [c]. *)
Fixpoint contains_char (c : ascii) (s : string) : bool :=
  match s with
  | EmptyString => false
  | String a s' => Ascii.eqb a c || contains_char c s'
  end.

(** The two halves of [s.split(c, 1)] when [c] occurs in [s]. *)
Fixpoint split_once (c : ascii) (s : string) : option (string * string) :=
  match s with
  | EmptyString => None
  | String a s' =>
      if Ascii.eqb a c then Some (EmptyString, s')
      else match split_once c s' with
           | Some (h, t) => Some (String a h, t)
           | None => None
           end
  end.

(** [s.split(c, 1)]. *)
Definition split1 (c : ascii) (s : string) : list string :=
  match split_once c s with
  | Some (h, t) => [h; t]
  | None => [s]
  end.

(** [sub in s]. *)
Fixpoint str_contains (sub s : string) : bool :=
  String.prefix sub s ||
  match s with
  | EmptyString => false
  | String _ s' => str_contains sub s'
  end.

(** [s.endswith(suf)]. *)
Fixpoint endswith (suf s : string) : bool :=
  String.eqb suf s ||
  match s with
  | EmptyString => false
  | String _ s' => endswith suf s'
  end.

(** ASCII whitespace, the characters [str.strip()] removes (the non-ASCII
    Unicode spaces are outside this byte-string model). *)
Definition is_space (a : ascii) : bool :=
  let n := nat_of_ascii a in
  ((9 <=? n)%nat && (n <=? 13)%nat) || ((28 <=? n)%nat && (n <=? 32)%nat).

(** [not s.strip()]. *)
Fixpoint is_blank (s : string) : bool :=
  match s with
  | EmptyString => true
  | String a s' => is_space a && is_blank s'
  end.

(** [str(n)] for a list index. *)
Definition string_of_nat (n : nat) : string :=
  NilEmpty.string_of_uint (Nat.to_uint n).

Definition mem (s : string) (l : list string) : bool :=
  existsb (String.eqb s) l.

(** [sorted(set(l))] on strings. *)
Fixpoint insert_sorted (s : string) (l : list string) : list string :=
  match l with
  | [] => [s]
  | x :: l' =>
      if String.eqb s x then l
      else if String.leb s x then s :: l
      else x :: insert_sorted s l'
  end.

Definition sorted_set (l : list string) : list string :=
  fold_right insert_sorted [] l.

(** [', '.join(l)]. *)
Definition join_comma (l : list string) : string := String.concat ", " l.

(** ** Sequences *)

(** [l[i]]. *)
Definition index {A} (l : list A) (i : nat) : result A :=
  match nth_error l i with
  | Some x => Ok x
  | None => Raise IndexError
  end.

(** A [for] loop whose body may raise. *)
Fixpoint for_each {A} (body : A -> result unit) (l : list A) : result unit :=
  match l with
  | [] => Ok tt
  | x :: l' => body x ;;; for_each body l'
  end.

(** [for i, x in enumerate(l)], counting from [i]. *)
Fixpoint for_each_i {A} (body : nat -> A -> result unit) (i : nat) (l : list A)
  : result unit :=
  match l with
  | [] => Ok tt
  | x :: l' => body i x ;;; for_each_i body (S i) l'
  end.

(** [[x for x in l if keep(x)]] with a test that may raise. *)
Fixpoint filter_m {A} (keep : A -> result bool) (l : list A) : result (list A) :=
  match l with
  | [] => Ok []
  | x :: l' =>
      b <- keep x ;;
      r <- filter_m keep l' ;;
      Ok (if b then x :: r else r)
  end.

(** ** Mappings *)

Fixpoint dict_get (k : string) (d : dict) : option value :=
  match d with
  | [] => None
  | (k', v) :: d' => if String.eqb k k' then Some v else dict_get k d'
  end.

Definition dict_mem (k : string) (d : dict) : bool :=
  match dict_get k d with Some _ => true | None => false end.

(** [d[k] = v]: an existing key keeps its position, a new one goes last. *)
Fixpoint dict_set (k : string) (v : value) (d : dict) : dict :=
  match d with
  | [] => [(k, v)]
  | (k', v') :: d' =>
      if String.eqb k k' then (k, v) :: d' else (k', v') :: dict_set k v d'
  end.

Definition dict_keys (d : dict) : list string := map fst d.

(** [d.get(k)]. *)
Definition dget (d : dict) (k : string) : value :=
  match dict_get k d with Some v => v | None => VNone end.

(** [d[k]]. *)
Definition ditem (d : dict) (k : string) : result value :=
  match dict_get k d with Some v => Ok v | None => Raise (KeyError k) end.

(** [out = dict(base); out.update(override)]: for each key [k] of
    [override], in order, [out[k] = override[k]]. *)
Definition dict_update (base override : dict) : dict :=
  fold_left (fun acc k => dict_set k (dget override k) acc) (dict_keys override) base.

(** [for k, v in entries.items(): out[k] = v]. *)
Definition dict_set_all (out entries : dict) : dict :=
  fold_left (fun acc kv => dict_set (fst kv) (snd kv) acc) entries out.

(** ** Dynamic operations on values *)

(** [bool(v)]. *)
Definition truthy (v : value) : bool :=
  match v with
  | VNone => false
  | VBool b => b
  | VInt n => negb (Z.eqb n 0)
  | VStr s => negb (String.eqb s "")
  | VList xs => match xs with [] => false | _ => true end
  | VDict d => match d with [] => false | _ => true end
  end.

(** [a or b]. *)
Definition por (a b : value) : value := if truthy a then a else b.

Definition is_none (v : value) : bool :=
  match v with VNone => true | _ => false end.

(** [v is False]. *)
Definition is_False (v : value) : bool :=
  match v with VBool false => true | _ => false end.

Inductive pytype := TDict | TList | TStr | TBool | TInt.

(** [bool(l)] for a list. *)
Definition nonempty {A} (l : list A) : bool :=
  match l with [] => false | _ => true end.

(** [isinstance(v, t)]; [bool] is a subclass of [int]. *)
Definition isinstance (v : value) (t : pytype) : bool :=
  match t, v with
  | TDict, VDict _ => true
  | TList, VList _ => true
  | TStr, VStr _ => true
  | TBool, VBool _ => true
  | TInt, VInt _ => true
  | TInt, VBool _ => true
  | _, _ => false
  end.

(** [t.__name__]. *)
Definition type_name (t : pytype) : string :=
  match t with
  | TDict => "dict" | TList => "list" | TStr => "str"
  | TBool => "bool" | TInt => "int"
  end.

(** [a == b]: numbers compare by value ([True == 1]), sequences element by
    element, mappings key by key whatever the order. *)
Fixpoint py_eq (a b : value) {struct a} : bool :=
  match a, b with
  | VNone, VNone => true
  | VBool x, VBool y => Bool.eqb x y
  | VBool x, VInt n => Z.eqb (if x then 1 else 0) n
  | VInt n, VBool y => Z.eqb n (if y then 1 else 0)
  | VInt n, VInt m => Z.eqb n m
  | VStr s, VStr t => String.eqb s t
  | VList xs, VList ys =>
      (fix go (xs ys : list value) {struct xs} : bool :=
         match xs, ys with
         | [], [] => true
         | x :: xs', y :: ys' => py_eq x y && go xs' ys'
         | _, _ => false
         end) xs ys
  | VDict d, VDict e =>
      Nat.eqb (List.length d) (List.length e) &&
      (fix go (d : dict) {struct d} : bool :=
         match d with
         | [] => true
         | (k, v) :: d' =>
             match dict_get k e with
             | Some w => py_eq v w && go d'
             | None => false
             end
         end) d
  | _, _ => false
  end.

(** [x in l] for a list [l]. *)
Definition in_list (x : value) (l : list value) : bool :=
  existsb (py_eq x) l.

(** [x in c]: key membership for a mapping, element membership for a
    sequence, substring for a string; other containers are not iterable. *)
Definition py_in (x c : value) : result bool :=
  match c with
  | VDict d =>
      match x with
      | VStr k => Ok (dict_mem k d)
      | VList _ | VDict _ => Raise TypeError
      | _ => Ok false
      end
  | VList l => Ok (in_list x l)
  | VStr s =>
      match x with
      | VStr sub => Ok (str_contains sub s)
      | _ => Raise TypeError
      end
  | _ => Raise TypeError
  end.

(** [v.get(k)]: only mappings have the method. *)
Definition get (v : value) (k : string) : result value :=
  match v with
  | VDict d => Ok (dget d k)
  | _ => Raise AttributeError
  end.

(** [v[k]] with a string key. *)
Definition item (v : value) (k : string) : result value :=
  match v with
  | VDict d => ditem d k
  | _ => Raise TypeError
  end.

(** [v.items()] / [v.keys()]. *)
Definition items (v : value) : result dict :=
  match v with
  | VDict d => Ok d
  | _ => Raise AttributeError
  end.

(** [dict(v)]. *)
Definition to_dict (v : value) : result dict :=
  match v with
  | VDict d => Ok d
  | VList [] => Ok []
  | VStr "" => Ok []
  | VStr _ => Raise ValueError
  | _ => Raise TypeError
  end.

(** [list(v)]. *)
Definition to_list (v : value) : result (list value) :=
  match v with
  | VList xs => Ok xs
  | VDict d => Ok (map VStr (dict_keys d))
  | VStr s => Ok (map (fun a => VStr (String a "")) (list_ascii_of_string s))
  | _ => Raise TypeError
  end.

(** The string behind a value used as one ([s.split], [s.endswith]). *)
Definition as_str (v : value) : result string :=
  match v with
  | VStr s => Ok s
  | _ => Raise AttributeError
  end.

Fixpoint as_str_list (l : list value) : result (list string) :=
  match l with
  | [] => Ok []
  | v :: l' => s <- as_str v ;; r <- as_str_list l' ;; Ok (s :: r)
  end.

(** ** Helpers shared by the validators and resolvers *)

(** [table.get(k)] and [table[k]] on a constant table. *)
Fixpoint table_get {A} (t : list (string * A)) (k : string) : option A :=
  match t with
  | [] => None
  | (k', a) :: t' => if String.eqb k k' then Some a else table_get t' k
  end.

Definition table_item {A} (t : list (string * A)) (k : string) : result A :=
  match table_get t k with
  | Some a => Ok a
  | None => Raise (KeyError k)
  end.

(** [if cond: body]. *)
Definition when (cond : bool) (body : result unit) : result unit :=
  if cond then body else Ok tt.

(** [isinstance(v, str) and v.strip()]. *)
Definition non_empty_str (v : value) : bool :=
  match v with
  | VStr s => negb (is_blank s)
  | _ => false
  end.

(** [isinstance(v, str) and v in values]. *)
Definition str_in (v : value) (values : list string) : bool :=
  match v with
  | VStr s => mem s values
  | _ => false
  end.

(** [isinstance(v, int) and v >= 0]. *)
Definition non_negative_int (v : value) : bool :=
  match v with
  | VInt n => (0 <=? n)%Z
  | VBool _ => true
  | _ => false
  end.

(** [t[k] = a] on a table built at run time. *)
Fixpoint table_set {A} (k : string) (a : A) (t : list (string * A))
  : list (string * A) :=
  match t with
  | [] => [(k, a)]
  | (k', a') :: t' =>
      if String.eqb k k' then (k, a) :: t' else (k', a') :: table_set k a t'
  end.

(** A left-to-right loop that threads an accumulator and may raise. *)
Fixpoint fold_m {A B} (step : B -> A -> result B) (l : list A) (acc : B)
  : result B :=
  match l with
  | [] => Ok acc
  | x :: l' => acc' <- step acc x ;; fold_m step l' acc'
  end.

End PyOps.
Export PyOps.

Module PyFmt.

(** [str(n)] for an integer. *)
Definition string_of_Z (n : Z) : string :=
  match n with
  | Z0 => "0"
  | Zpos p => string_of_nat (Pos.to_nat p)
  | Zneg p => "-" ++ string_of_nat (Pos.to_nat p)
  end.

(** [repr(v)], as an f-string shows the elements of a container.  Strings
    are shown between single quotes; Python's escaping of quotes and
    non-printable characters inside them is not reproduced. *)
Fixpoint py_repr (v : value) : string :=
  match v with
  | VNone => "None"
  | VBool true => "True"
  | VBool false => "False"
  | VInt n => string_of_Z n
  | VStr s => "'" ++ s ++ "'"
  | VList xs =>
      "[" ++ String.concat ", "
               ((fix go (xs : list value) : list string :=
                   match xs with
                   | [] => []
                   | x :: xs' => py_repr x :: go xs'
                   end) xs) ++ "]"
  | VDict d =>
      "{" ++ String.concat ", "
               ((fix go (d : dict) : list string :=
                   match d with
                   | [] => []
                   | (k, x) :: d' => ("'" ++ k ++ "': " ++ py_repr x) :: go d'
                   end) d) ++ "}"
  end.

(** [str(v)], what [f"{v}"] inserts. *)
Definition py_str (v : value) : string :=
  match v with
  | VStr s => s
  | _ => py_repr v
  end.

End PyFmt.
Export PyFmt.

Module PyKeys.

(** [x in s] for a set [s] of strings: an unhashable [x] raises. *)
Definition in_str_set (x : value) (s : list string) : result bool :=
  match x with
  | VStr k => Ok (mem k s)
  | VList _ | VDict _ => Raise TypeError
  | _ => Ok false
  end.

(** [v[key]] where the key is itself a value. *)
Definition item_v (v key : value) : result value :=
  match key with
  | VStr k => item v k
  | VList _ | VDict _ => Raise TypeError
  | _ => match v with
         | VDict _ => Raise (KeyError (py_str key))
         | _ => Raise TypeError
         end
  end.

(** [v[0]]. *)
Definition item0 (v : value) : result value :=
  match v with
  | VList (x :: _) => Ok x
  | VList [] => Raise IndexError
  | VStr (String a _) => Ok (VStr (String a ""))
  | VStr EmptyString => Raise IndexError
  | VDict _ => Raise (KeyError "0")
  | _ => Raise TypeError
  end.

(** [table[key]] on a constant table, where the key is a value. *)
Definition table_item_v {A} (t : list (string * A)) (key : value) : result A :=
  match key with
  | VStr k => table_item t k
  | VList _ | VDict _ => Raise TypeError
  | _ => Raise (KeyError (py_str key))
  end.

(** [v.get(key)] where the key is itself a value. *)
Definition get_v (v key : value) : result value :=
  d <- items v ;;
  match key with
  | VStr k => Ok (dget d k)
  | VList _ | VDict _ => Raise TypeError
  | _ => Ok VNone
  end.

(** A value used as the key of a mapping being built. *)
Definition as_key (v : value) : result string :=
  match v with
  | VStr k => Ok k
  | _ => Raise TypeError
  end.

End PyKeys.
Export PyKeys.

(* ===================================================================== *)
(** * The files a loader reads                                            *)
(* ===================================================================== *)

Module Fs.

(** A directory entry is a regular file, known by what [yaml.safe_load]
    makes of its text ([None] when the text is not YAML), or a directory. *)
Inductive node : Type :=
| File (doc : option value)
| Dir (entries : list (string * node)).

Definition tree := list (string * node).

Fixpoint entry (name : string) (t : tree) : option node :=
  match t with
  | [] => None
  | (n, e) :: t' => if String.eqb name n then Some e else entry name t'
  end.

(** The entry at [subdir/filename] under the root. *)
Definition lookup2 (t : tree) (subdir filename : string) : option node :=
  match entry subdir t with
  | Some (Dir es) => entry filename es
  | _ => None
  end.

(** [os.path.isfile]. *)
Definition isfile (e : option node) : bool :=
  match e with Some (File _) => true | _ => false end.

(** [os.path.join(a, b)] for a relative [b]. *)
Definition join (a b : string) : string :=
  if String.eqb a "" || endswith "/" a then a ++ b else a ++ "/" ++ b.

End Fs.

(* ===================================================================== *)
(** * config_validate.py: the v1 validator                                *)
(* ===================================================================== *)

Module ConfigValidate.

Definition SERVANT_NAMES : list string := ["codex"; "gemini"; "copilot"].

Definition PIPELINE_FLAGS : list (string * list string) :=
  [ ("impl", ["enable_brief"; "enable_verify"; "enable_review"]);
    ("review", ["enable_verify"; "enable_review"]);
    ("plan", ["enable_stage2_codex"; "enable_stage2_gemini";
              "enable_stage3_cross_review"]) ].

Definition PIPELINE_OPTIONS : list (string * list (string * list string)) :=
  [ ("impl", [ ("impl_mode", ["safe"; "one_shot"]);
               ("timeout_mode", ["enforce"; "wait_done"]) ]);
    ("review", [ ("review_mode", ["codex_only"; "cross"]);
                 ("timeout_mode", ["enforce"; "wait_done"]) ]);
    ("plan", [ ("consolidate_mode", ["standard"]);
               ("timeout_mode", ["enforce"; "wait_done"]) ]) ].

Definition WRAPPER_DEFAULT_KEYS : list (string * list string) :=
  [ ("codex", ["effort"; "timeout_ms"; "timeout_mode"]);
    ("gemini", ["approval_mode"; "sandbox"; "timeout_ms"; "timeout_mode"]);
    ("copilot", ["timeout_ms"; "timeout_mode"]) ].

Definition CODEX_EFFORT_VALUES : list string := ["low"; "medium"; "high"; "xhigh"].
Definition GEMINI_APPROVAL_VALUES : list string := ["default"; "auto_edit"; "yolo"].
Definition TIMEOUT_MODE_VALUES : list string := ["enforce"; "wait_done"].

Definition PLAN_STAGE_TOOL : list (string * string) :=
  [ ("stage1", "copilot");
    ("stage2_codex", "codex");
    ("stage2_gemini", "gemini");
    ("stage3_codex_review", "codex");
    ("stage3_gemini_review", "gemini");
    ("stage4", "copilot") ].

Definition SERVANT_FILES : list (string * (string * string)) :=
  [ ("codex", ("servant", "codex.yaml"));
    ("gemini", ("servant", "gemini.yaml"));
    ("copilot", ("servant", "copilot.yaml")) ].

Definition PIPELINE_FILES : list (string * (string * string)) :=
  [ ("impl", ("pipeline", "impl-pipeline.yaml"));
    ("review", ("pipeline", "review-pipeline.yaml"));
    ("plan", ("pipeline", "plan-pipeline.yaml")) ].

Definition PURPOSE_KEYS : list string :=
  ["impl"; "review"; "verify"; "plan"; "one_shot"].

Definition _die {A} (path msg : string) : result A :=
  Raise (ValidationError (path ++ ": " ++ msg)).

Definition _ensure_keys (mapping : value) (allowed : list string) (path : string)
  : result unit :=
  d <- items mapping ;;
  let unknown :=
    sorted_set (filter (fun k => negb (mem k allowed)) (dict_keys d)) in
  when (nonempty unknown)
       (_die path ("unknown keys: " ++ join_comma unknown)).

Definition _expect_type (v : value) (t : pytype) (path : string) : result unit :=
  when (negb (isinstance v t)) (_die path ("must be " ++ type_name t)).

(** The loop of [_expect_str_set] over [enumerate(value)], from index [i]. *)
Fixpoint str_set_items (path : string) (i : nat) (xs : list value)
  : result (list string) :=
  match xs with
  | [] => Ok []
  | item :: xs' =>
      match item with
      | VStr s =>
          if is_blank s
          then _die (path ++ "[" ++ string_of_nat i ++ "]") "must be a non-empty string"
          else out <- str_set_items path (S i) xs' ;; Ok (s :: out)
      | _ => _die (path ++ "[" ++ string_of_nat i ++ "]") "must be a non-empty string"
      end
  end.

Definition _expect_str_set (v : value) (path : string) : result (list string) :=
  _expect_type v TList path ;;;
  xs <- to_list v ;;
  str_set_items path 0 xs.

Definition _stage_to_tool (stage pipeline_name : string) : option string :=
  if String.eqb pipeline_name "plan" then table_get PLAN_STAGE_TOOL stage
  else if negb (contains_char "_" stage) then None
  else
    let tool := hd stage (split1 "_" stage) in
    if mem tool SERVANT_NAMES then Some tool else None.

(** Body of the loop over [wrapper_defaults.items()]. *)
Definition validate_wrapper_default (cfg_path servant : string) (kv : string * value)
  : result unit :=
  let '(key, raw) := kv in
  let key_path := cfg_path ++ ".servants." ++ servant ++ ".wrapper_defaults." ++ key in
  if String.eqb key "timeout_ms" then
    when (negb (non_negative_int raw)) (_die key_path "must be a non-negative integer")
  else if String.eqb key "timeout_mode" then
    when (negb (str_in raw TIMEOUT_MODE_VALUES))
         (_die key_path ("must be one of: " ++ join_comma (sorted_set TIMEOUT_MODE_VALUES)))
  else if String.eqb servant "codex" && String.eqb key "effort" then
    when (negb (str_in raw CODEX_EFFORT_VALUES))
         (_die key_path ("must be one of: " ++ join_comma (sorted_set CODEX_EFFORT_VALUES)))
  else if String.eqb servant "gemini" && String.eqb key "approval_mode" then
    when (negb (str_in raw GEMINI_APPROVAL_VALUES))
         (_die key_path ("must be one of: " ++ join_comma (sorted_set GEMINI_APPROVAL_VALUES)))
  else if String.eqb servant "gemini" && String.eqb key "sandbox" then
    when (negb (isinstance raw TBool)) (_die key_path "must be boolean")
  else Ok tt.

(** Body of the loop [for servant in SERVANT_NAMES] of
    [validate_runtime_config_dict]. *)
Definition validate_servant (cfg_path : string) (servants : value) (servant : string)
  : result unit :=
  let here := cfg_path ++ ".servants." ++ servant in
  node <- get servants servant ;;
  _expect_type node TDict here ;;;
  _ensure_keys node
    ["default_model"; "allowed_models"; "wrapper_defaults"; "purpose_models";
     "purpose_efforts"] here ;;;

  default_model <- get node "default_model" ;;
  when (negb (non_empty_str default_model))
       (_die (here ++ ".default_model") "must be a non-empty string") ;;;
  default_model <- as_str default_model ;;

  allowed_raw <- get node "allowed_models" ;;
  allowed_models <- _expect_str_set allowed_raw (here ++ ".allowed_models") ;;
  when (negb (mem default_model allowed_models))
       (_die (here ++ ".default_model") "must be included in allowed_models") ;;;

  wrapper_defaults <- get node "wrapper_defaults" ;;
  _expect_type wrapper_defaults TDict (here ++ ".wrapper_defaults") ;;;
  wrapper_keys <- table_item WRAPPER_DEFAULT_KEYS servant ;;
  _ensure_keys wrapper_defaults wrapper_keys (here ++ ".wrapper_defaults") ;;;
  wd <- items wrapper_defaults ;;
  let missing_wrapper_keys :=
    sorted_set (filter (fun k => negb (dict_mem k wd)) wrapper_keys) in
  when (nonempty missing_wrapper_keys)
       (_die (here ++ ".wrapper_defaults")
             ("missing required keys: " ++ join_comma missing_wrapper_keys)) ;;;
  for_each (validate_wrapper_default cfg_path servant) wd ;;;

  purpose_raw <- get node "purpose_models" ;;
  let purpose_models := por purpose_raw (VDict []) in
  _expect_type purpose_models TDict (here ++ ".purpose_models") ;;;
  _ensure_keys purpose_models PURPOSE_KEYS (here ++ ".purpose_models") ;;;
  pm <- items purpose_models ;;
  for_each
    (fun kv : string * value =>
       let '(purpose_name, model) := kv in
       when (negb (non_empty_str model))
            (_die (here ++ ".purpose_models." ++ purpose_name)
                  "must be a non-empty string") ;;;
       model <- as_str model ;;
       when (negb (mem model allowed_models))
            (_die (here ++ ".purpose_models." ++ purpose_name)
                  ("model '" ++ model ++ "' is not in allowed_models")))
    pm ;;;

  efforts_raw <- get node "purpose_efforts" ;;
  let purpose_efforts := por efforts_raw (VDict []) in
  _expect_type purpose_efforts TDict (here ++ ".purpose_efforts") ;;;
  when (negb (String.eqb servant "codex") && truthy purpose_efforts)
       (_die (here ++ ".purpose_efforts") "is only supported for codex") ;;;
  _ensure_keys purpose_efforts PURPOSE_KEYS (here ++ ".purpose_efforts") ;;;
  pe <- items purpose_efforts ;;
  for_each
    (fun kv : string * value =>
       let '(purpose_name, effort) := kv in
       when (negb (str_in effort CODEX_EFFORT_VALUES))
            (_die (here ++ ".purpose_efforts." ++ purpose_name)
                  ("must be one of: " ++ join_comma (sorted_set CODEX_EFFORT_VALUES))))
    pe.

(** Body of the loop [for profile_name, profile in profiles.items()]. *)
Definition validate_profile (cfg_path : string) (servants : value)
    (pipeline_name : string) (kv : string * value) : result unit :=
  let '(profile_name, profile) := kv in
  let here :=
    cfg_path ++ ".pipelines." ++ pipeline_name ++ ".profiles." ++ profile_name in
  _expect_type profile TDict here ;;;
  _ensure_keys profile
    ["stages"; "flags"; "options"; "stage_models"; "stage_efforts"] here ;;;

  stages_raw <- get profile "stages" ;;
  (if mem pipeline_name ["impl"; "review"] then
     stages <- _expect_str_set stages_raw (here ++ ".stages") ;;
     when (negb (nonempty stages)) (_die (here ++ ".stages") "must not be empty") ;;;
     for_each_i
       (fun idx stage =>
          when (match _stage_to_tool stage pipeline_name with
                | None => true
                | Some _ => false
                end)
               (_die (here ++ ".stages[" ++ string_of_nat idx ++ "]")
                     "must start with a known tool prefix"))
       0 stages
   else
     has_stages <- py_in (VStr "stages") profile ;;
     when (has_stages && negb (py_eq stages_raw VNone || py_eq stages_raw (VList [])))
          (_die (here ++ ".stages") "is not supported for the plan pipeline")) ;;;

  flags_raw <- get profile "flags" ;;
  let flags := por flags_raw (VDict []) in
  _expect_type flags TDict (here ++ ".flags") ;;;
  flag_names <- table_item PIPELINE_FLAGS pipeline_name ;;
  _ensure_keys flags flag_names (here ++ ".flags") ;;;
  fl <- items flags ;;
  for_each
    (fun kv : string * value =>
       let '(flag_name, flag_value) := kv in
       when (negb (isinstance flag_value TBool))
            (_die (here ++ ".flags." ++ flag_name) "must be boolean"))
    fl ;;;

  options_raw <- get profile "options" ;;
  let options := por options_raw (VDict []) in
  _expect_type options TDict (here ++ ".options") ;;;
  option_table <- table_item PIPELINE_OPTIONS pipeline_name ;;
  _ensure_keys options (map fst option_table) (here ++ ".options") ;;;
  ol <- items options ;;
  for_each
    (fun kv : string * value =>
       let '(opt_name, opt_val) := kv in
       when (negb (isinstance opt_val TStr))
            (_die (here ++ ".options." ++ opt_name) "must be string") ;;;
       allowed_vals <- table_item option_table opt_name ;;
       when (negb (str_in opt_val allowed_vals))
            (_die (here ++ ".options." ++ opt_name)
                  ("must be one of: " ++ join_comma (sorted_set allowed_vals))))
    ol ;;;

  stage_models_raw <- get profile "stage_models" ;;
  let stage_models := por stage_models_raw (VDict []) in
  _expect_type stage_models TDict (here ++ ".stage_models") ;;;
  sm <- items stage_models ;;
  for_each
    (fun kv : string * value =>
       let '(stage_name, model) := kv in
       when (negb (non_empty_str model))
            (_die (here ++ ".stage_models." ++ stage_name) "must be a non-empty string") ;;;
       match _stage_to_tool stage_name pipeline_name with
       | None => _die (here ++ ".stage_models." ++ stage_name) "unknown stage name"
       | Some tool =>
           servant <- item servants tool ;;
           allowed <- item servant "allowed_models" ;;
           ok <- py_in model allowed ;;
           when (negb ok)
                (_die (here ++ ".stage_models." ++ stage_name)
                      ("model '" ++ py_str model ++ "' is not allowed for servant '"
                       ++ tool ++ "'"))
       end)
    sm ;;;

  stage_efforts_raw <- get profile "stage_efforts" ;;
  let stage_efforts := por stage_efforts_raw (VDict []) in
  _expect_type stage_efforts TDict (here ++ ".stage_efforts") ;;;
  se <- items stage_efforts ;;
  for_each
    (fun kv : string * value =>
       let '(stage_name, effort) := kv in
       when (negb (str_in effort CODEX_EFFORT_VALUES))
            (_die (here ++ ".stage_efforts." ++ stage_name)
                  ("must be one of: " ++ join_comma (sorted_set CODEX_EFFORT_VALUES))) ;;;
       match _stage_to_tool stage_name pipeline_name with
       | None => _die (here ++ ".stage_efforts." ++ stage_name) "unknown stage name"
       | Some tool =>
           when (negb (String.eqb tool "codex"))
                (_die (here ++ ".stage_efforts." ++ stage_name)
                      "is only supported for codex stages")
       end)
    se.

(** Body of the loop [for pipeline_name in ("impl", "review", "plan")]. *)
Definition validate_pipeline (cfg_path : string) (servants pipelines : value)
    (pipeline_name : string) : result unit :=
  let here := cfg_path ++ ".pipelines." ++ pipeline_name in
  pipeline <- get pipelines pipeline_name ;;
  _expect_type pipeline TDict here ;;;
  _ensure_keys pipeline ["default_profile"; "profiles"] here ;;;

  default_profile <- get pipeline "default_profile" ;;
  when (negb (non_empty_str default_profile))
       (_die (here ++ ".default_profile") "must be a non-empty string") ;;;

  profiles <- get pipeline "profiles" ;;
  _expect_type profiles TDict (here ++ ".profiles") ;;;
  when (negb (truthy profiles))
       (_die (here ++ ".profiles") "must define at least one profile") ;;;
  known <- py_in default_profile profiles ;;
  when (negb known) (_die (here ++ ".default_profile") "must match a profile name") ;;;

  ps <- items profiles ;;
  for_each (validate_profile cfg_path servants pipeline_name) ps.

Definition validate_runtime_config_dict (cfg : value) (cfg_path : string)
  : result value :=
  _ensure_keys cfg ["version"; "servants"; "pipelines"] cfg_path ;;;

  version <- get cfg "version" ;;
  when (negb (py_eq version (VInt 1))) (_die (cfg_path ++ ".version") "must be 1") ;;;

  servants <- get cfg "servants" ;;
  _expect_type servants TDict (cfg_path ++ ".servants") ;;;
  _ensure_keys servants SERVANT_NAMES (cfg_path ++ ".servants") ;;;
  for_each (validate_servant cfg_path servants) SERVANT_NAMES ;;;

  pipelines <- get cfg "pipelines" ;;
  _expect_type pipelines TDict (cfg_path ++ ".pipelines") ;;;
  _ensure_keys pipelines ["impl"; "review"; "plan"] (cfg_path ++ ".pipelines") ;;;
  for_each (validate_pipeline cfg_path servants pipelines) ["impl"; "review"; "plan"] ;;;

  Ok cfg.

(** [_load_yaml(path)], where [e] is what the file system has at [path]. *)
Definition _load_yaml (e : option Fs.node) (path : string) : result value :=
  match e with
  | Some (Fs.File doc) =>
      match doc with
      | None => Raise YAMLError
      | Some data =>
          when (is_none data) (_die path "file is empty") ;;;
          when (negb (isinstance data TDict)) (_die path "top-level must be a mapping") ;;;
          Ok data
      end
  | _ => _die path "file not found"
  end.

(** [raw.get(k, {})]. *)
Definition get_or_empty (raw : value) (k : string) : result value :=
  d <- items raw ;;
  Ok (match dict_get k d with Some v => v | None => VDict [] end).

Definition _normalize_servant_file (raw : value) (servant path : string)
  : result value :=
  let full_keys :=
    ["version"; "tool"; "default_model"; "allowed_models"; "wrapper_defaults";
     "purpose_models"; "purpose_efforts"] in
  let compact_keys :=
    ["default_model"; "allowed_models"; "wrapper_defaults"; "purpose_models";
     "purpose_efforts"] in
  has_version <- py_in (VStr "version") raw ;;
  has_tool <- py_in (VStr "tool") raw ;;
  if has_version || has_tool then
    _ensure_keys raw full_keys path ;;;
    version <- get raw "version" ;;
    when (negb (py_eq version (VInt 1))) (_die (path ++ ".version") "must be 1") ;;;
    tool <- get raw "tool" ;;
    when (negb (py_eq tool (VStr servant)))
         (_die (path ++ ".tool") ("must be '" ++ servant ++ "'")) ;;;
    default_model <- item raw "default_model" ;;
    allowed_models <- item raw "allowed_models" ;;
    wrapper_defaults <- item raw "wrapper_defaults" ;;
    purpose_models <- get_or_empty raw "purpose_models" ;;
    purpose_efforts <- get_or_empty raw "purpose_efforts" ;;
    Ok (VDict [ ("default_model", default_model);
                ("allowed_models", allowed_models);
                ("wrapper_defaults", wrapper_defaults);
                ("purpose_models", purpose_models);
                ("purpose_efforts", purpose_efforts) ])
  else
    _ensure_keys raw compact_keys path ;;;
    d <- to_dict raw ;;
    Ok (VDict d).

Definition _normalize_pipeline_file (raw : value) (pipeline path : string)
  : result value :=
  let full_keys := ["version"; "pipeline"; "default_profile"; "profiles"] in
  let compact_keys := ["default_profile"; "profiles"] in
  has_version <- py_in (VStr "version") raw ;;
  has_pipeline <- py_in (VStr "pipeline") raw ;;
  if has_version || has_pipeline then
    _ensure_keys raw full_keys path ;;;
    version <- get raw "version" ;;
    when (negb (py_eq version (VInt 1))) (_die (path ++ ".version") "must be 1") ;;;
    name <- get raw "pipeline" ;;
    when (negb (py_eq name (VStr pipeline)))
         (_die (path ++ ".pipeline") ("must be '" ++ pipeline ++ "'")) ;;;
    default_profile <- item raw "default_profile" ;;
    profiles <- item raw "profiles" ;;
    Ok (VDict [ ("default_profile", default_profile); ("profiles", profiles) ])
  else
    _ensure_keys raw compact_keys path ;;;
    d <- to_dict raw ;;
    Ok (VDict d).

(** The two loading loops of [load_and_validate_split_config]: every file of
    [files] is read and normalised in turn, into the mapping [acc]. *)
Fixpoint load_files (normalize : value -> string -> string -> result value)
    (t : Fs.tree) (root : string) (files : list (string * (string * string)))
    (acc : dict) : result dict :=
  match files with
  | [] => Ok acc
  | (name, (subdir, filename)) :: files' =>
      let path := Fs.join (Fs.join root subdir) filename in
      raw <- _load_yaml (Fs.lookup2 t subdir filename) path ;;
      node <- normalize raw name path ;;
      load_files normalize t root files' (dict_set name node acc)
  end.

(** [load_and_validate_split_config(config_root)]: [root] is the absolute
    path of the config root and [t] the directory found there. *)
Definition load_and_validate_split_config (t : Fs.tree) (root : string)
  : result value :=
  servants <- load_files _normalize_servant_file t root SERVANT_FILES [] ;;
  pipelines <- load_files _normalize_pipeline_file t root PIPELINE_FILES [] ;;
  let cfg := VDict [ ("version", VInt 1);
                     ("servants", VDict servants);
                     ("pipelines", VDict pipelines) ] in
  validate_runtime_config_dict cfg root.

Definition _pipeline_name_for_intent (cfg : value) (intent : value)
  : result (option string) :=
  pipelines <- item cfg "pipelines" ;;
  (fix probe (names : list string) : result (option string) :=
     match names with
     | [] => Ok None
     | name :: names' =>
         pipeline <- item pipelines name ;;
         profiles <- item pipeline "profiles" ;;
         found <- py_in intent profiles ;;
         if found then Ok (Some name) else probe names'
     end) ["impl"; "review"].

(** The union of the flag sets of all pipelines. *)
Definition all_flags : list string :=
  concat (map snd PIPELINE_FLAGS).

(** [allowed_options = {}; for opt_map in PIPELINE_OPTIONS.values():
    allowed_options.update(opt_map)]. *)
Definition allowed_options : list (string * list string) :=
  fold_left
    (fun acc opt_map =>
       fold_left (fun acc kv => table_set (fst kv) (snd kv) acc) opt_map acc)
    (map snd PIPELINE_OPTIONS) [].

(** Body of the loop over [model_map.items()]. *)
Definition validate_manifest_model (cfg : value) (manifest_path : string)
    (kv : string * value) : result unit :=
  let '(servant, model) := kv in
  when (negb (non_empty_str model))
       (_die (manifest_path ++ ".routing.model." ++ servant)
             "must be a non-empty string") ;;;
  servants <- item cfg "servants" ;;
  node <- item servants servant ;;
  allowed <- item node "allowed_models" ;;
  ok <- py_in model allowed ;;
  when (negb ok)
       (_die (manifest_path ++ ".routing.model." ++ servant)
             ("model '" ++ py_str model ++ "' is not in allowed_models")).

(** The block under [if pipeline:]. *)
Definition validate_manifest_pipeline (cfg routing pipeline : value)
    (manifest_path : string) : result unit :=
  let here := manifest_path ++ ".routing.pipeline" in
  _expect_type pipeline TDict here ;;;
  _ensure_keys pipeline ["profile"; "flags"; "options"] here ;;;

  profile <- get pipeline "profile" ;;
  when (negb (is_none profile) && negb (non_empty_str profile))
       (_die (here ++ ".profile") "must be a non-empty string") ;;;

  flags_raw <- get pipeline "flags" ;;
  let flags := por flags_raw (VDict []) in
  _expect_type flags TDict (here ++ ".flags") ;;;
  _ensure_keys flags all_flags (here ++ ".flags") ;;;
  fl <- items flags ;;
  for_each
    (fun kv : string * value =>
       let '(flag_name, flag_val) := kv in
       when (negb (isinstance flag_val TBool))
            (_die (here ++ ".flags." ++ flag_name) "must be boolean"))
    fl ;;;

  options_raw <- get pipeline "options" ;;
  let options := por options_raw (VDict []) in
  _expect_type options TDict (here ++ ".options") ;;;
  _ensure_keys options (map fst allowed_options) (here ++ ".options") ;;;
  ol <- items options ;;
  for_each
    (fun kv : string * value =>
       let '(opt_name, opt_val) := kv in
       when (negb (isinstance opt_val TStr))
            (_die (here ++ ".options." ++ opt_name) "must be string") ;;;
       allowed_vals <- table_item allowed_options opt_name ;;
       when (negb (str_in opt_val allowed_vals))
            (_die (here ++ ".options." ++ opt_name)
                  ("must be one of: " ++ join_comma (sorted_set allowed_vals))))
    ol ;;;

  intent <- get routing "intent" ;;
  if isinstance intent TStr then
    group <- _pipeline_name_for_intent cfg intent ;;
    match group with
    | None => Ok tt
    | Some group =>
        profile_name <- get pipeline "profile" ;;
        if truthy profile_name then
          pipelines <- item cfg "pipelines" ;;
          node <- item pipelines group ;;
          profiles <- item node "profiles" ;;
          known <- py_in profile_name profiles ;;
          when (negb known)
               (_die (here ++ ".profile")
                     ("profile '" ++ py_str profile_name
                      ++ "' is not defined in pipelines." ++ group ++ ".profiles"))
        else Ok tt
    end
  else Ok tt.

Definition validate_manifest_extensions (cfg manifest : value)
    (manifest_path : string) : result unit :=
  if negb (truthy manifest) then Ok tt
  else
    when (negb (isinstance manifest TDict))
         (_die manifest_path "top-level must be a mapping") ;;;

    routing_raw <- get manifest "routing" ;;
    let routing := por routing_raw (VDict []) in
    when (truthy routing && negb (isinstance routing TDict))
         (_die (manifest_path ++ ".routing") "must be a mapping") ;;;
    when (truthy routing)
         (_ensure_keys routing ["intent"; "model"; "pipeline"]
                       (manifest_path ++ ".routing")) ;;;

    has_intent <- py_in (VStr "intent") routing ;;
    (if has_intent then
       intent <- item routing "intent" ;;
       when (negb (isinstance intent TStr))
            (_die (manifest_path ++ ".routing.intent") "must be a string")
     else Ok tt) ;;;

    model_raw <- get routing "model" ;;
    let model_map := por model_raw (VDict []) in
    (if truthy model_map then
       _expect_type model_map TDict (manifest_path ++ ".routing.model") ;;;
       _ensure_keys model_map SERVANT_NAMES (manifest_path ++ ".routing.model") ;;;
       mm <- items model_map ;;
       for_each (validate_manifest_model cfg manifest_path) mm
     else Ok tt) ;;;

    pipeline_raw <- get routing "pipeline" ;;
    let pipeline := por pipeline_raw (VDict []) in
    if truthy pipeline
    then validate_manifest_pipeline cfg routing pipeline manifest_path
    else Ok tt.

(** [load_manifest_if_present(path)]: [path] is [None] or a string, and [e]
    what the file system has there. *)
Definition load_manifest_if_present (path : option string) (e : option Fs.node)
  : result value :=
  match path with
  | None => Ok VNone
  | Some p => if String.eqb p "" then Ok VNone else _load_yaml e p
  end.

End ConfigValidate.

(* ===================================================================== *)
(** * config_resolve.py: the v1 dispatch resolver                         *)
(* ===================================================================== *)

Module ConfigResolve.
Import ConfigValidate.

Definition DISPATCH_ALLOWED_FLAGS : list (string * list string) :=
  [ ("impl", ["enable_brief"; "enable_verify"; "enable_review"]);
    ("review", ["enable_verify"; "enable_review"]) ].

Definition PURPOSE_NAMES : list string :=
  ["impl"; "review"; "verify"; "plan"; "one_shot"].

Definition raise_validation {A} (msg : string) : result A :=
  Raise (ValidationError msg).

Definition _stage_tool (stage_name : string) : result string :=
  if negb (contains_char "_" stage_name) then
    raise_validation ("stage '" ++ stage_name ++ "' must include tool prefix")
  else
    let tool := hd stage_name (split1 "_" stage_name) in
    if negb (mem tool SERVANT_NAMES) then
      raise_validation
        ("stage '" ++ stage_name ++ "' starts with unknown tool '" ++ tool ++ "'")
    else Ok tool.

(** [stage.split("_", 1)[1] if "_" in stage else stage]. *)
Definition stage_role (stage : string) : string :=
  match split_once "_" stage with
  | Some (_, role) => role
  | None => stage
  end.

Definition _dispatch_stage_purpose (stage pipeline : string) (options : dict)
  : string :=
  let role := stage_role stage in
  let impl_mode := dget options "impl_mode" in
  if mem role ["impl"; "test_impl"] then "impl"
  else if mem role ["verify"; "static_verify"] then "verify"
  else if str_contains "review" role then "review"
  else if String.eqb role "runbook" then "one_shot"
  else if mem role ["brief"; "test_design"] then
    if String.eqb pipeline "impl" && py_eq impl_mode (VStr "one_shot")
    then "one_shot" else "plan"
  else if String.eqb pipeline "impl" then "plan" else "review".

Definition _find_pipeline_for_profile_name (cfg profile_name : value)
  : result (option string) :=
  pipelines <- item cfg "pipelines" ;;
  (fix probe (names : list string) : result (option string) :=
     match names with
     | [] => Ok None
     | pipeline :: names' =>
         node <- item pipelines pipeline ;;
         profiles <- item node "profiles" ;;
         found <- py_in profile_name profiles ;;
         if found then Ok (Some pipeline) else probe names'
     end) ["impl"; "review"].

Definition _base_profile_from_intent (cfg intent : value)
  : result (string * value) :=
  pipeline <- _find_pipeline_for_profile_name cfg intent ;;
  match pipeline with
  | None =>
      raise_validation
        ("routing.intent '" ++ py_str intent
         ++ "' is not defined in pipelines.impl/review")
  | Some pipeline => Ok (pipeline, intent)
  end.

Definition _merge_dict (base override : dict) : dict :=
  dict_update base override.

(** The mapping [_profile_data] returns.  A stage that is not a string makes
    Python raise at its first use ([s.endswith], ["_" not in s]); here the
    stage list is read as strings at once, so such a profile raises when it
    is loaded.  No plan is produced either way. *)
Module Profile.
Record t : Type := {
  stages : list string;
  flags : dict;
  options : dict;
  stage_models : dict;
  stage_efforts : dict
}.
End Profile.

Definition _profile_data (cfg : value) (pipeline : string) (profile : value)
  : result Profile.t :=
  pipelines <- item cfg "pipelines" ;;
  pnode <- item pipelines pipeline ;;
  profiles <- item pnode "profiles" ;;
  known <- py_in profile profiles ;;
  if negb known then
    raise_validation
      ("pipeline '" ++ pipeline ++ "' does not define profile '"
       ++ py_str profile ++ "'")
  else
    node <- item_v profiles profile ;;
    st <- get node "stages" ;;
    st <- to_list (por st (VList [])) ;;
    st <- as_str_list st ;;
    fl <- get node "flags" ;;
    fl <- to_dict (por fl (VDict [])) ;;
    op <- get node "options" ;;
    op <- to_dict (por op (VDict [])) ;;
    sm <- get node "stage_models" ;;
    sm <- to_dict (por sm (VDict [])) ;;
    se <- get node "stage_efforts" ;;
    se <- to_dict (por se (VDict [])) ;;
    Ok {| Profile.stages := st; Profile.flags := fl; Profile.options := op;
          Profile.stage_models := sm; Profile.stage_efforts := se |}.

(** [flags.get(name) is False]. *)
Definition disabled (flags : dict) (name : string) : bool :=
  is_False (dget flags name).

(** The three [if] statements of [_apply_dispatch_flag_filters], one each. *)
Definition drop_brief (flags : dict) (out : list string) : result (list string) :=
  if disabled flags "enable_brief"
  then Ok (filter (fun s => negb (endswith "_brief" s)) out)
  else Ok out.

Definition drop_verify (flags : dict) (out : list string) : result (list string) :=
  if disabled flags "enable_verify"
  then filter_m (fun s => role <- index (split1 "_" s) 1 ;;
                          Ok (negb (str_contains "verify" role))) out
  else Ok out.

Definition drop_review (flags : dict) (out : list string) : result (list string) :=
  if disabled flags "enable_review"
  then filter_m (fun s => role <- index (split1 "_" s) 1 ;;
                          Ok (negb (str_contains "review" role))) out
  else Ok out.

Definition _apply_dispatch_flag_filters (stages : list string) (flags : dict)
  : result (list string) :=
  let out := stages in
  out <- drop_brief flags out ;;
  out <- drop_verify flags out ;;
  out <- drop_review flags out ;;
  Ok out.

Definition _resolve_tool_models (cfg manifest : value) : result dict :=
  models <-
    fold_m (fun models tool =>
              servants <- item cfg "servants" ;;
              node <- item servants tool ;;
              default_model <- item node "default_model" ;;
              Ok (dict_set tool default_model models))
           SERVANT_NAMES [] ;;
  routing <- get (por manifest (VDict [])) "routing" ;;
  let routing := por routing (VDict []) in
  model_override <- get routing "model" ;;
  let model_override := por model_override (VDict []) in
  if truthy model_override then
    overrides <- items model_override ;;
    Ok (dict_set_all models overrides)
  else Ok models.

Definition _resolve_purpose_models (cfg : value) : result dict :=
  fold_m (fun purpose_models tool =>
            servants <- item cfg "servants" ;;
            node <- item servants tool ;;
            raw <- get node "purpose_models" ;;
            let raw := por raw (VDict []) in
            when (negb (isinstance raw TDict))
                 (raise_validation
                    ("servants." ++ tool ++ ".purpose_models must be a mapping")) ;;;
            allowed <- item node "allowed_models" ;;
            entries <- items raw ;;
            for_each
              (fun kv : string * value =>
                 let '(purpose_name, model) := kv in
                 when (negb (mem purpose_name PURPOSE_NAMES))
                      (raise_validation
                         ("servants." ++ tool ++ ".purpose_models has unknown key '"
                          ++ purpose_name ++ "'")) ;;;
                 ok <- py_in model allowed ;;
                 when (negb ok)
                      (raise_validation
                         ("servants." ++ tool ++ ".purpose_models." ++ purpose_name
                          ++ "='" ++ py_str model ++ "' is not allowed")))
              entries ;;;
            Ok (dict_set tool (VDict entries) purpose_models))
         SERVANT_NAMES [].

Definition _resolve_codex_purpose_efforts (cfg : value) : result dict :=
  servants <- item cfg "servants" ;;
  codex <- item servants "codex" ;;
  raw <- get codex "purpose_efforts" ;;
  let raw := por raw (VDict []) in
  when (negb (isinstance raw TDict))
       (raise_validation "servants.codex.purpose_efforts must be a mapping") ;;;
  entries <- items raw ;;
  for_each
    (fun kv : string * value =>
       let '(purpose_name, effort) := kv in
       when (negb (mem purpose_name PURPOSE_NAMES))
            (raise_validation
               ("servants.codex.purpose_efforts has unknown key '"
                ++ purpose_name ++ "'")) ;;;
       ok <- in_str_set effort CODEX_EFFORT_VALUES ;;
       when (negb ok)
            (raise_validation
               ("servants.codex.purpose_efforts." ++ purpose_name ++ "='"
                ++ py_str effort ++ "' is invalid")))
    entries ;;;
  Ok entries.

Definition _resolve_tool_wrapper_defaults (cfg : value) : result dict :=
  fold_m (fun out tool =>
            servants <- item cfg "servants" ;;
            node <- item servants tool ;;
            raw <- get node "wrapper_defaults" ;;
            let raw := por raw (VDict []) in
            when (negb (isinstance raw TDict))
                 (raise_validation
                    ("servants." ++ tool ++ ".wrapper_defaults must be a mapping")) ;;;
            entries <- items raw ;;
            Ok (dict_set tool (VDict entries) out))
         SERVANT_NAMES [].

(** [table.get(tool, {}).get(key)] on a mapping of mappings. *)
Definition get2 (table : dict) (tool key : string) : result value :=
  match dict_get tool table with
  | Some inner => get inner key
  | None => Ok VNone
  end.

(** ** [resolve_dispatch] *)

(** The manifest fields [resolve_dispatch] reads, under the names of the
    local variables that hold them. *)
Definition routing (manifest : value) : result value :=
  r <- get manifest "routing" ;;
  Ok (por r (VDict [])).

Definition routing_model_overrides (manifest : value) : result dict :=
  routing <- routing manifest ;;
  m <- get routing "model" ;;
  to_dict (por m (VDict [])).

Definition requested_intent (manifest : value) (plan_name intent_default : string)
  : result value :=
  routing <- routing manifest ;;
  i <- get routing "intent" ;;
  let requested_intent := por i (VStr intent_default) in
  Ok (if negb (String.eqb plan_name "auto") then VStr plan_name
      else requested_intent).

Definition pipeline_override (manifest : value) : result value :=
  routing <- routing manifest ;;
  p <- get routing "pipeline" ;;
  Ok (por p (VDict [])).

Definition profile_override (manifest : value) : result value :=
  pipeline_override <- pipeline_override manifest ;;
  get pipeline_override "profile".

Definition flags_override (manifest : value) : result dict :=
  pipeline_override <- pipeline_override manifest ;;
  f <- get pipeline_override "flags" ;;
  to_dict (por f (VDict [])).

Definition options_override (manifest : value) : result dict :=
  pipeline_override <- pipeline_override manifest ;;
  o <- get pipeline_override "options" ;;
  to_dict (por o (VDict [])).

(** [sorted(set(d.keys()) - allowed)]. *)
Definition unsupported_keys (d : dict) (allowed : list string) : list string :=
  sorted_set (filter (fun k => negb (mem k allowed)) (dict_keys d)).

(** The mode-to-profile remapping of one pipeline: the option check and the
    [if]/[elif] on the mode, giving the profile selected afterwards. *)
Definition remap_impl (pipeline : string) (runtime_options : dict)
    (selected_profile : value) : result value :=
  if String.eqb pipeline "impl" then
    let unsupported := unsupported_keys runtime_options ["impl_mode"; "timeout_mode"] in
    when (nonempty unsupported)
         (raise_validation
            ("pipeline '" ++ pipeline ++ "' does not support options: "
             ++ join_comma unsupported)) ;;;
    let impl_mode := dget runtime_options "impl_mode" in
    Ok (if py_eq impl_mode (VStr "safe") then VStr "safe_impl"
        else if py_eq impl_mode (VStr "one_shot") then VStr "one_shot_impl"
        else selected_profile)
  else Ok selected_profile.

Definition remap_review (pipeline : string) (runtime_options : dict)
    (selected_profile : value) : result value :=
  if String.eqb pipeline "review" then
    let unsupported :=
      unsupported_keys runtime_options ["review_mode"; "timeout_mode"; "security_mode"] in
    when (nonempty unsupported)
         (raise_validation
            ("pipeline '" ++ pipeline ++ "' does not support options: "
             ++ join_comma unsupported)) ;;;
    let review_mode := dget runtime_options "review_mode" in
    Ok (if py_eq review_mode (VStr "codex_only") then VStr "codex_only"
        else if py_eq review_mode (VStr "cross") then VStr "review_cross"
        else selected_profile)
  else Ok selected_profile.

(** What the first part of [resolve_dispatch] settles (source lines 186 to
    247): the pipeline, the intent, the profile finally selected with its
    data, and the merged flags and options. *)
Record selection : Type := {
  sel_pipeline : string;
  sel_intent : value;
  sel_profile : value;
  sel_runtime : Profile.t;
  sel_flags : dict;
  sel_options : dict
}.

Definition select_profile (cfg manifest : value) (plan_name intent_default : string)
  : result selection :=
  _ <- routing_model_overrides manifest ;;
  requested_intent <- requested_intent manifest plan_name intent_default ;;

  pp <- _base_profile_from_intent cfg requested_intent ;;
  let '(pipeline, profile_from_intent) := pp in

  profile_override <- profile_override manifest ;;

  let selected_profile := por profile_override profile_from_intent in
  profile_runtime <- _profile_data cfg pipeline selected_profile ;;

  flags_override <- flags_override manifest ;;
  options_override <- options_override manifest ;;

  let runtime_flags := _merge_dict (Profile.flags profile_runtime) flags_override in
  let runtime_options := _merge_dict (Profile.options profile_runtime) options_override in

  allowed_flags <- table_item DISPATCH_ALLOWED_FLAGS pipeline ;;
  let unsupported_flags := unsupported_keys runtime_flags allowed_flags in
  when (nonempty unsupported_flags)
       (raise_validation
          ("pipeline '" ++ pipeline ++ "' does not support flags: "
           ++ join_comma unsupported_flags)) ;;;

  selected_profile <- remap_impl pipeline runtime_options selected_profile ;;
  selected_profile <- remap_review pipeline runtime_options selected_profile ;;

  if negb (py_eq selected_profile (por profile_override profile_from_intent)) then
    profile_runtime <- _profile_data cfg pipeline selected_profile ;;
    let runtime_flags := _merge_dict (Profile.flags profile_runtime) flags_override in
    let runtime_options :=
      _merge_dict (Profile.options profile_runtime) options_override in
    Ok {| sel_pipeline := pipeline; sel_intent := requested_intent;
          sel_profile := selected_profile; sel_runtime := profile_runtime;
          sel_flags := runtime_flags; sel_options := runtime_options |}
  else
    Ok {| sel_pipeline := pipeline; sel_intent := requested_intent;
          sel_profile := selected_profile; sel_runtime := profile_runtime;
          sel_flags := runtime_flags; sel_options := runtime_options |}.

(** The four per-stage maps the final loop fills. *)
Record stage_maps : Type := {
  m_stage_models : dict;
  m_stage_efforts : dict;
  m_stage_timeout_ms : dict;
  m_stage_timeout_modes : dict
}.

(** What the loop body reads besides the stage name. *)
Record stage_env : Type := {
  e_pipeline : string;
  e_runtime_options : dict;
  e_routing_model_overrides : dict;
  e_profile_stage_models : dict;
  e_profile_stage_efforts : dict;
  e_tool_models : dict;
  e_purpose_models : dict;
  e_codex_purpose_efforts : dict;
  e_wrapper_defaults : dict;
  e_timeout_mode_override : value
}.

(** The model of one stage, by precedence (source lines 294 to 301). *)
Definition resolve_stage_model (env : stage_env) (tool stage_name stage_purpose : string)
  : result value :=
  (* Task-level model override is the strongest signal for dispatch. *)
  let stage_model := dget (e_routing_model_overrides env) tool in
  if is_none stage_model then
    let stage_model := dget (e_profile_stage_models env) stage_name in
    stage_model <-
      (if is_none stage_model
       then get2 (e_purpose_models env) tool stage_purpose
       else Ok stage_model) ;;
    if is_none stage_model
    then ditem (e_tool_models env) tool
    else Ok stage_model
  else Ok stage_model.

(** Body of the loop [for stage_name in stage_plan]. *)
Definition resolve_stage (env : stage_env) (acc : stage_maps) (stage_name : string)
  : result stage_maps :=
  tool <- _stage_tool stage_name ;;
  let stage_purpose :=
    _dispatch_stage_purpose stage_name (e_pipeline env) (e_runtime_options env) in
  stage_model <- resolve_stage_model env tool stage_name stage_purpose ;;
  let stage_models := dict_set stage_name stage_model (m_stage_models acc) in

  raw_timeout_ms <- get2 (e_wrapper_defaults env) tool "timeout_ms" ;;
  when (negb (non_negative_int raw_timeout_ms))
       (raise_validation
          ("servants." ++ tool
           ++ ".wrapper_defaults.timeout_ms must be a non-negative integer")) ;;;
  let stage_timeout_ms := dict_set stage_name raw_timeout_ms (m_stage_timeout_ms acc) in

  stage_timeout_mode <-
    (if truthy (e_timeout_mode_override env)
     then Ok (e_timeout_mode_override env)
     else get2 (e_wrapper_defaults env) tool "timeout_mode") ;;
  ok <- in_str_set stage_timeout_mode TIMEOUT_MODE_VALUES ;;
  when (negb ok)
       (raise_validation
          ("resolved timeout_mode '" ++ py_str stage_timeout_mode
           ++ "' is invalid for stage '" ++ stage_name ++ "'")) ;;;
  let stage_timeout_modes :=
    dict_set stage_name stage_timeout_mode (m_stage_timeout_modes acc) in

  if String.eqb tool "codex" then
    let stage_effort := dget (e_profile_stage_efforts env) stage_name in
    let stage_effort :=
      if is_none stage_effort
      then dget (e_codex_purpose_efforts env) stage_purpose
      else stage_effort in
    stage_effort <-
      (if is_none stage_effort
       then get2 (e_wrapper_defaults env) "codex" "effort"
       else Ok stage_effort) ;;
    ok <- in_str_set stage_effort CODEX_EFFORT_VALUES ;;
    when (negb ok)
         (raise_validation
            ("resolved codex effort '" ++ py_str stage_effort
             ++ "' is invalid for stage '" ++ stage_name ++ "'")) ;;;
    Ok {| m_stage_models := stage_models;
          m_stage_efforts := dict_set stage_name stage_effort (m_stage_efforts acc);
          m_stage_timeout_ms := stage_timeout_ms;
          m_stage_timeout_modes := stage_timeout_modes |}
  else
    Ok {| m_stage_models := stage_models;
          m_stage_efforts := m_stage_efforts acc;
          m_stage_timeout_ms := stage_timeout_ms;
          m_stage_timeout_modes := stage_timeout_modes |}.

(** The resolved dispatch plan, the mapping [resolve_dispatch] returns. *)
Record dispatch_plan : Type := {
  pipeline_group : string;
  intent : value;
  profile : value;
  flags : dict;
  options : dict;
  stage_plan : list string;
  tool_models : dict;
  purpose_models : dict;
  stage_models : dict;
  stage_efforts : dict;
  stage_timeout_ms : dict;
  stage_timeout_modes : dict
}.

Definition resolve_dispatch (cfg manifest : value) (plan_name intent_default : string)
  : result dispatch_plan :=
  routing_model_overrides <- routing_model_overrides manifest ;;
  sel <- select_profile cfg manifest plan_name intent_default ;;
  let pipeline := sel_pipeline sel in
  let selected_profile := sel_profile sel in
  let profile_runtime := sel_runtime sel in
  let runtime_flags := sel_flags sel in
  let runtime_options := sel_options sel in

  stage_plan <- _apply_dispatch_flag_filters (Profile.stages profile_runtime) runtime_flags ;;
  when (negb (nonempty stage_plan))
       (raise_validation "resolved dispatch stage plan is empty") ;;;

  tool_models <- _resolve_tool_models cfg manifest ;;
  purpose_models <- _resolve_purpose_models cfg ;;
  codex_purpose_efforts <- _resolve_codex_purpose_efforts cfg ;;
  wrapper_defaults <- _resolve_tool_wrapper_defaults cfg ;;
  let timeout_mode_override := dget runtime_options "timeout_mode" in
  bad <- (if negb (is_none timeout_mode_override)
          then ok <- in_str_set timeout_mode_override TIMEOUT_MODE_VALUES ;; Ok (negb ok)
          else Ok false) ;;
  when bad
       (raise_validation
          ("pipeline '" ++ pipeline ++ "' timeout_mode='"
           ++ py_str timeout_mode_override ++ "' is invalid")) ;;;

  let profile_stage_models := Profile.stage_models profile_runtime in
  for_each
    (fun kv : string * value =>
       let '(stage_name, stage_model) := kv in
       tool <- _stage_tool stage_name ;;
       servants <- item cfg "servants" ;;
       node <- item servants tool ;;
       allowed <- item node "allowed_models" ;;
       ok <- py_in stage_model allowed ;;
       when (negb ok)
            (raise_validation
               ("profile '" ++ py_str selected_profile ++ "' stage_models."
                ++ stage_name ++ "='" ++ py_str stage_model
                ++ "' is not allowed for " ++ tool)))
    profile_stage_models ;;;

  let profile_stage_efforts := Profile.stage_efforts profile_runtime in
  for_each
    (fun kv : string * value =>
       let '(stage_name, stage_effort) := kv in
       tool <- _stage_tool stage_name ;;
       when (negb (String.eqb tool "codex"))
            (raise_validation
               ("profile '" ++ py_str selected_profile ++ "' stage_efforts."
                ++ stage_name ++ " is only supported for codex stages")) ;;;
       ok <- in_str_set stage_effort CODEX_EFFORT_VALUES ;;
       when (negb ok)
            (raise_validation
               ("profile '" ++ py_str selected_profile ++ "' stage_efforts."
                ++ stage_name ++ "='" ++ py_str stage_effort ++ "' is invalid")))
    profile_stage_efforts ;;;

  let env :=
    {| e_pipeline := pipeline;
       e_runtime_options := runtime_options;
       e_routing_model_overrides := routing_model_overrides;
       e_profile_stage_models := profile_stage_models;
       e_profile_stage_efforts := profile_stage_efforts;
       e_tool_models := tool_models;
       e_purpose_models := purpose_models;
       e_codex_purpose_efforts := codex_purpose_efforts;
       e_wrapper_defaults := wrapper_defaults;
       e_timeout_mode_override := timeout_mode_override |} in
  maps <- fold_m (resolve_stage env) stage_plan
            {| m_stage_models := []; m_stage_efforts := [];
               m_stage_timeout_ms := []; m_stage_timeout_modes := [] |} ;;

  Ok {| pipeline_group := pipeline;
        intent := sel_intent sel;
        profile := selected_profile;
        flags := runtime_flags;
        options := runtime_options;
        stage_plan := stage_plan;
        tool_models := tool_models;
        purpose_models := purpose_models;
        stage_models := m_stage_models maps;
        stage_efforts := m_stage_efforts maps;
        stage_timeout_ms := m_stage_timeout_ms maps;
        stage_timeout_modes := m_stage_timeout_modes maps |}.

End ConfigResolve.

(* ===================================================================== *)
(** * config_resolve.py: the plan pipeline resolver                       *)
(* ===================================================================== *)

Module ConfigResolvePlan.
Import ConfigValidate ConfigResolve.

Definition _plan_stage_purpose (stage : string) : string :=
  if str_contains "review" stage then "review" else "plan".

(** The stages of the plan pipeline, in the order they run. *)
Definition stage_order : list string :=
  [ "copilot_draft";
    "codex_enrich";
    "gemini_enrich";
    "codex_cross_review";
    "gemini_cross_review";
    "copilot_consolidate" ].

(** [tool_models[tool] = cfg["servants"][tool]["default_model"]] for every
    servant. *)
Definition default_tool_models (cfg : value) : result dict :=
  fold_m (fun tool_models tool =>
            servants <- item cfg "servants" ;;
            node <- item servants tool ;;
            default_model <- item node "default_model" ;;
            Ok (dict_set tool default_model tool_models))
         SERVANT_NAMES [].

(** Body of the loop [for tool, model in model_overrides.items()]. *)
Definition apply_model_override (cfg : value) (tool_models : dict)
    (kv : string * value) : result dict :=
  let '(tool, model) := kv in
  if is_none model then Ok tool_models
  else
    servants <- item cfg "servants" ;;
    node <- item servants tool ;;
    allowed <- item node "allowed_models" ;;
    ok <- py_in model allowed ;;
    when (negb ok)
         (raise_validation
            ("CLI override model '" ++ py_str model ++ "' is not allowed for "
             ++ tool)) ;;;
    Ok (dict_set tool model tool_models).

(** [try: tool = _stage_tool(stage_name) except ValidationError: raise
    ValidationError(msg)]. *)
Definition stage_tool_or (stage_name msg : string) : result string :=
  match _stage_tool stage_name with
  | Ok tool => Ok tool
  | Raise (ValidationError _) => raise_validation msg
  | Raise e => Raise e
  end.

(** Body of the loop over [profile_stage_models.items()]. *)
Definition check_stage_model (cfg profile_name : value) (kv : string * value)
  : result unit :=
  let '(stage_name, stage_model) := kv in
  tool <- stage_tool_or stage_name
            ("plan profile stage_models has unknown key '" ++ stage_name ++ "'") ;;
  servants <- item cfg "servants" ;;
  node <- item servants tool ;;
  allowed <- item node "allowed_models" ;;
  ok <- py_in stage_model allowed ;;
  when (negb ok)
       (raise_validation
          ("plan profile '" ++ py_str profile_name ++ "' stage_models."
           ++ stage_name ++ "='" ++ py_str stage_model
           ++ "' is not allowed for " ++ tool)).

(** Body of the loop over [profile_stage_efforts.items()]. *)
Definition check_stage_effort (profile_name : value) (kv : string * value)
  : result unit :=
  let '(stage_name, stage_effort) := kv in
  tool <- stage_tool_or stage_name
            ("plan profile stage_efforts." ++ stage_name
             ++ " is only supported for codex stages") ;;
  when (negb (String.eqb tool "codex"))
       (raise_validation
          ("plan profile stage_efforts." ++ stage_name
           ++ " is only supported for codex stages")) ;;;
  ok <- in_str_set stage_effort CODEX_EFFORT_VALUES ;;
  when (negb ok)
       (raise_validation
          ("plan profile '" ++ py_str profile_name ++ "' stage_efforts."
           ++ stage_name ++ "='" ++ py_str stage_effort ++ "' is invalid")).

(** What the body of the stage loop reads besides the stage name. *)
Record plan_env : Type := {
  p_model_overrides : dict;
  p_profile_stage_models : dict;
  p_profile_stage_efforts : dict;
  p_tool_models : dict;
  p_purpose_models : dict;
  p_codex_purpose_efforts : dict;
  p_wrapper_defaults : dict;
  p_timeout_mode_override : value
}.

(** The model of one plan stage, by precedence (source lines 437 to 444). *)
Definition plan_stage_model (env : plan_env) (tool stage_name : string)
  : result value :=
  (* CLI model override is the strongest signal for plan pipeline runs. *)
  let stage_model := dget (p_model_overrides env) tool in
  if is_none stage_model then
    let stage_purpose := _plan_stage_purpose stage_name in
    let stage_model := dget (p_profile_stage_models env) stage_name in
    stage_model <-
      (if is_none stage_model
       then get2 (p_purpose_models env) tool stage_purpose
       else Ok stage_model) ;;
    if is_none stage_model
    then ditem (p_tool_models env) tool
    else Ok stage_model
  else Ok stage_model.

(** Body of the loop [for stage_name in stage_order]. *)
Definition resolve_plan_stage (env : plan_env) (acc : stage_maps)
    (stage_name : string) : result stage_maps :=
  tool <- _stage_tool stage_name ;;
  stage_model <- plan_stage_model env tool stage_name ;;
  let stage_models := dict_set stage_name stage_model (m_stage_models acc) in

  raw_timeout_ms <- get2 (p_wrapper_defaults env) tool "timeout_ms" ;;
  when (negb (non_negative_int raw_timeout_ms))
       (raise_validation
          ("servants." ++ tool
           ++ ".wrapper_defaults.timeout_ms must be a non-negative integer")) ;;;
  let stage_timeout_ms := dict_set stage_name raw_timeout_ms (m_stage_timeout_ms acc) in

  stage_timeout_mode <-
    (if truthy (p_timeout_mode_override env)
     then Ok (p_timeout_mode_override env)
     else get2 (p_wrapper_defaults env) tool "timeout_mode") ;;
  ok <- in_str_set stage_timeout_mode TIMEOUT_MODE_VALUES ;;
  when (negb ok)
       (raise_validation
          ("resolved timeout_mode '" ++ py_str stage_timeout_mode
           ++ "' is invalid for plan stage '" ++ stage_name ++ "'")) ;;;
  let stage_timeout_modes :=
    dict_set stage_name stage_timeout_mode (m_stage_timeout_modes acc) in

  if String.eqb tool "codex" then
    let stage_purpose := _plan_stage_purpose stage_name in
    let stage_effort := dget (p_profile_stage_efforts env) stage_name in
    let stage_effort :=
      if is_none stage_effort
      then dget (p_codex_purpose_efforts env) stage_purpose
      else stage_effort in
    stage_effort <-
      (if is_none stage_effort
       then get2 (p_wrapper_defaults env) "codex" "effort"
       else Ok stage_effort) ;;
    ok <- in_str_set stage_effort CODEX_EFFORT_VALUES ;;
    when (negb ok)
         (raise_validation
            ("resolved codex effort '" ++ py_str stage_effort
             ++ "' is invalid for plan stage '" ++ stage_name ++ "'")) ;;;
    Ok {| m_stage_models := stage_models;
          m_stage_efforts := dict_set stage_name stage_effort (m_stage_efforts acc);
          m_stage_timeout_ms := stage_timeout_ms;
          m_stage_timeout_modes := stage_timeout_modes |}
  else
    Ok {| m_stage_models := stage_models;
          m_stage_efforts := m_stage_efforts acc;
          m_stage_timeout_ms := stage_timeout_ms;
          m_stage_timeout_modes := stage_timeout_modes |}.

(** The mapping [resolve_plan_pipeline] returns. *)
Module Plan.
Record t : Type := {
  profile : value;
  flags : dict;
  options : dict;
  tool_models : dict;
  purpose_models : dict;
  stage_models : dict;
  stage_efforts : dict;
  stage_timeout_ms : dict;
  stage_timeout_modes : dict
}.
End Plan.

(** [profile_override] is an [Optional[str]] command-line argument and
    [model_overrides] maps each servant to a model name or to [None]. *)
Definition resolve_plan_pipeline (cfg : value) (profile_override : value)
    (model_overrides : dict) : result Plan.t :=
  pipelines <- item cfg "pipelines" ;;
  plan_cfg <- item pipelines "plan" ;;
  profile_name <-
    (if truthy profile_override then Ok profile_override
     else item plan_cfg "default_profile") ;;

  profiles <- item plan_cfg "profiles" ;;
  known <- py_in profile_name profiles ;;
  when (negb known)
       (raise_validation
          ("plan profile '" ++ py_str profile_name ++ "' is not defined")) ;;;

  profile <- item_v profiles profile_name ;;
  fl <- get profile "flags" ;;
  flags <- to_dict (por fl (VDict [])) ;;
  op <- get profile "options" ;;
  options <- to_dict (por op (VDict [])) ;;
  sm <- get profile "stage_models" ;;
  profile_stage_models <- to_dict (por sm (VDict [])) ;;
  se <- get profile "stage_efforts" ;;
  profile_stage_efforts <- to_dict (por se (VDict [])) ;;

  tool_models <- default_tool_models cfg ;;
  purpose_models <- _resolve_purpose_models cfg ;;
  codex_purpose_efforts <- _resolve_codex_purpose_efforts cfg ;;
  wrapper_defaults <- _resolve_tool_wrapper_defaults cfg ;;
  let timeout_mode_override := dget options "timeout_mode" in
  bad <- (if negb (is_none timeout_mode_override)
          then ok <- in_str_set timeout_mode_override TIMEOUT_MODE_VALUES ;; Ok (negb ok)
          else Ok false) ;;
  when bad
       (raise_validation
          ("plan profile '" ++ py_str profile_name ++ "' timeout_mode='"
           ++ py_str timeout_mode_override ++ "' is invalid")) ;;;

  tool_models <- fold_m (apply_model_override cfg) model_overrides tool_models ;;

  for_each (check_stage_model cfg profile_name) profile_stage_models ;;;
  for_each (check_stage_effort profile_name) profile_stage_efforts ;;;

  let env :=
    {| p_model_overrides := model_overrides;
       p_profile_stage_models := profile_stage_models;
       p_profile_stage_efforts := profile_stage_efforts;
       p_tool_models := tool_models;
       p_purpose_models := purpose_models;
       p_codex_purpose_efforts := codex_purpose_efforts;
       p_wrapper_defaults := wrapper_defaults;
       p_timeout_mode_override := timeout_mode_override |} in
  maps <- fold_m (resolve_plan_stage env) stage_order
            {| m_stage_models := []; m_stage_efforts := [];
               m_stage_timeout_ms := []; m_stage_timeout_modes := [] |} ;;

  Ok {| Plan.profile := profile_name;
        Plan.flags := flags;
        Plan.options := options;
        Plan.tool_models := tool_models;
        Plan.purpose_models := purpose_models;
        Plan.stage_models := m_stage_models maps;
        Plan.stage_efforts := m_stage_efforts maps;
        Plan.stage_timeout_ms := m_stage_timeout_ms maps;
        Plan.stage_timeout_modes := m_stage_timeout_modes maps |}.

End ConfigResolvePlan.

(* ===================================================================== *)
(** * config_validate_v2.py: the v2 validator                             *)
(* ===================================================================== *)

Module ConfigValidateV2.

Definition TOOLS : list string := ["codex"; "gemini"; "copilot"].
Definition PHASES : list string := ["plan"; "impl"; "review"].
Definition WEB_RESEARCH_MODES : list string :=
  ["off"; "codex_explicit"; "gemini_auto"; "copilot_mcp"].
Definition DEFAULT_MODES : list string := ["normal"; "analysis_only"].
Definition GATE_PROFILES : list string :=
  ["standard"; "strict"; "minimal"; "finding-first"].
Definition TIMEOUT_MODES : list string := ["enforce"; "wait_done"].

Definition TOOL_WEB_MODE_MAP : list (string * list string) :=
  [ ("codex", ["off"; "codex_explicit"]);
    ("gemini", ["off"; "gemini_auto"]);
    ("copilot", ["off"; "copilot_mcp"]) ].

Definition EXPECTED_FILES : list (string * list string) :=
  [ ("skills", ["plan.yaml"; "impl.yaml"; "review.yaml"]);
    ("servants", ["codex.yaml"; "gemini.yaml"; "copilot.yaml"]);
    ("policies", ["routing.yaml"; "review_parallel.yaml"; "web_evidence.yaml"]) ].

(** Optional files that are allowed to exist but are not required. *)
Definition OPTIONAL_FILES : list (string * list string) := [].

Definition ROUTING_STOP_ACTIONS : list string := ["STOP_AND_CONFIRM"].
Definition ROUTING_STOP_ON_STOP : list string :=
  ["write_reason_codes_to_routing_result"].
Definition ROUTING_CONFIDENCE_VALUES : list string := ["high"; "medium"; "low"].
Definition ROUTING_IMPACT_SURFACES : list string := ["low"; "medium"; "high"].
Definition REPRODUCIBILITY_ON_MISMATCH : list string :=
  ["record_ROUTING_NON_DETERMINISTIC_and_stop"].

Definition REVIEW_PARALLEL_MODE : string := "finding-first".
Definition REVIEW_PARALLEL_JOIN_BARRIER : string := "required".
Definition REVIEW_PARALLEL_APPLY_ORDER : string := "sequential".
Definition REVIEW_PARALLEL_WORKER_OUTPUT_MODE : string := "analysis_only".

Definition WEB_EVIDENCE_STRICTNESS : list string := ["strict"].
Definition WEB_EVIDENCE_GATE_ACTIONS : list string := ["reject_and_stop"].
Definition WEB_EVIDENCE_REQUIRED_FIELDS : list string :=
  ["evidence_id"; "url"; "accessed_at"; "claim_summary"].
Definition WEB_EVIDENCE_REASON_CODES : list string :=
  ["WEB_EVIDENCE_MISSING"; "WEB_EVIDENCE_UNVERIFIABLE"; "WEB_EVIDENCE_STALE"].

Definition _die {A} (path msg : string) : result A :=
  Raise (ValidationError (path ++ ": " ++ msg)).

Definition _expect_type (v : value) (expected_type : pytype) (path : string)
  : result unit :=
  when (negb (isinstance v expected_type))
       (_die path ("must be " ++ type_name expected_type)).

Definition _ensure_keys (mapping : value) (allowed : list string) (path : string)
  : result unit :=
  d <- items mapping ;;
  let unknown :=
    sorted_set (filter (fun k => negb (mem k allowed)) (dict_keys d)) in
  when (nonempty unknown)
       (_die path ("unknown keys: " ++ join_comma unknown)).

Definition _expect_non_empty_string (v : value) (path : string) : result string :=
  match v with
  | VStr s => if is_blank s then _die path "must be a non-empty string" else Ok s
  | _ => _die path "must be a non-empty string"
  end.

(** The loop of [_expect_string_list] over [enumerate(value)], from [idx]. *)
Fixpoint string_list_items (path : string) (idx : nat) (xs : list value)
  : result (list string) :=
  match xs with
  | [] => Ok []
  | item :: xs' =>
      s <- _expect_non_empty_string item (path ++ "[" ++ string_of_nat idx ++ "]") ;;
      out <- string_list_items path (S idx) xs' ;;
      Ok (s :: out)
  end.

Definition _expect_string_list (v : value) (path : string) (non_empty : bool)
  : result (list string) :=
  _expect_type v TList path ;;;
  xs <- to_list v ;;
  out <- string_list_items path 0 xs ;;
  when (non_empty && negb (nonempty out)) (_die path "must not be empty") ;;;
  Ok out.

Definition _load_yaml (e : option Fs.node) (path : string) : result value :=
  match e with
  | Some (Fs.File doc) =>
      match doc with
      | None => Raise YAMLError
      | Some data =>
          when (is_none data) (_die path "file is empty") ;;;
          when (negb (isinstance data TDict)) (_die path "top-level must be a mapping") ;;;
          Ok data
      end
  | _ => _die path "file not found"
  end.

(** The names [os.listdir] gives that are regular files ending in [.yaml]. *)
Definition found_yaml (entries : Fs.tree) : list string :=
  map fst
      (filter (fun ne : string * Fs.node =>
                 Fs.isfile (Some (snd ne)) && endswith ".yaml" (fst ne))
              entries).

Definition _validate_expected_files (t : Fs.tree) (root subdir : string)
  : result unit :=
  let dir_path := Fs.join root subdir in
  match Fs.entry subdir t with
  | Some (Fs.Dir entries) =>
      let found := found_yaml entries in
      expected <- table_item EXPECTED_FILES subdir ;;
      let missing := sorted_set (filter (fun n => negb (mem n found)) expected) in
      when (nonempty missing)
           (_die dir_path ("missing required files: " ++ join_comma missing)) ;;;
      let optional :=
        match table_get OPTIONAL_FILES subdir with Some o => o | None => [] end in
      let extra :=
        sorted_set
          (filter (fun n => negb (mem n expected) && negb (mem n optional)) found) in
      when (nonempty extra)
           (_die dir_path ("unknown config files: " ++ join_comma extra))
  | _ => _die dir_path "directory not found"
  end.

Definition _validate_step_default (path : string) (step_node : value) : result unit :=
  _ensure_keys step_node
    ["default_tool"; "default_mode"; "web_research_mode"; "description"] path ;;;

  v <- get step_node "default_tool" ;;
  default_tool <- _expect_non_empty_string v (path ++ ".default_tool") ;;
  when (negb (mem default_tool TOOLS))
       (_die (path ++ ".default_tool") ("must be one of: " ++ join_comma TOOLS)) ;;;

  v <- get step_node "default_mode" ;;
  default_mode <- _expect_non_empty_string v (path ++ ".default_mode") ;;
  when (negb (mem default_mode DEFAULT_MODES))
       (_die (path ++ ".default_mode")
             ("must be one of: " ++ join_comma DEFAULT_MODES)) ;;;

  v <- get step_node "web_research_mode" ;;
  web_mode <- _expect_non_empty_string v (path ++ ".web_research_mode") ;;
  when (negb (mem web_mode WEB_RESEARCH_MODES))
       (_die (path ++ ".web_research_mode")
             ("must be one of: " ++ join_comma WEB_RESEARCH_MODES)) ;;;
  tool_modes <- table_item TOOL_WEB_MODE_MAP default_tool ;;
  when (negb (String.eqb web_mode "off") && negb (mem web_mode tool_modes))
       (_die (path ++ ".web_research_mode")
             ("'" ++ web_mode ++ "' is not compatible with default_tool '"
              ++ default_tool ++ "'")).

(** Body of the first loop over [methods.items()] in [_validate_skill_file]. *)
Definition validate_method (path : string) (kv : string * value) : result unit :=
  let '(method_id, method_node) := kv in
  let method_path := path ++ ".methods." ++ method_id in
  _expect_type method_node TDict method_path ;;;
  _ensure_keys method_node
    ["enabled"; "steps"; "allowed_tools"; "gate_profile"] method_path ;;;

  enabled <- get method_node "enabled" ;;
  when (negb (isinstance enabled TBool)) (_die (method_path ++ ".enabled") "must be boolean") ;;;

  v <- get method_node "steps" ;;
  steps <- _expect_string_list v (method_path ++ ".steps") true ;;
  v <- get method_node "allowed_tools" ;;
  allowed_tools <- _expect_string_list v (method_path ++ ".allowed_tools") true ;;
  for_each_i
    (fun idx tool =>
       when (negb (mem tool TOOLS))
            (_die (method_path ++ ".allowed_tools[" ++ string_of_nat idx ++ "]")
                  ("must be one of: " ++ join_comma TOOLS)))
    0 allowed_tools ;;;

  v <- get method_node "gate_profile" ;;
  gate_profile <- _expect_non_empty_string v (method_path ++ ".gate_profile") ;;
  when (negb (mem gate_profile GATE_PROFILES))
       (_die (method_path ++ ".gate_profile")
             ("must be one of: " ++ join_comma GATE_PROFILES)) ;;;

  when (truthy enabled && negb (nonempty steps))
       (_die (method_path ++ ".steps") "enabled method must have at least one step").

(** Body of the second loop over [methods.items()]: the steps of the method
    join [all_method_steps], and each must have a step default.  The steps
    were checked to be strings by the first loop. *)
Definition collect_method_steps (path : string) (step_defaults : value)
    (all_method_steps : list string) (kv : string * value)
  : result (list string) :=
  let '(method_id, method_node) := kv in
  v <- get method_node "steps" ;;
  method_steps <- to_list (por v (VList [])) ;;
  method_steps <- as_str_list method_steps ;;
  let all_method_steps := (all_method_steps ++ method_steps)%list in
  for_each
    (fun step =>
       known <- py_in (VStr step) step_defaults ;;
       when (negb known)
            (_die (path ++ ".methods." ++ method_id ++ ".steps")
                  ("step '" ++ step ++ "' missing from step_defaults")))
    method_steps ;;;
  Ok all_method_steps.

Definition _validate_skill_file (node : value) (skill path : string) : result value :=
  _ensure_keys node
    ["version"; "skill"; "default_method_ids"; "methods"; "step_defaults"] path ;;;

  version <- get node "version" ;;
  when (negb (py_eq version (VInt 2))) (_die (path ++ ".version") "must be 2") ;;;

  sk <- get node "skill" ;;
  when (negb (py_eq sk (VStr skill)))
       (_die (path ++ ".skill") ("must be '" ++ skill ++ "'")) ;;;

  v <- get node "default_method_ids" ;;
  default_method_ids <- _expect_string_list v (path ++ ".default_method_ids") true ;;

  methods <- get node "methods" ;;
  _expect_type methods TDict (path ++ ".methods") ;;;
  when (negb (truthy methods))
       (_die (path ++ ".methods") "must define at least one method") ;;;
  ms <- items methods ;;
  for_each (validate_method path) ms ;;;

  for_each_i
    (fun idx method_id =>
       when (negb (dict_mem method_id ms))
            (_die (path ++ ".default_method_ids[" ++ string_of_nat idx ++ "]")
                  "must reference a method defined in methods"))
    0 default_method_ids ;;;

  step_defaults <- get node "step_defaults" ;;
  _expect_type step_defaults TDict (path ++ ".step_defaults") ;;;
  when (negb (truthy step_defaults))
       (_die (path ++ ".step_defaults") "must define at least one step default") ;;;

  all_method_steps <-
    fold_m (collect_method_steps path step_defaults) ms [] ;;

  sd <- items step_defaults ;;
  for_each
    (fun step_id =>
       when (negb (mem step_id all_method_steps))
            (_die (path ++ ".step_defaults." ++ step_id)
                  "step is not referenced by any method"))
    (dict_keys sd) ;;;

  for_each
    (fun kv : string * value =>
       let '(step_id, step_node) := kv in
       let step_path := path ++ ".step_defaults." ++ step_id in
       _expect_type step_node TDict step_path ;;;
       _validate_step_default step_path step_node)
    sd ;;;

  Ok node.

Definition _validate_servant_file (node : value) (tool path : string) : result value :=
  _ensure_keys node
    ["version"; "tool"; "default_model"; "allowed_models"; "wrapper_defaults";
     "web_capabilities"; "purpose_models"; "purpose_efforts";
     "effort_level_descriptions"] path ;;;

  version <- get node "version" ;;
  when (negb (py_eq version (VInt 2))) (_die (path ++ ".version") "must be 2") ;;;

  tl <- get node "tool" ;;
  when (negb (py_eq tl (VStr tool)))
       (_die (path ++ ".tool") ("must be '" ++ tool ++ "'")) ;;;

  v <- get node "default_model" ;;
  default_model <- _expect_non_empty_string v (path ++ ".default_model") ;;

  v <- get node "allowed_models" ;;
  allowed_models <- _expect_string_list v (path ++ ".allowed_models") true ;;
  when (negb (mem default_model allowed_models))
       (_die (path ++ ".default_model") "must be included in allowed_models") ;;;

  wrapper_defaults <- get node "wrapper_defaults" ;;
  _expect_type wrapper_defaults TDict (path ++ ".wrapper_defaults") ;;;
  _ensure_keys wrapper_defaults
    ["timeout_ms"; "timeout_mode"; "effort"; "approval_mode"; "sandbox"]
    (path ++ ".wrapper_defaults") ;;;

  timeout_ms <- get wrapper_defaults "timeout_ms" ;;
  when (negb (non_negative_int timeout_ms))
       (_die (path ++ ".wrapper_defaults.timeout_ms") "must be a non-negative integer") ;;;

  v <- get wrapper_defaults "timeout_mode" ;;
  timeout_mode <- _expect_non_empty_string v (path ++ ".wrapper_defaults.timeout_mode") ;;
  when (negb (mem timeout_mode TIMEOUT_MODES))
       (_die (path ++ ".wrapper_defaults.timeout_mode")
             ("must be one of: " ++ join_comma TIMEOUT_MODES)) ;;;

  web_capabilities <- get node "web_capabilities" ;;
  _expect_type web_capabilities TDict (path ++ ".web_capabilities") ;;;
  _ensure_keys web_capabilities ["modes"] (path ++ ".web_capabilities") ;;;

  v <- get web_capabilities "modes" ;;
  modes <- _expect_string_list v (path ++ ".web_capabilities.modes") true ;;
  allowed_modes <- table_item TOOL_WEB_MODE_MAP tool ;;
  for_each_i
    (fun idx mode =>
       when (negb (mem mode allowed_modes))
            (_die (path ++ ".web_capabilities.modes[" ++ string_of_nat idx ++ "]")
                  ("must be one of: " ++ join_comma (sorted_set allowed_modes))))
    0 modes ;;;
  when (negb (mem "off" modes))
       (_die (path ++ ".web_capabilities.modes") "must include 'off'") ;;;

  Ok node.

(** [if key in cond: check(cond.get(key))]. *)
Definition when_present (cond : value) (key : string) (check : value -> result unit)
  : result unit :=
  present <- py_in (VStr key) cond ;;
  if present then v <- get cond key ;; check v else Ok tt.

(** Body of the loop over [enumerate(conditions)]. *)
Definition validate_stop_condition (path : string) (idx : nat) (cond : value)
  : result unit :=
  let cond_path := path ++ ".stop_policy.conditions[" ++ string_of_nat idx ++ "]" in
  _expect_type cond TDict cond_path ;;;
  _ensure_keys cond
    ["impact_surface"; "confidence"; "reason_codes_contain";
     "strict_evidence_violation"; "action"] cond_path ;;;

  has_action <- py_in (VStr "action") cond ;;
  when (negb has_action) (_die cond_path "missing required key: action") ;;;
  v <- get cond "action" ;;
  action <- _expect_non_empty_string v (cond_path ++ ".action") ;;
  when (negb (mem action ROUTING_STOP_ACTIONS))
       (_die (cond_path ++ ".action")
             ("must be one of: " ++ join_comma (sorted_set ROUTING_STOP_ACTIONS))) ;;;

  when_present cond "impact_surface"
    (fun v =>
       impact <- _expect_non_empty_string v (cond_path ++ ".impact_surface") ;;
       when (negb (mem impact ROUTING_IMPACT_SURFACES))
            (_die (cond_path ++ ".impact_surface")
                  ("must be one of: "
                   ++ join_comma (sorted_set ROUTING_IMPACT_SURFACES)))) ;;;

  when_present cond "confidence"
    (fun v =>
       confidence <- _expect_non_empty_string v (cond_path ++ ".confidence") ;;
       when (negb (mem confidence ROUTING_CONFIDENCE_VALUES))
            (_die (cond_path ++ ".confidence")
                  ("must be one of: "
                   ++ join_comma (sorted_set ROUTING_CONFIDENCE_VALUES)))) ;;;

  when_present cond "reason_codes_contain"
    (fun v =>
       _expect_non_empty_string v (cond_path ++ ".reason_codes_contain") ;;; Ok tt) ;;;

  when_present cond "strict_evidence_violation"
    (fun v =>
       when (negb (isinstance v TBool))
            (_die (cond_path ++ ".strict_evidence_violation") "must be boolean")).

Definition _validate_routing_policy (node : value) (path : string) : result value :=
  _ensure_keys node
    ["version"; "stop_policy"; "confidence_policy"; "hard_stop_reason_map";
     "reproducibility_policy"; "route_decider_policy"] path ;;;

  version <- get node "version" ;;
  when (negb (py_eq version (VInt 2))) (_die (path ++ ".version") "must be 2") ;;;

  stop_policy <- get node "stop_policy" ;;
  _expect_type stop_policy TDict (path ++ ".stop_policy") ;;;
  _ensure_keys stop_policy ["conditions"; "on_stop"] (path ++ ".stop_policy") ;;;

  conditions <- get stop_policy "conditions" ;;
  _expect_type conditions TList (path ++ ".stop_policy.conditions") ;;;
  when (negb (truthy conditions))
       (_die (path ++ ".stop_policy.conditions") "must not be empty") ;;;
  conds <- to_list conditions ;;
  for_each_i (validate_stop_condition path) 0 conds ;;;

  v <- get stop_policy "on_stop" ;;
  on_stop <- _expect_non_empty_string v (path ++ ".stop_policy.on_stop") ;;
  when (negb (mem on_stop ROUTING_STOP_ON_STOP))
       (_die (path ++ ".stop_policy.on_stop")
             ("must be one of: " ++ join_comma (sorted_set ROUTING_STOP_ON_STOP))) ;;;

  confidence_policy <- get node "confidence_policy" ;;
  _expect_type confidence_policy TDict (path ++ ".confidence_policy") ;;;
  _ensure_keys confidence_policy ["values"; "default"] (path ++ ".confidence_policy") ;;;

  v <- get confidence_policy "values" ;;
  values <- _expect_string_list v (path ++ ".confidence_policy.values") true ;;
  when (negb (forallb (fun x => mem x ROUTING_CONFIDENCE_VALUES) values))
       (_die (path ++ ".confidence_policy.values")
             ("must be subset of: "
              ++ join_comma (sorted_set ROUTING_CONFIDENCE_VALUES))) ;;;
  v <- get confidence_policy "default" ;;
  default_confidence <- _expect_non_empty_string v (path ++ ".confidence_policy.default") ;;
  when (negb (mem default_confidence values))
       (_die (path ++ ".confidence_policy.default")
             "must be included in confidence_policy.values") ;;;

  hard_stop_reason_map <- get node "hard_stop_reason_map" ;;
  _expect_type hard_stop_reason_map TDict (path ++ ".hard_stop_reason_map") ;;;
  when (negb (truthy hard_stop_reason_map))
       (_die (path ++ ".hard_stop_reason_map") "must not be empty") ;;;
  hs <- items hard_stop_reason_map ;;
  for_each
    (fun kv : string * value =>
       let '(reason_code, reason_msg) := kv in
       _expect_non_empty_string (VStr reason_code)
         (path ++ ".hard_stop_reason_map.<key>") ;;;
       _expect_non_empty_string reason_msg
         (path ++ ".hard_stop_reason_map." ++ reason_code) ;;;
       Ok tt)
    hs ;;;

  reproducibility_policy <- get node "reproducibility_policy" ;;
  _expect_type reproducibility_policy TDict (path ++ ".reproducibility_policy") ;;;
  _ensure_keys reproducibility_policy ["deterministic_required"; "on_mismatch"]
    (path ++ ".reproducibility_policy") ;;;
  v <- get reproducibility_policy "deterministic_required" ;;
  when (negb (isinstance v TBool))
       (_die (path ++ ".reproducibility_policy.deterministic_required")
             "must be boolean") ;;;
  v <- get reproducibility_policy "on_mismatch" ;;
  on_mismatch <-
    _expect_non_empty_string v (path ++ ".reproducibility_policy.on_mismatch") ;;
  when (negb (mem on_mismatch REPRODUCIBILITY_ON_MISMATCH))
       (_die (path ++ ".reproducibility_policy.on_mismatch")
             ("must be one of: "
              ++ join_comma (sorted_set REPRODUCIBILITY_ON_MISMATCH))) ;;;

  route_decider_policy <- get node "route_decider_policy" ;;
  _expect_type route_decider_policy TDict (path ++ ".route_decider_policy") ;;;
  _ensure_keys route_decider_policy ["phase_prompt_paths"; "schema_version"]
    (path ++ ".route_decider_policy") ;;;

  phase_prompt_paths <- get route_decider_policy "phase_prompt_paths" ;;
  _expect_type phase_prompt_paths TDict
    (path ++ ".route_decider_policy.phase_prompt_paths") ;;;
  _ensure_keys phase_prompt_paths PHASES
    (path ++ ".route_decider_policy.phase_prompt_paths") ;;;
  for_each
    (fun phase =>
       v <- get phase_prompt_paths phase ;;
       _expect_non_empty_string v
         (path ++ ".route_decider_policy.phase_prompt_paths." ++ phase) ;;;
       Ok tt)
    PHASES ;;;

  v <- get route_decider_policy "schema_version" ;;
  when (negb (py_eq v (VInt 2)))
       (_die (path ++ ".route_decider_policy.schema_version") "must be 2") ;;;

  Ok node.

(** [_expect_non_empty_string(node.get(key), ...)] followed by the test
    that the string is the pinned constant. *)
Definition expect_pinned (node : value) (path key pinned : string) : result unit :=
  v <- get node key ;;
  s <- _expect_non_empty_string v (path ++ "." ++ key) ;;
  when (negb (String.eqb s pinned))
       (_die (path ++ "." ++ key) ("must be '" ++ pinned ++ "'")).

Definition _validate_review_parallel_policy (node : value) (path : string)
  : result value :=
  _ensure_keys node
    ["version"; "mode"; "join_barrier"; "apply_order"; "worker_output_mode";
     "merge_required"; "artifacts"] path ;;;

  version <- get node "version" ;;
  when (negb (py_eq version (VInt 2))) (_die (path ++ ".version") "must be 2") ;;;

  expect_pinned node path "mode" REVIEW_PARALLEL_MODE ;;;
  expect_pinned node path "join_barrier" REVIEW_PARALLEL_JOIN_BARRIER ;;;
  expect_pinned node path "apply_order" REVIEW_PARALLEL_APPLY_ORDER ;;;
  expect_pinned node path "worker_output_mode" REVIEW_PARALLEL_WORKER_OUTPUT_MODE ;;;

  v <- get node "merge_required" ;;
  when (negb (isinstance v TBool)) (_die (path ++ ".merge_required") "must be boolean") ;;;

  artifacts <- get node "artifacts" ;;
  _expect_type artifacts TDict (path ++ ".artifacts") ;;;
  _ensure_keys artifacts ["findings_dir"; "merged"; "queue"] (path ++ ".artifacts") ;;;
  for_each
    (fun key =>
       v <- get artifacts key ;;
       _expect_non_empty_string v (path ++ ".artifacts." ++ key) ;;;
       Ok tt)
    ["findings_dir"; "merged"; "queue"] ;;;

  Ok node.

Definition _validate_web_evidence_policy (node : value) (path : string)
  : result value :=
  _ensure_keys node
    ["version"; "strictness"; "required_fields"; "reason_code_map";
     "gate_action_on_violation"] path ;;;

  version <- get node "version" ;;
  when (negb (py_eq version (VInt 2))) (_die (path ++ ".version") "must be 2") ;;;

  v <- get node "strictness" ;;
  strictness <- _expect_non_empty_string v (path ++ ".strictness") ;;
  when (negb (mem strictness WEB_EVIDENCE_STRICTNESS))
       (_die (path ++ ".strictness")
             ("must be one of: " ++ join_comma (sorted_set WEB_EVIDENCE_STRICTNESS))) ;;;

  v <- get node "required_fields" ;;
  required_fields <- _expect_string_list v (path ++ ".required_fields") true ;;
  when (negb (forallb (fun x => mem x WEB_EVIDENCE_REQUIRED_FIELDS) required_fields
              && forallb (fun x => mem x required_fields) WEB_EVIDENCE_REQUIRED_FIELDS))
       (_die (path ++ ".required_fields")
             "must exactly match required evidence field set") ;;;

  reason_code_map <- get node "reason_code_map" ;;
  _expect_type reason_code_map TDict (path ++ ".reason_code_map") ;;;
  _ensure_keys reason_code_map WEB_EVIDENCE_REASON_CODES (path ++ ".reason_code_map") ;;;
  rc <- items reason_code_map ;;
  for_each
    (fun kv : string * value =>
       let '(code, msg) := kv in
       _expect_non_empty_string (VStr code) (path ++ ".reason_code_map.<key>") ;;;
       _expect_non_empty_string msg (path ++ ".reason_code_map." ++ code) ;;;
       Ok tt)
    rc ;;;

  v <- get node "gate_action_on_violation" ;;
  gate_action <- _expect_non_empty_string v (path ++ ".gate_action_on_violation") ;;
  when (negb (mem gate_action WEB_EVIDENCE_GATE_ACTIONS))
       (_die (path ++ ".gate_action_on_violation")
             ("must be one of: " ++ join_comma (sorted_set WEB_EVIDENCE_GATE_ACTIONS))) ;;;

  Ok node.

(** One of the loading loops of [load_and_validate_v2_config]: the files
    [name.yaml] of [subdir], for each [name] in turn. *)
Fixpoint load_dir (validate : value -> string -> string -> result value)
    (t : Fs.tree) (root subdir : string) (names : list string) (acc : dict)
  : result dict :=
  match names with
  | [] => Ok acc
  | name :: names' =>
      let path := Fs.join (Fs.join root subdir) (name ++ ".yaml") in
      node <- _load_yaml (Fs.lookup2 t subdir (name ++ ".yaml")) path ;;
      node <- validate node name path ;;
      load_dir validate t root subdir names' (dict_set name node acc)
  end.

(** [load_and_validate_v2_config(config_root)]: [root] is the absolute path
    of the config root and [t] the directory found there. *)
Definition load_and_validate_v2_config (t : Fs.tree) (root : string) : result value :=
  for_each (_validate_expected_files t root) ["skills"; "servants"; "policies"] ;;;

  skills <- load_dir _validate_skill_file t root "skills" PHASES [] ;;
  servants <- load_dir _validate_servant_file t root "servants" TOOLS [] ;;

  let routing_path := Fs.join (Fs.join root "policies") "routing.yaml" in
  raw <- _load_yaml (Fs.lookup2 t "policies" "routing.yaml") routing_path ;;
  routing <- _validate_routing_policy raw routing_path ;;

  let review_parallel_path := Fs.join (Fs.join root "policies") "review_parallel.yaml" in
  raw <- _load_yaml (Fs.lookup2 t "policies" "review_parallel.yaml")
           review_parallel_path ;;
  review_parallel <- _validate_review_parallel_policy raw review_parallel_path ;;

  let web_evidence_path := Fs.join (Fs.join root "policies") "web_evidence.yaml" in
  raw <- _load_yaml (Fs.lookup2 t "policies" "web_evidence.yaml") web_evidence_path ;;
  web_evidence <- _validate_web_evidence_policy raw web_evidence_path ;;

  Ok (VDict [ ("version", VInt 2);
              ("root", VStr root);
              ("skills", VDict skills);
              ("servants", VDict servants);
              ("policies", VDict [ ("routing", routing);
                                   ("review_parallel", review_parallel);
                                   ("web_evidence", web_evidence) ]) ]).

End ConfigValidateV2.

(* ===================================================================== *)
(** * config_validate_v2.py: manifest overrides                           *)
(* ===================================================================== *)

Module ManifestV2.
Import ConfigValidateV2.

(** [load_manifest_if_present(path)]: [path] is [None] or a string, and [e]
    what the file system has there. *)
Definition load_manifest_if_present (path : option string) (e : option Fs.node)
  : result value :=
  match path with
  | None => Ok VNone
  | Some p => if String.eqb p "" then Ok VNone else _load_yaml e p
  end.

(** Body of the loop over [tool_models.items()]. *)
Definition normalize_tool_model (cfg : value) (path : string)
    (normalized_tool_models : dict) (kv : string * value) : result dict :=
  let '(tool, model) := kv in
  model_name <- _expect_non_empty_string model (path ++ ".tool_models." ++ tool) ;;
  servants <- item cfg "servants" ;;
  servant <- item servants tool ;;
  allowed_models <- item servant "allowed_models" ;;
  ok <- py_in (VStr model_name) allowed_models ;;
  when (negb ok)
       (_die (path ++ ".tool_models." ++ tool)
             ("model '" ++ model_name ++ "' is not in allowed_models")) ;;;
  Ok (dict_set tool (VStr model_name) normalized_tool_models).

(** [v = step_node.get(key)], and when it is not [None] the check that it
    is one of [choices] before it is recorded: the blocks for [tool],
    [default_mode] and [web_research_mode]. *)
Definition normalize_choice (step_node : value) (step_path key : string)
    (choices : list string) (normalized_step : dict) : result dict :=
  v <- get step_node key ;;
  if negb (is_none v) then
    s <- _expect_non_empty_string v (step_path ++ "." ++ key) ;;
    when (negb (mem s choices))
         (_die (step_path ++ "." ++ key) ("must be one of: " ++ join_comma choices)) ;;;
    Ok (dict_set key (VStr s) normalized_step)
  else Ok normalized_step.

(** [normalized_step.get(key) or step_defaults[step_id][base_key]]. *)
Definition effective (normalized_step : dict) (key : string) (step_defaults : value)
    (step_id base_key : string) : result value :=
  if truthy (dget normalized_step key) then Ok (dget normalized_step key)
  else base <- item step_defaults step_id ;; item base base_key.

(** Body of the loop over [step_overrides.items()]. *)
Definition normalize_step_override (cfg : value) (phase path : string)
    (step_defaults : value) (normalized_step_overrides : dict)
    (kv : string * value) : result dict :=
  let '(step_id, step_node) := kv in
  let step_path := path ++ ".step_overrides." ++ step_id in
  known <- py_in (VStr step_id) step_defaults ;;
  when (negb known)
       (_die step_path
             ("unknown step_id '" ++ step_id ++ "' for phase '" ++ phase ++ "'")) ;;;
  _expect_type step_node TDict step_path ;;;
  _ensure_keys step_node ["tool"; "model"; "default_mode"; "web_research_mode"]
    step_path ;;;

  let normalized_step : dict := [] in
  normalized_step <- normalize_choice step_node step_path "tool" TOOLS normalized_step ;;
  normalized_step <-
    normalize_choice step_node step_path "default_mode" DEFAULT_MODES normalized_step ;;
  normalized_step <-
    normalize_choice step_node step_path "web_research_mode" WEB_RESEARCH_MODES
      normalized_step ;;

  model <- get step_node "model" ;;
  normalized_step <-
    (if negb (is_none model) then
       model_value <- _expect_non_empty_string model (step_path ++ ".model") ;;
       tool_for_model <-
         effective normalized_step "tool" step_defaults step_id "default_tool" ;;
       servants <- item cfg "servants" ;;
       servant <- item_v servants tool_for_model ;;
       allowed_models <- item servant "allowed_models" ;;
       ok <- py_in (VStr model_value) allowed_models ;;
       when (negb ok)
            (_die (step_path ++ ".model")
                  ("model '" ++ model_value ++ "' is not allowed for tool '"
                   ++ py_str tool_for_model ++ "'")) ;;;
       Ok (dict_set "model" (VStr model_value) normalized_step)
     else Ok normalized_step) ;;

  effective_tool <-
    effective normalized_step "tool" step_defaults step_id "default_tool" ;;
  effective_web_mode <-
    effective normalized_step "web_research_mode" step_defaults step_id
      "web_research_mode" ;;
  bad <- (if negb (py_eq effective_web_mode (VStr "off")) then
            modes <- table_item_v TOOL_WEB_MODE_MAP effective_tool ;;
            ok <- in_str_set effective_web_mode modes ;;
            Ok (negb ok)
          else Ok false) ;;
  when bad
       (_die (step_path ++ ".web_research_mode")
             ("'" ++ py_str effective_web_mode ++ "' is not compatible with tool '"
              ++ py_str effective_tool ++ "'")) ;;;

  Ok (dict_set step_id (VDict normalized_step) normalized_step_overrides).

Definition _normalize_phase_override (cfg : value) (phase : string) (node : value)
    (path : string) : result value :=
  _ensure_keys node ["method_id"; "tool_models"; "step_overrides"] path ;;;

  let out : dict := [] in

  has_method_id <- py_in (VStr "method_id") node ;;
  out <-
    (if has_method_id then
       v <- get node "method_id" ;;
       method_id <- _expect_non_empty_string v (path ++ ".method_id") ;;
       skills <- item cfg "skills" ;;
       phase_cfg <- item skills phase ;;
       methods <- item phase_cfg "methods" ;;
       known <- py_in (VStr method_id) methods ;;
       when (negb known)
            (_die (path ++ ".method_id")
                  ("unknown method_id '" ++ method_id ++ "' for phase '" ++ phase
                   ++ "'")) ;;;
       Ok (dict_set "method_id" (VStr method_id) out)
     else Ok out) ;;

  tm <- get node "tool_models" ;;
  let tool_models := por tm (VDict []) in
  _expect_type tool_models TDict (path ++ ".tool_models") ;;;
  _ensure_keys tool_models TOOLS (path ++ ".tool_models") ;;;
  entries <- items tool_models ;;
  normalized_tool_models <- fold_m (normalize_tool_model cfg path) entries [] ;;
  let out := dict_set "tool_models" (VDict normalized_tool_models) out in

  so <- get node "step_overrides" ;;
  let step_overrides := por so (VDict []) in
  _expect_type step_overrides TDict (path ++ ".step_overrides") ;;;

  skills <- item cfg "skills" ;;
  phase_cfg <- item skills phase ;;
  step_defaults <- item phase_cfg "step_defaults" ;;
  entries <- items step_overrides ;;
  normalized_step_overrides <-
    fold_m (normalize_step_override cfg phase path step_defaults) entries [] ;;

  Ok (VDict (dict_set "step_overrides" (VDict normalized_step_overrides) out)).

(** [{phase: {"tool_models": {}, "step_overrides": {}} for phase in PHASES}]. *)
Definition no_overrides : dict :=
  map (fun phase =>
         (phase, VDict [ ("tool_models", VDict []); ("step_overrides", VDict []) ]))
      PHASES.

Definition parse_manifest_v2_overrides (cfg manifest : value) (manifest_path : string)
  : result value :=
  let out := no_overrides in
  if is_none manifest then Ok (VDict [ ("phase_overrides", VDict out) ])
  else
    when (negb (isinstance manifest TDict))
         (_die manifest_path "top-level must be a mapping") ;;;

    config_v2 <- get manifest "config_v2" ;;
    if is_none config_v2 then Ok (VDict [ ("phase_overrides", VDict out) ])
    else
      _expect_type config_v2 TDict (manifest_path ++ ".config_v2") ;;;
      _ensure_keys config_v2 ["phase_overrides"] (manifest_path ++ ".config_v2") ;;;

      po <- get config_v2 "phase_overrides" ;;
      let phase_overrides := por po (VDict []) in
      _expect_type phase_overrides TDict
        (manifest_path ++ ".config_v2.phase_overrides") ;;;
      _ensure_keys phase_overrides PHASES
        (manifest_path ++ ".config_v2.phase_overrides") ;;;

      entries <- items phase_overrides ;;
      out <-
        fold_m (fun out (kv : string * value) =>
                  let '(phase, node) := kv in
                  let phase_path :=
                    manifest_path ++ ".config_v2.phase_overrides." ++ phase in
                  _expect_type node TDict phase_path ;;;
                  normalized <- _normalize_phase_override cfg phase node phase_path ;;
                  Ok (dict_set phase normalized out))
               entries out ;;

      Ok (VDict [ ("phase_overrides", VDict out) ]).

Definition validate_manifest_v2_overrides (cfg manifest : value)
    (manifest_path : string) : result unit :=
  parse_manifest_v2_overrides cfg manifest manifest_path ;;; Ok tt.

End ManifestV2.

(* ===================================================================== *)
(** * config_resolve_v2.py: the v2 phase resolver                         *)
(* ===================================================================== *)

Module ConfigResolveV2.
Import ConfigValidateV2.

Definition raise_validation {A} (msg : string) : result A :=
  Raise (ValidationError msg).

(** [runtime_method_id] and [step_id] are [Optional[str]] command-line
    arguments; [if x:] holds for a string that is not empty. *)
Definition given (x : option string) : option string :=
  match x with
  | Some s => if String.eqb s "" then None else Some s
  | None => None
  end.

(** [d.get(key, False)]. *)
Definition get_or_false (v : value) (key : string) : result value :=
  d <- items v ;;
  Ok (match dict_get key d with Some x => x | None => VBool false end).

Definition _resolve_selected_method (cfg : value) (phase : string)
    (manifest_override : value) (runtime_method_id : option string)
  : result value :=
  skills <- item cfg "skills" ;;
  phase_cfg <- item skills phase ;;

  v <- get phase_cfg "default_method_ids" ;;
  let default_method_ids := por v (VList []) in
  when (negb (truthy default_method_ids))
       (raise_validation
          ("skills." ++ phase ++ ".default_method_ids must not be empty")) ;;;

  selected <- item0 default_method_ids ;;

  manifest_method_id <- get manifest_override "method_id" ;;
  let selected := if truthy manifest_method_id then manifest_method_id else selected in

  let selected :=
    match given runtime_method_id with
    | Some m => VStr m
    | None => selected
    end in

  methods <- item phase_cfg "methods" ;;
  defined <- py_in selected methods ;;
  when (negb defined)
       (raise_validation
          ("resolved method_id '" ++ py_str selected
           ++ "' is not defined in skills." ++ phase ++ ".methods")) ;;;

  method_node <- item_v methods selected ;;
  enabled <- get_or_false method_node "enabled" ;;
  when (negb (truthy enabled))
       (raise_validation ("resolved method_id '" ++ py_str selected ++ "' is disabled")) ;;;

  Ok selected.

(** [a or b[key]]: the subscript is evaluated only when [a] is falsy. *)
Definition or_item (a b : value) (key : string) : result value :=
  if truthy a then Ok a else item b key.

(** The mapping [_resolve_step] returns. *)
Record step_plan : Type := {
  tool : value;
  model : value;
  default_mode : value;
  web_research_mode : value
}.

Definition _resolve_step (cfg : value) (phase : string) (method_node step_id : value)
    (phase_override : value) : result step_plan :=
  skills <- item cfg "skills" ;;
  phase_cfg <- item skills phase ;;
  step_defaults <- item phase_cfg "step_defaults" ;;
  base <- item_v step_defaults step_id ;;
  base_step <- to_dict base ;;
  so <- get phase_override "step_overrides" ;;
  so <- get_v (por so (VDict [])) step_id ;;
  step_override <- to_dict (por so (VDict [])) ;;

  tool <- or_item (dget step_override "tool") (VDict base_step) "default_tool" ;;
  default_mode <-
    or_item (dget step_override "default_mode") (VDict base_step) "default_mode" ;;
  web_research_mode <-
    or_item (dget step_override "web_research_mode") (VDict base_step)
            "web_research_mode" ;;

  bad <- (if negb (py_eq web_research_mode (VStr "off")) then
            modes <- table_item_v TOOL_WEB_MODE_MAP tool ;;
            ok <- in_str_set web_research_mode modes ;;
            Ok (negb ok)
          else Ok false) ;;
  when bad
       (raise_validation
          ("step '" ++ py_str step_id ++ "' web_research_mode '"
           ++ py_str web_research_mode ++ "' is not compatible with tool '"
           ++ py_str tool ++ "'")) ;;;

  servants <- item cfg "servants" ;;
  servant <- item_v servants tool ;;
  model <- item servant "default_model" ;;

  tm <- get phase_override "tool_models" ;;
  let phase_tool_models := por tm (VDict []) in
  overridden <- py_in tool phase_tool_models ;;
  model <- (if overridden then item_v phase_tool_models tool else Ok model) ;;

  model <- (if dict_mem "model" step_override
            then ditem step_override "model" else Ok model) ;;

  allowed_models <- item servant "allowed_models" ;;
  ok <- py_in model allowed_models ;;
  when (negb ok)
       (raise_validation
          ("step '" ++ py_str step_id ++ "' resolved model '" ++ py_str model
           ++ "' is not allowed for tool '" ++ py_str tool ++ "'")) ;;;

  Ok {| tool := tool; model := model; default_mode := default_mode;
        web_research_mode := web_research_mode |}.

(** [dict((manifest_overrides.get("phase_overrides") or {}).get(phase) or {})]. *)
Definition phase_override (manifest_overrides : value) (phase : string)
  : result value :=
  po <- get manifest_overrides "phase_overrides" ;;
  po <- get (por po (VDict [])) phase ;;
  d <- to_dict (por po (VDict [])) ;;
  Ok (VDict d).

(** The resolved phase plan, the mapping [resolve_v2] returns (without the
    echo of the overrides that were applied). *)
Record phase_plan : Type := {
  plan_phase : string;
  selected_method_id : value;
  resolved_steps : list value;
  step_agent_model_map : list (string * step_plan)
}.

Definition resolve_v2 (cfg : value) (phase : string) (manifest_overrides : value)
    (method_id step_id : option string) : result phase_plan :=
  phase_override <- phase_override manifest_overrides phase ;;
  selected_method_id <- _resolve_selected_method cfg phase phase_override method_id ;;

  skills <- item cfg "skills" ;;
  phase_cfg <- item skills phase ;;
  methods <- item phase_cfg "methods" ;;
  method_node <- item_v methods selected_method_id ;;
  st <- get method_node "steps" ;;
  resolved_steps <- to_list (por st (VList [])) ;;
  when (negb (nonempty resolved_steps))
       (raise_validation
          ("resolved method '" ++ py_str selected_method_id ++ "' has no steps")) ;;;

  resolved_steps <-
    match given step_id with
    | Some sid =>
        when (negb (in_list (VStr sid) resolved_steps))
             (raise_validation
                ("step_id '" ++ sid ++ "' is not part of resolved method '"
                 ++ py_str selected_method_id ++ "'")) ;;;
        Ok [VStr sid]
    | None => Ok resolved_steps
    end ;;

  step_map <-
    fold_m (fun step_map sid =>
              r <- _resolve_step cfg phase method_node sid phase_override ;;
              k <- as_key sid ;;
              Ok (table_set k r step_map))
           resolved_steps [] ;;

  Ok {| plan_phase := phase;
        selected_method_id := selected_method_id;
        resolved_steps := resolved_steps;
        step_agent_model_map := step_map |}.

End ConfigResolveV2.

(* ===================================================================== *)
(** * The command-line entry points                                       *)
(* ===================================================================== *)

(** The four [_main] functions after [parser.parse_args()]: the arguments
    are parameters, the result is the exit status with what was written, and
    an exception that no handler of [_main] catches is raised. *)

Module Cli.

(** What [_main] writes: a JSON document on standard output
    ([json.dump(doc, sys.stdout, indent=2, sort_keys=True)]), a line on
    standard output, a line on standard error, or on standard error a prefix
    followed by the message of the YAML parser. *)
Inductive output (A : Type) : Type :=
| Json (doc : A)
| Stdout (line : string)
| Stderr (line : string)
| Stderr_yaml (prefix : string).

Arguments Json {A} doc.
Arguments Stdout {A} line.
Arguments Stderr {A} line.
Arguments Stderr_yaml {A} prefix.

(** [args.manifest or "manifest"]. *)
Definition manifest_or (manifest : option string) : string :=
  match manifest with
  | Some p => if String.eqb p "" then "manifest" else p
  | None => "manifest"
  end.

(** An optional string argument as a value. *)
Definition arg (a : option string) : value :=
  match a with
  | Some s => VStr s
  | None => VNone
  end.

(** [sorted(names)] as a list value. *)
Definition sorted_names (names : list string) : value :=
  VList (map VStr (sorted_set names)).

End Cli.

(** ** [config_validate.py] *)

Module ConfigValidateMain.
Import ConfigValidate Cli.

Definition build_choices_catalog (cfg : value) : result value :=
  let enums :=
    VDict [ ("codex_effort", sorted_names CODEX_EFFORT_VALUES);
            ("gemini_approval_mode", sorted_names GEMINI_APPROVAL_VALUES);
            ("timeout_mode", sorted_names TIMEOUT_MODE_VALUES);
            ("pipeline_options",
             VDict (map (fun po : string * list (string * list string) =>
                           (fst po,
                            VDict (map (fun ov : string * list string =>
                                          (fst ov, sorted_names (snd ov)))
                                       (snd po))))
                        PIPELINE_OPTIONS));
            ("pipeline_flags",
             VDict (map (fun pf : string * list string =>
                           (fst pf, sorted_names (snd pf)))
                        PIPELINE_FLAGS)) ] in
  servants <-
    fold_m (fun acc tool =>
              servants <- item cfg "servants" ;;
              node <- item servants tool ;;
              default_model <- item node "default_model" ;;
              servants <- item cfg "servants" ;;
              node <- item servants tool ;;
              allowed <- item node "allowed_models" ;;
              allowed_models <- to_list allowed ;;
              servants <- item cfg "servants" ;;
              node <- item servants tool ;;
              wd <- get node "wrapper_defaults" ;;
              wrapper_defaults <- to_dict (por wd (VDict [])) ;;
              keys <- table_item WRAPPER_DEFAULT_KEYS tool ;;
              Ok (dict_set tool
                    (VDict [ ("default_model", default_model);
                             ("allowed_models", VList allowed_models);
                             ("wrapper_defaults", VDict wrapper_defaults);
                             ("wrapper_allowed_keys", sorted_names keys) ])
                    acc))
           SERVANT_NAMES [] ;;
  Ok (VDict [ ("enums", enums); ("servants", VDict servants) ]).

(** [config_root] is [--config-root] made absolute and [t] the directory
    there; [manifest] is [--manifest] and [manifest_file] what the file
    system has at that path. *)
Definition _main (t : Fs.tree) (config_root : string) (manifest : option string)
    (manifest_file : option Fs.node) (print_choices : bool)
  : result (Z * output value) :=
  match (cfg <- load_and_validate_split_config t config_root ;;
         manifest_doc <- load_manifest_if_present manifest manifest_file ;;
         validate_manifest_extensions cfg manifest_doc (manifest_or manifest) ;;;
         Ok cfg) with
  | Raise (ValidationError msg) =>
      Ok (1%Z, Stderr ("CONFIG VALIDATION ERROR: " ++ msg))
  | Raise YAMLError =>
      Ok (1%Z, Stderr_yaml "CONFIG VALIDATION ERROR: YAML parse failed: ")
  | Raise e => Raise e
  | Ok cfg =>
      if print_choices then
        catalog <- build_choices_catalog cfg ;;
        Ok (0%Z, Json catalog)
      else Ok (0%Z, Stdout "OK")
  end.

End ConfigValidateMain.

(** ** [config_resolve.py] *)

Module ConfigResolveMain.
Import ConfigValidate ConfigResolve ConfigResolvePlan Cli.

(** The sub-command and its arguments. *)
Inductive mode : Type :=
| dispatch (manifest : string) (manifest_file : option Fs.node)
           (plan_name intent_default : string)
| plan (profile copilot_model gemini_model codex_model : option string).

(** The document that is written: the plan of one of the two resolvers. *)
Inductive resolved : Type :=
| dispatch_resolved (p : dispatch_plan)
| plan_resolved (p : Plan.t).

Definition _main (t : Fs.tree) (config_root : string) (m : mode)
  : result (Z * output resolved) :=
  match (cfg <- load_and_validate_split_config t config_root ;;
         match m with
         | dispatch manifest manifest_file plan_name intent_default =>
             manifest_doc <- load_manifest_if_present (Some manifest) manifest_file ;;
             when (is_none manifest_doc)
                  (Raise (ValidationError
                            "manifest is required for dispatch resolution")) ;;;
             validate_manifest_extensions cfg manifest_doc manifest ;;;
             r <- resolve_dispatch cfg manifest_doc plan_name intent_default ;;
             Ok (dispatch_resolved r)
         | plan profile copilot_model gemini_model codex_model =>
             let model_overrides :=
               [ ("copilot", arg copilot_model);
                 ("gemini", arg gemini_model);
                 ("codex", arg codex_model) ] in
             r <- resolve_plan_pipeline cfg (arg profile) model_overrides ;;
             Ok (plan_resolved r)
         end) with
  | Raise (ValidationError msg) => Ok (1%Z, Stderr ("CONFIG RESOLVE ERROR: " ++ msg))
  | Raise e => Raise e
  | Ok r => Ok (0%Z, Json r)
  end.

End ConfigResolveMain.

(** ** [config_validate_v2.py] *)

Module ConfigValidateV2Main.
Import ConfigValidateV2 ManifestV2 Cli.

Definition build_choices_catalog (cfg : value) : result value :=
  let enums :=
    VDict [ ("tools", sorted_names TOOLS);
            ("phases", sorted_names PHASES);
            ("default_mode", sorted_names DEFAULT_MODES);
            ("web_research_mode", sorted_names WEB_RESEARCH_MODES);
            ("gate_profile", sorted_names GATE_PROFILES);
            ("timeout_mode", sorted_names TIMEOUT_MODES);
            ("routing_stop_action", sorted_names ROUTING_STOP_ACTIONS) ] in
  let tool_web_capabilities :=
    VDict (map (fun tm : string * list string => (fst tm, sorted_names (snd tm)))
               TOOL_WEB_MODE_MAP) in
  servants <-
    fold_m (fun acc tool =>
              servants <- item cfg "servants" ;;
              node <- item servants tool ;;
              default_model <- item node "default_model" ;;
              servants <- item cfg "servants" ;;
              node <- item servants tool ;;
              allowed <- item node "allowed_models" ;;
              allowed_models <- to_list allowed ;;
              Ok (dict_set tool
                    (VDict [ ("default_model", default_model);
                             ("allowed_models", VList allowed_models) ])
                    acc))
           TOOLS [] ;;
  Ok (VDict [ ("version", VInt 2);
              ("enums", enums);
              ("tool_web_capabilities", tool_web_capabilities);
              ("servants", VDict servants) ]).

Definition _main (t : Fs.tree) (config_root : string) (manifest : option string)
    (manifest_file : option Fs.node) (print_choices : bool)
  : result (Z * output value) :=
  match (cfg <- load_and_validate_v2_config t config_root ;;
         manifest_doc <- load_manifest_if_present manifest manifest_file ;;
         validate_manifest_v2_overrides cfg manifest_doc (manifest_or manifest) ;;;
         Ok cfg) with
  | Raise (ValidationError msg) =>
      Ok (1%Z, Stderr ("CONFIG V2 VALIDATION ERROR: " ++ msg))
  | Raise YAMLError =>
      Ok (1%Z, Stderr_yaml "CONFIG V2 VALIDATION ERROR: YAML parse failed: ")
  | Raise e => Raise e
  | Ok cfg =>
      if print_choices then
        catalog <- build_choices_catalog cfg ;;
        Ok (0%Z, Json catalog)
      else Ok (0%Z, Stdout "OK")
  end.

End ConfigValidateV2Main.

(** ** [config_resolve_v2.py] *)

Module ConfigResolveV2Main.
Import ConfigValidateV2 ManifestV2 ConfigResolveV2 Cli.

(** [phase] is one of [PHASES]: the argument parser accepts no other. *)
Definition _main (t : Fs.tree) (config_root phase : string)
    (method_id step_id manifest : option string) (manifest_file : option Fs.node)
  : result (Z * output phase_plan) :=
  match (cfg <- load_and_validate_v2_config t config_root ;;
         manifest_doc <- load_manifest_if_present manifest manifest_file ;;
         manifest_overrides <-
           parse_manifest_v2_overrides cfg manifest_doc (manifest_or manifest) ;;
         resolve_v2 cfg phase manifest_overrides method_id step_id) with
  | Raise (ValidationError msg) =>
      Ok (1%Z, Stderr ("CONFIG V2 RESOLVE ERROR: " ++ msg))
  | Raise e => Raise e
  | Ok r => Ok (0%Z, Json r)
  end.

End ConfigResolveV2Main.

(* ===================================================================== *)
(** * Notions the properties are stated with                              *)
(* ===================================================================== *)

(** ** Stage lists and dispatch flags *)

Module Filtering.
Import ConfigResolve.

(** [out] keeps some of the elements of [l], in their order. *)
Inductive subseq {A : Type} : list A -> list A -> Prop :=
| subseq_nil : subseq [] []
| subseq_skip x out l : subseq out l -> subseq out (x :: l)
| subseq_keep x out l : subseq out l -> subseq (x :: out) (x :: l).

(** The three flags, and the [if] statement each one governs. *)
Inductive dispatch_flag : Type := EnableBrief | EnableVerify | EnableReview.

Definition flag_name (f : dispatch_flag) : string :=
  match f with
  | EnableBrief => "enable_brief"
  | EnableVerify => "enable_verify"
  | EnableReview => "enable_review"
  end.

Definition drop (f : dispatch_flag) : dict -> list string -> result (list string) :=
  match f with
  | EnableBrief => drop_brief
  | EnableVerify => drop_verify
  | EnableReview => drop_review
  end.

(** Whether a stage survives a flag, when it has a role part. *)
Definition survives (flags : dict) (f : dispatch_flag) (s : string) : bool :=
  negb (disabled flags (flag_name f)) ||
  match f with
  | EnableBrief => negb (endswith "_brief" s)
  | EnableVerify => negb (str_contains "verify" (stage_role s))
  | EnableReview => negb (str_contains "review" (stage_role s))
  end.

Definition has_role (s : string) : Prop := contains_char "_" s = true.

Definition kept (flags : dict) (s : string) : bool :=
  forallb (fun f => survives flags f s) [EnableBrief; EnableVerify; EnableReview].

End Filtering.

(** ** Validated servants *)

Module Validated.
Import ConfigValidate.

(** [model] belongs to the allowed-model set of servant [tool]. *)
Definition model_allowed (cfg : value) (tool : string) (model : value) : Prop :=
  exists servants node allowed,
    item cfg "servants" = Ok servants /\
    item servants tool = Ok node /\
    item node "allowed_models" = Ok allowed /\
    py_in model allowed = Ok true.

(** A validated servant: its default model is a string that belongs to its
    list of allowed models, a list of strings. *)
Definition servant_ok (cfg : value) (tool : string) : Prop :=
  exists servants node default_model allowed,
    item cfg "servants" = Ok servants /\
    item servants tool = Ok node /\
    item node "default_model" = Ok (VStr default_model) /\
    item node "allowed_models" = Ok (VList (map VStr allowed)) /\
    In default_model allowed.

(** The facts about a validated v1 config that the resolver relies on. *)
Record validated (cfg : value) : Prop := {
  v_servants : forall tool, In tool SERVANT_NAMES -> servant_ok cfg tool;
  v_checked :
    exists (d : dict) (pipelines : value) (cfg_path : string),
      cfg = VDict d /\
      get cfg "pipelines" = Ok pipelines /\
      (exists servants,
          get cfg "servants" = Ok servants /\
          forall name, In name ["impl"; "review"; "plan"] ->
                       validate_pipeline cfg_path servants pipelines name = Ok tt)
}.

End Validated.

(** ** What a resolved dispatch plan records *)

Module Resolved.
Import ConfigValidate ConfigResolve.

(** Everything [resolve_dispatch] computed on the way to a plan. *)
Record run : Type := {
  run_sel : selection;
  run_env : stage_env;
  run_maps : stage_maps
}.

Record run_of (cfg manifest : value) (plan_name intent_default : string)
    (plan : dispatch_plan) (r : run) : Prop := {
  run_overrides :
    routing_model_overrides manifest = Ok (e_routing_model_overrides (run_env r));
  run_select : select_profile cfg manifest plan_name intent_default = Ok (run_sel r);
  run_filter :
    _apply_dispatch_flag_filters (Profile.stages (sel_runtime (run_sel r)))
      (sel_flags (run_sel r))
    = Ok (stage_plan plan);
  run_nonempty : stage_plan plan <> [];
  run_tool_models : _resolve_tool_models cfg manifest = Ok (e_tool_models (run_env r));
  run_purpose_models : _resolve_purpose_models cfg = Ok (e_purpose_models (run_env r));
  run_stage_models :
    e_profile_stage_models (run_env r) = Profile.stage_models (sel_runtime (run_sel r));
  run_stage_models_checked :
    forall stage_name stage_model,
      In (stage_name, stage_model) (e_profile_stage_models (run_env r)) ->
      exists tool servants node allowed,
        _stage_tool stage_name = Ok tool /\
        item cfg "servants" = Ok servants /\
        item servants tool = Ok node /\
        item node "allowed_models" = Ok allowed /\
        py_in stage_model allowed = Ok true;
  run_options : e_runtime_options (run_env r) = sel_options (run_sel r);
  run_env_pipeline : e_pipeline (run_env r) = sel_pipeline (run_sel r);
  run_loop :
    fold_m (resolve_stage (run_env r)) (stage_plan plan)
      {| m_stage_models := []; m_stage_efforts := [];
         m_stage_timeout_ms := []; m_stage_timeout_modes := [] |} = Ok (run_maps r);
  run_pipeline : pipeline_group plan = sel_pipeline (run_sel r);
  run_intent : intent plan = sel_intent (run_sel r);
  run_profile : profile plan = sel_profile (run_sel r);
  run_flags : flags plan = sel_flags (run_sel r);
  run_plan_options : options plan = sel_options (run_sel r);
  run_plan_models : stage_models plan = m_stage_models (run_maps r);
  run_plan_modes : stage_timeout_modes plan = m_stage_timeout_modes (run_maps r);
  run_plan_tool_models : tool_models plan = e_tool_models (run_env r);
  run_plan_purpose_models : purpose_models plan = e_purpose_models (run_env r)
}.

(** The profile a pipeline's mode option selects, if any. *)
Definition mode_profile (pipeline : string) (runtime_options : dict) : option string :=
  if String.eqb pipeline "impl" then
    if py_eq (dget runtime_options "impl_mode") (VStr "safe") then Some "safe_impl"
    else if py_eq (dget runtime_options "impl_mode") (VStr "one_shot")
         then Some "one_shot_impl"
    else None
  else if String.eqb pipeline "review" then
    if py_eq (dget runtime_options "review_mode") (VStr "codex_only")
    then Some "codex_only"
    else if py_eq (dget runtime_options "review_mode") (VStr "cross")
         then Some "review_cross"
    else None
  else None.

(** The option keys a pipeline supports. *)
Definition supported_options (pipeline : string) : list string :=
  if String.eqb pipeline "impl" then ["impl_mode"; "timeout_mode"]
  else ["review_mode"; "timeout_mode"; "security_mode"].

(** What [select_profile] settled when it succeeds. *)
Record selected (cfg manifest : value) (plan_name intent_default : string)
    (sel : selection) (s_profile_override : value)
    (s_flags_override s_options_override : dict) (s_base : Profile.t) : Prop := {
  s_intent : requested_intent manifest plan_name intent_default = Ok (sel_intent sel);
  s_pipeline :
    _find_pipeline_for_profile_name cfg (sel_intent sel) = Ok (Some (sel_pipeline sel));
  s_pipeline_in : In (sel_pipeline sel) ["impl"; "review"];
  s_po : profile_override manifest = Ok s_profile_override;
  s_fo : flags_override manifest = Ok s_flags_override;
  s_oo : options_override manifest = Ok s_options_override;
  s_base_data :
    _profile_data cfg (sel_pipeline sel) (por s_profile_override (sel_intent sel))
    = Ok s_base;
  s_supported :
    forall k, In k (dict_keys (_merge_dict (Profile.options s_base) s_options_override)) ->
              In k (supported_options (sel_pipeline sel));
  s_remap :
    sel_profile sel =
    match mode_profile (sel_pipeline sel)
            (_merge_dict (Profile.options s_base) s_options_override) with
    | Some p => VStr p
    | None => por s_profile_override (sel_intent sel)
    end;
  s_data : _profile_data cfg (sel_pipeline sel) (sel_profile sel) = Ok (sel_runtime sel);
  s_flags : sel_flags sel = _merge_dict (Profile.flags (sel_runtime sel)) s_flags_override;
  s_options :
    sel_options sel = _merge_dict (Profile.options (sel_runtime sel)) s_options_override
}.

(** The first of [candidates] that is not [None], and [default] when all
    of them are. *)
Fixpoint first_set (candidates : list value) (default : value) : value :=
  match candidates with
  | [] => default
  | v :: rest => if is_none v then first_set rest default else v
  end.

(** [cfg["servants"][servant]["default_model"]]. *)
Definition servant_default (cfg : value) (servant : string) : result value :=
  servants <- item cfg "servants" ;;
  node <- item servants servant ;;
  item node "default_model".

(** A profile name defined by both dispatch pipelines. *)
Definition shared_profile_name (cfg : value) (name : string) : Prop :=
  exists pipelines impl review impl_profiles review_profiles,
    item cfg "pipelines" = Ok pipelines /\
    item pipelines "impl" = Ok impl /\
    item impl "profiles" = Ok (VDict impl_profiles) /\
    dict_mem name impl_profiles = true /\
    item pipelines "review" = Ok review /\
    item review "profiles" = Ok (VDict review_profiles) /\
    dict_mem name review_profiles = true.

End Resolved.

(** ** Method steps and method selection *)

Module Methods.
Import ConfigValidateV2 ConfigResolveV2.

(** The steps of a method node, as [collect_method_steps] reads them. *)
Definition method_steps (method_node : value) : result (list string) :=
  v <- get method_node "steps" ;;
  l <- to_list (por v (VList [])) ;;
  as_str_list l.

(** A step id that some method among [methods] lists in its [steps]. *)
Definition step_referenced (methods : dict) (step : string) : Prop :=
  exists method_id method_node steps,
    In (method_id, method_node) methods /\
    get method_node "steps" = Ok (VList steps) /\
    In (VStr step) steps.

(** The method id selected by precedence: the first default, overridden by
    the manifest's method id, overridden by the runtime method id.  An
    absent id is [None]; the empty string counts as absent, as [if x:]
    has it. *)
Definition selected_method (first_default : string)
    (manifest_method_id runtime_method_id : option string) : string :=
  match given runtime_method_id with
  | Some m => m
  | None =>
      match given manifest_method_id with
      | Some m => m
      | None => first_default
      end
  end.

(** [manifest_override.get("method_id")] for an optional method id. *)
Definition method_id_value (manifest_method_id : option string) : value :=
  match manifest_method_id with
  | Some m => VStr m
  | None => VNone
  end.

End Methods.

(** ** Files of a config root *)

Module Roots.

(** A mapping whose keys all belong to [allowed]. *)
Definition keys_within (m : value) (allowed : list string) : Prop :=
  exists d, m = VDict d /\ forall k, In k (dict_keys d) -> In k allowed.

(** A required file that is there, parses, and holds a mapping. *)
Definition loads_mapping (e : option Fs.node) (raw : value) : Prop :=
  e = Some (Fs.File (Some raw)) /\ exists d, raw = VDict d.

(** The top-level keys a v1 file may have: those of the full form when it
    carries one of the two tags of that form, else those of the compact
    form. *)
Definition v1_top_keys (tag : string) (compact : list string) (raw : value)
  : list string :=
  match raw with
  | VDict d =>
      if dict_mem "version" d || dict_mem tag d
      then ("version" :: tag :: compact)%list
      else compact
  | _ => compact
  end.

Definition v1_servant_keys : list string :=
  ["default_model"; "allowed_models"; "wrapper_defaults"; "purpose_models";
   "purpose_efforts"].

Definition v1_pipeline_keys : list string := ["default_profile"; "profiles"].

(** The mappings of a v1 servant file for which validation declares a key
    set: the file itself, and its [wrapper_defaults], [purpose_models] and
    [purpose_efforts]. *)
Inductive v1_servant_mapping (servant : string) (raw : value)
  : value -> list string -> Prop :=
| v1_servant_top :
    v1_servant_mapping servant raw raw (v1_top_keys "tool" v1_servant_keys raw)
| v1_wrapper_defaults m keys :
    get raw "wrapper_defaults" = Ok m ->
    table_get ConfigValidate.WRAPPER_DEFAULT_KEYS servant = Some keys ->
    v1_servant_mapping servant raw m keys
| v1_purpose_models m :
    get raw "purpose_models" = Ok m ->
    v1_servant_mapping servant raw m ConfigValidate.PURPOSE_KEYS
| v1_purpose_efforts m :
    get raw "purpose_efforts" = Ok m ->
    v1_servant_mapping servant raw m ConfigValidate.PURPOSE_KEYS.

(** The mappings of a v1 pipeline file for which validation declares a key
    set: the file itself, each of its profiles, and the [flags] and
    [options] of each profile. *)
Inductive v1_pipeline_mapping (pipeline : string) (raw : value)
  : value -> list string -> Prop :=
| v1_pipeline_top :
    v1_pipeline_mapping pipeline raw raw (v1_top_keys "pipeline" v1_pipeline_keys raw)
| v1_profile profiles name m :
    get raw "profiles" = Ok (VDict profiles) ->
    In (name, m) profiles ->
    v1_pipeline_mapping pipeline raw m
      ["stages"; "flags"; "options"; "stage_models"; "stage_efforts"]
| v1_profile_flags profiles name profile m keys :
    get raw "profiles" = Ok (VDict profiles) ->
    In (name, profile) profiles ->
    get profile "flags" = Ok m ->
    table_get ConfigValidate.PIPELINE_FLAGS pipeline = Some keys ->
    v1_pipeline_mapping pipeline raw m keys
| v1_profile_options profiles name profile m table :
    get raw "profiles" = Ok (VDict profiles) ->
    In (name, profile) profiles ->
    get profile "options" = Ok m ->
    table_get ConfigValidate.PIPELINE_OPTIONS pipeline = Some table ->
    v1_pipeline_mapping pipeline raw m (map fst table).

(** The required files of a v1 root, with the mappings whose keys are
    declared. *)
Inductive v1_required
  : string -> string -> (value -> value -> list string -> Prop) -> Prop :=
| v1_servant_file name subdir filename :
    In (name, (subdir, filename)) ConfigValidate.SERVANT_FILES ->
    v1_required subdir filename (v1_servant_mapping name)
| v1_pipeline_file name subdir filename :
    In (name, (subdir, filename)) ConfigValidate.PIPELINE_FILES ->
    v1_required subdir filename (v1_pipeline_mapping name).

(** The mappings of a v2 skill file for which validation declares a key
    set: the file, each method, each step default. *)
Inductive v2_skill_mapping (raw : value) : value -> list string -> Prop :=
| v2_skill_top :
    v2_skill_mapping raw raw
      ["version"; "skill"; "default_method_ids"; "methods"; "step_defaults"]
| v2_method methods method_id m :
    get raw "methods" = Ok (VDict methods) ->
    In (method_id, m) methods ->
    v2_skill_mapping raw m ["enabled"; "steps"; "allowed_tools"; "gate_profile"]
| v2_step_default step_defaults step_id m :
    get raw "step_defaults" = Ok (VDict step_defaults) ->
    In (step_id, m) step_defaults ->
    v2_skill_mapping raw m
      ["default_tool"; "default_mode"; "web_research_mode"; "description"].

(** Those of a v2 servant file: the file, its [wrapper_defaults], its
    [web_capabilities]. *)
Inductive v2_servant_mapping (raw : value) : value -> list string -> Prop :=
| v2_servant_top :
    v2_servant_mapping raw raw
      ["version"; "tool"; "default_model"; "allowed_models"; "wrapper_defaults";
       "web_capabilities"; "purpose_models"; "purpose_efforts";
       "effort_level_descriptions"]
| v2_wrapper_defaults m :
    get raw "wrapper_defaults" = Ok m ->
    v2_servant_mapping raw m
      ["timeout_ms"; "timeout_mode"; "effort"; "approval_mode"; "sandbox"]
| v2_web_capabilities m :
    get raw "web_capabilities" = Ok m ->
    v2_servant_mapping raw m ["modes"].

(** Those of the routing policy: the file, its four policies, each stop
    condition, and the prompt paths of the route decider. *)
Inductive v2_routing_mapping (raw : value) : value -> list string -> Prop :=
| v2_routing_top :
    v2_routing_mapping raw raw
      ["version"; "stop_policy"; "confidence_policy"; "hard_stop_reason_map";
       "reproducibility_policy"; "route_decider_policy"]
| v2_stop_policy m :
    get raw "stop_policy" = Ok m ->
    v2_routing_mapping raw m ["conditions"; "on_stop"]
| v2_stop_condition stop_policy conditions m :
    get raw "stop_policy" = Ok stop_policy ->
    get stop_policy "conditions" = Ok (VList conditions) ->
    In m conditions ->
    v2_routing_mapping raw m
      ["impact_surface"; "confidence"; "reason_codes_contain";
       "strict_evidence_violation"; "action"]
| v2_confidence_policy m :
    get raw "confidence_policy" = Ok m ->
    v2_routing_mapping raw m ["values"; "default"]
| v2_reproducibility_policy m :
    get raw "reproducibility_policy" = Ok m ->
    v2_routing_mapping raw m ["deterministic_required"; "on_mismatch"]
| v2_route_decider_policy m :
    get raw "route_decider_policy" = Ok m ->
    v2_routing_mapping raw m ["phase_prompt_paths"; "schema_version"]
| v2_phase_prompt_paths route_decider_policy m :
    get raw "route_decider_policy" = Ok route_decider_policy ->
    get route_decider_policy "phase_prompt_paths" = Ok m ->
    v2_routing_mapping raw m ConfigValidateV2.PHASES.

(** Those of the review-parallel policy: the file and its [artifacts]. *)
Inductive v2_review_parallel_mapping (raw : value) : value -> list string -> Prop :=
| v2_review_parallel_top :
    v2_review_parallel_mapping raw raw
      ["version"; "mode"; "join_barrier"; "apply_order"; "worker_output_mode";
       "merge_required"; "artifacts"]
| v2_artifacts m :
    get raw "artifacts" = Ok m ->
    v2_review_parallel_mapping raw m ["findings_dir"; "merged"; "queue"].

(** Those of the web-evidence policy: the file and its [reason_code_map]. *)
Inductive v2_web_evidence_mapping (raw : value) : value -> list string -> Prop :=
| v2_web_evidence_top :
    v2_web_evidence_mapping raw raw
      ["version"; "strictness"; "required_fields"; "reason_code_map";
       "gate_action_on_violation"]
| v2_reason_code_map m :
    get raw "reason_code_map" = Ok m ->
    v2_web_evidence_mapping raw m ConfigValidateV2.WEB_EVIDENCE_REASON_CODES.

(** The required files of a v2 root, with the mappings whose keys are
    declared. *)
Inductive v2_required
  : string -> string -> (value -> value -> list string -> Prop) -> Prop :=
| v2_skill_file phase :
    In phase ConfigValidateV2.PHASES ->
    v2_required "skills" (phase ++ ".yaml") v2_skill_mapping
| v2_servant_file tool :
    In tool ConfigValidateV2.TOOLS ->
    v2_required "servants" (tool ++ ".yaml") v2_servant_mapping
| v2_routing_file : v2_required "policies" "routing.yaml" v2_routing_mapping
| v2_review_parallel_file :
    v2_required "policies" "review_parallel.yaml" v2_review_parallel_mapping
| v2_web_evidence_file :
    v2_required "policies" "web_evidence.yaml" v2_web_evidence_mapping.

(** Every mapping of [raw] with a declared key set keeps to it. *)
Definition keys_allowed (declared : value -> value -> list string -> Prop)
    (raw : value) : Prop :=
  forall (d : dict) (allowed : list string) (k : string),
    declared raw (VDict d) allowed -> In k (dict_keys d) -> In k allowed.

(** What is wrong with a required file: it is missing, it is not YAML, its
    top-level value is not a mapping, or one of its mappings has a key
    outside the key set declared for it. *)
Inductive defective (e : option Fs.node)
    (declared : value -> value -> list string -> Prop) : Prop :=
| missing : Fs.isfile e = false -> defective e declared
| unparseable : e = Some (Fs.File None) -> defective e declared
| not_a_mapping v :
    e = Some (Fs.File (Some v)) -> isinstance v TDict = false -> defective e declared
| unknown_key raw d allowed k :
    e = Some (Fs.File (Some raw)) ->
    declared raw (VDict d) allowed ->
    In k (dict_keys d) -> ~ In k allowed -> defective e declared.

(** The expected files of a v1 directory. *)
Definition v1_expected (subdir : string) : list string :=
  map (fun f => snd (snd f))
      (filter (fun f => String.eqb (fst (snd f)) subdir)
              (ConfigValidate.SERVANT_FILES ++ ConfigValidate.PIPELINE_FILES)%list).

End Roots.

(** ** Example configs *)

(** ** The plan pipeline *)

Module Plans.
Import ConfigValidate ConfigResolve ConfigResolvePlan.

(** The node of a profile of the plan pipeline. *)
Definition plan_profile (cfg profile_name : value) : result value :=
  pipelines <- item cfg "pipelines" ;;
  plan_cfg <- item pipelines "plan" ;;
  profiles <- item plan_cfg "profiles" ;;
  item_v profiles profile_name.

(** No entry of [model_overrides] gives [tool] a model. *)
Definition no_override (model_overrides : dict) (tool : string) : Prop :=
  forall model, In (tool, model) model_overrides -> model = VNone.

End Plans.

(** ** Servant defaults *)

Module Defaults.
Import ConfigValidate ConfigResolve.

(** [cfg["servants"][servant].get("wrapper_defaults") or {}], looked up at
    [key] with [.get]. *)
Definition wrapper_default (cfg : value) (servant key : string) : result value :=
  servants <- item cfg "servants" ;;
  node <- item servants servant ;;
  raw <- get node "wrapper_defaults" ;;
  get (por raw (VDict [])) key.

(** [cfg["servants"]["codex"].get("purpose_efforts") or {}], looked up at
    [purpose] with [.get]. *)
Definition codex_purpose_effort (cfg : value) (purpose : string) : result value :=
  servants <- item cfg "servants" ;;
  codex <- item servants "codex" ;;
  raw <- get codex "purpose_efforts" ;;
  get (por raw (VDict [])) purpose.

(** The outcomes a caller that catches [ValidationError] handles: a result,
    or a validation error. *)
Definition controlled {A} (r : result A) : Prop :=
  match r with
  | Ok _ => True
  | Raise (ValidationError _) => True
  | Raise _ => False
  end.

End Defaults.

(** ** What validation establishes, node by node *)

Module Shapes.
Import ConfigValidate.

(** The node of a servant that [validate_runtime_config_dict] accepted. *)
Definition servant_checked (cfg : value) (servant : string) : Prop :=
  exists servants nd default_model allowed wd pm pe,
    item cfg "servants" = Ok servants /\
    item servants servant = Ok (VDict nd) /\
    dict_get "default_model" nd = Some (VStr default_model) /\
    dict_get "allowed_models" nd = Some (VList (map VStr allowed)) /\
    In default_model allowed /\
    dict_get "wrapper_defaults" nd = Some (VDict wd) /\
    (exists ms, dict_get "timeout_ms" wd = Some ms /\ non_negative_int ms = true) /\
    (exists mode,
        dict_get "timeout_mode" wd = Some (VStr mode) /\ In mode TIMEOUT_MODE_VALUES) /\
    (servant = "codex" ->
     exists e, dict_get "effort" wd = Some (VStr e) /\ In e CODEX_EFFORT_VALUES) /\
    por (dget nd "purpose_models") (VDict []) = VDict pm /\
    (forall k v, In (k, v) pm -> In k PURPOSE_KEYS /\ exists m, v = VStr m /\ In m allowed) /\
    por (dget nd "purpose_efforts") (VDict []) = VDict pe /\
    (forall k v, In (k, v) pe ->
       In k PURPOSE_KEYS /\ exists e, v = VStr e /\ In e CODEX_EFFORT_VALUES).

(** Every servant was accepted. *)
Definition all_checked (cfg : value) : Prop :=
  forall servant, In servant SERVANT_NAMES -> servant_checked cfg servant.

(** A table of options whose values are strings, with a valid timeout mode
    when it has one. *)
Definition options_checked (options : dict) : Prop :=
  forall k v, In (k, v) options ->
    exists s, v = VStr s /\ (k = "timeout_mode" -> In s TIMEOUT_MODE_VALUES).

End Shapes.

(** ** What v2 validation establishes, node by node *)

Module ShapesV2.
Import ConfigValidateV2 ManifestV2.

(** [model] belongs to the allowed models of the servant [tool]. *)
Definition model_allowed (cfg tool model : value) : Prop :=
  exists servants servant allowed,
    item cfg "servants" = Ok servants /\
    item_v servants tool = Ok servant /\
    item servant "allowed_models" = Ok allowed /\
    py_in model allowed = Ok true.

(** [web] is [off] or one of the web research modes of [tool]. *)
Definition web_mode_fits (tool web : value) : Prop :=
  py_eq web (VStr "off") = true \/
  exists modes,
    table_item_v TOOL_WEB_MODE_MAP tool = Ok modes /\ in_str_set web modes = Ok true.

(** The node of a step default that validation accepted. *)
Definition step_default_checked (node : value) : Prop :=
  exists nd tool mode web,
    node = VDict nd /\
    dict_get "default_tool" nd = Some (VStr tool) /\ In tool TOOLS /\
    dict_get "default_mode" nd = Some (VStr mode) /\ In mode DEFAULT_MODES /\
    dict_get "web_research_mode" nd = Some (VStr web) /\ In web WEB_RESEARCH_MODES /\
    web_mode_fits (VStr tool) (VStr web).

(** The skill file of a phase that validation accepted. *)
Definition skill_checked (cfg : value) (phase : string) : Prop :=
  exists skills nd first_default other_defaults methods step_defaults,
    item cfg "skills" = Ok skills /\
    item skills phase = Ok (VDict nd) /\
    dict_get "default_method_ids" nd
    = Some (VList (map VStr (first_default :: other_defaults))) /\
    dict_get "methods" nd = Some (VDict methods) /\
    dict_get "step_defaults" nd = Some (VDict step_defaults) /\
    (forall m node, dict_get m methods = Some node ->
       exists md enabled steps,
         node = VDict md /\
         dict_get "enabled" md = Some (VBool enabled) /\
         dict_get "steps" md = Some (VList (map VStr steps)) /\
         steps <> [] /\
         forall s, In s steps -> exists snode, dict_get s step_defaults = Some snode) /\
    (forall s snode, dict_get s step_defaults = Some snode -> step_default_checked snode).

(** The servant file of a tool that validation accepted. *)
Definition servant_checked (cfg : value) (tool : string) : Prop :=
  exists servants nd default_model allowed,
    item cfg "servants" = Ok servants /\
    item servants tool = Ok (VDict nd) /\
    dict_get "default_model" nd = Some (VStr default_model) /\
    dict_get "allowed_models" nd = Some (VList (map VStr allowed)) /\
    In default_model allowed.

Definition config_checked (cfg : value) : Prop :=
  (forall phase, In phase PHASES -> skill_checked cfg phase) /\
  (forall tool, In tool TOOLS -> servant_checked cfg tool).

(** [cfg["skills"][phase][key]]. *)
Definition phase_item (cfg : value) (phase key : string) : result value :=
  skills <- item cfg "skills" ;;
  phase_cfg <- item skills phase ;;
  item phase_cfg key.

(** A field of a normalized step override: absent, or one of [choices]. *)
Definition choice_checked (ns : dict) (key : string) (choices : list string) : Prop :=
  dget ns key = VNone \/
  exists s, dget ns key = VStr s /\ s <> "" /\ In s choices.

(** A step override that [_normalize_phase_override] accepted, for the step
    [step_id] of a phase whose step defaults are [step_defaults]. *)
Definition step_override_checked (cfg step_defaults : value) (step_id : string)
    (ns : dict) : Prop :=
  choice_checked ns "tool" TOOLS /\
  choice_checked ns "default_mode" DEFAULT_MODES /\
  choice_checked ns "web_research_mode" WEB_RESEARCH_MODES /\
  exists tool web,
    effective ns "tool" step_defaults step_id "default_tool" = Ok tool /\
    effective ns "web_research_mode" step_defaults step_id "web_research_mode" = Ok web /\
    web_mode_fits tool web /\
    (forall v, dict_get "model" ns = Some v ->
               (exists m, v = VStr m) /\ model_allowed cfg tool v).

(** The overrides of a phase that [parse_manifest_v2_overrides] returns. *)
Definition override_checked (cfg : value) (phase : string) (po : dict) : Prop :=
  (dget po "method_id" = VNone \/
   exists m methods,
     dget po "method_id" = VStr m /\ m <> "" /\
     phase_item cfg phase "methods" = Ok methods /\
     py_in (VStr m) methods = Ok true) /\
  (exists tm,
      dict_get "tool_models" po = Some (VDict tm) /\
      forall tool model, In (tool, model) tm ->
        In tool TOOLS /\ (exists m, model = VStr m) /\
        model_allowed cfg (VStr tool) model) /\
  (exists so,
      dict_get "step_overrides" po = Some (VDict so) /\
      forall sid node, In (sid, node) so ->
        exists sd ns,
          phase_item cfg phase "step_defaults" = Ok sd /\
          py_in (VStr sid) sd = Ok true /\
          node = VDict ns /\
          step_override_checked cfg sd sid ns).

End ShapesV2.

(** ** Resolved steps *)

Module StepsV2.
Import ConfigValidateV2 ConfigResolveV2 ShapesV2.

(** A resolved step whose model is one of its tool's allowed models and
    whose web research mode is [off] or one of its tool's. *)
Definition step_checked (cfg : value) (sp : step_plan) : Prop :=
  model_allowed cfg (tool sp) (model sp) /\
  web_mode_fits (tool sp) (web_research_mode sp).

(** The value under [model] in the override of step [step_id], when the
    step has an override with that key. *)
Definition step_override_model (step_overrides : dict) (step_id : string)
  : option value :=
  match dict_get step_id step_overrides with
  | Some (VDict ns) => dict_get "model" ns
  | _ => None
  end.

(** The model a phase override gives to [tool]. *)
Definition phase_tool_model (tool_models : dict) (tool : value) : option value :=
  match tool with
  | VStr t => dict_get t tool_models
  | _ => None
  end.

(** [model] is [cfg["servants"][tool]["default_model"]]. *)
Definition servant_default_model (cfg tool model : value) : Prop :=
  exists servants servant,
    item cfg "servants" = Ok servants /\
    item_v servants tool = Ok servant /\
    item servant "default_model" = Ok model.

End StepsV2.

(** ** Outcomes of loading a config root *)

Module Outcomes.


(** A result, a validation error, a YAML parse error, or a [KeyError] for
    one of [keys]. *)
Definition load_outcome {A} (keys : list string) (r : result A) : Prop :=
  match r with
  | Ok _ => True
  | Raise (ValidationError _) => True
  | Raise YAMLError => True
  | Raise (KeyError k) => In k keys
  | Raise _ => False
  end.

End Outcomes.

Module Examples.
Import ConfigValidate ConfigResolve.

Definition servant_node (default_model : string) (allowed : list string)
    (wrapper_defaults purpose_models : dict) : value :=
  VDict [ ("default_model", VStr default_model);
          ("allowed_models", VList (map VStr allowed));
          ("wrapper_defaults", VDict wrapper_defaults);
          ("purpose_models", VDict purpose_models) ].

Definition profile_node (stages : list string) (flags options stage_models : dict)
  : value :=
  VDict [ ("stages", VList (map VStr stages));
          ("flags", VDict flags);
          ("options", VDict options);
          ("stage_models", VDict stage_models) ].

Definition codex_yaml : value :=
  servant_node "gpt-default" ["gpt-default"; "gpt-purpose"; "gpt-profile"; "gpt-task"]
    [ ("effort", VStr "medium"); ("timeout_ms", VInt 600000);
      ("timeout_mode", VStr "enforce") ]
    [ ("impl", VStr "gpt-purpose"); ("verify", VStr "gpt-purpose") ].

Definition gemini_yaml : value :=
  servant_node "gemini-pro" ["gemini-pro"; "gemini-flash"]
    [ ("approval_mode", VStr "default"); ("sandbox", VBool false);
      ("timeout_ms", VInt 300000); ("timeout_mode", VStr "wait_done") ]
    [].

Definition copilot_yaml : value :=
  servant_node "copilot-1" ["copilot-1"]
    [ ("timeout_ms", VInt 300000); ("timeout_mode", VStr "enforce") ]
    [].

(** The impl pipeline: [safe_impl] gives [codex_impl] a per-stage model; the
    name [review_only] is also a profile of the review pipeline. *)
Definition impl_pipeline_yaml : value :=
  VDict [ ("default_profile", VStr "safe_impl");
          ("profiles", VDict [
             ("safe_impl",
              profile_node ["codex_brief"; "codex_impl"; "gemini_review"]
                [("enable_brief", VBool true)] [("impl_mode", VStr "safe")]
                [("codex_impl", VStr "gpt-profile")]);
             ("one_shot_impl",
              profile_node ["codex_runbook"; "codex_verify"]
                [("enable_verify", VBool true)]
                [("impl_mode", VStr "one_shot"); ("timeout_mode", VStr "wait_done")]
                []);
             ("review_only", profile_node ["codex_review"] [] [] []) ]) ].

Definition review_pipeline_yaml : value :=
  VDict [ ("default_profile", VStr "codex_only");
          ("profiles", VDict [
             ("codex_only",
              profile_node ["codex_review"] [] [("review_mode", VStr "codex_only")] []);
             ("review_cross",
              profile_node ["codex_review"; "gemini_review"] []
                [("review_mode", VStr "cross")] []);
             ("review_only", profile_node ["gemini_review"] [] [] []) ]) ].

Definition plan_pipeline_yaml : value :=
  VDict [ ("default_profile", VStr "standard");
          ("profiles", VDict [ ("standard", VDict []) ]) ].

(** The validated config the six files give. *)
Definition cfg : value :=
  VDict [ ("version", VInt 1);
          ("servants", VDict [ ("codex", codex_yaml);
                               ("gemini", gemini_yaml);
                               ("copilot", copilot_yaml) ]);
          ("pipelines", VDict [ ("impl", impl_pipeline_yaml);
                                ("review", review_pipeline_yaml);
                                ("plan", plan_pipeline_yaml) ]) ].

(** A config root holding the six files, and one more file in [servant/]. *)
Definition config_root : Fs.tree :=
  [ ("servant", Fs.Dir [ ("codex.yaml", Fs.File (Some codex_yaml));
                         ("gemini.yaml", Fs.File (Some gemini_yaml));
                         ("copilot.yaml", Fs.File (Some copilot_yaml));
                         ("legacy.yaml", Fs.File (Some (VDict []))) ]);
    ("pipeline", Fs.Dir [ ("impl-pipeline.yaml", Fs.File (Some impl_pipeline_yaml));
                          ("review-pipeline.yaml", Fs.File (Some review_pipeline_yaml));
                          ("plan-pipeline.yaml", Fs.File (Some plan_pipeline_yaml)) ]) ].

(** [routing.model.codex: gpt-task]. *)
Definition manifest_model : value :=
  VDict [ ("routing", VDict [ ("model", VDict [ ("codex", VStr "gpt-task") ]) ]) ].

(** [routing.pipeline.options.impl_mode: one_shot], with a flag override. *)
Definition manifest_one_shot : value :=
  VDict [ ("routing", VDict [
            ("pipeline", VDict [
               ("options", VDict [ ("impl_mode", VStr "one_shot") ]);
               ("flags", VDict [ ("enable_brief", VBool false) ]) ]) ]) ].

(** [routing.intent: codex_only] with [routing.pipeline.flags.enable_review:
    false]. *)
Definition manifest_no_review : value :=
  VDict [ ("routing", VDict [
            ("intent", VStr "codex_only");
            ("pipeline", VDict [
               ("flags", VDict [ ("enable_review", VBool false) ]) ]) ]) ].

(** A servant node whose default model is not one of its allowed models. *)
Definition servant_misfit : value :=
  servant_node "x" ["y"; "z"]
    [ ("timeout_ms", VInt 600000); ("timeout_mode", VStr "enforce") ] [].

(** The same servant node with a key that no servant may have. *)
Definition servant_misfit_unknown_key : value :=
  VDict [ ("default_model", VStr "x");
          ("allowed_models", VList [VStr "y"; VStr "z"]);
          ("notes", VStr "to be reviewed") ].

(** A config root whose [servant/codex.yaml] holds [codex]. *)
Definition root_with_codex (codex : value) : Fs.tree :=
  [ ("servant", Fs.Dir [ ("codex.yaml", Fs.File (Some codex));
                         ("gemini.yaml", Fs.File (Some gemini_yaml));
                         ("copilot.yaml", Fs.File (Some copilot_yaml)) ]);
    ("pipeline", Fs.Dir [ ("impl-pipeline.yaml", Fs.File (Some impl_pipeline_yaml));
                          ("review-pipeline.yaml", Fs.File (Some review_pipeline_yaml));
                          ("plan-pipeline.yaml", Fs.File (Some plan_pipeline_yaml)) ]) ].

End Examples.

Module ExamplesV2.

Definition skill_yaml (skill : string) : value :=
  VDict [ ("version", VInt 2);
          ("skill", VStr skill);
          ("default_method_ids", VList [VStr "standard"]);
          ("methods", VDict [
             ("standard", VDict [ ("enabled", VBool true);
                                  ("steps", VList [VStr "draft"; VStr "check"]);
                                  ("allowed_tools", VList [VStr "codex"; VStr "gemini"]);
                                  ("gate_profile", VStr "standard") ]);
             ("deep", VDict [ ("enabled", VBool false);
                              ("steps", VList [VStr "draft"; VStr "research"]);
                              ("allowed_tools", VList [VStr "gemini"]);
                              ("gate_profile", VStr "strict") ]) ]);
          ("step_defaults", VDict [
             ("draft", VDict [ ("default_tool", VStr "codex");
                               ("default_mode", VStr "normal");
                               ("web_research_mode", VStr "off") ]);
             ("check", VDict [ ("default_tool", VStr "codex");
                               ("default_mode", VStr "analysis_only");
                               ("web_research_mode", VStr "codex_explicit") ]);
             ("research", VDict [ ("default_tool", VStr "gemini");
                                  ("default_mode", VStr "analysis_only");
                                  ("web_research_mode", VStr "gemini_auto") ]) ]) ].

Definition servant_yaml (tool default_model : string) (allowed web_modes : list string)
  : value :=
  VDict [ ("version", VInt 2);
          ("tool", VStr tool);
          ("default_model", VStr default_model);
          ("allowed_models", VList (map VStr allowed));
          ("wrapper_defaults", VDict [ ("timeout_ms", VInt 600000);
                                       ("timeout_mode", VStr "enforce") ]);
          ("web_capabilities", VDict [ ("modes", VList (map VStr web_modes)) ]) ].

Definition routing_yaml : value :=
  VDict [ ("version", VInt 2);
          ("stop_policy", VDict [
             ("conditions", VList [
                VDict [ ("impact_surface", VStr "high");
                        ("confidence", VStr "low");
                        ("action", VStr "STOP_AND_CONFIRM") ] ]);
             ("on_stop", VStr "write_reason_codes_to_routing_result") ]);
          ("confidence_policy", VDict [
             ("values", VList [VStr "high"; VStr "medium"; VStr "low"]);
             ("default", VStr "medium") ]);
          ("hard_stop_reason_map", VDict [ ("AMBIGUOUS", VStr "ask the user") ]);
          ("reproducibility_policy", VDict [
             ("deterministic_required", VBool true);
             ("on_mismatch", VStr "record_ROUTING_NON_DETERMINISTIC_and_stop") ]);
          ("route_decider_policy", VDict [
             ("phase_prompt_paths", VDict [ ("plan", VStr "prompts/plan.md");
                                            ("impl", VStr "prompts/impl.md");
                                            ("review", VStr "prompts/review.md") ]);
             ("schema_version", VInt 2) ]) ].

Definition review_parallel_yaml : value :=
  VDict [ ("version", VInt 2);
          ("mode", VStr "finding-first");
          ("join_barrier", VStr "required");
          ("apply_order", VStr "sequential");
          ("worker_output_mode", VStr "analysis_only");
          ("merge_required", VBool true);
          ("artifacts", VDict [ ("findings_dir", VStr "findings");
                                ("merged", VStr "merged.md");
                                ("queue", VStr "queue.json") ]) ].

Definition web_evidence_yaml : value :=
  VDict [ ("version", VInt 2);
          ("strictness", VStr "strict");
          ("required_fields",
           VList [VStr "evidence_id"; VStr "url"; VStr "accessed_at"; VStr "claim_summary"]);
          ("reason_code_map", VDict [ ("WEB_EVIDENCE_MISSING", VStr "no evidence") ]);
          ("gate_action_on_violation", VStr "reject_and_stop") ].

Definition skills_dir : Fs.tree :=
  [ ("plan.yaml", Fs.File (Some (skill_yaml "plan")));
    ("impl.yaml", Fs.File (Some (skill_yaml "impl")));
    ("review.yaml", Fs.File (Some (skill_yaml "review"))) ].

Definition servants_dir : Fs.tree :=
  [ ("codex.yaml",
     Fs.File (Some (servant_yaml "codex" "gpt-default" ["gpt-default"; "gpt-task"]
                      ["off"; "codex_explicit"])));
    ("gemini.yaml",
     Fs.File (Some (servant_yaml "gemini" "gemini-pro" ["gemini-pro"]
                      ["off"; "gemini_auto"])));
    ("copilot.yaml",
     Fs.File (Some (servant_yaml "copilot" "copilot-1" ["copilot-1"] ["off"]))) ].

Definition policies_dir : Fs.tree :=
  [ ("routing.yaml", Fs.File (Some routing_yaml));
    ("review_parallel.yaml", Fs.File (Some review_parallel_yaml));
    ("web_evidence.yaml", Fs.File (Some web_evidence_yaml)) ].

(** A v2 config root with its nine files, and [README.md] in [skills/]. *)
Definition config_root : Fs.tree :=
  [ ("skills", Fs.Dir (("README.md", Fs.File None) :: skills_dir));
    ("servants", Fs.Dir servants_dir);
    ("policies", Fs.Dir policies_dir) ].

(** The same root with one more [.yaml] file in [policies/]. *)
Definition config_root_extra : Fs.tree :=
  [ ("skills", Fs.Dir skills_dir);
    ("servants", Fs.Dir servants_dir);
    ("policies", Fs.Dir (("draft.yaml", Fs.File (Some (VDict []))) :: policies_dir)) ].

(** The validated v2 config of [config_root] at ["/repo/configs-v2"]. *)
Definition cfg : value :=
  match ConfigValidateV2.load_and_validate_v2_config config_root "/repo/configs-v2" with
  | Ok c => c
  | Raise _ => VNone
  end.

(** The same root with [skills/plan.yaml] holding text that is not YAML. *)
Definition config_root_unparseable : Fs.tree :=
  [ ("skills", Fs.Dir (("plan.yaml", Fs.File None) :: tl skills_dir));
    ("servants", Fs.Dir servants_dir);
    ("policies", Fs.Dir policies_dir) ].

(** Manifest overrides that declare method [deep] for phase [plan]. *)
Definition manifest_deep : value :=
  VDict [ ("phase_overrides",
           VDict [ ("plan", VDict [ ("method_id", VStr "deep") ]) ]) ].

(** A servant file whose default model is not one of its allowed models. *)
Definition servant_misfit : value := servant_yaml "codex" "x" ["y"; "z"] ["off"].

(** The same servant file with a key that no servant file may have. *)
Definition servant_misfit_unknown_key : value :=
  VDict [ ("version", VInt 2);
          ("tool", VStr "codex");
          ("default_model", VStr "x");
          ("allowed_models", VList [VStr "y"; VStr "z"]);
          ("notes", VStr "to be reviewed") ].

(** A servant file whose [wrapper_defaults] has the key [retries]. *)
Definition servant_unknown_wrapper_key : value :=
  VDict [ ("version", VInt 2);
          ("tool", VStr "codex");
          ("default_model", VStr "gpt-default");
          ("allowed_models", VList [VStr "gpt-default"]);
          ("wrapper_defaults", VDict [ ("timeout_ms", VInt 600000);
                                       ("timeout_mode", VStr "enforce");
                                       ("retries", VInt 3) ]);
          ("web_capabilities", VDict [ ("modes", VList [VStr "off"]) ]) ].

(** A v2 config root whose [servants/codex.yaml] holds [codex]. *)
Definition root_with_codex (codex : value) : Fs.tree :=
  [ ("skills", Fs.Dir skills_dir);
    ("servants", Fs.Dir (("codex.yaml", Fs.File (Some codex)) :: tl servants_dir));
    ("policies", Fs.Dir policies_dir) ].

End ExamplesV2.

(** More manifests and configs, for the properties of the resolvers. *)
Module MoreExamples.

(** [routing.intent: review_cross]. *)
Definition manifest_intent : value :=
  VDict [ ("routing", VDict [ ("intent", VStr "review_cross") ]) ].

(** A task manifest whose [config_v2] section gives phase [impl] a model for
    codex and moves its step [check] to gemini. *)
Definition manifest_v2 : value :=
  VDict [ ("task", VStr "demo");
          ("config_v2", VDict [
             ("phase_overrides", VDict [
                ("impl", VDict [
                   ("tool_models", VDict [ ("codex", VStr "gpt-task") ]);
                   ("step_overrides", VDict [
                      ("check", VDict [ ("tool", VStr "gemini");
                                        ("web_research_mode", VStr "gemini_auto");
                                        ("model", VStr "gemini-pro") ]) ]) ]) ]) ]) ].

End MoreExamples.

(* ===================================================================== *)
(** * Properties                                                          *)
(* ===================================================================== *)

(** ** The exception monad and the loops *)

Module Facts.

Lemma bind_ok {A B} (m : result A) (k : A -> result B) (b : B) :
  bind m k = Ok b -> exists a, m = Ok a /\ k a = Ok b.
Proof.
  destruct m as [a | e]; simpl; intros H.
  - exists a; split; [reflexivity | exact H].
  - discriminate H.
Qed.

Lemma when_ok (c : bool) (body : result unit) :
  when c body = Ok tt -> c = false \/ body = Ok tt.
Proof. destruct c; simpl; auto. Qed.

Lemma when_raise_ok (c : bool) (e : exn) (u : unit) :
  when c (Raise e) = Ok u -> c = false.
Proof. destruct c; simpl; [discriminate | reflexivity]. Qed.

Lemma for_each_ok {A} (body : A -> result unit) (l : list A) (u : unit) :
  for_each body l = Ok u -> forall x, In x l -> body x = Ok tt.
Proof.
  induction l as [| y l IH]; simpl; intros H x Hx; [contradiction |].
  apply bind_ok in H as ([] & Hy & Hl).
  destruct Hx as [<- | Hx]; [exact Hy | exact (IH Hl x Hx)].
Qed.

Lemma for_each_intro {A} (body : A -> result unit) (l : list A) :
  (forall x, In x l -> body x = Ok tt) -> for_each body l = Ok tt.
Proof.
  induction l as [| y l IH]; simpl; intros H; [reflexivity |].
  rewrite (H y (or_introl eq_refl)); simpl.
  apply IH; intros x Hx; apply H; right; exact Hx.
Qed.

Lemma filter_m_pure {A} (keep : A -> result bool) (p : A -> bool) (l : list A) :
  (forall x, In x l -> keep x = Ok (p x)) -> filter_m keep l = Ok (filter p l).
Proof.
  induction l as [| y l IH]; simpl; intros H; [reflexivity |].
  rewrite (H y (or_introl eq_refl)); simpl.
  rewrite IH by (intros x Hx; apply H; right; exact Hx); simpl.
  reflexivity.
Qed.

Lemma mem_In (s : string) (l : list string) : mem s l = true <-> In s l.
Proof.
  unfold mem; rewrite existsb_exists; split.
  - intros (x & Hx & E); apply String.eqb_eq in E; subst; exact Hx.
  - intros H; exists s; split; [exact H | apply String.eqb_refl].
Qed.

Lemma dict_get_In (k : string) (d : dict) (v : value) :
  dict_get k d = Some v -> In (k, v) d.
Proof.
  induction d as [| [k' v'] d IH]; simpl; [discriminate |].
  destruct (String.eqb k k') eqn:E.
  - apply String.eqb_eq in E; subst; intros [= ->]; left; reflexivity.
  - intros H; right; exact (IH H).
Qed.

Lemma dict_get_set_same (k : string) (v : value) (d : dict) :
  dict_get k (dict_set k v d) = Some v.
Proof.
  induction d as [| [k' v'] d IH]; simpl.
  - rewrite String.eqb_refl; reflexivity.
  - destruct (String.eqb k k') eqn:E; simpl.
    + rewrite String.eqb_refl; reflexivity.
    + rewrite E; exact IH.
Qed.

Lemma dict_get_set_other (k k' : string) (v : value) (d : dict) :
  k <> k' -> dict_get k (dict_set k' v d) = dict_get k d.
Proof.
  intros N; induction d as [| [k0 v0] d IH]; simpl.
  - destruct (String.eqb k k') eqn:E; [apply String.eqb_eq in E; contradiction | reflexivity].
  - destruct (String.eqb k' k0) eqn:E0; simpl.
    + apply String.eqb_eq in E0; subst k0.
      destruct (String.eqb k k') eqn:E; [apply String.eqb_eq in E; contradiction | reflexivity].
    + destruct (String.eqb k k0); [reflexivity | exact IH].
Qed.

Lemma sorted_set_nil (l : list string) : sorted_set l = [] -> l = [].
Proof.
  destruct l as [| x l]; [reflexivity |]. simpl.
  destruct (sorted_set l) as [| y r]; simpl; [discriminate |].
  destruct (String.eqb x y); [discriminate |].
  destruct (String.leb x y); discriminate.
Qed.

(** No key outside [allowed]: what [_ensure_keys] establishes. *)
Lemma no_unknown_keys (allowed keys : list string) :
  nonempty (sorted_set (filter (fun k => negb (mem k allowed)) keys)) = false ->
  forall k, In k keys -> In k allowed.
Proof.
  intros H k Hk.
  destruct (sorted_set _) eqn:E; [| discriminate H].
  apply sorted_set_nil in E.
  destruct (mem k allowed) eqn:M; [apply mem_In; exact M |].
  assert (In k (filter (fun k => negb (mem k allowed)) keys)) as Hin
    by (apply filter_In; split; [exact Hk | rewrite M; reflexivity]).
  rewrite E in Hin. contradiction.
Qed.

(** A key outside [allowed] makes the list of unknown keys non-empty. *)
Lemma unknown_key_listed (allowed keys : list string) (k : string) :
  In k keys -> mem k allowed = false ->
  nonempty (sorted_set (filter (fun k => negb (mem k allowed)) keys)) = true.
Proof.
  intros Hk M.
  destruct (nonempty _) eqn:E; [reflexivity |].
  pose proof (no_unknown_keys _ _ E k Hk) as H. apply mem_In in H. congruence.
Qed.

Lemma no_unknown_keys_intro (allowed keys : list string) :
  (forall k, In k keys -> In k allowed) ->
  sorted_set (filter (fun k => negb (mem k allowed)) keys) = [].
Proof.
  intros H.
  assert (filter (fun k => negb (mem k allowed)) keys = []) as ->; [| reflexivity].
  induction keys as [| x keys IH]; simpl; [reflexivity |].
  assert (mem x allowed = true) as -> by (apply mem_In; apply H; left; reflexivity).
  simpl. apply IH. intros k Hk; apply H; right; exact Hk.
Qed.

End Facts.
Import Facts Filtering Validated Resolved Methods Roots.

Ltac bind_inv H :=
  let a := fresh "a" in
  let E := fresh "E" in
  apply bind_ok in H as (a & E & H).

(** ** Dispatch flag filtering *)

Module FlagFilters.
Import ConfigResolve.

Lemma subseq_refl {A} (l : list A) : subseq l l.
Proof. induction l; constructor; assumption. Qed.

Lemma subseq_filter {A} (p : A -> bool) (l : list A) : subseq (filter p l) l.
Proof.
  induction l as [| x l IH]; simpl; [constructor |].
  destruct (p x); constructor; exact IH.
Qed.

Lemma subseq_In {A} (out l : list A) (x : A) : subseq out l -> In x out -> In x l.
Proof.
  induction 1; simpl; intros Hx; [exact Hx | right; auto |].
  destruct Hx as [-> | Hx]; [left; reflexivity | right; auto].
Qed.

(** A filter with a stronger test keeps a subsequence of what the weaker
    one keeps. *)
Lemma subseq_filter_weaken {A} (p q : A -> bool) (l : list A) :
  (forall x, In x l -> q x = true -> p x = true) ->
  subseq (filter q l) (filter p l).
Proof.
  induction l as [| x l IH]; simpl; intros H; [constructor |].
  assert (IH' : subseq (filter q l) (filter p l))
    by (apply IH; intros y Hy; apply H; right; exact Hy).
  destruct (q x) eqn:Eq.
  - rewrite (H x (or_introl eq_refl) Eq). constructor; exact IH'.
  - destruct (p x); [constructor |]; exact IH'.
Qed.

Lemma role_index (s : string) :
  has_role s -> index (split1 "_" s) 1 = Ok (stage_role s).
Proof.
  unfold has_role, split1, stage_role.
  assert (G : forall c t, contains_char c t = true -> exists h r, split_once c t = Some (h, r)).
  { intros c; induction t as [| a t IH]; simpl; [discriminate |].
    destruct (Ascii.eqb a c); simpl; intros H.
    - eexists _, _; reflexivity.
    - destruct (IH H) as (h & r & ->). eexists _, _; reflexivity. }
  intros H; destruct (G _ _ H) as (h & r & ->); reflexivity.
Qed.

Lemma drop_pure (flags : dict) (f : dispatch_flag) (l : list string) :
  (forall s, In s l -> has_role s) ->
  drop f flags l = Ok (filter (survives flags f) l).
Proof.
  intros Hl.
  assert (Hid : forall p : string -> bool, (forall s, p s = true) -> filter p l = l).
  { intros p Hp. induction l as [| x l' IH]; simpl; [reflexivity |].
    rewrite Hp. f_equal. apply IH. intros s Hs; apply Hl; right; exact Hs. }
  destruct f; unfold drop, drop_brief, drop_verify, drop_review, survives; simpl flag_name;
    destruct (disabled flags _); simpl negb; simpl orb;
    try (rewrite Hid by reflexivity; reflexivity).
  - reflexivity.
  - apply filter_m_pure; intros s Hs; rewrite (role_index s (Hl s Hs)); reflexivity.
  - apply filter_m_pure; intros s Hs; rewrite (role_index s (Hl s Hs)); reflexivity.
Qed.

(** Applying any sequence of the steps keeps exactly the stages that
    survive every flag of the sequence. *)
Lemma steps_pure (flags : dict) (steps : list dispatch_flag) (l : list string) :
  (forall s, In s l -> has_role s) ->
  fold_m (fun out f => drop f flags out) steps l
  = Ok (filter (fun s => forallb (fun f => survives flags f s) steps) l).
Proof.
  revert l; induction steps as [| f steps IH]; intros l Hl; simpl.
  - f_equal. induction l as [| x l IHl]; simpl; [reflexivity |].
    f_equal. apply IHl. intros s Hs; apply Hl; right; exact Hs.
  - rewrite (drop_pure flags f l Hl); simpl.
    rewrite IH by (intros s Hs; apply filter_In in Hs; apply Hl; tauto).
    f_equal. clear. induction l as [| x l IHl]; simpl; [reflexivity |].
    destruct (survives flags f x); simpl; rewrite IHl; reflexivity.
Qed.

Lemma apply_filters_pure (flags : dict) (stages : list string) :
  (forall s, In s stages -> has_role s) ->
  _apply_dispatch_flag_filters stages flags = Ok (filter (kept flags) stages).
Proof.
  intros Hl.
  pose proof (steps_pure flags [EnableBrief; EnableVerify; EnableReview] stages Hl) as H.
  unfold _apply_dispatch_flag_filters. simpl in H.
  destruct (drop_brief flags stages) as [o1 | e]; simpl in *; [| discriminate H].
  destruct (drop_verify flags o1) as [o2 | e]; simpl in *; [| discriminate H].
  destruct (drop_review flags o2) as [o3 | e]; simpl in *; [| discriminate H].
  exact H.
Qed.

(** C6: on stage names that all have a role part, flag filtering returns a
    subsequence of its input; the three disable-filters applied in any order
    give the result of [_apply_dispatch_flag_filters]; and flags that disable
    at least what [flags] disables give a subsequence of the result under
    [flags], so no removed stage comes back. *)
Theorem flag_filtering_order_independent_and_monotonic
    (stages : list string) (flags : dict) :
  (forall s, In s stages -> contains_char "_" s = true) ->
  exists out,
    _apply_dispatch_flag_filters stages flags = Ok out /\
    subseq out stages /\
    (forall steps,
        Permutation steps [EnableBrief; EnableVerify; EnableReview] ->
        fold_m (fun acc f => drop f flags acc) steps stages = Ok out) /\
    (forall flags',
        (forall f, disabled flags (flag_name f) = true ->
                   disabled flags' (flag_name f) = true) ->
        exists out',
          _apply_dispatch_flag_filters stages flags' = Ok out' /\
          subseq out' out /\
          (forall s, In s out' -> In s out)).
Proof.
  intros Hl. exists (filter (kept flags) stages).
  split; [apply apply_filters_pure; exact Hl |].
  split; [apply subseq_filter |].
  split.
  - intros steps Hp. rewrite (steps_pure flags steps stages Hl). f_equal.
    apply filter_ext; intros s. unfold kept.
    apply eq_true_iff_eq. rewrite !forallb_forall. split; intros H f Hf; apply H.
    + apply Permutation_in with (l := [EnableBrief; EnableVerify; EnableReview]);
        [apply Permutation_sym; exact Hp | exact Hf].
    + apply Permutation_in with (l := steps); assumption.
  - intros flags' Hmore. exists (filter (kept flags') stages).
    split; [apply apply_filters_pure; exact Hl |].
    assert (S : subseq (filter (kept flags') stages) (filter (kept flags) stages)).
    { apply subseq_filter_weaken. intros s _. unfold kept.
      rewrite !forallb_forall. intros H f Hf. specialize (H f Hf).
      unfold survives in *. specialize (Hmore f).
      destruct (disabled flags (flag_name f)); simpl; [| reflexivity].
      rewrite (Hmore eq_refl) in H. simpl in H. exact H. }
    split; [exact S |].
    intros s Hs; exact (subseq_In _ _ s S Hs).
Qed.

(** The filtering of a five-stage plan with only [enable_verify] disabled:
    it is the same in any order of the three steps, and flags that disable
    more keep a part of it. *)
Lemma flag_filtering_witness :
  exists out,
    _apply_dispatch_flag_filters
      ["codex_brief"; "codex_impl"; "gemini_static_verify"; "codex_review"; "codex_verify"]
      [("enable_verify", VBool false)] = Ok out /\
    subseq out
      ["codex_brief"; "codex_impl"; "gemini_static_verify"; "codex_review"; "codex_verify"] /\
    (forall steps,
        Permutation steps [EnableBrief; EnableVerify; EnableReview] ->
        fold_m (fun acc f => drop f [("enable_verify", VBool false)] acc) steps
          ["codex_brief"; "codex_impl"; "gemini_static_verify"; "codex_review"; "codex_verify"]
        = Ok out) /\
    (forall flags',
        (forall f, disabled [("enable_verify", VBool false)] (flag_name f) = true ->
                   disabled flags' (flag_name f) = true) ->
        exists out',
          _apply_dispatch_flag_filters
            ["codex_brief"; "codex_impl"; "gemini_static_verify"; "codex_review"; "codex_verify"]
            flags' = Ok out' /\
          subseq out' out /\
          (forall s, In s out' -> In s out)).
Proof.
  apply (flag_filtering_order_independent_and_monotonic
           ["codex_brief"; "codex_impl"; "gemini_static_verify"; "codex_review"; "codex_verify"]
           [("enable_verify", VBool false)]).
  intros s [<- | [<- | [<- | [<- | [<- | []]]]]]; reflexivity.
Defined.

Example flag_filtering_run :
  _apply_dispatch_flag_filters
    ["codex_brief"; "codex_impl"; "gemini_static_verify"; "codex_review"; "codex_verify"]
    [("enable_verify", VBool false); ("enable_brief", VBool false)]
  = Ok ["codex_impl"; "codex_review"].
Proof. reflexivity. Qed.

End FlagFilters.

(** ** The shape of a successful dispatch resolution *)

Module ResolveFacts.
Import ConfigValidate ConfigResolve.

Lemma fold_m_inv {A B} (step : B -> A -> result B) (I : B -> Prop) (l : list A) :
  forall acc r,
    I acc ->
    (forall acc x acc', In x l -> I acc -> step acc x = Ok acc' -> I acc') ->
    fold_m step l acc = Ok r -> I r.
Proof.
  induction l as [| y l IH]; simpl; intros acc r Hacc Hstep H.
  - injection H as <-; exact Hacc.
  - bind_inv H. apply (IH a r); [eapply Hstep; eauto | | exact H].
    intros acc0 x acc' Hx; apply Hstep; right; exact Hx.
Qed.

Lemma in_str_set_true (v : value) (s : list string) :
  in_str_set v s = Ok true -> exists k, v = VStr k /\ In k s.
Proof.
  destruct v; simpl; try discriminate.
  intros [= H]. exists s0; split; [reflexivity | apply mem_In; exact H].
Qed.

Lemma resolve_dispatch_run (cfg manifest : value) (plan_name intent_default : string)
    (plan : dispatch_plan) :
  resolve_dispatch cfg manifest plan_name intent_default = Ok plan ->
  exists r, run_of cfg manifest plan_name intent_default plan r.
Proof.
  unfold resolve_dispatch. intros H.
  apply bind_ok in H as (rmo & Ermo & H).
  apply bind_ok in H as (sel & Esel & H).
  apply bind_ok in H as (sp & Esp & H).
  apply bind_ok in H as ([] & Ene & H).
  apply bind_ok in H as (tm & Etm & H).
  apply bind_ok in H as (pm & Epm & H).
  apply bind_ok in H as (cpe & Ecpe & H).
  apply bind_ok in H as (wd & Ewd & H).
  apply bind_ok in H as (bad & Ebad & H).
  apply bind_ok in H as ([] & Ebad' & H).
  apply bind_ok in H as ([] & Esm & H).
  apply bind_ok in H as ([] & Ese & H).
  apply bind_ok in H as (maps & Eloop & H).
  injection H as <-. simpl.
  match type of Eloop with
  | fold_m (resolve_stage ?env) _ _ = _ =>
      exists {| run_sel := sel; run_maps := maps; run_env := env |}
  end.
  constructor; simpl; try reflexivity; try assumption.
  - apply when_raise_ok in Ene. intros ->. discriminate Ene.
  - intros stage_name stage_model Hin.
    pose proof (for_each_ok _ _ _ Esm _ Hin) as Hc. simpl in Hc.
    apply bind_ok in Hc as (tool & Et & Hc).
    apply bind_ok in Hc as (servants & Es & Hc).
    apply bind_ok in Hc as (node & En & Hc).
    apply bind_ok in Hc as (allowed & Ea & Hc).
    apply bind_ok in Hc as (ok & Eok & Hc).
    apply when_raise_ok in Hc. destruct ok; [| discriminate Hc].
    exists tool, servants, node, allowed. auto.
Qed.

(** What one turn of the stage loop does to the maps. *)
Lemma resolve_stage_ok (env : stage_env) (acc acc' : stage_maps) (stage_name : string) :
  resolve_stage env acc stage_name = Ok acc' ->
  exists tool stage_model mode,
    _stage_tool stage_name = Ok tool /\
    resolve_stage_model env tool stage_name
      (_dispatch_stage_purpose stage_name (e_pipeline env) (e_runtime_options env))
    = Ok stage_model /\
    In mode TIMEOUT_MODE_VALUES /\
    m_stage_models acc' = dict_set stage_name stage_model (m_stage_models acc) /\
    m_stage_timeout_modes acc'
    = dict_set stage_name (VStr mode) (m_stage_timeout_modes acc).
Proof.
  unfold resolve_stage. intros H.
  apply bind_ok in H as (tool & Et & H).
  apply bind_ok in H as (stage_model & Em & H).
  apply bind_ok in H as (ms & Ems & H).
  apply bind_ok in H as ([] & Ems' & H).
  apply bind_ok in H as (mode & Emode & H).
  apply bind_ok in H as (ok & Eok & H).
  apply bind_ok in H as ([] & Eok' & H).
  apply when_raise_ok in Eok'. destruct ok; [| discriminate Eok'].
  apply in_str_set_true in Eok as (k & -> & Hk).
  exists tool, stage_model, k.
  repeat split; try assumption.
  - destruct (String.eqb tool "codex").
    + apply bind_ok in H as (eff & _ & H).
      apply bind_ok in H as (ok & _ & H).
      apply bind_ok in H as ([] & _ & H).
      injection H as <-; reflexivity.
    + injection H as <-; reflexivity.
  - destruct (String.eqb tool "codex").
    + apply bind_ok in H as (eff & _ & H).
      apply bind_ok in H as (ok & _ & H).
      apply bind_ok in H as ([] & _ & H).
      injection H as <-; reflexivity.
    + injection H as <-; reflexivity.
Qed.

(** After the loop, every stage of the plan has the model and the timeout
    mode its own turn gave it. *)
Lemma stage_loop_ok (env : stage_env) (l : list string) :
  forall acc maps,
    fold_m (resolve_stage env) l acc = Ok maps ->
    forall stage_name, In stage_name l ->
    exists tool stage_model mode,
      _stage_tool stage_name = Ok tool /\
      resolve_stage_model env tool stage_name
        (_dispatch_stage_purpose stage_name (e_pipeline env) (e_runtime_options env))
      = Ok stage_model /\
      In mode TIMEOUT_MODE_VALUES /\
      dict_get stage_name (m_stage_models maps) = Some stage_model /\
      dict_get stage_name (m_stage_timeout_modes maps) = Some (VStr mode).
Proof.
  induction l as [| s l IH]; simpl; intros acc maps H x Hx; [contradiction |].
  apply bind_ok in H as (acc1 & E1 & H).
  destruct (in_dec string_dec x l) as [Hl | Hl].
  - exact (IH acc1 maps H x Hl).
  - destruct Hx as [<- | Hx]; [| contradiction].
    apply resolve_stage_ok in E1 as (tool & m & mode & Et & Em & Hmode & Hm & Hmo).
    exists tool, m, mode. repeat split; try assumption.
    + assert (G : dict_get s (m_stage_models maps) = dict_get s (m_stage_models acc1)).
      { revert H Hl. clear. revert acc1.
        induction l as [| y l IH]; simpl; intros acc1 H Hl.
        - injection H as <-; reflexivity.
        - apply bind_ok in H as (acc2 & E2 & H).
          rewrite (IH acc2 H) by tauto.
          apply resolve_stage_ok in E2 as (? & ? & ? & _ & _ & _ & -> & _).
          apply dict_get_set_other. intros ->; apply Hl; left; reflexivity. }
      rewrite G, Hm. apply dict_get_set_same.
    + assert (G : dict_get s (m_stage_timeout_modes maps)
                  = dict_get s (m_stage_timeout_modes acc1)).
      { revert H Hl. clear. revert acc1.
        induction l as [| y l IH]; simpl; intros acc1 H Hl.
        - injection H as <-; reflexivity.
        - apply bind_ok in H as (acc2 & E2 & H).
          rewrite (IH acc2 H) by tauto.
          apply resolve_stage_ok in E2 as (? & ? & ? & _ & _ & _ & _ & ->).
          apply dict_get_set_other. intros ->; apply Hl; left; reflexivity. }
      rewrite G, Hmo. apply dict_get_set_same.
Qed.

End ResolveFacts.

(** ** What validation guarantees *)

Module ValidFacts.
Import ConfigValidate.

Lemma expect_dict (v : value) (path : string) (u : unit) :
  _expect_type v TDict path = Ok u -> exists d, v = VDict d.
Proof.
  unfold _expect_type. intros H. apply when_raise_ok in H.
  destruct v; try discriminate H. eexists; reflexivity.
Qed.

Lemma expect_list (v : value) (path : string) (u : unit) :
  _expect_type v TList path = Ok u -> exists xs, v = VList xs.
Proof.
  unfold _expect_type. intros H. apply when_raise_ok in H.
  destruct v; try discriminate H. eexists; reflexivity.
Qed.

Lemma dget_item (d : dict) (k : string) (v : value) :
  dget d k = v -> v <> VNone -> item (VDict d) k = Ok v.
Proof.
  unfold dget, item, ditem. destruct (dict_get k d); intros <- N;
    [reflexivity | contradiction].
Qed.

Lemma str_set_items_map (path : string) (xs : list value) :
  forall i out, str_set_items path i xs = Ok out -> xs = map VStr out.
Proof.
  induction xs as [| x xs IH]; simpl; intros i out H.
  - injection H as <-; reflexivity.
  - destruct x; try discriminate H.
    destruct (is_blank s); [discriminate H |].
    apply bind_ok in H as (out' & E & H). injection H as <-.
    simpl. f_equal. exact (IH _ _ E).
Qed.

Lemma expect_str_set_map (v : value) (path : string) (out : list string) :
  _expect_str_set v path = Ok out -> v = VList (map VStr out).
Proof.
  unfold _expect_str_set. intros H.
  apply bind_ok in H as ([] & E & H).
  apply expect_list in E as (xs & ->). simpl in H.
  apply str_set_items_map in H. congruence.
Qed.

Lemma in_list_str (s : string) (l : list string) :
  in_list (VStr s) (map VStr l) = mem s l.
Proof.
  unfold in_list, mem. induction l as [| x l IH]; [reflexivity |].
  cbn [existsb map]. rewrite IH. reflexivity.
Qed.

Lemma non_empty_str_inv (v : value) :
  non_empty_str v = true -> exists s, v = VStr s /\ is_blank s = false.
Proof.
  destruct v; simpl; try discriminate. intros H. exists s; split; [reflexivity |].
  destruct (is_blank s); [discriminate H | reflexivity].
Qed.

Lemma validate_servant_ok (cfg_path : string) (sd : dict) (servant : string) :
  validate_servant cfg_path (VDict sd) servant = Ok tt ->
  exists node default_model allowed,
    item (VDict sd) servant = Ok node /\
    item node "default_model" = Ok (VStr default_model) /\
    item node "allowed_models" = Ok (VList (map VStr allowed)) /\
    In default_model allowed.
Proof.
  unfold validate_servant. intros H.
  apply bind_ok in H as (node & En & H). simpl in En. injection En as En.
  apply bind_ok in H as ([] & Ed & H).
  pose proof Ed as Ed'. apply expect_dict in Ed' as (nd & Hnd).
  apply bind_ok in H as ([] & _ & H).
  apply bind_ok in H as (dm & Edm & H). rewrite Hnd in Edm. simpl in Edm.
  injection Edm as Edm.
  apply bind_ok in H as ([] & Ene & H).
  apply when_raise_ok in Ene. apply negb_false_iff in Ene.
  apply non_empty_str_inv in Ene as (s & Hs & _).
  apply bind_ok in H as (dms & Edms & H). rewrite Hs in Edms. simpl in Edms.
  injection Edms as <-.
  apply bind_ok in H as (ar & Ear & H). rewrite Hnd in Ear. simpl in Ear.
  injection Ear as Ear.
  apply bind_ok in H as (allowed & Eal & H).
  apply expect_str_set_map in Eal.
  apply bind_ok in H as ([] & Emem & H).
  apply when_raise_ok in Emem. apply negb_false_iff in Emem. apply mem_In in Emem.
  exists node, s, allowed.
  split; [apply dget_item; [exact En | rewrite Hnd; discriminate] |].
  rewrite Hnd.
  split; [apply dget_item; [congruence | discriminate] |].
  split; [apply dget_item; [congruence | discriminate] |].
  exact Emem.
Qed.

Lemma validate_runtime_config_dict_ok (cfg : value) (cfg_path : string) (r : value) :
  validate_runtime_config_dict cfg cfg_path = Ok r -> r = cfg /\ validated cfg.
Proof.
  unfold validate_runtime_config_dict. intros H.
  apply bind_ok in H as ([] & Ek & H).
  unfold _ensure_keys in Ek. apply bind_ok in Ek as (d & Ed & _).
  destruct cfg; try discriminate Ed. simpl in Ed. injection Ed as <-.
  apply bind_ok in H as (version & _ & H).
  apply bind_ok in H as ([] & _ & H).
  apply bind_ok in H as (servants & Es & H). simpl in Es. injection Es as Es.
  apply bind_ok in H as ([] & Esd & H).
  pose proof Esd as Esd'. apply expect_dict in Esd' as (sd & Hsd).
  apply bind_ok in H as ([] & _ & H).
  apply bind_ok in H as ([] & Eloop & H).
  apply bind_ok in H as (pipelines & Ep & H).
  apply bind_ok in H as ([] & _ & H).
  apply bind_ok in H as ([] & _ & H).
  apply bind_ok in H as ([] & Eploop & H).
  injection H as <-. split; [reflexivity |].
  constructor.
  - intros tool Ht.
    pose proof (for_each_ok _ _ _ Eloop tool Ht) as Hv. rewrite Hsd in Hv.
    apply validate_servant_ok in Hv as (node & dm & allowed & E1 & E2 & E3 & E4).
    exists (VDict sd), node, dm, allowed. repeat split; try assumption.
    apply dget_item; [congruence | discriminate].
  - exists kvs, pipelines, cfg_path. split; [reflexivity |]. split; [exact Ep |].
    exists servants. split; [simpl; congruence |].
    intros name Hn. exact (for_each_ok _ _ _ Eploop name Hn).
Qed.

Lemma servant_ok_default (cfg : value) (tool : string) :
  servant_ok cfg tool ->
  forall servants node default_model,
    item cfg "servants" = Ok servants ->
    item servants tool = Ok node ->
    item node "default_model" = Ok default_model ->
    model_allowed cfg tool default_model.
Proof.
  intros (servants & node & dm & allowed & E1 & E2 & E3 & E4 & Hin) s n m F1 F2 F3.
  rewrite E1 in F1; injection F1 as <-.
  rewrite E2 in F2; injection F2 as <-.
  rewrite E3 in F3; injection F3 as <-.
  exists servants, node, (VList (map VStr allowed)).
  repeat split; try assumption.
  simpl. rewrite in_list_str. f_equal. apply mem_In; exact Hin.
Qed.

(** A validated manifest: every per-servant model override is a non-empty
    string of that servant's allowed models. *)
Lemma manifest_models_ok (cfg manifest : value) (manifest_path : string) (rmo : dict) :
  validate_manifest_extensions cfg manifest manifest_path = Ok tt ->
  ConfigResolve.routing_model_overrides manifest = Ok rmo ->
  forall tool model,
    In (tool, model) rmo ->
    In tool SERVANT_NAMES /\ non_empty_str model = true /\ model_allowed cfg tool model.
Proof.
  unfold validate_manifest_extensions, ConfigResolve.routing_model_overrides,
    ConfigResolve.routing.
  intros Hv Hr tool model Hin.
  apply bind_ok in Hr as (routing & Er & Hr).
  apply bind_ok in Er as (rr & Err & Er). injection Er as <-.
  apply bind_ok in Hr as (m & Em & Hr).
  destruct manifest as [| | | | | md]; try discriminate Err.
  simpl in Err. injection Err as <-.
  destruct (truthy (VDict md)) eqn:Tm; simpl in Hv.
  2:{ destruct md; [| discriminate Tm]. simpl in Em. injection Em as <-.
      simpl in Hr. injection Hr as <-. contradiction. }
  simpl in Hv.
  apply bind_ok in Hv as ([] & Hr1 & Hv).
  apply bind_ok in Hv as ([] & Hr2 & Hv).
  apply bind_ok in Hv as (hi & _ & Hv).
  apply bind_ok in Hv as ([] & _ & Hv).
  apply bind_ok in Hv as (mr & Emr & Hv).
  rewrite Em in Emr. injection Emr as <-.
  apply bind_ok in Hv as ([] & Hmm & _).
  destruct (truthy (por m (VDict []))) eqn:Tmm.
  2:{ assert (por m (VDict []) = VDict []) as Hp.
      { unfold por in *. destruct (truthy m) eqn:T; [congruence | reflexivity]. }
      rewrite Hp in Hr. simpl in Hr. injection Hr as <-. contradiction. }
  assert (por m (VDict []) = m) as Hp.
  { unfold por in *. destruct (truthy m) eqn:T; [reflexivity | discriminate Tmm]. }
  rewrite Hp in *.
  apply bind_ok in Hmm as ([] & Hd & Hmm).
  apply expect_dict in Hd as (mm & ->).
  apply bind_ok in Hmm as ([] & Hk & Hmm).
  apply bind_ok in Hmm as (mm' & Emm & Hmm). simpl in Emm. injection Emm as <-.
  simpl in Hr. injection Hr as <-.
  pose proof (for_each_ok _ _ _ Hmm _ Hin) as Hc.
  unfold validate_manifest_model in Hc.
  apply bind_ok in Hc as ([] & Hne & Hc).
  apply when_raise_ok in Hne. apply negb_false_iff in Hne.
  apply bind_ok in Hc as (servants & Es & Hc).
  apply bind_ok in Hc as (node & En & Hc).
  apply bind_ok in Hc as (allowed & Ea & Hc).
  apply bind_ok in Hc as (ok & Eok & Hc).
  apply when_raise_ok in Hc. destruct ok; [| discriminate Hc].
  split; [| split; [exact Hne | exists servants, node, allowed; auto]].
  unfold _ensure_keys in Hk. cbn [items bind] in Hk.
  apply when_raise_ok in Hk.
  apply (no_unknown_keys _ _ Hk).
  unfold dict_keys. apply in_map_iff. exists (tool, model). auto.
Qed.

End ValidFacts.

(** ** Profile selection *)

Module Selection.
Import ConfigValidate ConfigResolve ResolveFacts ValidFacts.

Lemma py_eq_str (s : string) (v : value) : py_eq (VStr s) v = true -> v = VStr s.
Proof.
  destruct v; simpl; try discriminate.
  intros H; apply String.eqb_eq in H; congruence.
Qed.

Lemma py_eq_str_r (v : value) (s : string) : py_eq v (VStr s) = true -> v = VStr s.
Proof.
  destruct v; simpl; try discriminate.
  intros H; apply String.eqb_eq in H; congruence.
Qed.

Lemma find_pipeline_in (cfg profile_name : value) (pipeline : string) :
  _find_pipeline_for_profile_name cfg profile_name = Ok (Some pipeline) ->
  In pipeline ["impl"; "review"].
Proof.
  unfold _find_pipeline_for_profile_name. intros H.
  apply bind_ok in H as (pls & _ & H).
  apply bind_ok in H as (n1 & _ & H).
  apply bind_ok in H as (p1 & _ & H).
  apply bind_ok in H as (f1 & _ & H).
  destruct f1; [injection H as <-; simpl; auto |].
  apply bind_ok in H as (n2 & _ & H).
  apply bind_ok in H as (p2 & _ & H).
  apply bind_ok in H as (f2 & _ & H).
  destruct f2; [injection H as <-; simpl; auto | discriminate H].
Qed.

Lemma select_profile_ok (cfg manifest : value) (plan_name intent_default : string)
    (sel : selection) :
  select_profile cfg manifest plan_name intent_default = Ok sel ->
  exists po fo oo base,
    selected cfg manifest plan_name intent_default sel po fo oo base.
Proof.
  unfold select_profile. intros H.
  apply bind_ok in H as (rmo & _ & H).
  apply bind_ok in H as (ri & Eri & H).
  apply bind_ok in H as ([pipeline pfi] & Ebase & H).
  unfold _base_profile_from_intent in Ebase.
  apply bind_ok in Ebase as (found & Efound & Ebase).
  destruct found as [p |]; [| discriminate Ebase].
  injection Ebase as Hp Hpfi. subst p pfi.
  apply bind_ok in H as (po & Epo & H).
  apply bind_ok in H as (base & Edata & H).
  apply bind_ok in H as (fo & Efo & H).
  apply bind_ok in H as (oo & Eoo & H).
  apply bind_ok in H as (allowed & _ & H).
  apply bind_ok in H as ([] & _ & H).
  apply bind_ok in H as (p1 & E1 & H).
  apply bind_ok in H as (p2 & E2 & H).
  pose proof (find_pipeline_in _ _ _ Efound) as Hin.
  assert (Hsup : forall k,
             In k (dict_keys (_merge_dict (Profile.options base) oo)) ->
             In k (supported_options pipeline)).
  { unfold remap_impl, remap_review, supported_options in *.
    destruct Hin as [<- | [<- | []]]; simpl in E1, E2 |- *.
    - apply bind_ok in E1 as ([] & Ek & _). apply when_raise_ok in Ek.
      exact (no_unknown_keys _ _ Ek).
    - apply bind_ok in E2 as ([] & Ek & _). apply when_raise_ok in Ek.
      exact (no_unknown_keys _ _ Ek). }
  assert (Hp2 : p2 = match mode_profile pipeline (_merge_dict (Profile.options base) oo) with
                     | Some p => VStr p
                     | None => por po ri
                     end).
  { unfold remap_impl, remap_review, mode_profile in *.
    destruct Hin as [<- | [<- | []]]; simpl in E1, E2 |- *.
    - injection E2 as <-.
      apply bind_ok in E1 as ([] & _ & E1). injection E1 as <-.
      destruct (py_eq _ (VStr "safe")); [reflexivity |].
      destruct (py_eq _ (VStr "one_shot")); reflexivity.
    - injection E1 as <-.
      apply bind_ok in E2 as ([] & _ & E2). injection E2 as <-.
      destruct (py_eq _ (VStr "codex_only")); [reflexivity |].
      destruct (py_eq _ (VStr "cross")); reflexivity. }
  destruct (negb (py_eq p2 (por po ri))) eqn:Echg.
  - apply bind_ok in H as (rt & Ert & H). injection H as <-.
    exists po, fo, oo, base. constructor; simpl; auto.
  - injection H as <-.
    apply negb_false_iff in Echg.
    assert (p2 = por po ri) as Heq.
    { rewrite Hp2 in Echg |- *.
      destruct (mode_profile _ _); [| reflexivity].
      apply py_eq_str in Echg. congruence. }
    exists po, fo, oo, base. constructor; simpl; auto.
    rewrite Heq. exact Edata.
Qed.

End Selection.

(** ** Per-stage models and timeout modes of a resolved plan *)

Module StageModels.
Import ConfigValidate ConfigResolve ResolveFacts ValidFacts Selection.

Lemma dict_set_all_get (k : string) (v : value) (override : dict) :
  forall base,
    dict_get k (dict_set_all base override) = Some v ->
    In (k, v) override \/ dict_get k base = Some v.
Proof.
  unfold dict_set_all.
  induction override as [| [k' v'] ov IH]; simpl; intros base H; [right; exact H |].
  destruct (IH _ H) as [Hin | Hb]; [left; right; exact Hin |].
  destruct (string_dec k k') as [-> | N].
  - rewrite dict_get_set_same in Hb. injection Hb as ->. left; left; reflexivity.
  - rewrite dict_get_set_other in Hb by exact N. right; exact Hb.
Qed.

Lemma is_none_false (v : value) : is_none v = false -> v <> VNone.
Proof. destruct v; simpl; congruence. Qed.

Lemma dget_In (d : dict) (k : string) (v : value) :
  dget d k = v -> v <> VNone -> In (k, v) d.
Proof.
  unfold dget. destruct (dict_get k d) eqn:E; intros <- N; [| contradiction].
  apply dict_get_In; exact E.
Qed.

(** The per-servant default table: defaults of a validated config,
    overridden by the validated manifest. *)
Lemma tool_models_allowed (cfg manifest : value) (manifest_path : string)
    (rmo tm : dict) :
  validated cfg ->
  validate_manifest_extensions cfg manifest manifest_path = Ok tt ->
  routing_model_overrides manifest = Ok rmo ->
  _resolve_tool_models cfg manifest = Ok tm ->
  forall tool model, dict_get tool tm = Some model -> model_allowed cfg tool model.
Proof.
  intros Hv Hm Hr H. unfold _resolve_tool_models in H.
  apply bind_ok in H as (models & Emodels & H).
  assert (Hdef : forall tool model,
             dict_get tool models = Some model -> model_allowed cfg tool model).
  { refine (fold_m_inv _
              (fun acc => forall tool model,
                   dict_get tool acc = Some model -> model_allowed cfg tool model)
              _ _ _ _ _ Emodels).
    - intros tool model; discriminate.
    - intros acc x acc' Hx Hacc Hstep tool model Hg.
      apply bind_ok in Hstep as (servants & Es & Hstep).
      apply bind_ok in Hstep as (node & En & Hstep).
      apply bind_ok in Hstep as (dm & Edm & Hstep).
      injection Hstep as <-.
      destruct (string_dec tool x) as [-> | N].
      + rewrite dict_get_set_same in Hg. injection Hg as <-.
        exact (servant_ok_default cfg x (v_servants cfg Hv x Hx) _ _ _ Es En Edm).
      + rewrite dict_get_set_other in Hg by exact N. exact (Hacc _ _ Hg). }
  pose proof Hr as Hr'.
  unfold routing_model_overrides, routing in Hr'.
  apply bind_ok in Hr' as (rt & Ert & Hr').
  apply bind_ok in Ert as (rr & Err & Ert). injection Ert as <-.
  apply bind_ok in Hr' as (m & Em & Hr').
  assert (Hman : por manifest (VDict []) = manifest).
  { destruct manifest; try discriminate Err. destruct kvs; reflexivity. }
  rewrite Hman in H.
  apply bind_ok in H as (rr' & Err' & H).
  rewrite Err in Err'. injection Err' as <-.
  apply bind_ok in H as (m' & Em' & H).
  rewrite Em in Em'. injection Em' as <-.
  destruct (truthy (por m (VDict []))) eqn:T.
  - apply bind_ok in H as (ov & Eov & H). injection H as <-.
    destruct (por m (VDict [])); try discriminate Eov.
    simpl in Eov, Hr'. injection Eov as ->. injection Hr' as <-.
    intros tool model Hg.
    apply dict_set_all_get in Hg as [Hin | Hb]; [| exact (Hdef _ _ Hb)].
    exact (proj2 (proj2 (manifest_models_ok _ _ _ _ Hm Hr _ _ Hin))).
  - injection H as <-. exact Hdef.
Qed.

(** The per-purpose tables: [_resolve_purpose_models] checks every entry. *)
Lemma purpose_models_allowed (cfg : value) (pm : dict) :
  _resolve_purpose_models cfg = Ok pm ->
  forall tool purpose model,
    get2 pm tool purpose = Ok model -> model <> VNone ->
    model_allowed cfg tool model.
Proof.
  intros H.
  assert (I : forall tool inner,
             dict_get tool pm = Some inner ->
             exists entries, inner = VDict entries /\
               forall p v, In (p, v) entries -> model_allowed cfg tool v).
  { unfold _resolve_purpose_models in H.
    refine (fold_m_inv _
              (fun acc => forall tool inner,
                   dict_get tool acc = Some inner ->
                   exists entries, inner = VDict entries /\
                     forall p v, In (p, v) entries -> model_allowed cfg tool v)
              _ _ _ _ _ H).
    - intros tool inner; discriminate.
    - intros acc x acc' _ Hacc Hstep tool inner Hg.
      apply bind_ok in Hstep as (servants & Es & Hstep).
      apply bind_ok in Hstep as (node & En & Hstep).
      apply bind_ok in Hstep as (raw & Eraw & Hstep).
      apply bind_ok in Hstep as ([] & _ & Hstep).
      apply bind_ok in Hstep as (allowed & Ea & Hstep).
      apply bind_ok in Hstep as (entries & Ee & Hstep).
      apply bind_ok in Hstep as ([] & Echeck & Hstep).
      injection Hstep as <-.
      destruct (string_dec tool x) as [-> | N].
      + rewrite dict_get_set_same in Hg. injection Hg as <-.
        exists entries. split; [reflexivity |].
        intros p v Hin. pose proof (for_each_ok _ _ _ Echeck _ Hin) as Hc. simpl in Hc.
        apply bind_ok in Hc as ([] & _ & Hc).
        apply bind_ok in Hc as (ok & Eok & Hc).
        apply when_raise_ok in Hc. destruct ok; [| discriminate Hc].
        exists servants, node, allowed. auto.
      + rewrite dict_get_set_other in Hg by exact N. exact (Hacc _ _ Hg). }
  intros tool purpose model Hg N. unfold get2 in Hg.
  destruct (dict_get tool pm) as [inner |] eqn:E.
  - destruct (I _ _ E) as (entries & -> & Hall). simpl in Hg. injection Hg as Hg.
    apply (Hall purpose). apply dget_In; assumption.
  - injection Hg as <-. contradiction.
Qed.

(** The source of the model [resolve_stage_model] returns. *)
Lemma resolve_stage_model_cases (env : stage_env) (tool stage_name purpose : string)
    (model : value) :
  resolve_stage_model env tool stage_name purpose = Ok model ->
  (In (tool, model) (e_routing_model_overrides env) /\ model <> VNone) \/
  (dget (e_routing_model_overrides env) tool = VNone /\
   ((In (stage_name, model) (e_profile_stage_models env) /\ model <> VNone) \/
    (get2 (e_purpose_models env) tool purpose = Ok model /\ model <> VNone) \/
    dict_get tool (e_tool_models env) = Some model)).
Proof.
  unfold resolve_stage_model. intros H.
  destruct (is_none (dget (e_routing_model_overrides env) tool)) eqn:N1.
  - right. split; [destruct (dget _ tool); try discriminate N1; reflexivity |].
    destruct (is_none (dget (e_profile_stage_models env) stage_name)) eqn:N2.
    + apply bind_ok in H as (x & Ex & H).
      destruct (is_none x) eqn:N3.
      * right; right. unfold ditem in H.
        destruct (dict_get tool (e_tool_models env)); [congruence | discriminate H].
      * injection H as <-. right; left. split; [exact Ex | apply is_none_false; exact N3].
    + simpl in H. rewrite N2 in H. injection H as <-.
      left. apply is_none_false in N2. split; [apply dget_In; auto | exact N2].
  - injection H as <-. left. apply is_none_false in N1.
    split; [apply dget_In; auto | exact N1].
Qed.

(** C1: for a validated v1 config and a manifest accepted by
    manifest-extension validation, every stage of a plan that
    [resolve_dispatch] returns has a model of its servant's allowed models
    and a timeout mode among [enforce] and [wait_done]. *)
Theorem resolved_stages_have_allowed_model_and_valid_timeout_mode
    (cfg manifest : value) (cfg_path manifest_path plan_name intent_default : string)
    (plan : dispatch_plan) :
  validate_runtime_config_dict cfg cfg_path = Ok cfg ->
  validate_manifest_extensions cfg manifest manifest_path = Ok tt ->
  resolve_dispatch cfg manifest plan_name intent_default = Ok plan ->
  forall stage, In stage (stage_plan plan) ->
    exists tool model mode,
      _stage_tool stage = Ok tool /\
      dict_get stage (stage_models plan) = Some model /\
      model_allowed cfg tool model /\
      dict_get stage (stage_timeout_modes plan) = Some (VStr mode) /\
      In mode ["enforce"; "wait_done"].
Proof.
  intros Hcfg Hman Hres stage Hstage.
  apply validate_runtime_config_dict_ok in Hcfg as [_ Hv].
  apply resolve_dispatch_run in Hres as (r & R).
  destruct (stage_loop_ok _ _ _ _ (run_loop _ _ _ _ _ _ R) stage Hstage)
    as (tool & model & mode & Et & Em & Hmode & Gm & Gmode).
  exists tool, model, mode.
  rewrite (run_plan_models _ _ _ _ _ _ R), (run_plan_modes _ _ _ _ _ _ R).
  repeat split; try assumption.
  apply resolve_stage_model_cases in Em as [[Hin _] | [_ [[Hin _] | [[Hg N] | Hg]]]].
  - exact (proj2 (proj2 (manifest_models_ok _ _ _ _ Hman (run_overrides _ _ _ _ _ _ R)
                           _ _ Hin))).
  - destruct (run_stage_models_checked _ _ _ _ _ _ R _ _ Hin)
      as (tool' & servants & node & allowed & Et' & Hs & Hn & Ha & Hok).
    rewrite Et in Et'. injection Et' as <-.
    exists servants, node, allowed. auto.
  - exact (purpose_models_allowed _ _ (run_purpose_models _ _ _ _ _ _ R) _ _ _ Hg N).
  - exact (tool_models_allowed _ _ _ _ _ Hv Hman (run_overrides _ _ _ _ _ _ R)
             (run_tool_models _ _ _ _ _ _ R) _ _ Hg).
Qed.

(** The plan resolved for the example config under [manifest_model]: its
    stage [gemini_review] has an allowed model and a valid timeout mode. *)
Lemma resolved_stages_witness :
  validate_runtime_config_dict Examples.cfg "config" = Ok Examples.cfg /\
  validate_manifest_extensions Examples.cfg Examples.manifest_model "manifest" = Ok tt /\
  exists plan,
    resolve_dispatch Examples.cfg Examples.manifest_model "auto" "safe_impl" = Ok plan /\
    In "gemini_review" (stage_plan plan) /\
    exists tool model mode,
      _stage_tool "gemini_review" = Ok tool /\
      dict_get "gemini_review" (stage_models plan) = Some model /\
      model_allowed Examples.cfg tool model /\
      dict_get "gemini_review" (stage_timeout_modes plan) = Some (VStr mode) /\
      In mode ["enforce"; "wait_done"].
Proof.
  assert (Hc : validate_runtime_config_dict Examples.cfg "config" = Ok Examples.cfg)
    by (vm_compute; reflexivity).
  assert (Hm : validate_manifest_extensions Examples.cfg Examples.manifest_model "manifest"
               = Ok tt) by (vm_compute; reflexivity).
  split; [exact Hc |]. split; [exact Hm |].
  destruct (resolve_dispatch Examples.cfg Examples.manifest_model "auto" "safe_impl")
    as [plan |] eqn:Hr; [| vm_compute in Hr; discriminate Hr].
  exists plan. split; [reflexivity |].
  assert (Hin : In "gemini_review" (stage_plan plan)).
  { vm_compute in Hr. injection Hr as <-. simpl. auto. }
  split; [exact Hin |].
  exact (resolved_stages_have_allowed_model_and_valid_timeout_mode
           Examples.cfg Examples.manifest_model "config" "manifest" "auto" "safe_impl"
           plan Hc Hm Hr "gemini_review" Hin).
Defined.

Lemma dict_set_all_other (k : string) (override : dict) :
  forall base,
    dict_get k override = None ->
    dict_get k (dict_set_all base override) = dict_get k base.
Proof.
  unfold dict_set_all.
  induction override as [| [k' v'] ov IH]; simpl; intros base H; [reflexivity |].
  destruct (String.eqb k k') eqn:E; [discriminate H |].
  rewrite (IH _ H). apply dict_get_set_other.
  intros ->. rewrite String.eqb_refl in E. discriminate E.
Qed.

Lemma stage_tool_servant (stage tool : string) :
  _stage_tool stage = Ok tool -> In tool SERVANT_NAMES.
Proof.
  unfold _stage_tool. destruct (negb (contains_char "_" stage)); [discriminate |].
  destruct (mem (hd stage (split1 "_" stage)) SERVANT_NAMES) eqn:E; [| discriminate].
  cbn [negb]. intros [= <-]. apply mem_In. exact E.
Qed.

(** The per-purpose table has a mapping for every servant it lists, so a
    lookup in it never fails. *)
Lemma purpose_models_total (cfg : value) (pm : dict) :
  _resolve_purpose_models cfg = Ok pm ->
  forall tool purpose, exists v, get2 pm tool purpose = Ok v.
Proof.
  intros H.
  assert (I : forall tool inner,
             dict_get tool pm = Some inner -> exists entries, inner = VDict entries).
  { unfold _resolve_purpose_models in H.
    refine (fold_m_inv _
              (fun acc => forall tool inner,
                   dict_get tool acc = Some inner -> exists entries, inner = VDict entries)
              _ _ _ _ _ H).
    - intros tool inner; discriminate.
    - intros acc x acc' _ Hacc Hstep tool inner Hg.
      apply bind_ok in Hstep as (servants & _ & Hstep).
      apply bind_ok in Hstep as (node & _ & Hstep).
      apply bind_ok in Hstep as (raw & _ & Hstep).
      apply bind_ok in Hstep as ([] & _ & Hstep).
      apply bind_ok in Hstep as (allowed & _ & Hstep).
      apply bind_ok in Hstep as (entries & _ & Hstep).
      apply bind_ok in Hstep as ([] & _ & Hstep).
      injection Hstep as <-.
      destruct (string_dec tool x) as [-> | N].
      + rewrite dict_get_set_same in Hg. injection Hg as <-. eexists; reflexivity.
      + rewrite dict_get_set_other in Hg by exact N. exact (Hacc _ _ Hg). }
  intros tool purpose. unfold get2.
  destruct (dict_get tool pm) as [inner |] eqn:E; [| eexists; reflexivity].
  destruct (I _ _ E) as (entries & ->). eexists; reflexivity.
Qed.

(** The per-servant default table holds the servant's default model where
    the manifest has no override for the servant. *)
Lemma tool_models_default (cfg manifest : value) (rmo tm : dict) (tool : string) :
  routing_model_overrides manifest = Ok rmo ->
  _resolve_tool_models cfg manifest = Ok tm ->
  In tool SERVANT_NAMES ->
  dict_get tool rmo = None ->
  exists default_model,
    servant_default cfg tool = Ok default_model /\
    dict_get tool tm = Some default_model.
Proof.
  intros Hr H Htool Hnone. unfold _resolve_tool_models in H.
  apply bind_ok in H as (models & Emodels & H).
  assert (Hdef : exists default_model,
             servant_default cfg tool = Ok default_model /\
             dict_get tool models = Some default_model).
  { cbn [fold_m SERVANT_NAMES] in Emodels.
    apply bind_ok in Emodels as (m1 & E1 & Emodels).
    apply bind_ok in Emodels as (m2 & E2 & Emodels).
    apply bind_ok in Emodels as (m3 & E3 & Emodels).
    injection Emodels as <-.
    apply bind_ok in E1 as (s1 & Es1 & E1). apply bind_ok in E1 as (n1 & En1 & E1).
    apply bind_ok in E1 as (d1 & Ed1 & E1). injection E1 as <-.
    apply bind_ok in E2 as (s2 & Es2 & E2). apply bind_ok in E2 as (n2 & En2 & E2).
    apply bind_ok in E2 as (d2 & Ed2 & E2). injection E2 as <-.
    apply bind_ok in E3 as (s3 & Es3 & E3). apply bind_ok in E3 as (n3 & En3 & E3).
    apply bind_ok in E3 as (d3 & Ed3 & E3). injection E3 as <-.
    unfold servant_default.
    destruct Htool as [<- | [<- | [<- | []]]].
    - exists d1. rewrite Es1. cbn [bind]. rewrite En1. cbn [bind]. auto.
    - exists d2. rewrite Es2. cbn [bind]. rewrite En2. cbn [bind]. auto.
    - exists d3. rewrite Es3. cbn [bind]. rewrite En3. cbn [bind]. auto. }
  pose proof Hr as Hr'.
  unfold routing_model_overrides, routing in Hr'.
  apply bind_ok in Hr' as (rt & Ert & Hr').
  apply bind_ok in Ert as (rr & Err & Ert). injection Ert as <-.
  apply bind_ok in Hr' as (m & Em & Hr').
  assert (Hman : por manifest (VDict []) = manifest).
  { destruct manifest; try discriminate Err. destruct kvs; reflexivity. }
  rewrite Hman in H.
  apply bind_ok in H as (rr' & Err' & H).
  rewrite Err in Err'. injection Err' as <-.
  apply bind_ok in H as (m' & Em' & H).
  rewrite Em in Em'. injection Em' as <-.
  destruct (truthy (por m (VDict []))) eqn:T.
  - apply bind_ok in H as (ov & Eov & H). injection H as <-.
    destruct (por m (VDict [])); try discriminate Eov.
    simpl in Eov, Hr'. injection Eov as ->. injection Hr' as <-.
    rewrite (dict_set_all_other _ _ _ Hnone). exact Hdef.
  - injection H as <-. exact Hdef.
Qed.

(** C2: the model of each stage of a resolved plan follows a strict
    precedence.  When the validated manifest's [routing.model] map gives the
    stage's servant a model, the stage gets that model, whatever the
    profile's per-stage models, the per-purpose table and the servant
    default say.  In general the stage gets the first that is set among the
    manifest's model for the servant, the selected profile's model for the
    stage, and the per-purpose table's model for the servant and the stage's
    purpose; and the servant's default model when none is. *)
Theorem manifest_model_override_wins
    (cfg manifest : value) (cfg_path manifest_path plan_name intent_default : string)
    (plan : dispatch_plan) (overrides : dict) (servant : string) :
  validate_runtime_config_dict cfg cfg_path = Ok cfg ->
  validate_manifest_extensions cfg manifest manifest_path = Ok tt ->
  routing_model_overrides manifest = Ok overrides ->
  resolve_dispatch cfg manifest plan_name intent_default = Ok plan ->
  forall stage, In stage (stage_plan plan) ->
    _stage_tool stage = Ok servant ->
    (forall model,
        dict_get servant overrides = Some model ->
        dict_get stage (stage_models plan) = Some model) /\
    exists (selected : Profile.t) (purpose_model default_model : value),
      _profile_data cfg (pipeline_group plan) (profile plan) = Ok selected /\
      get2 (purpose_models plan) servant
        (_dispatch_stage_purpose stage (pipeline_group plan) (options plan))
      = Ok purpose_model /\
      servant_default cfg servant = Ok default_model /\
      dict_get stage (stage_models plan)
      = Some (first_set [ dget overrides servant;
                          dget (Profile.stage_models selected) stage;
                          purpose_model ]
                        default_model).
Proof.
  intros Hcfg Hman Hov Hres stage Hstage Htool.
  apply validate_runtime_config_dict_ok in Hcfg as [_ Hv].
  apply resolve_dispatch_run in Hres as (r & R).
  destruct (stage_loop_ok _ _ _ _ (run_loop _ _ _ _ _ _ R) stage Hstage)
    as (tool & m & mode & Et & Em & _ & Gm & _).
  rewrite Htool in Et. injection Et as <-.
  pose proof (run_overrides _ _ _ _ _ _ R) as Hov'.
  rewrite Hov in Hov'. injection Hov' as Hov'.
  rewrite (run_plan_models _ _ _ _ _ _ R), Gm.
  assert (Hset : forall model,
             dict_get servant overrides = Some model -> is_none model = false).
  { intros model Hget.
    destruct (manifest_models_ok _ _ _ _ Hman Hov _ _ (dict_get_In _ _ _ Hget))
      as (_ & Hne & _).
    apply non_empty_str_inv in Hne as (s & -> & _). reflexivity. }
  unfold resolve_stage_model in Em. rewrite <- Hov' in Em.
  rewrite (run_stage_models _ _ _ _ _ _ R), (run_env_pipeline _ _ _ _ _ _ R),
    (run_options _ _ _ _ _ _ R) in Em.
  rewrite <- (run_plan_purpose_models _ _ _ _ _ _ R),
    <- (run_plan_tool_models _ _ _ _ _ _ R),
    <- (run_pipeline _ _ _ _ _ _ R), <- (run_plan_options _ _ _ _ _ _ R) in Em.
  split.
  - intros model Hget. f_equal.
    unfold dget in Em. rewrite Hget, (Hset _ Hget) in Em. congruence.
  - destruct (select_profile_ok _ _ _ _ _ (run_select _ _ _ _ _ _ R))
      as (po & fo & oo & base & S).
    pose proof (s_data _ _ _ _ _ _ _ _ _ S) as Hdata.
    rewrite <- (run_pipeline _ _ _ _ _ _ R), <- (run_profile _ _ _ _ _ _ R) in Hdata.
    destruct (purpose_models_total _ _ (run_purpose_models _ _ _ _ _ _ R) servant
                (_dispatch_stage_purpose stage (pipeline_group plan) (options plan)))
      as (pmodel & Hpm).
    rewrite <- (run_plan_purpose_models _ _ _ _ _ _ R) in Hpm.
    pose proof (stage_tool_servant _ _ Htool) as Hservant.
    destruct (v_servants cfg Hv servant Hservant)
      as (servants & node & dm & allowed & Es & En & Edm & _).
    assert (Hdm : servant_default cfg servant = Ok (VStr dm)).
    { unfold servant_default. rewrite Es. cbn [bind]. rewrite En. exact Edm. }
    exists (sel_runtime (run_sel r)), pmodel, (VStr dm).
    split; [exact Hdata |]. split; [exact Hpm |]. split; [exact Hdm |].
    f_equal. cbn [first_set].
    destruct (is_none (dget overrides servant)) eqn:N1; [| congruence].
    destruct (is_none (dget (Profile.stage_models (sel_runtime (run_sel r))) stage))
      eqn:N2.
    + rewrite Hpm in Em. cbn [bind] in Em.
      destruct (is_none pmodel) eqn:N3; [| congruence].
      assert (Hnone : dict_get servant overrides = None).
      { destruct (dict_get servant overrides) as [model |] eqn:Eg; [| reflexivity].
        pose proof (Hset _ eq_refl) as Hs.
        unfold dget in N1. rewrite Eg in N1. congruence. }
      destruct (tool_models_default _ _ _ _ _ Hov (run_tool_models _ _ _ _ _ _ R)
                  Hservant Hnone) as (dm' & Hdm' & Hget).
      rewrite Hdm in Hdm'. injection Hdm' as <-.
      rewrite <- (run_plan_tool_models _ _ _ _ _ _ R) in Hget.
      unfold ditem in Em. rewrite Hget in Em. congruence.
    + cbn [bind] in Em. rewrite N2 in Em. congruence.
Qed.

(** The example config.  Under [manifest_model], stage [codex_impl] has the
    per-stage model [gpt-profile] in its profile, its purpose has the model
    [gpt-purpose], the servant default is [gpt-default], and the plan gives
    it the manifest's [gpt-task].  Under an empty manifest it gets
    [gpt-profile], and [codex_brief], which has neither a per-stage model
    nor a model for its purpose, gets [gpt-default].  Under
    [manifest_one_shot], [codex_verify] has no per-stage model and gets the
    [gpt-purpose] of its purpose. *)
Lemma manifest_model_override_witness :
  validate_runtime_config_dict Examples.cfg "config" = Ok Examples.cfg /\
  validate_manifest_extensions Examples.cfg Examples.manifest_model "manifest" = Ok tt /\
  routing_model_overrides Examples.manifest_model = Ok [("codex", VStr "gpt-task")] /\
  servant_default Examples.cfg "codex" = Ok (VStr "gpt-default") /\
  (exists plan,
      resolve_dispatch Examples.cfg Examples.manifest_model "auto" "safe_impl" = Ok plan /\
      In "codex_impl" (stage_plan plan) /\
      _stage_tool "codex_impl" = Ok "codex" /\
      get2 (purpose_models plan) "codex" "impl" = Ok (VStr "gpt-purpose") /\
      (exists p, _profile_data Examples.cfg "impl" (profile plan) = Ok p /\
                 dict_get "codex_impl" (Profile.stage_models p)
                 = Some (VStr "gpt-profile")) /\
      dict_get "codex_impl" (stage_models plan) = Some (VStr "gpt-task")) /\
  (exists plan,
      resolve_dispatch Examples.cfg (VDict []) "auto" "safe_impl" = Ok plan /\
      dict_get "codex_impl" (stage_models plan) = Some (VStr "gpt-profile") /\
      dict_get "codex_brief" (stage_models plan) = Some (VStr "gpt-default")) /\
  (exists plan,
      resolve_dispatch Examples.cfg Examples.manifest_one_shot "auto" "safe_impl"
      = Ok plan /\
      dict_get "codex_verify" (stage_models plan) = Some (VStr "gpt-purpose")).
Proof.
  assert (Hc : validate_runtime_config_dict Examples.cfg "config" = Ok Examples.cfg)
    by (vm_compute; reflexivity).
  assert (Hm : validate_manifest_extensions Examples.cfg Examples.manifest_model "manifest"
               = Ok tt) by (vm_compute; reflexivity).
  assert (Ho : routing_model_overrides Examples.manifest_model
               = Ok [("codex", VStr "gpt-task")]) by (vm_compute; reflexivity).
  assert (Ht : forall role, _stage_tool ("codex_" ++ role) = Ok "codex")
    by (intros role; reflexivity).
  split; [exact Hc |]. split; [exact Hm |]. split; [exact Ho |].
  split; [vm_compute; reflexivity |].
  split; [| split].
  - destruct (resolve_dispatch Examples.cfg Examples.manifest_model "auto" "safe_impl")
      as [plan |] eqn:Hr; [| vm_compute in Hr; discriminate Hr].
    exists plan. split; [reflexivity |].
    assert (Hin : In "codex_impl" (stage_plan plan)).
    { vm_compute in Hr. injection Hr as <-. simpl. auto. }
    split; [exact Hin |]. split; [exact (Ht "impl") |].
    split; [vm_compute in Hr; injection Hr as <-; vm_compute; reflexivity |].
    split; [vm_compute in Hr; injection Hr as <-; eexists; split; vm_compute; reflexivity |].
    exact (proj1 (manifest_model_override_wins
                    Examples.cfg Examples.manifest_model "config" "manifest" "auto"
                    "safe_impl" plan [("codex", VStr "gpt-task")] "codex"
                    Hc Hm Ho Hr "codex_impl" Hin (Ht "impl"))
             (VStr "gpt-task") eq_refl).
  - destruct (resolve_dispatch Examples.cfg (VDict []) "auto" "safe_impl")
      as [plan |] eqn:Hr; [| vm_compute in Hr; discriminate Hr].
    exists plan. split; [reflexivity |].
    assert (Hin : In "codex_impl" (stage_plan plan) /\ In "codex_brief" (stage_plan plan)).
    { vm_compute in Hr. injection Hr as <-. simpl. auto. }
    pose proof (fun stage Hs Htool =>
                  proj2 (manifest_model_override_wins
                           Examples.cfg (VDict []) "config" "manifest" "auto"
                           "safe_impl" plan [] "codex" Hc eq_refl eq_refl Hr
                           stage Hs Htool)) as Chain.
    destruct (Chain "codex_impl" (proj1 Hin) (Ht "impl"))
      as (s1 & p1 & d1 & Hs1 & Hp1 & Hd1 & M1).
    destruct (Chain "codex_brief" (proj2 Hin) (Ht "brief"))
      as (s2 & p2 & d2 & Hs2 & Hp2 & Hd2 & M2).
    vm_compute in Hr. injection Hr as <-.
    vm_compute in Hs1, Hp1, Hd1, Hs2, Hp2, Hd2.
    injection Hs1 as <-. injection Hp1 as <-. injection Hd1 as <-.
    injection Hs2 as <-. injection Hp2 as <-. injection Hd2 as <-.
    split; [exact M1 | exact M2].
  - destruct (resolve_dispatch Examples.cfg Examples.manifest_one_shot "auto" "safe_impl")
      as [plan |] eqn:Hr; [| vm_compute in Hr; discriminate Hr].
    exists plan. split; [reflexivity |].
    assert (Hin : In "codex_verify" (stage_plan plan)).
    { vm_compute in Hr. injection Hr as <-. simpl. auto. }
    destruct (proj2 (manifest_model_override_wins
                       Examples.cfg Examples.manifest_one_shot "config" "manifest" "auto"
                       "safe_impl" plan [] "codex" Hc eq_refl eq_refl Hr
                       "codex_verify" Hin (Ht "verify")))
      as (s1 & p1 & d1 & Hs1 & Hp1 & Hd1 & M1).
    vm_compute in Hr. injection Hr as <-.
    vm_compute in Hs1, Hp1, Hd1.
    injection Hs1 as <-. injection Hp1 as <-. injection Hd1 as <-.
    exact M1.
Defined.

End StageModels.

(** ** Stage names of a validated profile *)

Module ProfileStages.
Import ConfigValidate ConfigResolve ResolveFacts ValidFacts FlagFilters.

Lemma for_each_i_ok {A} (body : nat -> A -> result unit) (l : list A) :
  forall i u, for_each_i body i l = Ok u ->
  forall x, In x l -> exists j, body j x = Ok tt.
Proof.
  induction l as [| y l IH]; simpl; intros i u H x Hx; [contradiction |].
  apply bind_ok in H as ([] & Hy & Hl).
  destruct Hx as [<- | Hx]; [exists i; exact Hy | exact (IH _ _ Hl x Hx)].
Qed.

Lemma as_str_list_map (l : list string) : as_str_list (map VStr l) = Ok l.
Proof. induction l as [| x l IH]; simpl; [reflexivity | rewrite IH; reflexivity]. Qed.

Lemma item_get (v : value) (k : string) (x : value) :
  item v k = Ok x -> get v k = Ok x.
Proof.
  destruct v; simpl; try discriminate. unfold ditem, dget.
  destruct (dict_get k kvs); [auto | discriminate].
Qed.

(** A stage the validator accepts in a dispatch pipeline names one of the
    servants before its first underscore. *)
Lemma stage_to_tool_stage_tool (stage pipeline tool : string) :
  In pipeline ["impl"; "review"] ->
  _stage_to_tool stage pipeline = Some tool ->
  _stage_tool stage = Ok tool /\ has_role stage.
Proof.
  intros Hp. unfold _stage_to_tool, _stage_tool, has_role.
  assert (String.eqb pipeline "plan" = false) as ->
    by (destruct Hp as [<- | [<- | []]]; reflexivity).
  destruct (contains_char "_" stage); cbn [negb]; [| discriminate].
  destruct (mem (hd stage (split1 "_" stage)) SERVANT_NAMES); cbn [negb];
    [| discriminate].
  intros [= <-]. split; reflexivity.
Qed.

(** In a validated config, the stages of every profile of the two dispatch
    pipelines have a servant prefix and a role. *)
Lemma validated_profile_stages (cfg : value) (pipeline : string) (profile : value)
    (data : Profile.t) :
  validated cfg ->
  In pipeline ["impl"; "review"] ->
  _profile_data cfg pipeline profile = Ok data ->
  forall s, In s (Profile.stages data) ->
            (exists tool, _stage_tool s = Ok tool) /\ has_role s.
Proof.
  intros [_ (d & pipelines & cfg_path & -> & Ep & servants & _ & Hall)] Hp H.
  assert (Hplan : In pipeline ["impl"; "review"; "plan"])
    by (simpl in *; tauto).
  specialize (Hall pipeline Hplan).
  unfold _profile_data in H.
  apply bind_ok in H as (pls & Epls & H).
  apply item_get in Epls. rewrite Ep in Epls. injection Epls as <-.
  apply bind_ok in H as (pnode & Epn & H). apply item_get in Epn.
  apply bind_ok in H as (profiles & Epr & H). apply item_get in Epr.
  apply bind_ok in H as (known & Ek & H).
  destruct known; [| discriminate H]. simpl in H.
  apply bind_ok in H as (node & Enode & H).
  apply bind_ok in H as (st & Est & H).
  apply bind_ok in H as (stl & Estl & H).
  apply bind_ok in H as (stages & Estages & H).
  apply bind_ok in H as (x1 & _ & H). apply bind_ok in H as (x2 & _ & H).
  apply bind_ok in H as (x3 & _ & H). apply bind_ok in H as (x4 & _ & H).
  apply bind_ok in H as (x5 & _ & H). apply bind_ok in H as (x6 & _ & H).
  apply bind_ok in H as (x7 & _ & H). apply bind_ok in H as (x8 & _ & H).
  injection H as <-. simpl.
  unfold validate_pipeline in Hall.
  apply bind_ok in Hall as (pnode' & Epn' & Hall).
  rewrite Epn in Epn'. injection Epn' as <-.
  apply bind_ok in Hall as ([] & _ & Hall).
  apply bind_ok in Hall as ([] & _ & Hall).
  apply bind_ok in Hall as (dp & _ & Hall).
  apply bind_ok in Hall as ([] & _ & Hall).
  apply bind_ok in Hall as (profiles' & Epr' & Hall).
  rewrite Epr in Epr'. injection Epr' as <-.
  apply bind_ok in Hall as ([] & Edict & Hall).
  apply expect_dict in Edict as (ps & ->).
  apply bind_ok in Hall as ([] & _ & Hall).
  apply bind_ok in Hall as (kn & _ & Hall).
  apply bind_ok in Hall as ([] & _ & Hall).
  apply bind_ok in Hall as (ps' & Eps & Hall). simpl in Eps. injection Eps as <-.
  (* the profile node is one of the validated entries *)
  assert (exists name, In (name, node) ps) as (name & Hin).
  { unfold item_v in Enode. destruct profile; try discriminate Enode.
    simpl in Enode. unfold ditem in Enode.
    destruct (dict_get s ps) eqn:Eg; [| discriminate Enode].
    injection Enode as <-. exists s. apply dict_get_In; exact Eg. }
  pose proof (for_each_ok _ _ _ Hall _ Hin) as Hprof.
  unfold validate_profile in Hprof.
  apply bind_ok in Hprof as ([] & _ & Hprof).
  apply bind_ok in Hprof as ([] & _ & Hprof).
  apply bind_ok in Hprof as (st' & Est' & Hprof).
  rewrite Est in Est'. injection Est' as <-.
  apply bind_ok in Hprof as ([] & Hst & _).
  assert (mem pipeline ["impl"; "review"] = true) as Hm by (apply mem_In; exact Hp).
  rewrite Hm in Hst.
  apply bind_ok in Hst as (names & Enames & Hst).
  apply bind_ok in Hst as ([] & _ & Hst).
  apply expect_str_set_map in Enames. subst st.
  assert (stages = names) as ->.
  { assert (to_list (por (VList (map VStr names)) (VList [])) = Ok (map VStr names)) as Hl
      by (destruct names; reflexivity).
    rewrite Hl in Estl. injection Estl as <-.
    rewrite as_str_list_map in Estages. congruence. }
  intros s Hs.
  destruct (for_each_i_ok _ _ _ _ Hst s Hs) as (j & Hj).
  apply when_raise_ok in Hj.
  destruct (_stage_to_tool s pipeline) as [tool |] eqn:Et; [| discriminate Hj].
  destruct (stage_to_tool_stage_tool _ _ _ Hp Et) as [H1 H2].
  split; [exists tool; exact H1 | exact H2].
Qed.

End ProfileStages.

(** ** Profile remapping and empty plans *)

Module Dispatch.
Import ConfigValidate ConfigResolve ResolveFacts ValidFacts FlagFilters Selection
  ProfileStages.

(** The binding of [k] after an update: the override's, when it has the
    key, and the base's otherwise. *)
Lemma dict_update_get (k : string) (base override : dict) :
  dict_get k (dict_update base override)
  = if mem k (dict_keys override) then Some (dget override k) else dict_get k base.
Proof.
  unfold dict_update. generalize (dict_keys override) as ks. intros ks. revert base.
  induction ks as [| k' ks IH]; intros base; [reflexivity |].
  cbn [fold_left]. rewrite IH. unfold mem. cbn [existsb].
  fold (mem k ks).
  destruct (String.eqb k k') eqn:E.
  - apply String.eqb_eq in E. subst k'. cbn [orb].
    destruct (mem k ks); [reflexivity | apply dict_get_set_same].
  - cbn [orb]. destruct (mem k ks); [reflexivity |].
    apply dict_get_set_other. intros ->. rewrite String.eqb_refl in E. discriminate E.
Qed.

Lemma dict_get_key (k : string) (d : dict) (v : value) :
  dict_get k d = Some v -> In k (dict_keys d).
Proof.
  intros H. apply dict_get_In in H. unfold dict_keys.
  apply in_map_iff. exists (k, v). auto.
Qed.

(** A binding of the override mapping is a binding of the merged mapping:
    the override values are preserved. *)
Lemma dict_update_override (k : string) (v : value) (base override : dict) :
  dict_get k override = Some v ->
  dict_get k (dict_update base override) = Some v.
Proof.
  intros H. rewrite dict_update_get.
  assert (mem k (dict_keys override) = true) as ->
    by (apply mem_In; exact (dict_get_key _ _ _ H)).
  unfold dget. rewrite H. reflexivity.
Qed.

Lemma dget_update_override (k : string) (v : value) (base override : dict) :
  dict_get k override = Some v ->
  dget (_merge_dict base override) k = v.
Proof.
  intros H. unfold dget, _merge_dict.
  rewrite (dict_update_override k v base override H). reflexivity.
Qed.

(** C3: the flags and options of a resolved plan are the manifest-level
    overrides merged onto the defaults of the profile finally selected, and
    its stage list is that profile's, filtered.  The profile finally selected
    is the one the mode option (read from the options first merged) names,
    or else the one selected at first.  The bindings of the overrides
    survive the merge.  In particular an [impl_mode: "one_shot"] option in
    the manifest gives profile ["one_shot_impl"] of pipeline ["impl"], and
    likewise for the three other modes. *)
Theorem remap_remerges_against_selected_profile
    (cfg manifest : value) (plan_name intent_default : string) (plan : dispatch_plan) :
  resolve_dispatch cfg manifest plan_name intent_default = Ok plan ->
  exists (profile_override : value) (flags_override options_override : dict)
         (first selected : Profile.t),
    ConfigResolve.profile_override manifest = Ok profile_override /\
    ConfigResolve.flags_override manifest = Ok flags_override /\
    ConfigResolve.options_override manifest = Ok options_override /\
    _profile_data cfg (pipeline_group plan) (por profile_override (intent plan))
    = Ok first /\
    profile plan =
      match mode_profile (pipeline_group plan)
              (_merge_dict (Profile.options first) options_override) with
      | Some p => VStr p
      | None => por profile_override (intent plan)
      end /\
    _profile_data cfg (pipeline_group plan) (profile plan) = Ok selected /\
    flags plan = _merge_dict (Profile.flags selected) flags_override /\
    options plan = _merge_dict (Profile.options selected) options_override /\
    _apply_dispatch_flag_filters (Profile.stages selected) (flags plan)
    = Ok (stage_plan plan) /\
    (forall k v, dict_get k flags_override = Some v ->
                 dict_get k (flags plan) = Some v) /\
    (forall k v, dict_get k options_override = Some v ->
                 dict_get k (options plan) = Some v) /\
    (dict_get "impl_mode" options_override = Some (VStr "one_shot") ->
     pipeline_group plan = "impl" /\ profile plan = VStr "one_shot_impl") /\
    (dict_get "impl_mode" options_override = Some (VStr "safe") ->
     pipeline_group plan = "impl" /\ profile plan = VStr "safe_impl") /\
    (dict_get "review_mode" options_override = Some (VStr "codex_only") ->
     pipeline_group plan = "review" /\ profile plan = VStr "codex_only") /\
    (dict_get "review_mode" options_override = Some (VStr "cross") ->
     pipeline_group plan = "review" /\ profile plan = VStr "review_cross").
Proof.
  intros H. apply resolve_dispatch_run in H as (r & R).
  destruct (select_profile_ok _ _ _ _ _ (run_select _ _ _ _ _ _ R))
    as (po & fo & oo & base & S).
  destruct R as [_ _ Rf _ _ _ _ _ _ _ _ Rp Ri Rpr Rfl Ro _ _ _ _].
  destruct S as [_ _ Spin Spo Sfo Soo Sbase Ssup Sremap Sdata Sflags Sopts].
  rewrite <- Rp, <- Ri, <- Rpr in *. rewrite <- Rfl in *. rewrite <- Ro in *.
  exists po, fo, oo, base, (sel_runtime (run_sel r)).
  repeat (split; [assumption |]).
  split.
  { intros k v Hin. rewrite Sflags. apply dict_update_override; assumption. }
  assert (Hmode : forall key mode,
             dict_get key oo = Some (VStr mode) ->
             dget (_merge_dict (Profile.options base) oo) key = VStr mode /\
             In key (supported_options (pipeline_group plan))).
  { intros key mode Hin. split; [apply dget_update_override; assumption |].
    apply Ssup. apply (dict_get_key key _ (VStr mode)).
    apply dict_update_override; assumption. }
  split.
  { intros k v Hin. rewrite Sopts. apply dict_update_override; assumption. }
  unfold mode_profile, supported_options in *.
  split; [| split; [| split]];
    intros Hin; destruct (Hmode _ _ Hin) as [Hg Hs];
    destruct Spin as [E | [E | []]]; rewrite <- E in *; simpl in Hs;
    try (exfalso; intuition discriminate);
    (split; [reflexivity | rewrite Sremap; simpl; rewrite Hg; reflexivity]).
Qed.

(** The example config under [manifest_one_shot], with intent [safe_impl]:
    the plan has profile [one_shot_impl], whose defaults the manifest's
    flag and option are merged onto. *)
Lemma remap_witness :
  exists plan,
    resolve_dispatch Examples.cfg Examples.manifest_one_shot "auto" "safe_impl" = Ok plan /\
    pipeline_group plan = "impl" /\
    profile plan = VStr "one_shot_impl" /\
    dict_get "enable_brief" (flags plan) = Some (VBool false) /\
    dict_get "impl_mode" (options plan) = Some (VStr "one_shot") /\
    exists selected,
      _profile_data Examples.cfg "impl" (VStr "one_shot_impl") = Ok selected /\
      flags plan = _merge_dict (Profile.flags selected) [("enable_brief", VBool false)] /\
      options plan
      = _merge_dict (Profile.options selected) [("impl_mode", VStr "one_shot")] /\
      _apply_dispatch_flag_filters (Profile.stages selected) (flags plan)
      = Ok (stage_plan plan).
Proof.
  destruct (resolve_dispatch Examples.cfg Examples.manifest_one_shot "auto" "safe_impl")
    as [plan |] eqn:Hr; [| vm_compute in Hr; discriminate Hr].
  exists plan. split; [reflexivity |].
  destruct (remap_remerges_against_selected_profile
              Examples.cfg Examples.manifest_one_shot "auto" "safe_impl" plan Hr)
    as (po & fo & oo & first & selected & Hpo & Hfo & Hoo & _ & _ & Hdata & Hflags
        & Hopts & Hfilter & Hkeepf & Hkeepo & Hone & _).
  vm_compute in Hfo. injection Hfo as <-.
  vm_compute in Hoo. injection Hoo as <-.
  destruct (Hone eq_refl) as [Hg Hp].
  split; [exact Hg |]. split; [exact Hp |].
  split; [exact (Hkeepf "enable_brief" (VBool false) eq_refl) |].
  split; [exact (Hkeepo "impl_mode" (VStr "one_shot") eq_refl) |].
  exists selected. rewrite Hg, Hp in Hdata. auto.
Defined.

Lemma filter_none {A} (p : A -> bool) (l : list A) :
  (forall x, In x l -> p x = false) -> filter p l = [].
Proof.
  induction l as [| x l IH]; simpl; intros H; [reflexivity |].
  rewrite (H x (or_introl eq_refl)). apply IH. intros y Hy; apply H; right; exact Hy.
Qed.

(** C5: on a validated config and manifest, when no stage of the selected
    profile survives the flags ([enable_brief] false drops the stages ending
    in [_brief], [enable_verify] false those whose role contains [verify],
    [enable_review] false those whose role contains [review]),
    [resolve_dispatch] raises the validation error "resolved dispatch stage
    plan is empty".  So it does when the manifest sets [enable_review] to
    false and the selected profile has the single stage [codex_review]. *)
Theorem empty_stage_plan_is_rejected
    (cfg manifest : value) (cfg_path manifest_path plan_name intent_default : string)
    (sel : selection) :
  validate_runtime_config_dict cfg cfg_path = Ok cfg ->
  validate_manifest_extensions cfg manifest manifest_path = Ok tt ->
  select_profile cfg manifest plan_name intent_default = Ok sel ->
  ((forall s, In s (Profile.stages (sel_runtime sel)) -> kept (sel_flags sel) s = false) ->
   resolve_dispatch cfg manifest plan_name intent_default
   = Raise (ValidationError "resolved dispatch stage plan is empty")) /\
  (forall flags_override,
      ConfigResolve.flags_override manifest = Ok flags_override ->
      dict_get "enable_review" flags_override = Some (VBool false) ->
      Profile.stages (sel_runtime sel) = ["codex_review"] ->
      resolve_dispatch cfg manifest plan_name intent_default
      = Raise (ValidationError "resolved dispatch stage plan is empty")).
Proof.
  intros Hcfg _ Hsel.
  apply validate_runtime_config_dict_ok in Hcfg as [_ Hv].
  assert (Gen : (forall s, In s (Profile.stages (sel_runtime sel)) ->
                           kept (sel_flags sel) s = false) ->
                resolve_dispatch cfg manifest plan_name intent_default
                = Raise (ValidationError "resolved dispatch stage plan is empty")).
  { intros Hnone.
    destruct (select_profile_ok _ _ _ _ _ Hsel) as (po & fo & oo & base & S).
    pose proof (validated_profile_stages _ _ _ _ Hv (s_pipeline_in _ _ _ _ _ _ _ _ _ S)
                  (s_data _ _ _ _ _ _ _ _ _ S)) as Hroles.
    unfold resolve_dispatch.
    pose proof Hsel as Hsel'. unfold select_profile in Hsel'.
    apply bind_ok in Hsel' as (rmo & -> & _). cbn [bind].
    rewrite Hsel. cbn [bind].
    rewrite (apply_filters_pure (sel_flags sel) (Profile.stages (sel_runtime sel)))
      by (intros s Hs; exact (proj2 (Hroles s Hs))).
    cbn [bind].
    rewrite (filter_none _ _ Hnone). reflexivity. }
  split; [exact Gen |].
  intros fo Hfo Hin Hstages. apply Gen.
  destruct (select_profile_ok _ _ _ _ _ Hsel) as (po & fo' & oo & base & S).
  pose proof (s_fo _ _ _ _ _ _ _ _ _ S) as Hfo'. rewrite Hfo in Hfo'.
  injection Hfo' as <-.
  rewrite Hstages. intros s [<- | []].
  unfold kept. simpl. unfold survives at 3. simpl.
  unfold disabled. rewrite (s_flags _ _ _ _ _ _ _ _ _ S).
  rewrite (dget_update_override _ _ _ _ Hin). simpl.
  rewrite !andb_false_r. reflexivity.
Qed.

(** The example config under [manifest_no_review]: profile [codex_only] has
    the single stage [codex_review], and resolution raises the error. *)
Lemma empty_stage_plan_witness :
  validate_runtime_config_dict Examples.cfg "config" = Ok Examples.cfg /\
  validate_manifest_extensions Examples.cfg Examples.manifest_no_review "manifest" = Ok tt /\
  flags_override Examples.manifest_no_review = Ok [("enable_review", VBool false)] /\
  exists sel,
    select_profile Examples.cfg Examples.manifest_no_review "auto" "safe_impl" = Ok sel /\
    sel_profile sel = VStr "codex_only" /\
    Profile.stages (sel_runtime sel) = ["codex_review"] /\
    resolve_dispatch Examples.cfg Examples.manifest_no_review "auto" "safe_impl"
    = Raise (ValidationError "resolved dispatch stage plan is empty").
Proof.
  assert (Hc : validate_runtime_config_dict Examples.cfg "config" = Ok Examples.cfg)
    by (vm_compute; reflexivity).
  assert (Hm : validate_manifest_extensions Examples.cfg Examples.manifest_no_review
                 "manifest" = Ok tt) by (vm_compute; reflexivity).
  assert (Hf : flags_override Examples.manifest_no_review
               = Ok [("enable_review", VBool false)]) by (vm_compute; reflexivity).
  split; [exact Hc |]. split; [exact Hm |]. split; [exact Hf |].
  destruct (select_profile Examples.cfg Examples.manifest_no_review "auto" "safe_impl")
    as [sel |] eqn:Hs; [| vm_compute in Hs; discriminate Hs].
  exists sel. split; [reflexivity |].
  assert (Hst : Profile.stages (sel_runtime sel) = ["codex_review"]).
  { vm_compute in Hs. injection Hs as <-. reflexivity. }
  split; [vm_compute in Hs; injection Hs as <-; reflexivity |].
  split; [exact Hst |].
  exact (proj2 (empty_stage_plan_is_rejected
                  Examples.cfg Examples.manifest_no_review "config" "manifest"
                  "auto" "safe_impl" sel Hc Hm Hs)
           [("enable_review", VBool false)] Hf eq_refl Hst).
Defined.

End Dispatch.

(** ** A profile name shared by both dispatch pipelines *)

Module DispatchNames.
Import ConfigValidate ConfigResolve ResolveFacts ValidFacts Selection Dispatch.

(** C10: validation accepts a config in which one profile name is defined
    by both dispatch pipelines; and for every validated config with such a
    name, the name as requested intent resolves to the impl pipeline: the
    pipelines are probed impl first, so every plan resolved for that intent
    belongs to pipeline [impl]. *)
Theorem shared_profile_name_selects_impl :
  (exists cfg name,
      validate_runtime_config_dict cfg "config" = Ok cfg /\
      shared_profile_name cfg name) /\
  (forall (cfg : value) (cfg_path name : string),
      validate_runtime_config_dict cfg cfg_path = Ok cfg ->
      shared_profile_name cfg name ->
      _find_pipeline_for_profile_name cfg (VStr name) = Ok (Some "impl") /\
      _base_profile_from_intent cfg (VStr name) = Ok ("impl", VStr name) /\
      forall manifest plan_name intent_default plan,
        resolve_dispatch cfg manifest plan_name intent_default = Ok plan ->
        intent plan = VStr name ->
        pipeline_group plan = "impl").
Proof.
  split.
  - exists Examples.cfg, "review_only". split; [vm_compute; reflexivity |].
    unfold shared_profile_name. repeat eexists; reflexivity.
  - intros cfg cfg_path name _
      (pls & impl & review & pi & pr & Epls & Ei & Epi & Hpi & _).
    assert (F : _find_pipeline_for_profile_name cfg (VStr name) = Ok (Some "impl")).
    { unfold _find_pipeline_for_profile_name.
      rewrite Epls. cbn [bind]. rewrite Ei. cbn [bind]. rewrite Epi. cbn [bind].
      simpl. rewrite Hpi. reflexivity. }
    split; [exact F |].
    split; [unfold _base_profile_from_intent; rewrite F; reflexivity |].
    intros manifest plan_name intent_default plan H Hint.
    apply resolve_dispatch_run in H as (r & R).
    destruct (select_profile_ok _ _ _ _ _ (run_select _ _ _ _ _ _ R))
      as (po & fo & oo & base & S).
    pose proof (s_pipeline _ _ _ _ _ _ _ _ _ S) as Hp.
    rewrite <- (run_intent _ _ _ _ _ _ R), Hint, F in Hp.
    rewrite (run_pipeline _ _ _ _ _ _ R). congruence.
Qed.

(** The example config defines [review_only] in both pipelines; resolving
    it gives a plan of pipeline [impl]. *)
Lemma shared_profile_name_witness :
  validate_runtime_config_dict Examples.cfg "config" = Ok Examples.cfg /\
  shared_profile_name Examples.cfg "review_only" /\
  _find_pipeline_for_profile_name Examples.cfg (VStr "review_only")
  = Ok (Some "impl") /\
  exists plan,
    resolve_dispatch Examples.cfg (VDict []) "review_only" "safe_impl"
    = Ok plan /\
    intent plan = VStr "review_only" /\
    pipeline_group plan = "impl".
Proof.
  assert (Hc : validate_runtime_config_dict Examples.cfg "config"
               = Ok Examples.cfg) by (vm_compute; reflexivity).
  assert (Hs : shared_profile_name Examples.cfg "review_only")
    by (unfold shared_profile_name; repeat eexists; reflexivity).
  split; [exact Hc |]. split; [exact Hs |].
  destruct (proj2 shared_profile_name_selects_impl
              Examples.cfg "config" "review_only" Hc Hs) as (Hf & _ & Hplan).
  split; [exact Hf |].
  destruct (resolve_dispatch Examples.cfg (VDict []) "review_only" "safe_impl")
    as [plan |] eqn:Hr; [| vm_compute in Hr; discriminate Hr].
  exists plan. split; [reflexivity |].
  assert (Hi : intent plan = VStr "review_only")
    by (vm_compute in Hr; injection Hr as <-; reflexivity).
  split; [exact Hi |].
  exact (Hplan (VDict []) "review_only" "safe_impl" plan Hr Hi).
Defined.

End DispatchNames.

(** ** The v2 skill files: methods and step defaults *)

Module SkillSteps.
Import ConfigValidateV2 ResolveFacts ProfileStages.

Lemma expect_mapping (v : value) (path : string) (u : unit) :
  _expect_type v TDict path = Ok u -> exists d, v = VDict d.
Proof.
  unfold _expect_type. intros H. apply when_raise_ok in H.
  destruct v; try discriminate H. eexists; reflexivity.
Qed.

Lemma expect_sequence (v : value) (path : string) (u : unit) :
  _expect_type v TList path = Ok u -> exists xs, v = VList xs.
Proof.
  unfold _expect_type. intros H. apply when_raise_ok in H.
  destruct v; try discriminate H. eexists; reflexivity.
Qed.

Lemma expect_non_empty_string_ok (v : value) (path s : string) :
  _expect_non_empty_string v path = Ok s -> v = VStr s /\ is_blank s = false.
Proof.
  destruct v; simpl; try discriminate.
  destruct (is_blank s0) eqn:E; [discriminate |].
  intros [= <-]. auto.
Qed.

Lemma string_list_items_map (path : string) (xs : list value) :
  forall i out, string_list_items path i xs = Ok out ->
                xs = map VStr out /\ Forall (fun s => is_blank s = false) out.
Proof.
  induction xs as [| x xs IH]; simpl; intros i out H.
  - injection H as <-. split; [reflexivity | constructor].
  - apply bind_ok in H as (s & Es & H).
    apply bind_ok in H as (out' & Eo & H). injection H as <-.
    apply expect_non_empty_string_ok in Es as [-> Hb].
    destruct (IH _ _ Eo) as [-> Hall]. split; [reflexivity | constructor; assumption].
Qed.

Lemma expect_string_list_ok (v : value) (path : string) (ne : bool) (out : list string) :
  _expect_string_list v path ne = Ok out ->
  v = VList (map VStr out) /\ Forall (fun s => is_blank s = false) out /\
  (ne = true -> out <> []).
Proof.
  unfold _expect_string_list. intros H.
  apply bind_ok in H as ([] & El & H). apply expect_sequence in El as (xs & ->).
  apply bind_ok in H as (xs' & Exs & H). simpl in Exs. injection Exs as <-.
  apply bind_ok in H as (out' & Eo & H).
  apply bind_ok in H as ([] & Ene & H). injection H as <-.
  apply string_list_items_map in Eo as [-> Hall].
  repeat split; try assumption.
  intros -> ->. discriminate Ene.
Qed.

Lemma collect_ok (path : string) (step_defaults : value) (all : list string)
    (kv : string * value) (all' : list string) :
  collect_method_steps path step_defaults all kv = Ok all' ->
  exists steps,
    method_steps (snd kv) = Ok steps /\
    all' = (all ++ steps)%list /\
    forall s, In s steps -> py_in (VStr s) step_defaults = Ok true.
Proof.
  destruct kv as [method_id method_node]. unfold collect_method_steps, method_steps.
  intros H. simpl.
  apply bind_ok in H as (v & -> & H). cbn [bind].
  apply bind_ok in H as (l & -> & H). cbn [bind].
  apply bind_ok in H as (steps & -> & H).
  apply bind_ok in H as ([] & Hall & H). injection H as <-.
  exists steps. repeat split.
  intros s Hs. pose proof (for_each_ok _ _ _ Hall s Hs) as Hc. simpl in Hc.
  apply bind_ok in Hc as (known & Ek & Hc).
  apply when_raise_ok in Hc. destruct known; [exact Ek | discriminate Hc].
Qed.

Lemma collect_all (path : string) (step_defaults : value) (ms : dict) :
  forall acc all,
    fold_m (collect_method_steps path step_defaults) ms acc = Ok all ->
    (forall kv, In kv ms ->
       exists steps, method_steps (snd kv) = Ok steps /\
         forall s, In s steps -> py_in (VStr s) step_defaults = Ok true) /\
    (forall s, In s all ->
       In s acc \/ exists kv steps, In kv ms /\ method_steps (snd kv) = Ok steps /\ In s steps).
Proof.
  induction ms as [| kv ms IH]; simpl; intros acc all H.
  - injection H as <-. split; [intros ? [] | auto].
  - apply bind_ok in H as (acc1 & E1 & H).
    apply collect_ok in E1 as (steps & Esteps & -> & Hsteps).
    destruct (IH _ _ H) as [IH1 IH2]. split.
    + intros kv' [<- | Hin]; [exists steps; auto | exact (IH1 _ Hin)].
    + intros s Hs. destruct (IH2 s Hs) as [Hacc | (kv' & st & Hin & Est & Hst)].
      * apply in_app_or in Hacc as [Hacc | Hst]; [left; exact Hacc |].
        right. exists kv, steps. auto.
      * right. exists kv', st. auto.
Qed.

Lemma as_str_list_inv (l : list value) (out : list string) :
  as_str_list l = Ok out -> l = map VStr out.
Proof.
  revert out; induction l as [| v l IH]; simpl; intros out H.
  - injection H as <-; reflexivity.
  - apply bind_ok in H as (s & Es & H). apply bind_ok in H as (r & Er & H).
    injection H as <-. destruct v; try discriminate Es. injection Es as ->.
    simpl. f_equal. exact (IH _ Er).
Qed.

(** The default method ids and the methods of a v2 skill file that
    validation accepts: a non-empty list of strings, and a mapping whose
    nodes are mappings with a boolean [enabled]. *)
Lemma validated_skill_methods (node : value) (skill path : string) (r : value) :
  _validate_skill_file node skill path = Ok r ->
  exists (first_default : string) (other_defaults : list string) (methods : dict),
    get node "default_method_ids"
    = Ok (VList (map VStr (first_default :: other_defaults))) /\
    item node "methods" = Ok (VDict methods) /\
    forall method_id method_node,
      dict_get method_id methods = Some method_node ->
      exists (fields : dict) (enabled : bool),
        method_node = VDict fields /\
        dict_get "enabled" fields = Some (VBool enabled).
Proof.
  unfold _validate_skill_file. intros H.
  apply bind_ok in H as ([] & _ & H).
  apply bind_ok in H as (version & _ & H). apply bind_ok in H as ([] & _ & H).
  apply bind_ok in H as (sk & _ & H). apply bind_ok in H as ([] & _ & H).
  apply bind_ok in H as (dmi & Edmi & H). apply bind_ok in H as (ids & Eids & H).
  apply bind_ok in H as (methods & Em & H).
  apply bind_ok in H as ([] & Emd & H). apply expect_mapping in Emd as (ms & ->).
  apply bind_ok in H as ([] & _ & H).
  apply bind_ok in H as (ms' & Ems & H). simpl in Ems. injection Ems as <-.
  apply bind_ok in H as ([] & Hmethods & _).
  apply expect_string_list_ok in Eids as (-> & _ & Hne).
  destruct ids as [| first_default other_defaults]; [exfalso; exact (Hne eq_refl eq_refl) |].
  exists first_default, other_defaults, ms.
  split; [exact Edmi |].
  destruct node as [| | | | | d]; try discriminate Em.
  simpl in Em. injection Em as Em.
  split; [apply ValidFacts.dget_item; [exact Em | discriminate] |].
  intros method_id method_node Hget.
  pose proof (for_each_ok _ _ _ Hmethods _ (dict_get_In _ _ _ Hget)) as Hv.
  unfold validate_method in Hv.
  apply bind_ok in Hv as ([] & Ed & Hv). apply expect_mapping in Ed as (fields & ->).
  apply bind_ok in Hv as ([] & _ & Hv).
  apply bind_ok in Hv as (en & Een & Hv). apply bind_ok in Hv as ([] & Eb & _).
  apply when_raise_ok in Eb. apply negb_false_iff in Eb.
  destruct en as [| enabled | | | |]; try discriminate Eb.
  exists fields, enabled. split; [reflexivity |].
  simpl in Een. injection Een as Een. unfold dget in Een.
  destruct (dict_get "enabled" fields); [congruence | discriminate Een].
Qed.

(** C9: in a v2 skill file that validation accepts, a step id is listed by
    some method of the phase (enabled or not) exactly when it is a key of
    the step defaults; and a skill file in which some step id is on one side
    only is not accepted. *)
Theorem skill_method_steps_equal_step_defaults (node : value) (skill path : string) :
  (forall r : value,
      _validate_skill_file node skill path = Ok r ->
      exists methods step_defaults : dict,
        get node "methods" = Ok (VDict methods) /\
        get node "step_defaults" = Ok (VDict step_defaults) /\
        forall step : string,
          step_referenced methods step <-> In step (dict_keys step_defaults)) /\
  (forall (methods step_defaults : dict) (step : string),
      get node "methods" = Ok (VDict methods) ->
      get node "step_defaults" = Ok (VDict step_defaults) ->
      ~ (step_referenced methods step <-> In step (dict_keys step_defaults)) ->
      is_ok (_validate_skill_file node skill path) = false).
Proof.
  assert (Accepted : forall r : value,
             _validate_skill_file node skill path = Ok r ->
             exists methods step_defaults : dict,
               get node "methods" = Ok (VDict methods) /\
               get node "step_defaults" = Ok (VDict step_defaults) /\
               forall step : string,
                 step_referenced methods step <-> In step (dict_keys step_defaults));
    [| split; [exact Accepted |];
       intros methods step_defaults step Hm Hsd Hdiff;
       destruct (_validate_skill_file node skill path) as [r |] eqn:E; [| reflexivity];
       destruct (Accepted r eq_refl) as (ms & sd & Hm' & Hsd' & Heq);
       rewrite Hm in Hm'; rewrite Hsd in Hsd';
       injection Hm' as <-; injection Hsd' as <-;
       exfalso; exact (Hdiff (Heq step))].
  intros r. unfold step_referenced.
  unfold _validate_skill_file. intros H.
  apply bind_ok in H as ([] & _ & H).
  apply bind_ok in H as (version & _ & H). apply bind_ok in H as ([] & _ & H).
  apply bind_ok in H as (sk & _ & H). apply bind_ok in H as ([] & _ & H).
  apply bind_ok in H as (dmi & _ & H). apply bind_ok in H as (ids & _ & H).
  apply bind_ok in H as (methods & Em & H).
  apply bind_ok in H as ([] & Emd & H). apply expect_mapping in Emd as (ms & ->).
  apply bind_ok in H as ([] & _ & H).
  apply bind_ok in H as (ms' & Ems & H). simpl in Ems. injection Ems as <-.
  apply bind_ok in H as ([] & Hmethods & H).
  apply bind_ok in H as ([] & _ & H).
  apply bind_ok in H as (step_defaults & Esd & H).
  apply bind_ok in H as ([] & Esdd & H). apply expect_mapping in Esdd as (sd & ->).
  apply bind_ok in H as ([] & _ & H).
  apply bind_ok in H as (all & Eall & H).
  apply bind_ok in H as (sd' & Esd' & H). simpl in Esd'. injection Esd' as <-.
  apply bind_ok in H as ([] & Hrefs & H).
  destruct (collect_all _ _ _ _ _ Eall) as [Hfwd Hback].
  exists ms, sd. split; [exact Em |]. split; [exact Esd |].
  assert (Hsteps : forall method_id method_node steps,
             In (method_id, method_node) ms ->
             get method_node "steps" = Ok (VList steps) ->
             exists ss, method_steps method_node = Ok ss /\ steps = map VStr ss).
  { intros mid mn steps Hin Hget.
    destruct (Hfwd _ Hin) as (ss & Hss & _). exists ss. split; [exact Hss |].
    unfold method_steps in Hss. simpl in Hss. rewrite Hget in Hss. cbn [bind] in Hss.
    assert (to_list (por (VList steps) (VList [])) = Ok steps) as Hl
      by (destruct steps; reflexivity).
    rewrite Hl in Hss. cbn [bind] in Hss. apply as_str_list_inv; exact Hss. }
  intros step. split.
  - intros (mid & mn & steps & Hin & Hget & Hstep).
    destruct (Hsteps _ _ _ Hin Hget) as (ss & Hss & ->).
    destruct (Hfwd _ Hin) as (ss' & Hss' & Hknown).
    simpl in Hss'. rewrite Hss in Hss'. injection Hss' as <-.
    apply in_map_iff in Hstep as (s & [= ->] & Hs).
    specialize (Hknown _ Hs). simpl in Hknown. injection Hknown as Hk.
    unfold dict_mem in Hk. destruct (dict_get step sd) eqn:Eg; [| discriminate Hk].
    apply (Dispatch.dict_get_key step sd v Eg).
  - intros Hkey.
    pose proof (for_each_ok _ _ _ Hrefs step Hkey) as Hc.
    apply when_raise_ok in Hc. apply negb_false_iff in Hc. apply mem_In in Hc.
    destruct (Hback _ Hc) as [[] | ([mid mn] & ss & Hin & Hss & Hs)].
    simpl in Hss.
    (* the method node passed the first loop: its steps are a list *)
    pose proof (for_each_ok _ _ _ Hmethods _ Hin) as Hv.
    unfold validate_method in Hv.
    apply bind_ok in Hv as ([] & _ & Hv). apply bind_ok in Hv as ([] & _ & Hv).
    apply bind_ok in Hv as (en & _ & Hv). apply bind_ok in Hv as ([] & _ & Hv).
    apply bind_ok in Hv as (v & Ev & Hv).
    apply bind_ok in Hv as (steps & Esteps & _).
    apply expect_string_list_ok in Esteps as (-> & _ & _).
    destruct (Hsteps _ _ _ Hin Ev) as (ss' & Hss' & Heq).
    rewrite Hss in Hss'. injection Hss' as <-.
    exists mid, mn, (map VStr steps). repeat split; try assumption.
    rewrite Heq. apply in_map. exact Hs.
Qed.

(** The example skill file is accepted, and its methods list the steps
    that have a default. *)
Lemma skill_steps_witness :
  _validate_skill_file (ExamplesV2.skill_yaml "plan") "plan"
    "/repo/configs-v2/skills/plan.yaml" = Ok (ExamplesV2.skill_yaml "plan") /\
  exists methods step_defaults : dict,
    get (ExamplesV2.skill_yaml "plan") "methods" = Ok (VDict methods) /\
    get (ExamplesV2.skill_yaml "plan") "step_defaults" = Ok (VDict step_defaults) /\
    forall step : string,
      step_referenced methods step <-> In step (dict_keys step_defaults).
Proof.
  assert (H : _validate_skill_file (ExamplesV2.skill_yaml "plan") "plan"
                "/repo/configs-v2/skills/plan.yaml" = Ok (ExamplesV2.skill_yaml "plan"))
    by (vm_compute; reflexivity).
  split; [exact H |].
  exact (proj1 (skill_method_steps_equal_step_defaults
                  (ExamplesV2.skill_yaml "plan") "plan"
                  "/repo/configs-v2/skills/plan.yaml") _ H).
Defined.

End SkillSteps.

(** ** The v2 phase resolver: method selection *)

Module MethodSelection.
Import ConfigValidateV2 ConfigResolveV2.

(** The method [_resolve_selected_method] settles on, by cases on the
    phase's methods: the selected id when the method is defined and enabled,
    a validation error otherwise, which [resolve_v2] passes on. *)
Lemma resolve_selected_method_cases
    (cfg skills phase_cfg manifest_overrides manifest_override : value)
    (phase first_default : string) (other_defaults : list value) (methods : dict)
    (manifest_method_id runtime_method_id step_id : option string) :
  item cfg "skills" = Ok skills ->
  item skills phase = Ok phase_cfg ->
  get phase_cfg "default_method_ids" = Ok (VList (VStr first_default :: other_defaults)) ->
  item phase_cfg "methods" = Ok (VDict methods) ->
  phase_override manifest_overrides phase = Ok manifest_override ->
  get manifest_override "method_id" = Ok (method_id_value manifest_method_id) ->
  let selected := selected_method first_default manifest_method_id runtime_method_id in
  (forall node : dict,
      dict_get selected methods = Some (VDict node) ->
      truthy (match dict_get "enabled" node with Some e => e | None => VBool false end)
      = true ->
      _resolve_selected_method cfg phase manifest_override runtime_method_id
      = Ok (VStr selected)) /\
  (dict_get selected methods = None ->
   _resolve_selected_method cfg phase manifest_override runtime_method_id
   = Raise (ValidationError ("resolved method_id '" ++ selected
                             ++ "' is not defined in skills." ++ phase ++ ".methods")) /\
   resolve_v2 cfg phase manifest_overrides runtime_method_id step_id
   = Raise (ValidationError ("resolved method_id '" ++ selected
                             ++ "' is not defined in skills." ++ phase ++ ".methods"))) /\
  (forall node : dict,
      dict_get selected methods = Some (VDict node) ->
      truthy (match dict_get "enabled" node with Some e => e | None => VBool false end)
      = false ->
      _resolve_selected_method cfg phase manifest_override runtime_method_id
      = Raise (ValidationError ("resolved method_id '" ++ selected ++ "' is disabled")) /\
      resolve_v2 cfg phase manifest_overrides runtime_method_id step_id
      = Raise (ValidationError ("resolved method_id '" ++ selected ++ "' is disabled"))).
Proof.
  intros Hskills Hphase Hids Hmethods Hpo Hmid selected.
  assert (Hsel :
             _resolve_selected_method cfg phase manifest_override runtime_method_id
             = (defined <- py_in (VStr selected) (VDict methods) ;;
                when (negb defined)
                     (raise_validation
                        ("resolved method_id '" ++ selected
                         ++ "' is not defined in skills." ++ phase ++ ".methods")) ;;;
                method_node <- item_v (VDict methods) (VStr selected) ;;
                enabled <- get_or_false method_node "enabled" ;;
                when (negb (truthy enabled))
                     (raise_validation
                        ("resolved method_id '" ++ selected ++ "' is disabled")) ;;;
                Ok (VStr selected))).
  { unfold _resolve_selected_method.
    rewrite Hskills. cbn [bind]. rewrite Hphase. cbn [bind].
    rewrite Hids. cbn [bind por truthy when negb item0].
    rewrite Hmid. cbn [bind]. rewrite Hmethods. cbn [bind].
    assert ((match given runtime_method_id with
             | Some m => VStr m
             | None =>
                 if truthy (method_id_value manifest_method_id)
                 then method_id_value manifest_method_id
                 else VStr first_default
             end) = VStr selected) as ->.
    { unfold selected, selected_method.
      destruct (given runtime_method_id); [reflexivity |].
      destruct manifest_method_id as [m |]; simpl; [| reflexivity].
      destruct (String.eqb m ""); reflexivity. }
    reflexivity. }
  assert (Hv2 : forall e,
             _resolve_selected_method cfg phase manifest_override runtime_method_id
             = Raise e ->
             resolve_v2 cfg phase manifest_overrides runtime_method_id step_id = Raise e).
  { intros e He. unfold resolve_v2. rewrite Hpo. cbn [bind]. rewrite He. reflexivity. }
  split; [| split].
  - intros node Hnode Hen. rewrite Hsel. simpl. unfold dict_mem, ditem.
    rewrite Hnode. simpl. rewrite Hen. reflexivity.
  - intros Hnone.
    assert (_resolve_selected_method cfg phase manifest_override runtime_method_id
            = Raise (ValidationError ("resolved method_id '" ++ selected
                       ++ "' is not defined in skills." ++ phase ++ ".methods"))) as He.
    { rewrite Hsel. simpl. unfold dict_mem. rewrite Hnone. reflexivity. }
    split; [exact He | exact (Hv2 _ He)].
  - intros node Hnode Hen.
    assert (_resolve_selected_method cfg phase manifest_override runtime_method_id
            = Raise (ValidationError ("resolved method_id '" ++ selected
                                      ++ "' is disabled"))) as He.
    { rewrite Hsel. simpl. unfold dict_mem, ditem.
      rewrite Hnode. simpl. rewrite Hen. reflexivity. }
    split; [exact He | exact (Hv2 _ He)].
Qed.

(** The plan [resolve_v2] returns carries the method id that
    [_resolve_selected_method] returned. *)
Lemma resolve_v2_selected (cfg manifest_overrides manifest_override : value)
    (phase : string) (runtime_method_id step_id : option string)
    (selected : value) (plan : phase_plan) :
  phase_override manifest_overrides phase = Ok manifest_override ->
  _resolve_selected_method cfg phase manifest_override runtime_method_id = Ok selected ->
  resolve_v2 cfg phase manifest_overrides runtime_method_id step_id = Ok plan ->
  selected_method_id plan = selected.
Proof.
  intros Hpo Hsel H. unfold resolve_v2 in H.
  rewrite Hpo in H. cbn [bind] in H. rewrite Hsel in H. cbn [bind] in H.
  apply bind_ok in H as (skills & _ & H).
  apply bind_ok in H as (phase_cfg & _ & H).
  apply bind_ok in H as (methods & _ & H).
  apply bind_ok in H as (method_node & _ & H).
  apply bind_ok in H as (st & _ & H).
  apply bind_ok in H as (steps & _ & H).
  apply bind_ok in H as ([] & _ & H).
  apply bind_ok in H as (steps' & _ & H).
  apply bind_ok in H as (step_map & _ & H).
  injection H as <-. reflexivity.
Qed.

(** C8: on a config whose skill file for the phase passed validation, the
    v2 resolver selects the first entry of the phase's default method ids,
    or the manifest's method id when there is one, or the runtime method id
    when there is one.  When the phase's methods do not define the selected
    id, or define it with [enabled] false, [_resolve_selected_method] raises
    a validation error and so does [resolve_v2], which returns no plan;
    when they define it with [enabled] true, the selected id is returned,
    and it is the method id of every plan [resolve_v2] returns. *)
Theorem method_selection_precedence
    (cfg skills phase_cfg checked manifest_overrides manifest_override : value)
    (phase path : string)
    (manifest_method_id runtime_method_id step_id : option string) :
  item cfg "skills" = Ok skills ->
  item skills phase = Ok phase_cfg ->
  _validate_skill_file phase_cfg phase path = Ok checked ->
  phase_override manifest_overrides phase = Ok manifest_override ->
  get manifest_override "method_id" = Ok (method_id_value manifest_method_id) ->
  exists (first_default : string) (other_defaults : list string) (methods : dict),
    get phase_cfg "default_method_ids"
    = Ok (VList (map VStr (first_default :: other_defaults))) /\
    get phase_cfg "methods" = Ok (VDict methods) /\
    let selected := selected_method first_default manifest_method_id runtime_method_id in
    let resolved :=
      _resolve_selected_method cfg phase manifest_override runtime_method_id in
    let plan := resolve_v2 cfg phase manifest_overrides runtime_method_id step_id in
    match dict_get selected methods with
    | None =>
        resolved
        = Raise (ValidationError ("resolved method_id '" ++ selected
                                  ++ "' is not defined in skills." ++ phase ++ ".methods"))
        /\
        plan
        = Raise (ValidationError ("resolved method_id '" ++ selected
                                  ++ "' is not defined in skills." ++ phase ++ ".methods"))
    | Some method_node =>
        exists enabled : bool,
          get method_node "enabled" = Ok (VBool enabled) /\
          if enabled
          then resolved = Ok (VStr selected) /\
               forall p, plan = Ok p -> selected_method_id p = VStr selected
          else resolved
               = Raise (ValidationError ("resolved method_id '" ++ selected
                                         ++ "' is disabled")) /\
               plan
               = Raise (ValidationError ("resolved method_id '" ++ selected
                                         ++ "' is disabled"))
    end.
Proof.
  intros Hskills Hphase Hvalid Hpo Hmid.
  destruct (SkillSteps.validated_skill_methods _ _ _ _ Hvalid)
    as (first_default & other_defaults & methods & Hids & Hmethods & Hnodes).
  exists first_default, other_defaults, methods.
  split; [exact Hids |].
  split; [exact (ProfileStages.item_get _ _ _ Hmethods) |].
  intros selected resolved plan.
  destruct (resolve_selected_method_cases cfg skills phase_cfg manifest_overrides
              manifest_override phase first_default (map VStr other_defaults) methods
              manifest_method_id runtime_method_id step_id
              Hskills Hphase Hids Hmethods Hpo Hmid) as (Hok & Hundef & Hoff).
  fold selected in Hok, Hundef, Hoff.
  destruct (dict_get selected methods) as [method_node |] eqn:Eg.
  - destruct (Hnodes _ _ Eg) as (fields & enabled & -> & Hen).
    exists enabled. split; [simpl; unfold dget; rewrite Hen; reflexivity |].
    destruct enabled.
    + assert (Hres : resolved = Ok (VStr selected))
        by (apply (Hok fields eq_refl); rewrite Hen; reflexivity).
      split; [exact Hres |].
      intros p Hp. exact (resolve_v2_selected _ _ _ _ _ _ _ _ Hpo Hres Hp).
    + apply (Hoff fields eq_refl). rewrite Hen. reflexivity.
  - exact (Hundef eq_refl).
Qed.

(** The example v2 config, whose phase [plan] has the default method
    [standard] and the disabled method [deep]: a runtime id wins over the
    manifest's [deep]; without one, [deep] is selected and refused; a
    runtime id that names no method is refused. *)
Lemma method_selection_witness :
  _resolve_selected_method ExamplesV2.cfg "plan" (VDict [ ("method_id", VStr "deep") ])
    (Some "standard") = Ok (VStr "standard") /\
  resolve_v2 ExamplesV2.cfg "plan" ExamplesV2.manifest_deep None None
  = Raise (ValidationError "resolved method_id 'deep' is disabled") /\
  resolve_v2 ExamplesV2.cfg "plan" ExamplesV2.manifest_deep (Some "quick") None
  = Raise (ValidationError
             "resolved method_id 'quick' is not defined in skills.plan.methods").
Proof.
  assert (exists skills,
             item ExamplesV2.cfg "skills" = Ok skills /\
             item skills "plan" = Ok (ExamplesV2.skill_yaml "plan"))
    as (skills & Hs & Hp) by (eexists; split; vm_compute; reflexivity).
  assert (Hv : _validate_skill_file (ExamplesV2.skill_yaml "plan") "plan"
                 "/repo/configs-v2/skills/plan.yaml" = Ok (ExamplesV2.skill_yaml "plan"))
    by (vm_compute; reflexivity).
  pose proof (fun runtime_method_id =>
                method_selection_precedence
                  ExamplesV2.cfg skills (ExamplesV2.skill_yaml "plan")
                  (ExamplesV2.skill_yaml "plan") ExamplesV2.manifest_deep
                  (VDict [ ("method_id", VStr "deep") ]) "plan"
                  "/repo/configs-v2/skills/plan.yaml" (Some "deep") runtime_method_id None
                  Hs Hp Hv eq_refl eq_refl) as Selected.
  split; [| split].
  - destruct (Selected (Some "standard")) as (fd & od & ms & Hids & Hms & Hcase).
    vm_compute in Hids. injection Hids as <- _. vm_compute in Hms. injection Hms as <-.
    destruct Hcase as (enabled & Hen & Hcase).
    vm_compute in Hen. injection Hen as <-. exact (proj1 Hcase).
  - destruct (Selected None) as (fd & od & ms & Hids & Hms & Hcase).
    vm_compute in Hids. injection Hids as <- _. vm_compute in Hms. injection Hms as <-.
    destruct Hcase as (enabled & Hen & Hcase).
    vm_compute in Hen. injection Hen as <-. exact (proj2 Hcase).
  - destruct (Selected (Some "quick")) as (fd & od & ms & Hids & Hms & Hcase).
    vm_compute in Hids. injection Hids as <- _. vm_compute in Hms. injection Hms as <-.
    exact (proj2 Hcase).
Defined.

End MethodSelection.

(** ** Loading a config root *)

Module Loading.
Import ResolveFacts ValidFacts.

Lemma load_yaml_v1 (e : option Fs.node) (path : string) (raw : value) :
  ConfigValidate._load_yaml e path = Ok raw ->
  e = Some (Fs.File (Some raw)) /\ exists d, raw = VDict d.
Proof.
  unfold ConfigValidate._load_yaml.
  destruct e as [[[data |] | es] |]; try discriminate.
  intros H. apply bind_ok in H as ([] & _ & H). apply bind_ok in H as ([] & Hd & H).
  injection H as <-. apply when_raise_ok in Hd.
  destruct data; try discriminate Hd. split; [reflexivity | eexists; reflexivity].
Qed.

Lemma load_yaml_v2 (e : option Fs.node) (path : string) (raw : value) :
  ConfigValidateV2._load_yaml e path = Ok raw ->
  e = Some (Fs.File (Some raw)) /\ exists d, raw = VDict d.
Proof.
  unfold ConfigValidateV2._load_yaml.
  destruct e as [[[data |] | es] |]; try discriminate.
  intros H. apply bind_ok in H as ([] & _ & H). apply bind_ok in H as ([] & Hd & H).
  injection H as <-. apply when_raise_ok in Hd.
  destruct data; try discriminate Hd. split; [reflexivity | eexists; reflexivity].
Qed.

(** A v1 loading loop that succeeds has read and normalised each of its
    files, and left each under its name. *)
Lemma load_files_ok (normalize : value -> string -> string -> result value)
    (t : Fs.tree) (root : string) (files : list (string * (string * string))) :
  forall acc d,
    ConfigValidate.load_files normalize t root files acc = Ok d ->
    NoDup (map fst files) ->
    (forall name subdir filename,
        In (name, (subdir, filename)) files ->
        exists raw node,
          Fs.lookup2 t subdir filename = Some (Fs.File (Some raw)) /\
          (exists m, raw = VDict m) /\
          normalize raw name (Fs.join (Fs.join root subdir) filename) = Ok node /\
          dict_get name d = Some node) /\
    (forall k, ~ In k (map fst files) -> dict_get k d = dict_get k acc).
Proof.
  induction files as [| [name [subdir filename]] files IH]; simpl; intros acc d H Hnd.
  - injection H as <-. split; [intros ? ? ? [] | reflexivity].
  - apply bind_ok in H as (raw & Eraw & H).
    apply bind_ok in H as (node & Enode & H).
    inversion_clear Hnd as [| ? ? Hname Hrest].
    destruct (IH _ _ H Hrest) as [IH1 IH2].
    apply load_yaml_v1 in Eraw as [Elook Hdict].
    split.
    + intros n s f [[= <- <- <-] | Hin].
      * exists raw, node. repeat split; try assumption.
        rewrite IH2 by exact Hname. apply dict_get_set_same.
      * exact (IH1 _ _ _ Hin).
    + intros k Hk. simpl in Hk.
      rewrite IH2 by (intros Hin; apply Hk; right; exact Hin).
      apply dict_get_set_other. intros ->; apply Hk; left; reflexivity.
Qed.

(** A v2 loading loop that succeeds has read and validated each file. *)
Lemma load_dir_ok (validate : value -> string -> string -> result value)
    (t : Fs.tree) (root subdir : string) (names : list string) :
  forall acc d,
    ConfigValidateV2.load_dir validate t root subdir names acc = Ok d ->
    forall name, In name names ->
      exists raw node,
        Fs.lookup2 t subdir (name ++ ".yaml") = Some (Fs.File (Some raw)) /\
        (exists m, raw = VDict m) /\
        validate raw name (Fs.join (Fs.join root subdir) (name ++ ".yaml")) = Ok node.
Proof.
  induction names as [| n names IH]; simpl; intros acc d H name Hin; [contradiction |].
  apply bind_ok in H as (raw & Eraw & H).
  apply bind_ok in H as (node & Enode & H).
  destruct Hin as [<- | Hin]; [| exact (IH _ _ H name Hin)].
  apply load_yaml_v2 in Eraw as [Elook Hdict].
  exists raw, node. auto.
Qed.

(** Normalising a v1 servant file keeps its default model and its allowed
    models, and leaves a mapping with the five servant keys at most. *)
Lemma normalize_servant_keeps (raw : value) (servant path : string) (node : value) :
  ConfigValidate._normalize_servant_file raw servant path = Ok node ->
  get node "default_model" = get raw "default_model" /\
  get node "allowed_models" = get raw "allowed_models" /\
  exists d, node = VDict d /\
    forall k, In k (dict_keys d) ->
      In k ["default_model"; "allowed_models"; "wrapper_defaults"; "purpose_models";
            "purpose_efforts"].
Proof.
  unfold ConfigValidate._normalize_servant_file. intros H.
  apply bind_ok in H as (hv & _ & H). apply bind_ok in H as (ht & _ & H).
  destruct (hv || ht).
  - apply bind_ok in H as ([] & Ek & H).
    apply bind_ok in H as (v & _ & H). apply bind_ok in H as ([] & _ & H).
    apply bind_ok in H as (tl & _ & H). apply bind_ok in H as ([] & _ & H).
    apply bind_ok in H as (dm & Edm & H). apply bind_ok in H as (am & Eam & H).
    apply bind_ok in H as (wd & _ & H). apply bind_ok in H as (pm & _ & H).
    apply bind_ok in H as (pe & _ & H). injection H as <-.
    apply ProfileStages.item_get in Edm. apply ProfileStages.item_get in Eam.
    rewrite Edm, Eam. split; [reflexivity |]. split; [reflexivity |].
    eexists; split; [reflexivity |]. simpl. tauto.
  - apply bind_ok in H as ([] & Ek & H).
    apply bind_ok in H as (d & Ed & H). injection H as <-.
    unfold ConfigValidate._ensure_keys in Ek.
    apply bind_ok in Ek as (d' & Ed' & Ek).
    destruct raw; try discriminate Ed'. simpl in Ed, Ed'.
    injection Ed as <-. injection Ed' as <-.
    split; [reflexivity |]. split; [reflexivity |].
    eexists; split; [reflexivity |].
    apply when_raise_ok in Ek. exact (no_unknown_keys _ _ Ek).
Qed.

End Loading.

(** ** Default model outside the allowed models *)

Module DefaultModel.
Import ResolveFacts ValidFacts Loading.

Lemma map_VStr_inj (a b : list string) : map VStr a = map VStr b -> a = b.
Proof.
  revert b; induction a as [| x a IH]; destruct b as [| y b]; simpl; try discriminate.
  - reflexivity.
  - intros [= -> H]. f_equal. exact (IH _ H).
Qed.

Lemma str_set_items_intro (path : string) (l : list string) :
  Forall (fun s => is_blank s = false) l ->
  forall i, ConfigValidate.str_set_items path i (map VStr l) = Ok l.
Proof.
  induction 1 as [| s l Hs _ IH]; simpl; intros i; [reflexivity |].
  rewrite Hs, IH. reflexivity.
Qed.

Lemma string_list_items_intro (path : string) (l : list string) :
  Forall (fun s => is_blank s = false) l ->
  forall i, ConfigValidateV2.string_list_items path i (map VStr l) = Ok l.
Proof.
  induction 1 as [| s l Hs _ IH]; simpl; intros i; [reflexivity |].
  rewrite Hs. simpl. rewrite IH. reflexivity.
Qed.

Lemma not_mem (s : string) (l : list string) : ~ In s l -> mem s l = false.
Proof.
  intros N. destruct (mem s l) eqn:E; [| reflexivity].
  apply mem_In in E. contradiction.
Qed.

(** A v2 servant file that validates has its default model among its
    allowed models. *)
Lemma validate_servant_file_ok (node : value) (tool path : string) (r : value) :
  ConfigValidateV2._validate_servant_file node tool path = Ok r ->
  exists default_model allowed,
    get node "default_model" = Ok (VStr default_model) /\
    get node "allowed_models" = Ok (VList (map VStr allowed)) /\
    In default_model allowed.
Proof.
  unfold ConfigValidateV2._validate_servant_file. intros H.
  apply bind_ok in H as ([] & _ & H).
  apply bind_ok in H as (v & _ & H). apply bind_ok in H as ([] & _ & H).
  apply bind_ok in H as (tl & _ & H). apply bind_ok in H as ([] & _ & H).
  apply bind_ok in H as (dmv & Edm & H). apply bind_ok in H as (dm & Edms & H).
  apply bind_ok in H as (amv & Eam & H). apply bind_ok in H as (allowed & Eal & H).
  apply bind_ok in H as ([] & Hin & _).
  apply SkillSteps.expect_non_empty_string_ok in Edms as [-> _].
  apply SkillSteps.expect_string_list_ok in Eal as (-> & _ & _).
  apply when_raise_ok in Hin. apply negb_false_iff in Hin. apply mem_In in Hin.
  exists dm, allowed. auto.
Qed.

(** C7: a servant file whose default model is not one of its allowed
    models is rejected.  When the file passes the checks made before the
    membership test (its keys, its tags, a non-empty string for the default
    model, a list of non-empty strings for the allowed models), the error
    raised is the validation error at the path of [default_model] with the
    message "must be included in allowed_models", in v1 and in v2; and
    whatever else the config root holds, loading it returns no config. *)
Theorem default_model_must_be_allowed :
  (forall (raw node : value) (servant path cfg_path : string) (servants : dict)
          (default_model : string) (allowed : list string),
      ConfigValidate._normalize_servant_file raw servant path = Ok node ->
      dict_get servant servants = Some node ->
      get raw "default_model" = Ok (VStr default_model) ->
      is_blank default_model = false ->
      get raw "allowed_models" = Ok (VList (map VStr allowed)) ->
      Forall (fun m => is_blank m = false) allowed ->
      ~ In default_model allowed ->
      ConfigValidate.validate_servant cfg_path (VDict servants) servant
      = Raise (ValidationError
                 (((cfg_path ++ ".servants." ++ servant) ++ ".default_model")
                  ++ ": " ++ "must be included in allowed_models"))) /\
  (forall (t : Fs.tree) (root servant subdir filename : string) (raw : value)
          (default_model : string) (allowed : list string),
      In (servant, (subdir, filename)) ConfigValidate.SERVANT_FILES ->
      Fs.lookup2 t subdir filename = Some (Fs.File (Some raw)) ->
      get raw "default_model" = Ok (VStr default_model) ->
      get raw "allowed_models" = Ok (VList (map VStr allowed)) ->
      ~ In default_model allowed ->
      is_ok (ConfigValidate.load_and_validate_split_config t root) = false) /\
  (forall (node : dict) (tool path default_model : string) (allowed : list string),
      (forall k, In k (dict_keys node) ->
                 In k ["version"; "tool"; "default_model"; "allowed_models";
                       "wrapper_defaults"; "web_capabilities"; "purpose_models";
                       "purpose_efforts"; "effort_level_descriptions"]) ->
      py_eq (dget node "version") (VInt 2) = true ->
      py_eq (dget node "tool") (VStr tool) = true ->
      dget node "default_model" = VStr default_model ->
      is_blank default_model = false ->
      dget node "allowed_models" = VList (map VStr allowed) ->
      Forall (fun m => is_blank m = false) allowed ->
      allowed <> [] ->
      ~ In default_model allowed ->
      ConfigValidateV2._validate_servant_file (VDict node) tool path
      = Raise (ValidationError
                 ((path ++ ".default_model")
                  ++ ": " ++ "must be included in allowed_models"))) /\
  (forall (t : Fs.tree) (root tool : string) (raw : value)
          (default_model : string) (allowed : list string),
      In tool ConfigValidateV2.TOOLS ->
      Fs.lookup2 t "servants" (tool ++ ".yaml") = Some (Fs.File (Some raw)) ->
      get raw "default_model" = Ok (VStr default_model) ->
      get raw "allowed_models" = Ok (VList (map VStr allowed)) ->
      ~ In default_model allowed ->
      is_ok (ConfigValidateV2.load_and_validate_v2_config t root) = false).
Proof.
  split; [| split; [| split]].
  - intros raw node servant path cfg_path servants dm allowed Hn Hs Hdm Hb Hal Hall Hnot.
    destruct (normalize_servant_keeps _ _ _ _ Hn) as (E1 & E2 & d & -> & Hkeys).
    rewrite Hdm in E1. rewrite Hal in E2. simpl in E1, E2.
    injection E1 as E1. injection E2 as E2.
    unfold ConfigValidate.validate_servant.
    simpl get. unfold dget at 1. rewrite Hs. cbn [bind].
    unfold ConfigValidate._expect_type at 1. cbn [isinstance negb when bind].
    unfold ConfigValidate._ensure_keys at 1. cbn [items bind].
    rewrite (no_unknown_keys_intro _ _ Hkeys). cbn [nonempty when bind get].
    rewrite E1. cbn [non_empty_str]. rewrite Hb. cbn [negb when bind as_str].
    rewrite E2. unfold ConfigValidate._expect_str_set.
    unfold ConfigValidate._expect_type at 1. cbn [isinstance negb when bind to_list].
    rewrite (str_set_items_intro _ _ Hall). cbn [bind].
    rewrite (not_mem _ _ Hnot). reflexivity.
  - intros t root servant subdir filename raw dm allowed Hfile Hlook Hdm Hal Hnot.
    destruct (ConfigValidate.load_and_validate_split_config t root) as [r |] eqn:E;
      [exfalso | reflexivity].
    unfold ConfigValidate.load_and_validate_split_config in E.
    apply bind_ok in E as (sd & Esd & E).
    apply bind_ok in E as (pd & _ & E).
    apply validate_runtime_config_dict_ok in E as [_ [Hserv _]].
    assert (Hnd : NoDup (map fst ConfigValidate.SERVANT_FILES))
      by (repeat constructor; simpl; intuition discriminate).
    destruct (load_files_ok _ _ _ _ _ _ Esd Hnd) as [Hfiles _].
    destruct (Hfiles _ _ _ Hfile) as (raw' & node & Hl & _ & Hn & Hg).
    rewrite Hlook in Hl. injection Hl as <-.
    destruct (normalize_servant_keeps _ _ _ _ Hn) as (E1 & E2 & _).
    assert (Hin : In servant ConfigValidate.SERVANT_NAMES).
    { simpl in Hfile. simpl.
      destruct Hfile as [[= <- _ _] | [[= <- _ _] | [[= <- _ _] | []]]]; auto. }
    destruct (Hserv _ Hin) as (ss & nd & dm' & al' & F1 & F2 & F3 & F4 & F5).
    simpl in F1. injection F1 as <-.
    simpl in F2. unfold ditem in F2. rewrite Hg in F2. injection F2 as <-.
    apply ProfileStages.item_get in F3. apply ProfileStages.item_get in F4.
    rewrite E1, Hdm in F3. rewrite E2, Hal in F4.
    injection F3 as <-. injection F4 as F4. apply map_VStr_inj in F4. subst al'.
    contradiction.
  - intros node tool path dm allowed Hkeys Hver Htool Hdm Hb Hal Hall Hne Hnot.
    unfold ConfigValidateV2._validate_servant_file.
    unfold ConfigValidateV2._ensure_keys at 1. cbn [items bind].
    rewrite (no_unknown_keys_intro _ _ Hkeys). cbn [nonempty when bind get].
    rewrite Hver, Htool. cbn [negb when bind].
    rewrite Hdm. cbn [ConfigValidateV2._expect_non_empty_string]. rewrite Hb. cbn [bind].
    rewrite Hal. unfold ConfigValidateV2._expect_string_list.
    unfold ConfigValidateV2._expect_type at 1. cbn [isinstance negb when bind to_list].
    rewrite (string_list_items_intro _ _ Hall). cbn [bind].
    destruct allowed as [| a allowed']; [contradiction |].
    cbn [nonempty negb andb when bind].
    rewrite (not_mem _ _ Hnot). reflexivity.
  - intros t root tool raw dm allowed Htool Hlook Hdm Hal Hnot.
    destruct (ConfigValidateV2.load_and_validate_v2_config t root) as [r |] eqn:E;
      [exfalso | reflexivity].
    unfold ConfigValidateV2.load_and_validate_v2_config in E.
    apply bind_ok in E as ([] & _ & E).
    apply bind_ok in E as (skills & _ & E).
    apply bind_ok in E as (servants & Eserv & _).
    destruct (load_dir_ok _ _ _ _ _ _ _ Eserv tool Htool) as (raw' & node & Hl & _ & Hv).
    rewrite Hlook in Hl. injection Hl as <-.
    apply validate_servant_file_ok in Hv as (dm' & al' & F1 & F2 & F3).
    rewrite Hdm in F1. rewrite Hal in F2.
    injection F1 as <-. injection F2 as F2. apply map_VStr_inj in F2. subst al'.
    contradiction.
Qed.

(** A servant with default model [x] and allowed models [y] and [z], in v1
    and in v2. *)
Lemma default_model_witness :
  ConfigValidate.validate_servant "config" (VDict [("codex", Examples.servant_misfit)]) "codex"
  = Raise (ValidationError
             "config.servants.codex.default_model: must be included in allowed_models") /\
  is_ok (ConfigValidate.load_and_validate_split_config
           (Examples.root_with_codex Examples.servant_misfit) "/repo/configs") = false /\
  ConfigValidateV2._validate_servant_file ExamplesV2.servant_misfit "codex"
    "/repo/configs-v2/servants/codex.yaml"
  = Raise (ValidationError
             "/repo/configs-v2/servants/codex.yaml.default_model: must be included in allowed_models") /\
  is_ok (ConfigValidateV2.load_and_validate_v2_config
           (ExamplesV2.root_with_codex ExamplesV2.servant_misfit) "/repo/configs-v2")
  = false.
Proof.
  assert (Hnot : ~ In "x" ["y"; "z"]) by (simpl; intuition discriminate).
  assert (Hall : Forall (fun m => is_blank m = false) ["y"; "z"])
    by (repeat constructor).
  destruct default_model_must_be_allowed as (V1 & L1 & V2 & L2).
  split; [| split; [| split]].
  - exact (V1 Examples.servant_misfit Examples.servant_misfit "codex"
              "/repo/configs/servant/codex.yaml" "config"
              [("codex", Examples.servant_misfit)] "x" ["y"; "z"]
              eq_refl eq_refl eq_refl eq_refl eq_refl Hall Hnot).
  - refine (L1 (Examples.root_with_codex Examples.servant_misfit) "/repo/configs"
              "codex" "servant" "codex.yaml" Examples.servant_misfit "x" ["y"; "z"]
              _ eq_refl eq_refl eq_refl Hnot).
    simpl; auto.
  - lazymatch eval cbv in ExamplesV2.servant_misfit with
    | VDict ?fields =>
        refine (V2 fields "codex" "/repo/configs-v2/servants/codex.yaml" "x" ["y"; "z"]
                  _ eq_refl eq_refl eq_refl eq_refl eq_refl Hall _ Hnot);
          [simpl; intuition | discriminate]
    end.
  - refine (L2 (ExamplesV2.root_with_codex ExamplesV2.servant_misfit) "/repo/configs-v2"
              "codex" ExamplesV2.servant_misfit "x" ["y"; "z"]
              _ eq_refl eq_refl eq_refl Hnot).
    simpl; auto.
Defined.

(** A servant file with default model [x], allowed models [y] and [z], and
    a key [notes]: validation reports the unknown key, in v2 and in v1, and
    says nothing of the default model. *)
Lemma default_model_error_preempted :
  get ExamplesV2.servant_misfit_unknown_key "default_model" = Ok (VStr "x") /\
  get ExamplesV2.servant_misfit_unknown_key "allowed_models"
  = Ok (VList [VStr "y"; VStr "z"]) /\
  ConfigValidateV2._validate_servant_file ExamplesV2.servant_misfit_unknown_key "codex"
    "/repo/configs-v2/servants/codex.yaml"
  = Raise (ValidationError "/repo/configs-v2/servants/codex.yaml: unknown keys: notes") /\
  ConfigValidateV2.load_and_validate_v2_config
    (ExamplesV2.root_with_codex ExamplesV2.servant_misfit_unknown_key) "/repo/configs-v2"
  = Raise (ValidationError "/repo/configs-v2/servants/codex.yaml: unknown keys: notes") /\
  get Examples.servant_misfit_unknown_key "default_model" = Ok (VStr "x") /\
  get Examples.servant_misfit_unknown_key "allowed_models"
  = Ok (VList [VStr "y"; VStr "z"]) /\
  ConfigValidate.load_and_validate_split_config
    (Examples.root_with_codex Examples.servant_misfit_unknown_key) "/repo/configs"
  = Raise (ValidationError "/repo/configs/servant/codex.yaml: unknown keys: notes").
Proof.
  repeat split; vm_compute; reflexivity.
Qed.

End DefaultModel.

(** ** What a loader rejects *)

Module Rejection.
Import ResolveFacts ValidFacts Loading.

Lemma ensure_keys_v1 (m : value) (allowed : list string) (path : string) (u : unit) :
  ConfigValidate._ensure_keys m allowed path = Ok u -> keys_within m allowed.
Proof.
  unfold ConfigValidate._ensure_keys. intros H.
  apply bind_ok in H as (d & Ed & H). destruct m; try discriminate Ed.
  simpl in Ed. injection Ed as <-. apply when_raise_ok in H.
  exists kvs. split; [reflexivity | exact (no_unknown_keys _ _ H)].
Qed.

Lemma ensure_keys_v2 (m : value) (allowed : list string) (path : string) (u : unit) :
  ConfigValidateV2._ensure_keys m allowed path = Ok u -> keys_within m allowed.
Proof.
  unfold ConfigValidateV2._ensure_keys. intros H.
  apply bind_ok in H as (d & Ed & H). destruct m; try discriminate Ed.
  simpl in Ed. injection Ed as <-. apply when_raise_ok in H.
  exists kvs. split; [reflexivity | exact (no_unknown_keys _ _ H)].
Qed.

Lemma normalize_servant_top (raw : value) (servant path : string) (node : value) :
  ConfigValidate._normalize_servant_file raw servant path = Ok node ->
  keys_within raw (v1_top_keys "tool" v1_servant_keys raw).
Proof.
  unfold ConfigValidate._normalize_servant_file. intros H.
  apply bind_ok in H as (hv & Ehv & H). apply bind_ok in H as (ht & Eht & H).
  destruct (hv || ht) eqn:E; apply bind_ok in H as ([] & Ek & H);
    pose proof (ensure_keys_v1 _ _ _ _ Ek) as (d & -> & Hk);
    simpl in Ehv, Eht; injection Ehv as <-; injection Eht as <-;
    exists d; (split; [reflexivity |]); simpl; rewrite E; exact Hk.
Qed.

Lemma normalize_pipeline_top (raw : value) (pipeline path : string) (node : value) :
  ConfigValidate._normalize_pipeline_file raw pipeline path = Ok node ->
  keys_within raw (v1_top_keys "pipeline" v1_pipeline_keys raw).
Proof.
  unfold ConfigValidate._normalize_pipeline_file. intros H.
  apply bind_ok in H as (hv & Ehv & H). apply bind_ok in H as (ht & Eht & H).
  destruct (hv || ht) eqn:E; apply bind_ok in H as ([] & Ek & H);
    pose proof (ensure_keys_v1 _ _ _ _ Ek) as (d & -> & Hk);
    simpl in Ehv, Eht; injection Ehv as <-; injection Eht as <-;
    exists d; (split; [reflexivity |]); simpl; rewrite E; exact Hk.
Qed.

(** Steps shared by the proofs below: the value a successful read gave is
    the one the file is known to hold, and a key of a mapping that passed
    [_ensure_keys] is an allowed one. *)
Ltac binds H := repeat bind_inv H.

Ltac same_value :=
  repeat match goal with
  | H1 : ?a = Ok ?v, H2 : ?a = Ok ?x |- _ =>
      is_var x; rewrite H1 in H2; injection H2 as H2; subst x
  | H : items (VDict _) = Ok ?x |- _ => is_var x; simpl in H; injection H as H; subst x
  | H : to_list (VList _) = Ok ?x |- _ => is_var x; simpl in H; injection H as H; subst x
  end.

Ltac allowed_v1 Hk :=
  match goal with
  | E : ConfigValidate._ensure_keys (VDict ?d) ?allowed _ = Ok _ |- In _ ?allowed =>
      let Hall := fresh "Hall" in
      apply ensure_keys_v1 in E as (? & [= <-] & Hall); exact (Hall _ Hk)
  end.

Ltac allowed_v2 Hk :=
  match goal with
  | E : ConfigValidateV2._ensure_keys (VDict ?d) ?allowed _ = Ok _ |- In _ ?allowed =>
      let Hall := fresh "Hall" in
      apply ensure_keys_v2 in E as (? & [= <-] & Hall); exact (Hall _ Hk)
  end.

Lemma por_mapping (d : dict) : por (VDict d) (VDict []) = VDict d.
Proof. destruct d; reflexivity. Qed.

(** Normalising a v1 file keeps the mappings it holds under the keys that
    validation looks into. *)
Lemma normalize_servant_get (raw : value) (servant path : string) (node : value)
    (key : string) (d : dict) :
  ConfigValidate._normalize_servant_file raw servant path = Ok node ->
  In key ["wrapper_defaults"; "purpose_models"; "purpose_efforts"] ->
  get raw key = Ok (VDict d) ->
  get node key = Ok (VDict d).
Proof.
  unfold ConfigValidate._normalize_servant_file. intros H Hkey Hget.
  destruct raw as [| | | | | fields]; try discriminate Hget.
  simpl in Hget. injection Hget as Hget. unfold dget in Hget.
  destruct (dict_get key fields) as [v |] eqn:Eg; [subst v | discriminate Hget].
  apply bind_ok in H as (hv & _ & H). apply bind_ok in H as (ht & _ & H).
  destruct (hv || ht).
  - binds H. injection H as <-.
    unfold ConfigValidate.get_or_empty in *. simpl in *. unfold ditem in *.
    destruct Hkey as [<- | [<- | [<- | []]]]; rewrite Eg in *;
      unfold dget; simpl; congruence.
  - binds H. injection H as <-. same_value.
    match goal with E : to_dict (VDict fields) = Ok ?x |- _ =>
      simpl in E; injection E as <- end.
    simpl. unfold dget. rewrite Eg. reflexivity.
Qed.

Lemma normalize_pipeline_get (raw : value) (pipeline path : string) (node : value)
    (d : dict) :
  ConfigValidate._normalize_pipeline_file raw pipeline path = Ok node ->
  get raw "profiles" = Ok (VDict d) ->
  get node "profiles" = Ok (VDict d).
Proof.
  unfold ConfigValidate._normalize_pipeline_file. intros H Hget.
  destruct raw as [| | | | | fields]; try discriminate Hget.
  simpl in Hget. injection Hget as Hget. unfold dget in Hget.
  destruct (dict_get "profiles" fields) as [v |] eqn:Eg; [subst v | discriminate Hget].
  apply bind_ok in H as (hv & _ & H). apply bind_ok in H as (ht & _ & H).
  destruct (hv || ht).
  - binds H. injection H as <-.
    simpl in *. unfold ditem in *. rewrite Eg in *. unfold dget. simpl. congruence.
  - binds H. injection H as <-.
    match goal with E : to_dict (VDict fields) = Ok ?x |- _ =>
      simpl in E; injection E as <- end.
    simpl. unfold dget. rewrite Eg. reflexivity.
Qed.

(** A servant that [validate_servant] accepts keeps to the key sets of its
    nested mappings. *)
Lemma validate_servant_keys (cfg_path : string) (servants node : value)
    (servant key : string) (d allowed : list _) (k : string) :
  ConfigValidate.validate_servant cfg_path servants servant = Ok tt ->
  get servants servant = Ok node ->
  get node key = Ok (VDict d) ->
  (key = "wrapper_defaults" /\
   table_get ConfigValidate.WRAPPER_DEFAULT_KEYS servant = Some allowed) \/
  (In key ["purpose_models"; "purpose_efforts"] /\
   allowed = ConfigValidate.PURPOSE_KEYS) ->
  In k (dict_keys d) -> In k allowed.
Proof.
  unfold ConfigValidate.validate_servant. intros H Hnode Hget Hsite Hk.
  binds H. same_value.
  destruct Hsite as [[-> Hkeys] | [[<- | [<- | []]] ->]]; same_value.
  - unfold table_item in *. rewrite Hkeys in *.
    match goal with E : Ok allowed = Ok ?x |- _ => injection E as <- end.
    allowed_v1 Hk.
  - rewrite por_mapping in *. allowed_v1 Hk.
  - rewrite por_mapping in *. allowed_v1 Hk.
Qed.

(** A pipeline that [validate_pipeline] accepts keeps to the key sets of
    its profiles and of their flags and options. *)
Lemma validate_pipeline_keys (cfg_path : string) (servants pipelines node : value)
    (pipeline name : string) (profiles : dict) (profile : value) :
  ConfigValidate.validate_pipeline cfg_path servants pipelines pipeline = Ok tt ->
  get pipelines pipeline = Ok node ->
  get node "profiles" = Ok (VDict profiles) ->
  In (name, profile) profiles ->
  keys_within profile ["stages"; "flags"; "options"; "stage_models"; "stage_efforts"] /\
  (forall d keys k,
      get profile "flags" = Ok (VDict d) ->
      table_get ConfigValidate.PIPELINE_FLAGS pipeline = Some keys ->
      In k (dict_keys d) -> In k keys) /\
  (forall d table k,
      get profile "options" = Ok (VDict d) ->
      table_get ConfigValidate.PIPELINE_OPTIONS pipeline = Some table ->
      In k (dict_keys d) -> In k (map fst table)).
Proof.
  unfold ConfigValidate.validate_pipeline. intros H Hnode Hprofiles Hin.
  binds H. same_value.
  pose proof (for_each_ok _ _ _ H _ Hin) as Hp.
  unfold ConfigValidate.validate_profile in Hp. binds Hp.
  split; [eapply ensure_keys_v1; eassumption |].
  split.
  - intros d keys k Hget Hkeys Hk. same_value.
    unfold table_item in *. rewrite Hkeys in *.
    match goal with E : Ok keys = Ok ?x |- _ => injection E as <- end.
    rewrite por_mapping in *. allowed_v1 Hk.
  - intros d table k Hget Htable Hk. same_value.
    unfold table_item in *. rewrite Htable in *.
    match goal with E : Ok table = Ok ?x |- _ => injection E as <- end.
    rewrite por_mapping in *. allowed_v1 Hk.
Qed.

(** A v1 root that loads has its six files, each a mapping that keeps to
    the declared key sets. *)
Lemma v1_loaded (t : Fs.tree) (root : string) (cfg : value) :
  ConfigValidate.load_and_validate_split_config t root = Ok cfg ->
  forall subdir filename declared,
    v1_required subdir filename declared ->
    exists raw,
      loads_mapping (Fs.lookup2 t subdir filename) raw /\ keys_allowed declared raw.
Proof.
  unfold ConfigValidate.load_and_validate_split_config. intros H.
  apply bind_ok in H as (sd & Esd & H).
  apply bind_ok in H as (pd & Epd & H).
  unfold ConfigValidate.validate_runtime_config_dict in H.
  apply bind_ok in H as ([] & _ & H).
  apply bind_ok in H as (version & _ & H). apply bind_ok in H as ([] & _ & H).
  apply bind_ok in H as (servants & Es & H). simpl in Es. injection Es as <-.
  apply bind_ok in H as ([] & _ & H). apply bind_ok in H as ([] & _ & H).
  apply bind_ok in H as ([] & Hservants & H).
  apply bind_ok in H as (pipelines & Ep & H). simpl in Ep. injection Ep as <-.
  apply bind_ok in H as ([] & _ & H). apply bind_ok in H as ([] & _ & H).
  apply bind_ok in H as ([] & Hpipelines & _).
  assert (Hs : NoDup (map fst ConfigValidate.SERVANT_FILES))
    by (repeat constructor; simpl; intuition discriminate).
  assert (Hp : NoDup (map fst ConfigValidate.PIPELINE_FILES))
    by (repeat constructor; simpl; intuition discriminate).
  destruct (load_files_ok _ _ _ _ _ _ Esd Hs) as [Fs _].
  destruct (load_files_ok _ _ _ _ _ _ Epd Hp) as [Fp _].
  intros subdir filename declared [name sdir fname Hin | name sdir fname Hin].
  - destruct (Fs _ _ _ Hin) as (raw & node & Hl & Hd & Hn & Hg).
    exists raw. split; [split; assumption |].
    assert (Hname : In name ConfigValidate.SERVANT_NAMES).
    { simpl in Hin. simpl.
      destruct Hin as [[= <- _ _] | [[= <- _ _] | [[= <- _ _] | []]]]; auto. }
    pose proof (for_each_ok _ _ _ Hservants _ Hname) as Hv.
    assert (Hnode : get (VDict sd) name = Ok node)
      by (simpl; unfold dget; rewrite Hg; reflexivity).
    intros d allowed k D Hk.
    inversion D as [Em Ea | m keys Hget Hkeys Em Ea | m Hget Em Ea | m Hget Em Ea];
      subst.
    + destruct (normalize_servant_top _ _ _ _ Hn) as (d' & [= <-] & Hall).
      exact (Hall _ Hk).
    + eapply (validate_servant_keys _ _ _ _ "wrapper_defaults" d); eauto.
      eapply normalize_servant_get; eauto. simpl; auto.
    + eapply (validate_servant_keys _ _ _ _ "purpose_models" d); eauto.
      * eapply normalize_servant_get; eauto. simpl; auto.
      * right. split; [simpl; auto | reflexivity].
    + eapply (validate_servant_keys _ _ _ _ "purpose_efforts" d); eauto.
      * eapply normalize_servant_get; eauto. simpl; auto.
      * right. split; [simpl; auto | reflexivity].
  - destruct (Fp _ _ _ Hin) as (raw & node & Hl & Hd & Hn & Hg).
    exists raw. split; [split; assumption |].
    assert (Hname : In name ["impl"; "review"; "plan"]).
    { simpl in Hin. simpl.
      destruct Hin as [[= <- _ _] | [[= <- _ _] | [[= <- _ _] | []]]]; auto. }
    pose proof (for_each_ok _ _ _ Hpipelines _ Hname) as Hv.
    assert (Hnode : get (VDict pd) name = Ok node)
      by (simpl; unfold dget; rewrite Hg; reflexivity).
    intros d allowed k D Hk.
    inversion D as [Em Ea
                   | profiles pname m Hps Hpin Em Ea
                   | profiles pname profile m keys Hps Hpin Hget Hkeys Em Ea
                   | profiles pname profile m table Hps Hpin Hget Htable Em Ea];
      subst.
    + destruct (normalize_pipeline_top _ _ _ _ Hn) as (d' & [= <-] & Hall).
      exact (Hall _ Hk).
    + destruct (validate_pipeline_keys _ _ _ _ _ _ _ _ Hv Hnode
                  (normalize_pipeline_get _ _ _ _ _ Hn Hps) Hpin)
        as ((d' & [= <-] & Hall) & _).
      exact (Hall _ Hk).
    + destruct (validate_pipeline_keys _ _ _ _ _ _ _ _ Hv Hnode
                  (normalize_pipeline_get _ _ _ _ _ Hn Hps) Hpin)
        as (_ & Hflags & _).
      exact (Hflags _ _ _ Hget Hkeys Hk).
    + destruct (validate_pipeline_keys _ _ _ _ _ _ _ _ Hv Hnode
                  (normalize_pipeline_get _ _ _ _ _ Hn Hps) Hpin)
        as (_ & _ & Hoptions).
      exact (Hoptions _ _ _ Hget Htable Hk).
Qed.

(** [_validate_expected_files] on one of the three v2 directories either
    passes or raises a validation error; it does not pass when the directory
    holds a [.yaml] file outside the expected set. *)
Lemma expected_files_result (t : Fs.tree) (root subdir : string) :
  In subdir ["skills"; "servants"; "policies"] ->
  ConfigValidateV2._validate_expected_files t root subdir = Ok tt \/
  is_validation_error (ConfigValidateV2._validate_expected_files t root subdir) = true.
Proof.
  intros Hs. unfold ConfigValidateV2._validate_expected_files.
  destruct (Fs.entry subdir t) as [[doc | entries] |]; try (right; reflexivity).
  assert (exists expected,
             table_item ConfigValidateV2.EXPECTED_FILES subdir = Ok expected)
    as (expected & ->)
    by (destruct Hs as [<- | [<- | [<- | []]]]; eexists; reflexivity).
  cbn [bind].
  destruct (nonempty (sorted_set (filter _ expected))); [right; reflexivity |].
  cbn [when bind].
  destruct (nonempty (sorted_set (filter _ (ConfigValidateV2.found_yaml entries))));
    [right; reflexivity | left; reflexivity].
Qed.

Lemma expected_files_extra (t : Fs.tree) (root subdir : string)
    (entries : Fs.tree) (expected : list string) (name : string) :
  Fs.entry subdir t = Some (Fs.Dir entries) ->
  table_get ConfigValidateV2.EXPECTED_FILES subdir = Some expected ->
  In name (ConfigValidateV2.found_yaml entries) ->
  ~ In name expected ->
  ConfigValidateV2._validate_expected_files t root subdir <> Ok tt.
Proof.
  intros He Hex Hfound Hnot. unfold ConfigValidateV2._validate_expected_files.
  rewrite He. unfold table_item. rewrite Hex. cbn [bind].
  destruct (nonempty (sorted_set (filter _ expected))); [discriminate |].
  cbn [when bind].
  assert (nonempty
            (sorted_set
               (filter (fun n => negb (mem n expected) && negb (mem n []))
                       (ConfigValidateV2.found_yaml entries))) = true) as Hx.
  { destruct (nonempty _) eqn:E; [reflexivity | exfalso].
    destruct (sorted_set _) eqn:E'; [| discriminate E].
    apply sorted_set_nil in E'.
    assert (In name (filter (fun n => negb (mem n expected) && negb (mem n []))
                            (ConfigValidateV2.found_yaml entries))) as Hin.
    { apply filter_In. split; [exact Hfound |].
      rewrite (DefaultModel.not_mem _ _ Hnot). reflexivity. }
    rewrite E' in Hin. contradiction. }
  assert (Hopt : match table_get ConfigValidateV2.OPTIONAL_FILES subdir with
                 | Some o => o
                 | None => []
                 end = []) by reflexivity.
  rewrite Hopt, Hx. discriminate.
Qed.

Lemma for_each_validation_error {A} (body : A -> result unit) (l : list A) (x : A) :
  (forall y, In y l -> body y = Ok tt \/ is_validation_error (body y) = true) ->
  In x l -> body x <> Ok tt ->
  is_validation_error (for_each body l) = true.
Proof.
  induction l as [| y l IH]; simpl; intros Hall Hx Hbad; [contradiction |].
  destruct (Hall y (or_introl eq_refl)) as [Hy | Hy].
  - rewrite Hy. cbn [bind]. destruct Hx as [-> | Hx]; [contradiction |].
    apply IH; auto.
  - destruct (body y) as [[] | e]; [discriminate Hy |]. exact Hy.
Qed.

End Rejection.

(** ** Config roots that validation rejects, and some it accepts *)

Module RootRejection.
Import ResolveFacts ValidFacts Loading Rejection.

Lemma defective_not_loaded (e : option Fs.node)
    (declared : value -> value -> list string -> Prop) (raw : value) :
  defective e declared -> loads_mapping e raw -> keys_allowed declared raw -> False.
Proof.
  intros D [He (d & ->)] Hk.
  destruct D as [Hm | Hu | v Hv Hn | raw' d0 allowed k He0 Hd Hin Hnot];
    rewrite He in *.
  - discriminate Hm.
  - discriminate Hu.
  - injection Hv as <-. discriminate Hn.
  - injection He0 as <-. exact (Hnot (Hk _ _ _ Hd Hin)).
Qed.

(** A skill file that validation accepts keeps to the declared key sets. *)
Lemma skill_file_keys (raw : value) (skill path : string) (r : value) :
  ConfigValidateV2._validate_skill_file raw skill path = Ok r ->
  keys_allowed v2_skill_mapping raw.
Proof.
  unfold ConfigValidateV2._validate_skill_file. intros H d allowed k D Hk.
  binds H.
  inversion D as [Em Ea | methods mid m Hget Hin Em Ea | defaults sid m Hget Hin Em Ea];
    subst; same_value.
  - allowed_v2 Hk.
  - match goal with
    | F : for_each (ConfigValidateV2.validate_method _) _ = Ok _ |- _ =>
        pose proof (for_each_ok _ _ _ F _ Hin) as Hv
    end.
    unfold ConfigValidateV2.validate_method in Hv. binds Hv. allowed_v2 Hk.
  - match goal with
    | F : for_each (fun kv : string * value => let '(_, _) := kv in _) _ = Ok _ |- _ =>
        pose proof (for_each_ok _ _ _ F _ Hin) as Hv
    end.
    cbv beta iota in Hv. binds Hv.
    unfold ConfigValidateV2._validate_step_default in Hv. binds Hv. allowed_v2 Hk.
Qed.

(** So does a servant file. *)
Lemma servant_file_keys (raw : value) (tool path : string) (r : value) :
  ConfigValidateV2._validate_servant_file raw tool path = Ok r ->
  keys_allowed v2_servant_mapping raw.
Proof.
  unfold ConfigValidateV2._validate_servant_file. intros H d allowed k D Hk.
  binds H.
  inversion D as [Em Ea | m Hget Em Ea | m Hget Em Ea]; subst; same_value;
    allowed_v2 Hk.
Qed.

(** So does the routing policy. *)
Lemma routing_policy_keys (raw : value) (path : string) (r : value) :
  ConfigValidateV2._validate_routing_policy raw path = Ok r ->
  keys_allowed v2_routing_mapping raw.
Proof.
  unfold ConfigValidateV2._validate_routing_policy. intros H d allowed k D Hk.
  binds H.
  inversion D as [Em Ea | m Hget Em Ea | sp conds m Hsp Hconds Hin Em Ea
                 | m Hget Em Ea | m Hget Em Ea | m Hget Em Ea
                 | rd m Hrd Hget Em Ea];
    subst; same_value; try allowed_v2 Hk.
  match goal with
  | F : for_each_i (ConfigValidateV2.validate_stop_condition _) _ _ = Ok _ |- _ =>
      destruct (ProfileStages.for_each_i_ok _ _ _ _ F _ Hin) as (j & Hv)
  end.
  unfold ConfigValidateV2.validate_stop_condition in Hv. binds Hv. allowed_v2 Hk.
Qed.

(** So does the review-parallel policy. *)
Lemma review_parallel_policy_keys (raw : value) (path : string) (r : value) :
  ConfigValidateV2._validate_review_parallel_policy raw path = Ok r ->
  keys_allowed v2_review_parallel_mapping raw.
Proof.
  unfold ConfigValidateV2._validate_review_parallel_policy. intros H d allowed k D Hk.
  binds H.
  inversion D as [Em Ea | m Hget Em Ea]; subst; same_value; allowed_v2 Hk.
Qed.

(** So does the web-evidence policy. *)
Lemma web_evidence_policy_keys (raw : value) (path : string) (r : value) :
  ConfigValidateV2._validate_web_evidence_policy raw path = Ok r ->
  keys_allowed v2_web_evidence_mapping raw.
Proof.
  unfold ConfigValidateV2._validate_web_evidence_policy. intros H d allowed k D Hk.
  binds H.
  inversion D as [Em Ea | m Hget Em Ea]; subst; same_value; allowed_v2 Hk.
Qed.

(** A v2 root that loads has its nine files, each a mapping that keeps to
    the declared key sets. *)
Lemma v2_loaded (t : Fs.tree) (root : string) (cfg : value) :
  ConfigValidateV2.load_and_validate_v2_config t root = Ok cfg ->
  forall subdir filename declared,
    v2_required subdir filename declared ->
    exists raw,
      loads_mapping (Fs.lookup2 t subdir filename) raw /\ keys_allowed declared raw.
Proof.
  unfold ConfigValidateV2.load_and_validate_v2_config. intros H.
  apply bind_ok in H as ([] & _ & H).
  apply bind_ok in H as (skills & Esk & H).
  apply bind_ok in H as (servants & Esv & H).
  apply bind_ok in H as (r1 & El1 & H). apply bind_ok in H as (v1 & Ev1 & H).
  apply bind_ok in H as (r2 & El2 & H). apply bind_ok in H as (v2 & Ev2 & H).
  apply bind_ok in H as (r3 & El3 & H). apply bind_ok in H as (v3 & Ev3 & _).
  pose proof (load_dir_ok _ _ _ _ _ _ _ Esk) as Hsk.
  pose proof (load_dir_ok _ _ _ _ _ _ _ Esv) as Hsv.
  apply load_yaml_v2 in El1. apply load_yaml_v2 in El2. apply load_yaml_v2 in El3.
  intros subdir filename declared [phase Hin | tool Hin | | |].
  - destruct (Hsk phase Hin) as (raw & node & Hl & Hd & Hv).
    exists raw. split; [split; assumption | exact (skill_file_keys _ _ _ _ Hv)].
  - destruct (Hsv tool Hin) as (raw & node & Hl & Hd & Hv).
    exists raw. split; [split; assumption | exact (servant_file_keys _ _ _ _ Hv)].
  - exists r1. split; [exact El1 | exact (routing_policy_keys _ _ _ Ev1)].
  - exists r2. split; [exact El2 | exact (review_parallel_policy_keys _ _ _ Ev2)].
  - exists r3. split; [exact El3 | exact (web_evidence_policy_keys _ _ _ Ev3)].
Qed.

(** C4, as the code has it: v2 validation raises a validation error when
    one of its three directories holds a regular [.yaml] file outside the
    expected set (other entries are not looked at); v1 and v2 validation
    return no config when a required file is missing, is not parseable, has
    a top-level value that is not a mapping, or holds a mapping with a key
    outside the key set declared for it. *)
Theorem config_root_rejections :
  (forall (t : Fs.tree) (root subdir : string) (entries : Fs.tree)
          (expected : list string) (name : string),
      Fs.entry subdir t = Some (Fs.Dir entries) ->
      table_get ConfigValidateV2.EXPECTED_FILES subdir = Some expected ->
      In name (ConfigValidateV2.found_yaml entries) ->
      ~ In name expected ->
      is_validation_error (ConfigValidateV2.load_and_validate_v2_config t root) = true) /\
  (forall (t : Fs.tree) (root subdir filename : string)
          (declared : value -> value -> list string -> Prop),
      v1_required subdir filename declared ->
      defective (Fs.lookup2 t subdir filename) declared ->
      is_ok (ConfigValidate.load_and_validate_split_config t root) = false) /\
  (forall (t : Fs.tree) (root subdir filename : string)
          (declared : value -> value -> list string -> Prop),
      v2_required subdir filename declared ->
      defective (Fs.lookup2 t subdir filename) declared ->
      is_ok (ConfigValidateV2.load_and_validate_v2_config t root) = false).
Proof.
  split; [| split].
  - intros t root subdir entries expected name He Hex Hfound Hnot.
    unfold ConfigValidateV2.load_and_validate_v2_config.
    assert (Hs : In subdir ["skills"; "servants"; "policies"]).
    { simpl in Hex. simpl.
      destruct (String.eqb subdir "skills") eqn:E1;
        [apply String.eqb_eq in E1; auto |].
      destruct (String.eqb subdir "servants") eqn:E2;
        [apply String.eqb_eq in E2; auto |].
      destruct (String.eqb subdir "policies") eqn:E3;
        [apply String.eqb_eq in E3; auto | discriminate Hex]. }
    pose proof (for_each_validation_error
                  (ConfigValidateV2._validate_expected_files t root)
                  ["skills"; "servants"; "policies"] subdir
                  (expected_files_result t root) Hs
                  (expected_files_extra t root subdir entries expected name
                     He Hex Hfound Hnot)) as Hv.
    destruct (for_each _ _) as [[] | e]; [discriminate Hv |]. exact Hv.
  - intros t root subdir filename keys Hreq Hdef.
    destruct (ConfigValidate.load_and_validate_split_config t root) as [cfg |] eqn:E;
      [exfalso | reflexivity].
    destruct (v1_loaded _ _ _ E _ _ _ Hreq) as (raw & Hl & Hk).
    exact (defective_not_loaded _ _ _ Hdef Hl Hk).
  - intros t root subdir filename keys Hreq Hdef.
    destruct (ConfigValidateV2.load_and_validate_v2_config t root) as [cfg |] eqn:E;
      [exfalso | reflexivity].
    destruct (v2_loaded _ _ _ E _ _ _ Hreq) as (raw & Hl & Hk).
    exact (defective_not_loaded _ _ _ Hdef Hl Hk).
Qed.

(** A v2 root with [draft.yaml] in [policies/], a v2 root whose
    [skills/plan.yaml] is not YAML, a v2 root whose [servants/codex.yaml]
    has the key [retries] in its [wrapper_defaults], and a v1 root whose
    [servant/codex.yaml] has the key [notes]. *)
Lemma config_root_rejections_witness :
  is_validation_error
    (ConfigValidateV2.load_and_validate_v2_config ExamplesV2.config_root_extra
       "/repo/configs-v2") = true /\
  is_ok (ConfigValidateV2.load_and_validate_v2_config ExamplesV2.config_root_unparseable
           "/repo/configs-v2") = false /\
  is_ok (ConfigValidateV2.load_and_validate_v2_config
           (ExamplesV2.root_with_codex ExamplesV2.servant_unknown_wrapper_key)
           "/repo/configs-v2") = false /\
  is_ok (ConfigValidate.load_and_validate_split_config
           (Examples.root_with_codex Examples.servant_misfit_unknown_key) "/repo/configs")
  = false.
Proof.
  destruct config_root_rejections as (Extra & V1 & V2).
  split; [| split; [| split]].
  - refine (Extra ExamplesV2.config_root_extra "/repo/configs-v2" "policies" _ _
              "draft.yaml" eq_refl eq_refl _ _).
    + simpl; auto.
    + simpl; intuition discriminate.
  - refine (V2 ExamplesV2.config_root_unparseable "/repo/configs-v2" "skills" "plan.yaml"
              _ (v2_skill_file "plan" _) _); [simpl; auto |].
    apply unparseable. reflexivity.
  - refine (V2 (ExamplesV2.root_with_codex ExamplesV2.servant_unknown_wrapper_key)
              "/repo/configs-v2" "servants" "codex.yaml"
              _ (v2_servant_file "codex" _) _); [simpl; auto |].
    eapply unknown_key with (k := "retries");
      [reflexivity | eapply v2_wrapper_defaults; reflexivity | simpl; auto |].
    simpl. intuition discriminate.
  - refine (V1 (Examples.root_with_codex Examples.servant_misfit_unknown_key)
              "/repo/configs" "servant" "codex.yaml" _
              (v1_servant_file "codex" "servant" "codex.yaml" _) _); [simpl; auto |].
    eapply unknown_key with (k := "notes");
      [reflexivity | eapply v1_servant_top | simpl; auto |].
    simpl. intuition discriminate.
Defined.

(** Files beyond the expected set that validation accepts.  The v1 root
    [Examples.config_root] has the file [legacy.yaml] in [servant/], beyond
    the three expected there, and v1 validation returns the validated
    config.  The v2 root [ExamplesV2.config_root] has the file [README.md]
    in [skills/], beyond the three expected there, and v2 validation
    returns a config. *)
Lemma unexpected_files_accepted :
  Fs.lookup2 Examples.config_root "servant" "legacy.yaml"
  = Some (Fs.File (Some (VDict []))) /\
  ~ In "legacy.yaml" (v1_expected "servant") /\
  ConfigValidate.load_and_validate_split_config Examples.config_root "/repo/configs"
  = Ok Examples.cfg /\
  is_validation_error
    (ConfigValidate.load_and_validate_split_config Examples.config_root "/repo/configs")
  = false /\
  Fs.lookup2 ExamplesV2.config_root "skills" "README.md" = Some (Fs.File None) /\
  table_get ConfigValidateV2.EXPECTED_FILES "skills"
  = Some ["plan.yaml"; "impl.yaml"; "review.yaml"] /\
  ConfigValidateV2.load_and_validate_v2_config ExamplesV2.config_root "/repo/configs-v2"
  = Ok ExamplesV2.cfg /\
  is_validation_error
    (ConfigValidateV2.load_and_validate_v2_config ExamplesV2.config_root
       "/repo/configs-v2")
  = false.
Proof.
  split; [reflexivity |]. split; [vm_compute; intuition discriminate |].
  repeat split; vm_compute; reflexivity.
Qed.

End RootRejection.

(** ** What validation guarantees about profiles *)

Module ProfileFacts.
Import ConfigValidate ConfigResolve ResolveFacts ValidFacts ProfileStages.

Lemma table_get_In {A} (t : list (string * A)) (k : string) (a : A) :
  table_get t k = Some a -> In (k, a) t.
Proof.
  induction t as [| [k' a'] t IH]; simpl; [discriminate |].
  destruct (String.eqb k k') eqn:E.
  - apply String.eqb_eq in E; subst. intros [= ->]. left; reflexivity.
  - intros H; right; exact (IH H).
Qed.

Lemma por_falsy (v : value) : por v (VDict []) = VDict [] -> truthy v = false.
Proof.
  unfold por. destruct (truthy v) eqn:T; [| reflexivity].
  intros ->. discriminate T.
Qed.

(** The node of a profile that the resolver reads was checked by the
    validator. *)
Lemma validated_profile_checked (cfg pipelines pnode profiles profile node : value)
    (pipeline : string) :
  validated cfg ->
  In pipeline ["impl"; "review"; "plan"] ->
  item cfg "pipelines" = Ok pipelines ->
  item pipelines pipeline = Ok pnode ->
  item pnode "profiles" = Ok profiles ->
  item_v profiles profile = Ok node ->
  exists cfg_path servants name,
    profile = VStr name /\
    item cfg "servants" = Ok servants /\
    validate_profile cfg_path servants pipeline (name, node) = Ok tt.
Proof.
  intros [Hs (d & pls & cfg_path & -> & Ep & servants & Es & Hall)] Hp Epls Epn Epr Enode.
  specialize (Hall pipeline Hp).
  apply item_get in Epls. rewrite Ep in Epls. injection Epls as <-.
  apply item_get in Epn. apply item_get in Epr.
  unfold validate_pipeline in Hall.
  apply bind_ok in Hall as (pnode' & Epn' & Hall).
  rewrite Epn in Epn'. injection Epn' as <-.
  apply bind_ok in Hall as ([] & _ & Hall).
  apply bind_ok in Hall as ([] & _ & Hall).
  apply bind_ok in Hall as (dp & _ & Hall).
  apply bind_ok in Hall as ([] & _ & Hall).
  apply bind_ok in Hall as (profiles' & Epr' & Hall).
  rewrite Epr in Epr'. injection Epr' as <-.
  apply bind_ok in Hall as ([] & Edict & Hall).
  apply expect_dict in Edict as (ps & ->).
  apply bind_ok in Hall as ([] & _ & Hall).
  apply bind_ok in Hall as (kn & _ & Hall).
  apply bind_ok in Hall as ([] & _ & Hall).
  apply bind_ok in Hall as (ps' & Eps & Hall). simpl in Eps. injection Eps as <-.
  unfold item_v in Enode. destruct profile; try discriminate Enode.
  simpl in Enode. unfold ditem in Enode.
  destruct (dict_get s ps) eqn:Eg; [| discriminate Enode].
  injection Enode as <-.
  exists cfg_path, servants, s. split; [reflexivity |].
  split.
  - destruct (Hs "codex") as (sv & _ & _ & _ & E1 & _); [simpl; auto |].
    pose proof (item_get _ _ _ E1) as E2. rewrite Es in E2. injection E2 as <-.
    exact E1.
  - apply (for_each_ok _ _ _ Hall). apply dict_get_In; exact Eg.
Qed.

(** What the validator established about the four tables of a profile. *)
Lemma validate_profile_tables (cfg_path : string) (servants : value)
    (pipeline name : string) (node : value) :
  validate_profile cfg_path servants pipeline (name, node) = Ok tt ->
  exists nd fl op sm se,
    node = VDict nd /\
    por (dget nd "flags") (VDict []) = VDict fl /\
    por (dget nd "options") (VDict []) = VDict op /\
    por (dget nd "stage_models") (VDict []) = VDict sm /\
    por (dget nd "stage_efforts") (VDict []) = VDict se /\
    (forall k v, In (k, v) fl ->
       (exists b, v = VBool b) /\
       exists names, table_get PIPELINE_FLAGS pipeline = Some names /\ In k names) /\
    (forall k v, In (k, v) op ->
       exists s table allowed,
         v = VStr s /\ table_get PIPELINE_OPTIONS pipeline = Some table /\
         In k (map fst table) /\
         table_get table k = Some allowed /\ In s allowed) /\
    (forall k v, In (k, v) sm ->
       non_empty_str v = true /\
       exists tool servant allowed,
         _stage_to_tool k pipeline = Some tool /\
         item servants tool = Ok servant /\
         item servant "allowed_models" = Ok allowed /\
         py_in v allowed = Ok true) /\
    (forall k v, In (k, v) se ->
       str_in v CODEX_EFFORT_VALUES = true /\ _stage_to_tool k pipeline = Some "codex").
Proof.
  unfold validate_profile. intros H.
  apply bind_ok in H as ([] & Ed & H). apply expect_dict in Ed as (nd & ->).
  apply bind_ok in H as ([] & _ & H).
  apply bind_ok in H as (st & _ & H).
  apply bind_ok in H as ([] & _ & H).
  apply bind_ok in H as (fr & Efr & H). simpl in Efr. injection Efr as <-.
  apply bind_ok in H as ([] & Efd & H). apply expect_dict in Efd as (fl & Efl).
  apply bind_ok in H as (names & Enames & H).
  apply bind_ok in H as ([] & Efk & H).
  apply bind_ok in H as (fl' & Efl' & H). rewrite Efl in Efl', Efk. simpl in Efl'.
  injection Efl' as <-.
  apply bind_ok in H as ([] & Efv & H).
  apply bind_ok in H as (orw & Eor & H). simpl in Eor. injection Eor as <-.
  apply bind_ok in H as ([] & Eod & H). apply expect_dict in Eod as (op & Eop).
  apply bind_ok in H as (table & Etable & H).
  apply bind_ok in H as ([] & Eok & H).
  apply bind_ok in H as (op' & Eop' & H). rewrite Eop in Eop', Eok. simpl in Eop'.
  injection Eop' as <-.
  apply bind_ok in H as ([] & Eov & H).
  apply bind_ok in H as (smr & Esmr & H). simpl in Esmr. injection Esmr as <-.
  apply bind_ok in H as ([] & Esd & H). apply expect_dict in Esd as (sm & Esm).
  apply bind_ok in H as (sm' & Esm' & H). rewrite Esm in Esm'. simpl in Esm'.
  injection Esm' as <-.
  apply bind_ok in H as ([] & Esv & H).
  apply bind_ok in H as (ser & Eser & H). simpl in Eser. injection Eser as <-.
  apply bind_ok in H as ([] & Eed & H). apply expect_dict in Eed as (se & Ese).
  apply bind_ok in H as (se' & Ese' & H). rewrite Ese in Ese'. simpl in Ese'.
  injection Ese' as <-.
  exists nd, fl, op, sm, se.
  split; [reflexivity |]. split; [exact Efl |]. split; [exact Eop |].
  split; [exact Esm |]. split; [exact Ese |].
  unfold table_item in Enames, Etable.
  destruct (table_get PIPELINE_FLAGS pipeline) as [names' |] eqn:Tn;
    [| discriminate Enames]. injection Enames as ->.
  destruct (table_get PIPELINE_OPTIONS pipeline) as [table' |] eqn:Tt;
    [| discriminate Etable]. injection Etable as ->.
  split; [| split; [| split]].
  - intros k v Hin. split.
    + pose proof (for_each_ok _ _ _ Efv _ Hin) as Hc. simpl in Hc.
      apply when_raise_ok in Hc. destruct v; try discriminate Hc. eexists; reflexivity.
    + exists names. split; [reflexivity |].
      unfold _ensure_keys in Efk. cbn [items bind] in Efk. apply when_raise_ok in Efk.
      apply (no_unknown_keys _ _ Efk). unfold dict_keys. apply in_map_iff.
      exists (k, v); auto.
  - intros k v Hin.
    pose proof (for_each_ok _ _ _ Eov _ Hin) as Hc. simpl in Hc.
    apply bind_ok in Hc as ([] & Hs & Hc). apply when_raise_ok in Hs.
    destruct v; try discriminate Hs.
    apply bind_ok in Hc as (allowed & Ea & Hc). apply when_raise_ok in Hc.
    apply negb_false_iff in Hc. simpl in Hc. apply mem_In in Hc.
    unfold table_item in Ea.
    destruct (table_get table k) as [al |] eqn:Ta; [| discriminate Ea].
    injection Ea as ->.
    exists s, table, allowed. repeat split; try assumption; try reflexivity.
    unfold _ensure_keys in Eok. cbn [items bind] in Eok. apply when_raise_ok in Eok.
    apply (no_unknown_keys _ _ Eok). unfold dict_keys. apply in_map_iff.
    exists (k, VStr s); auto.
  - intros k v Hin.
    pose proof (for_each_ok _ _ _ Esv _ Hin) as Hc. simpl in Hc.
    apply bind_ok in Hc as ([] & Hs & Hc). apply when_raise_ok in Hs.
    apply negb_false_iff in Hs. split; [exact Hs |].
    destruct (_stage_to_tool k pipeline) as [tool |]; [| discriminate Hc].
    apply bind_ok in Hc as (servant & E1 & Hc).
    apply bind_ok in Hc as (allowed & E2 & Hc).
    apply bind_ok in Hc as (ok & E3 & Hc).
    apply when_raise_ok in Hc. destruct ok; [| discriminate Hc].
    exists tool, servant, allowed. auto.
  - intros k v Hin.
    pose proof (for_each_ok _ _ _ H _ Hin) as Hc. simpl in Hc.
    apply bind_ok in Hc as ([] & Hs & Hc). apply when_raise_ok in Hs.
    apply negb_false_iff in Hs. split; [exact Hs |].
    destruct (_stage_to_tool k pipeline) as [tool |]; [| discriminate Hc].
    apply when_raise_ok in Hc. apply negb_false_iff in Hc.
    apply String.eqb_eq in Hc. subst; reflexivity.
Qed.

End ProfileFacts.

(** ** The plan pipeline resolver *)

Module PlanPipeline.
Import ConfigValidate ConfigResolve ConfigResolvePlan Plans.
Import ResolveFacts ValidFacts StageModels ProfileStages ProfileFacts.

(** The stage names the validator knows for the plan pipeline have no
    servant before their first underscore. *)
Lemma plan_stage_names_refused (stage tool msg : string) :
  _stage_to_tool stage "plan" = Some tool ->
  stage_tool_or stage msg = Raise (ValidationError msg).
Proof.
  unfold _stage_to_tool. rewrite String.eqb_refl. intros H.
  apply table_get_In in H. simpl in H.
  repeat (destruct H as [[= <- <-] | H]; [reflexivity |]). contradiction.
Qed.

(** The parts of a successful run of [resolve_plan_pipeline]. *)
Lemma resolve_plan_pipeline_run (cfg profile_override : value) (model_overrides : dict)
    (plan : Plan.t) :
  resolve_plan_pipeline cfg profile_override model_overrides = Ok plan ->
  exists profile tm0 env maps,
    plan_profile cfg (Plan.profile plan) = Ok profile /\
    (sm <- get profile "stage_models" ;; to_dict (por sm (VDict [])))
    = Ok (p_profile_stage_models env) /\
    (se <- get profile "stage_efforts" ;; to_dict (por se (VDict [])))
    = Ok (p_profile_stage_efforts env) /\
    default_tool_models cfg = Ok tm0 /\
    fold_m (apply_model_override cfg) model_overrides tm0 = Ok (p_tool_models env) /\
    _resolve_purpose_models cfg = Ok (p_purpose_models env) /\
    for_each (check_stage_model cfg (Plan.profile plan)) (p_profile_stage_models env)
    = Ok tt /\
    for_each (check_stage_effort (Plan.profile plan)) (p_profile_stage_efforts env)
    = Ok tt /\
    p_model_overrides env = model_overrides /\
    fold_m (resolve_plan_stage env) stage_order
      {| m_stage_models := []; m_stage_efforts := [];
         m_stage_timeout_ms := []; m_stage_timeout_modes := [] |} = Ok maps /\
    Plan.tool_models plan = p_tool_models env /\
    Plan.purpose_models plan = p_purpose_models env /\
    Plan.stage_models plan = m_stage_models maps /\
    Plan.stage_efforts plan = m_stage_efforts maps /\
    Plan.stage_timeout_ms plan = m_stage_timeout_ms maps /\
    Plan.stage_timeout_modes plan = m_stage_timeout_modes maps.
Proof.
  unfold resolve_plan_pipeline. intros H.
  apply bind_ok in H as (pipelines & E1 & H).
  apply bind_ok in H as (plan_cfg & E2 & H).
  apply bind_ok in H as (profile_name & E3 & H).
  apply bind_ok in H as (profiles & E4 & H).
  apply bind_ok in H as (known & E5 & H).
  apply bind_ok in H as ([] & E6 & H).
  apply bind_ok in H as (profile & E7 & H).
  apply bind_ok in H as (fl & E8 & H).
  apply bind_ok in H as (flags & E9 & H).
  apply bind_ok in H as (op & E10 & H).
  apply bind_ok in H as (options & E11 & H).
  apply bind_ok in H as (sm & E12 & H).
  apply bind_ok in H as (psm & E13 & H).
  apply bind_ok in H as (se & E14 & H).
  apply bind_ok in H as (pse & E15 & H).
  apply bind_ok in H as (tm0 & E16 & H).
  apply bind_ok in H as (pm & E17 & H).
  apply bind_ok in H as (cpe & E18 & H).
  apply bind_ok in H as (wd & E19 & H).
  apply bind_ok in H as (bad & E20 & H).
  apply bind_ok in H as ([] & E21 & H).
  apply bind_ok in H as (tm & E22 & H).
  apply bind_ok in H as ([] & E23 & H).
  apply bind_ok in H as ([] & E24 & H).
  apply bind_ok in H as (maps & E25 & H).
  injection H as <-. simpl.
  match type of E25 with
  | fold_m (resolve_plan_stage ?env) _ _ = _ => exists profile, tm0, env, maps
  end.
  simpl. repeat split; try assumption.
  - unfold plan_profile. rewrite E1; simpl. rewrite E2; simpl. rewrite E4; simpl.
    exact E7.
  - rewrite E12; simpl. exact E13.
  - rewrite E14; simpl. exact E15.
Qed.

(** In a validated config, a plan profile whose stage tables pass the
    resolver's two checking loops has no entry in them. *)
Lemma plan_profile_tables (cfg profile_name profile : value) (psm pse : dict) :
  validated cfg ->
  plan_profile cfg profile_name = Ok profile ->
  (sm <- get profile "stage_models" ;; to_dict (por sm (VDict []))) = Ok psm ->
  (se <- get profile "stage_efforts" ;; to_dict (por se (VDict []))) = Ok pse ->
  for_each (check_stage_model cfg profile_name) psm = Ok tt ->
  for_each (check_stage_effort profile_name) pse = Ok tt ->
  exists node,
    profile = VDict node /\ psm = [] /\ pse = [] /\
    truthy (dget node "stage_models") = false /\
    truthy (dget node "stage_efforts") = false.
Proof.
  intros Hv Hp Hsm Hse Csm Cse.
  unfold plan_profile in Hp.
  apply bind_ok in Hp as (pipelines & E1 & Hp).
  apply bind_ok in Hp as (plan_cfg & E2 & Hp).
  apply bind_ok in Hp as (profiles & E3 & Hp).
  destruct (validated_profile_checked cfg pipelines plan_cfg profiles profile_name
              profile "plan" Hv (or_intror (or_intror (or_introl eq_refl))) E1 E2 E3 Hp)
    as (cp & servants & name & _ & _ & Hprof).
  apply validate_profile_tables in Hprof
    as (nd & fl & op & sm & se & -> & _ & _ & Esm & Ese & _ & _ & Vsm & Vse).
  exists nd. split; [reflexivity |].
  cbn [get bind] in Hsm, Hse. rewrite Esm in Hsm. rewrite Ese in Hse.
  simpl in Hsm, Hse. injection Hsm as Hsm. injection Hse as Hse.
  rewrite <- Hsm in Csm. rewrite <- Hse in Cse. subst psm pse.
  assert (sm = []) as ->.
  { destruct sm as [| [k v] sm]; [reflexivity | exfalso].
    destruct (Vsm k v (or_introl eq_refl)) as (_ & tool & _ & _ & Et & _).
    simpl in Csm. unfold check_stage_model at 1 in Csm.
    rewrite (plan_stage_names_refused _ _ _ Et) in Csm. discriminate Csm. }
  assert (se = []) as ->.
  { destruct se as [| [k v] se]; [reflexivity | exfalso].
    destruct (Vse k v (or_introl eq_refl)) as (_ & Et).
    simpl in Cse. unfold check_stage_effort at 1 in Cse.
    rewrite (plan_stage_names_refused _ _ _ Et) in Cse. discriminate Cse. }
  repeat split; apply por_falsy; assumption.
Qed.

Lemma default_tool_models_spec (cfg : value) (tm0 : dict) :
  default_tool_models cfg = Ok tm0 ->
  exists c g p,
    servant_default cfg "codex" = Ok c /\
    servant_default cfg "gemini" = Ok g /\
    servant_default cfg "copilot" = Ok p /\
    tm0 = [("codex", c); ("gemini", g); ("copilot", p)].
Proof.
  unfold default_tool_models, SERVANT_NAMES. cbn [fold_m]. intros H.
  apply bind_ok in H as (t1 & E1 & H).
  apply bind_ok in H as (t2 & E2 & H).
  apply bind_ok in H as (t3 & E3 & H). injection H as <-.
  apply bind_ok in E1 as (s1 & S1 & E1). apply bind_ok in E1 as (n1 & N1 & E1).
  apply bind_ok in E1 as (d1 & D1 & E1). injection E1 as <-.
  apply bind_ok in E2 as (s2 & S2 & E2). apply bind_ok in E2 as (n2 & N2 & E2).
  apply bind_ok in E2 as (d2 & D2 & E2). injection E2 as <-.
  apply bind_ok in E3 as (s3 & S3 & E3). apply bind_ok in E3 as (n3 & N3 & E3).
  apply bind_ok in E3 as (d3 & D3 & E3). injection E3 as <-.
  exists d1, d2, d3. unfold servant_default.
  rewrite S1 at 1; cbn [bind]; rewrite N1; cbn [bind].
  rewrite S2 at 1; cbn [bind]; rewrite N2; cbn [bind].
  rewrite S3 at 1; cbn [bind]; rewrite N3; cbn [bind].
  auto.
Qed.

(** What the loop over the CLI model overrides does to [tool_models]. *)
Lemma model_overrides_applied (cfg : value) (mo : dict) :
  forall tm0 tm,
    fold_m (apply_model_override cfg) mo tm0 = Ok tm ->
    (forall tool v, dict_get tool tm = Some v ->
       dict_get tool tm0 = Some v \/
       (In (tool, v) mo /\ v <> VNone /\ model_allowed cfg tool v)) /\
    (forall tool v, dict_get tool tm0 = Some v -> exists v', dict_get tool tm = Some v') /\
    (forall tool, no_override mo tool -> dict_get tool tm = dict_get tool tm0) /\
    (forall tool v, In (tool, v) mo -> v <> VNone -> model_allowed cfg tool v).
Proof.
  induction mo as [| [t m] mo IH]; simpl; intros tm0 tm H.
  - injection H as <-. repeat split; try tauto. eauto.
  - apply bind_ok in H as (tm1 & E1 & H).
    destruct (IH _ _ H) as (I1 & I2 & I3 & I4). clear IH.
    destruct (is_none m) eqn:N.
    + injection E1 as <-. assert (m = VNone) as -> by (destruct m; try discriminate N; reflexivity).
      repeat split.
      * intros tool v Hg. destruct (I1 _ _ Hg) as [? | (? & ? & ?)]; [left | right]; auto.
      * exact I2.
      * intros tool Hn. apply I3. intros model Hin. apply Hn. right; exact Hin.
      * intros tool v [[= <- <-] | Hin] Hv; [contradiction | eauto].
    + apply bind_ok in E1 as (servants & Es & E1).
      apply bind_ok in E1 as (node & En & E1).
      apply bind_ok in E1 as (allowed & Ea & E1).
      apply bind_ok in E1 as (ok & Eok & E1).
      apply bind_ok in E1 as ([] & Ew & E1). injection E1 as <-.
      apply when_raise_ok in Ew. destruct ok; [| discriminate Ew].
      assert (Hm : model_allowed cfg t m) by (exists servants, node, allowed; auto).
      assert (Hne : m <> VNone) by (apply is_none_false; exact N).
      repeat split.
      * intros tool v Hg. destruct (I1 _ _ Hg) as [Hg1 | (? & ? & ?)]; [| right; auto].
        destruct (string_dec tool t) as [-> | Ne].
        -- rewrite dict_get_set_same in Hg1. injection Hg1 as <-. right; auto.
        -- rewrite dict_get_set_other in Hg1 by exact Ne. left; exact Hg1.
      * intros tool v Hg. destruct (string_dec tool t) as [-> | Ne].
        -- apply (I2 t m). apply dict_get_set_same.
        -- apply (I2 tool v). rewrite dict_get_set_other by exact Ne. exact Hg.
      * intros tool Hn. rewrite I3 by (intros model Hin; apply Hn; right; exact Hin).
        apply dict_get_set_other. intros ->.
        apply Hne. apply Hn. left; reflexivity.
      * intros tool v [[= <- <-] | Hin] Hv; [exact Hm | eauto].
Qed.

(** What one turn of the plan stage loop does to the maps. *)
Lemma resolve_plan_stage_ok (env : plan_env) (acc acc' : stage_maps) (stage : string) :
  resolve_plan_stage env acc stage = Ok acc' ->
  exists tool model mode,
    _stage_tool stage = Ok tool /\
    plan_stage_model env tool stage = Ok model /\
    In mode TIMEOUT_MODE_VALUES /\
    m_stage_models acc' = dict_set stage model (m_stage_models acc) /\
    m_stage_timeout_modes acc' = dict_set stage (VStr mode) (m_stage_timeout_modes acc).
Proof.
  unfold resolve_plan_stage. intros H.
  apply bind_ok in H as (tool & Et & H).
  apply bind_ok in H as (stage_model & Em & H).
  apply bind_ok in H as (ms & Ems & H).
  apply bind_ok in H as ([] & Ems' & H).
  apply bind_ok in H as (mode & Emode & H).
  apply bind_ok in H as (ok & Eok & H).
  apply bind_ok in H as ([] & Eok' & H).
  apply when_raise_ok in Eok'. destruct ok; [| discriminate Eok'].
  apply in_str_set_true in Eok as (k & -> & Hk).
  exists tool, stage_model, k.
  repeat split; try assumption.
  - destruct (String.eqb tool "codex").
    + apply bind_ok in H as (eff & _ & H).
      apply bind_ok in H as (ok & _ & H).
      apply bind_ok in H as ([] & _ & H).
      injection H as <-; reflexivity.
    + injection H as <-; reflexivity.
  - destruct (String.eqb tool "codex").
    + apply bind_ok in H as (eff & _ & H).
      apply bind_ok in H as (ok & _ & H).
      apply bind_ok in H as ([] & _ & H).
      injection H as <-; reflexivity.
    + injection H as <-; reflexivity.
Qed.

(** After the loop, the maps have the six stages, in order, each with what
    its own turn gave it. *)
Lemma plan_loop_ok (env : plan_env) (maps : stage_maps) :
  fold_m (resolve_plan_stage env) stage_order
    {| m_stage_models := []; m_stage_efforts := [];
       m_stage_timeout_ms := []; m_stage_timeout_modes := [] |} = Ok maps ->
  dict_keys (m_stage_models maps) = stage_order /\
  dict_keys (m_stage_timeout_modes maps) = stage_order /\
  forall stage, In stage stage_order ->
    exists tool model mode,
      _stage_tool stage = Ok tool /\
      plan_stage_model env tool stage = Ok model /\
      In mode TIMEOUT_MODE_VALUES /\
      dict_get stage (m_stage_models maps) = Some model /\
      dict_get stage (m_stage_timeout_modes maps) = Some (VStr mode).
Proof.
  unfold stage_order. cbn [fold_m]. intros H.
  apply bind_ok in H as (a1 & E1 & H). apply bind_ok in H as (a2 & E2 & H).
  apply bind_ok in H as (a3 & E3 & H). apply bind_ok in H as (a4 & E4 & H).
  apply bind_ok in H as (a5 & E5 & H). apply bind_ok in H as (a6 & E6 & H).
  injection H as <-.
  apply resolve_plan_stage_ok in E1 as (t1 & m1 & o1 & T1 & M1 & O1 & S1 & U1).
  apply resolve_plan_stage_ok in E2 as (t2 & m2 & o2 & T2 & M2 & O2 & S2 & U2).
  apply resolve_plan_stage_ok in E3 as (t3 & m3 & o3 & T3 & M3 & O3 & S3 & U3).
  apply resolve_plan_stage_ok in E4 as (t4 & m4 & o4 & T4 & M4 & O4 & S4 & U4).
  apply resolve_plan_stage_ok in E5 as (t5 & m5 & o5 & T5 & M5 & O5 & S5 & U5).
  apply resolve_plan_stage_ok in E6 as (t6 & m6 & o6 & T6 & M6 & O6 & S6 & U6).
  rewrite S6, S5, S4, S3, S2, S1. rewrite U6, U5, U4, U3, U2, U1.
  cbn [m_stage_models m_stage_timeout_modes].
  split; [reflexivity |]. split; [reflexivity |].
  intros stage Hs. simpl in Hs.
  destruct Hs as [<- | [<- | [<- | [<- | [<- | [<- | []]]]]]];
    [exists t1, m1, o1 | exists t2, m2, o2 | exists t3, m3, o3
     | exists t4, m4, o4 | exists t5, m5, o5 | exists t6, m6, o6];
    repeat split; assumption || reflexivity.
Qed.

(** The model of a plan stage is the first that is set among the CLI
    override, the profile's stage model and the purpose model, and the
    tool model otherwise. *)
Lemma plan_stage_model_first_set (env : plan_env) (tool stage : string)
    (model purpose_model tool_model : value) :
  plan_stage_model env tool stage = Ok model ->
  get2 (p_purpose_models env) tool (_plan_stage_purpose stage) = Ok purpose_model ->
  dict_get tool (p_tool_models env) = Some tool_model ->
  model = first_set [dget (p_model_overrides env) tool;
                     dget (p_profile_stage_models env) stage;
                     purpose_model] tool_model.
Proof.
  unfold plan_stage_model, first_set. intros H Hp Ht.
  destruct (is_none (dget (p_model_overrides env) tool)); [| congruence].
  destruct (is_none (dget (p_profile_stage_models env) stage)) eqn:N2.
  - rewrite Hp in H. cbn [bind] in H.
    destruct (is_none purpose_model); [| congruence].
    unfold ditem in H. rewrite Ht in H. congruence.
  - cbn [bind] in H. rewrite N2 in H. congruence.
Qed.

(** X1: for every validated v1 config, [resolve_plan_pipeline] returns a
    plan only for a plan profile without [stage_models] and without
    [stage_efforts] entries: the stage names the validator accepts in those
    tables of a plan profile ([stage1], [stage2_codex], ...) are not the
    names the resolver accepts ([copilot_draft], [codex_enrich], ...). *)
Theorem plan_profile_stage_tables_are_unusable
    (cfg : value) (cfg_path : string) (profile_override : value)
    (model_overrides : dict) (plan : Plan.t) :
  validate_runtime_config_dict cfg cfg_path = Ok cfg ->
  resolve_plan_pipeline cfg profile_override model_overrides = Ok plan ->
  exists node,
    plan_profile cfg (Plan.profile plan) = Ok (VDict node) /\
    truthy (dget node "stage_models") = false /\
    truthy (dget node "stage_efforts") = false.
Proof.
  intros Hc Hr.
  apply validate_runtime_config_dict_ok in Hc as [_ Hv].
  apply resolve_plan_pipeline_run in Hr
    as (profile & tm0 & env & maps & Hp & Hsm & Hse & _ & _ & _ & Csm & Cse & _).
  destruct (plan_profile_tables _ _ _ _ _ Hv Hp Hsm Hse Csm Cse)
    as (node & -> & _ & _ & F1 & F2).
  exists node. auto.
Qed.

Lemma plan_profile_stage_tables_witness :
  validate_runtime_config_dict Examples.cfg "config" = Ok Examples.cfg /\
  exists plan node,
    resolve_plan_pipeline Examples.cfg VNone [("codex", VStr "gpt-task")] = Ok plan /\
    plan_profile Examples.cfg (Plan.profile plan) = Ok (VDict node) /\
    truthy (dget node "stage_models") = false /\
    truthy (dget node "stage_efforts") = false.
Proof.
  assert (Hc : validate_runtime_config_dict Examples.cfg "config" = Ok Examples.cfg)
    by (vm_compute; reflexivity).
  split; [exact Hc |].
  destruct (resolve_plan_pipeline Examples.cfg VNone [("codex", VStr "gpt-task")])
    as [plan |] eqn:Hr; [| vm_compute in Hr; discriminate Hr].
  exists plan.
  destruct (plan_profile_stage_tables_are_unusable
              Examples.cfg "config" VNone [("codex", VStr "gpt-task")] plan Hc Hr)
    as (node & H1 & H2 & H3).
  exists node. auto.
Defined.

(** X2: for every validated v1 config, a plan that [resolve_plan_pipeline]
    returns has a model for exactly the six plan stages, in their running
    order, and every stage has a model of its servant's allowed models and a
    timeout mode among [enforce] and [wait_done]. *)
Theorem plan_stages_have_allowed_model_and_valid_timeout_mode
    (cfg : value) (cfg_path : string) (profile_override : value)
    (model_overrides : dict) (plan : Plan.t) :
  validate_runtime_config_dict cfg cfg_path = Ok cfg ->
  resolve_plan_pipeline cfg profile_override model_overrides = Ok plan ->
  dict_keys (Plan.stage_models plan) = stage_order /\
  forall stage, In stage stage_order ->
    exists tool model mode,
      _stage_tool stage = Ok tool /\
      dict_get stage (Plan.stage_models plan) = Some model /\
      model_allowed cfg tool model /\
      dict_get stage (Plan.stage_timeout_modes plan) = Some (VStr mode) /\
      In mode TIMEOUT_MODE_VALUES.
Proof.
  intros Hc Hr.
  apply validate_runtime_config_dict_ok in Hc as [_ Hv].
  apply resolve_plan_pipeline_run in Hr
    as (profile & tm0 & env & maps & Hp & Hsm & Hse & Htm0 & Htm & Hpm & Csm & Cse
        & Hmo & Hloop & _ & _ & -> & _ & _ & ->).
  destruct (plan_profile_tables _ _ _ _ _ Hv Hp Hsm Hse Csm Cse)
    as (node & _ & Epsm & _ & _ & _).
  apply plan_loop_ok in Hloop as (K1 & _ & Hloop).
  split; [exact K1 |].
  intros stage Hs.
  destruct (Hloop stage Hs) as (tool & model & mode & Et & Em & Hmode & G1 & G2).
  exists tool, model, mode. repeat split; try assumption.
  pose proof (stage_tool_servant _ _ Et) as Htool.
  destruct (model_overrides_applied _ _ _ _ Htm) as (I1 & I2 & _ & I4).
  destruct (purpose_models_total _ _ Hpm tool (_plan_stage_purpose stage)) as (pmv & Epm).
  destruct (default_tool_models_spec _ _ Htm0) as (c & g & p & Dc & Dg & Dp & ->).
  assert (exists d, servant_default cfg tool = Ok d
                    /\ dict_get tool [("codex", c); ("gemini", g); ("copilot", p)] = Some d)
    as (d & Ed & Gd).
  { simpl in Htool. destruct Htool as [<- | [<- | [<- | []]]]; eauto. }
  destruct (I2 _ _ Gd) as (tmv & Gtm).
  rewrite (plan_stage_model_first_set _ _ _ _ _ _ Em Epm Gtm).
  rewrite Epsm, Hmo. unfold first_set. change (dget [] stage) with VNone. cbn [is_none].
  destruct (is_none (dget model_overrides tool)) eqn:N1.
  - destruct (is_none pmv) eqn:N2.
    + destruct (I1 _ _ Gtm) as [G0 | (_ & _ & Ha)]; [| exact Ha].
      rewrite Gd in G0. injection G0 as <-.
      unfold servant_default in Ed.
      apply bind_ok in Ed as (servants & E1 & Ed).
      apply bind_ok in Ed as (snode & E2 & Ed).
      exact (servant_ok_default cfg tool (v_servants cfg Hv tool Htool) _ _ _ E1 E2 Ed).
    + apply (purpose_models_allowed _ _ Hpm _ _ _ Epm). apply is_none_false; exact N2.
  - apply is_none_false in N1. apply I4; [| exact N1].
    apply dget_In; [reflexivity | exact N1].
Qed.

Lemma plan_stages_witness :
  validate_runtime_config_dict Examples.cfg "config" = Ok Examples.cfg /\
  exists plan,
    resolve_plan_pipeline Examples.cfg VNone [("gemini", VStr "gemini-flash")] = Ok plan /\
    dict_keys (Plan.stage_models plan) = stage_order /\
    In "gemini_cross_review" stage_order /\
    exists tool model mode,
      _stage_tool "gemini_cross_review" = Ok tool /\
      dict_get "gemini_cross_review" (Plan.stage_models plan) = Some model /\
      model_allowed Examples.cfg tool model /\
      dict_get "gemini_cross_review" (Plan.stage_timeout_modes plan) = Some (VStr mode) /\
      In mode TIMEOUT_MODE_VALUES.
Proof.
  assert (Hc : validate_runtime_config_dict Examples.cfg "config" = Ok Examples.cfg)
    by (vm_compute; reflexivity).
  split; [exact Hc |].
  destruct (resolve_plan_pipeline Examples.cfg VNone [("gemini", VStr "gemini-flash")])
    as [plan |] eqn:Hr; [| vm_compute in Hr; discriminate Hr].
  exists plan. split; [reflexivity |].
  assert (Hin : In "gemini_cross_review" stage_order) by (simpl; auto 10).
  destruct (plan_stages_have_allowed_model_and_valid_timeout_mode
              Examples.cfg "config" VNone [("gemini", VStr "gemini-flash")] plan Hc Hr)
    as [K H].
  split; [exact K |]. split; [exact Hin |]. exact (H _ Hin).
Defined.

(** X3: for every validated v1 config and every plan stage, the model in a
    plan that [resolve_plan_pipeline] returns is the CLI override of the
    stage's servant when one is given, else the servant's model for the
    stage's purpose ([review] or [plan]) when one is configured, else the
    servant's tool model, which is the servant's default model when no CLI
    override names the servant. *)
Theorem plan_model_precedence
    (cfg : value) (cfg_path : string) (profile_override : value)
    (model_overrides : dict) (plan : Plan.t) :
  validate_runtime_config_dict cfg cfg_path = Ok cfg ->
  resolve_plan_pipeline cfg profile_override model_overrides = Ok plan ->
  forall stage, In stage stage_order ->
    exists tool purpose_model tool_model,
      _stage_tool stage = Ok tool /\
      get2 (Plan.purpose_models plan) tool (_plan_stage_purpose stage) = Ok purpose_model /\
      dict_get tool (Plan.tool_models plan) = Some tool_model /\
      dict_get stage (Plan.stage_models plan)
      = Some (first_set [dget model_overrides tool; purpose_model] tool_model) /\
      (no_override model_overrides tool -> servant_default cfg tool = Ok tool_model).
Proof.
  intros Hc Hr.
  apply validate_runtime_config_dict_ok in Hc as [_ Hv].
  apply resolve_plan_pipeline_run in Hr
    as (profile & tm0 & env & maps & Hp & Hsm & Hse & Htm0 & Htm & Hpm & Csm & Cse
        & Hmo & Hloop & -> & -> & -> & _).
  destruct (plan_profile_tables _ _ _ _ _ Hv Hp Hsm Hse Csm Cse)
    as (node & _ & Epsm & _ & _ & _).
  apply plan_loop_ok in Hloop as (_ & _ & Hloop).
  intros stage Hs.
  destruct (Hloop stage Hs) as (tool & model & mode & Et & Em & _ & G1 & _).
  pose proof (stage_tool_servant _ _ Et) as Htool.
  destruct (model_overrides_applied _ _ _ _ Htm) as (_ & I2 & I3 & _).
  destruct (purpose_models_total _ _ Hpm tool (_plan_stage_purpose stage)) as (pmv & Epm).
  destruct (default_tool_models_spec _ _ Htm0) as (c & g & p & Dc & Dg & Dp & ->).
  assert (exists d, servant_default cfg tool = Ok d
                    /\ dict_get tool [("codex", c); ("gemini", g); ("copilot", p)] = Some d)
    as (d & Ed & Gd).
  { simpl in Htool. destruct Htool as [<- | [<- | [<- | []]]]; eauto. }
  destruct (I2 _ _ Gd) as (tmv & Gtm).
  exists tool, pmv, tmv. repeat split; try assumption.
  - rewrite G1. f_equal.
    rewrite (plan_stage_model_first_set _ _ _ _ _ _ Em Epm Gtm).
    rewrite Epsm, Hmo. unfold first_set. change (dget [] stage) with VNone.
    reflexivity.
  - intros Hn. rewrite (I3 _ Hn) in Gtm. congruence.
Qed.

Lemma plan_model_precedence_witness :
  validate_runtime_config_dict Examples.cfg "config" = Ok Examples.cfg /\
  exists plan,
    resolve_plan_pipeline Examples.cfg VNone
      [("copilot", VNone); ("gemini", VStr "gemini-flash"); ("codex", VNone)] = Ok plan /\
    In "gemini_enrich" stage_order /\
    exists tool purpose_model tool_model,
      _stage_tool "gemini_enrich" = Ok tool /\
      get2 (Plan.purpose_models plan) tool (_plan_stage_purpose "gemini_enrich")
      = Ok purpose_model /\
      dict_get tool (Plan.tool_models plan) = Some tool_model /\
      dict_get "gemini_enrich" (Plan.stage_models plan)
      = Some (first_set
                [dget [("copilot", VNone); ("gemini", VStr "gemini-flash");
                       ("codex", VNone)] tool; purpose_model] tool_model).
Proof.
  assert (Hc : validate_runtime_config_dict Examples.cfg "config" = Ok Examples.cfg)
    by (vm_compute; reflexivity).
  split; [exact Hc |].
  destruct (resolve_plan_pipeline Examples.cfg VNone
              [("copilot", VNone); ("gemini", VStr "gemini-flash"); ("codex", VNone)])
    as [plan |] eqn:Hr; [| vm_compute in Hr; discriminate Hr].
  exists plan. split; [reflexivity |].
  assert (Hin : In "gemini_enrich" stage_order) by (simpl; auto 10).
  split; [exact Hin |].
  destruct (plan_model_precedence Examples.cfg "config" VNone _ plan Hc Hr _ Hin)
    as (tool & pm & tm & H1 & H2 & H3 & H4 & _).
  exists tool, pm, tm. auto.
Defined.

End PlanPipeline.

(** ** The stage loop of the dispatch resolver *)

Module StageLoop.
Import ConfigValidate ConfigResolve ResolveFacts ValidFacts StageModels.

(** A loop that sets at most one key of a mapping per turn: what the
    mapping holds afterwards. *)
Lemma fold_set_spec {B} (proj : B -> dict) (step : B -> string -> result B)
    (R : string -> value -> Prop) (Q : string -> Prop) (l : list string) :
  (forall acc s acc', step acc s = Ok acc' ->
     (exists v, R s v /\ proj acc' = dict_set s v (proj acc)) \/
     (Q s /\ proj acc' = proj acc)) ->
  forall acc r, fold_m step l acc = Ok r ->
    (forall s, In s l -> (exists v, R s v /\ dict_get s (proj r) = Some v) \/ Q s) /\
    (forall s v, dict_get s (proj r) = Some v ->
                 dict_get s (proj acc) = Some v \/ (In s l /\ R s v)) /\
    (forall s, ~ In s l -> dict_get s (proj r) = dict_get s (proj acc)).
Proof.
  intros Hstep. induction l as [| x l IH]; simpl; intros acc r H.
  - injection H as <-. repeat split; try tauto.
  - apply bind_ok in H as (a1 & E1 & H).
    destruct (IH _ _ H) as (I1 & I2 & I3). clear IH.
    pose proof (Hstep _ _ _ E1) as Hx.
    repeat split.
    + intros s [<- | Hs]; [| exact (I1 s Hs)].
      destruct (in_dec string_dec x l) as [Hl | Hl]; [exact (I1 x Hl) |].
      destruct Hx as [(v & Rv & Ev) | (Qx & _)]; [left | right; exact Qx].
      exists v. split; [exact Rv |].
      rewrite (I3 x Hl), Ev. apply dict_get_set_same.
    + intros s v Hg. destruct (I2 s v Hg) as [Hg1 | (Hs & Rv)]; [| right; auto].
      destruct Hx as [(v' & Rv & Ev) | (_ & Ev)]; rewrite Ev in Hg1.
      * destruct (string_dec s x) as [-> | Ne].
        -- rewrite dict_get_set_same in Hg1. injection Hg1 as <-. right; auto.
        -- rewrite dict_get_set_other in Hg1 by exact Ne. left; exact Hg1.
      * left; exact Hg1.
    + intros s Hs. rewrite I3 by tauto.
      destruct Hx as [(v' & Rv & Ev) | (_ & Ev)]; rewrite Ev; [| reflexivity].
      apply dict_get_set_other. intros ->. apply Hs. left; reflexivity.
Qed.

Lemma dict_keys_get (k : string) (d : dict) :
  In k (dict_keys d) <-> exists v, dict_get k d = Some v.
Proof.
  induction d as [| [k' v'] d IH]; simpl.
  - split; [contradiction | intros (v & H); discriminate H].
  - destruct (String.eqb k k') eqn:E.
    + apply String.eqb_eq in E. subst. split; eauto.
    + apply String.eqb_neq in E. rewrite <- IH. split; [intros [? | ?] |]; try tauto.
      congruence.
Qed.

(** The wrapper-default table has a mapping for every servant it lists, so
    a lookup in it never fails. *)
Lemma wrapper_defaults_total (cfg : value) (wd : dict) :
  _resolve_tool_wrapper_defaults cfg = Ok wd ->
  forall tool key, exists v, get2 wd tool key = Ok v.
Proof.
  intros H.
  assert (I : forall tool inner,
             dict_get tool wd = Some inner -> exists entries, inner = VDict entries).
  { unfold _resolve_tool_wrapper_defaults in H.
    refine (fold_m_inv _
              (fun acc => forall tool inner,
                   dict_get tool acc = Some inner -> exists entries, inner = VDict entries)
              _ _ _ _ _ H).
    - intros tool inner Hg; discriminate Hg.
    - intros acc x acc' _ Hacc Hs tool inner Hg.
      apply bind_ok in Hs as (servants & _ & Hs).
      apply bind_ok in Hs as (node & _ & Hs).
      apply bind_ok in Hs as (raw & _ & Hs).
      apply bind_ok in Hs as ([] & _ & Hs).
      apply bind_ok in Hs as (entries & _ & Hs). injection Hs as <-.
      destruct (string_dec tool x) as [-> | Ne].
      + rewrite dict_get_set_same in Hg. injection Hg as <-. eauto.
      + rewrite dict_get_set_other in Hg by exact Ne. eauto. }
  intros tool key. unfold get2.
  destruct (dict_get tool wd) as [inner |] eqn:E; [| eauto].
  destruct (I _ _ E) as (entries & ->). simpl. eauto.
Qed.

(** The effort of a codex stage, by precedence (source lines 318 to 328). *)
Lemma stage_effort_first_set (env : stage_env) (stage purpose : string)
    (effort default_effort : value) :
  (let stage_effort := dget (e_profile_stage_efforts env) stage in
   let stage_effort :=
     if is_none stage_effort then dget (e_codex_purpose_efforts env) purpose
     else stage_effort in
   if is_none stage_effort then get2 (e_wrapper_defaults env) "codex" "effort"
   else Ok stage_effort) = Ok effort ->
  get2 (e_wrapper_defaults env) "codex" "effort" = Ok default_effort ->
  effort = first_set [dget (e_profile_stage_efforts env) stage;
                      dget (e_codex_purpose_efforts env) purpose] default_effort.
Proof.
  cbv zeta. unfold first_set. intros H Hd.
  destruct (is_none (dget (e_profile_stage_efforts env) stage)) eqn:N1.
  - destruct (is_none (dget (e_codex_purpose_efforts env) purpose)); congruence.
  - rewrite N1 in H. congruence.
Qed.

(** Everything one turn of the dispatch stage loop does. *)
Lemma resolve_stage_full (env : stage_env) (acc acc' : stage_maps) (stage : string) :
  resolve_stage env acc stage = Ok acc' ->
  exists tool model ms mode,
    _stage_tool stage = Ok tool /\
    resolve_stage_model env tool stage
      (_dispatch_stage_purpose stage (e_pipeline env) (e_runtime_options env))
    = Ok model /\
    get2 (e_wrapper_defaults env) tool "timeout_ms" = Ok ms /\
    non_negative_int ms = true /\
    (if truthy (e_timeout_mode_override env) then Ok (e_timeout_mode_override env)
     else get2 (e_wrapper_defaults env) tool "timeout_mode") = Ok (VStr mode) /\
    In mode TIMEOUT_MODE_VALUES /\
    m_stage_models acc' = dict_set stage model (m_stage_models acc) /\
    m_stage_timeout_ms acc' = dict_set stage ms (m_stage_timeout_ms acc) /\
    m_stage_timeout_modes acc' = dict_set stage (VStr mode) (m_stage_timeout_modes acc) /\
    ((exists effort,
        tool = "codex" /\ In effort CODEX_EFFORT_VALUES /\
        (forall default_effort,
            get2 (e_wrapper_defaults env) "codex" "effort" = Ok default_effort ->
            VStr effort
            = first_set
                [dget (e_profile_stage_efforts env) stage;
                 dget (e_codex_purpose_efforts env)
                      (_dispatch_stage_purpose stage (e_pipeline env)
                         (e_runtime_options env))] default_effort) /\
        m_stage_efforts acc' = dict_set stage (VStr effort) (m_stage_efforts acc)) \/
     (tool <> "codex" /\ m_stage_efforts acc' = m_stage_efforts acc)).
Proof.
  unfold resolve_stage. intros H.
  apply bind_ok in H as (tool & Et & H).
  apply bind_ok in H as (stage_model & Em & H).
  apply bind_ok in H as (ms & Ems & H).
  apply bind_ok in H as ([] & Ems' & H).
  apply when_raise_ok in Ems'. apply negb_false_iff in Ems'.
  apply bind_ok in H as (mode & Emode & H).
  apply bind_ok in H as (ok & Eok & H).
  apply bind_ok in H as ([] & Eok' & H).
  apply when_raise_ok in Eok'. destruct ok; [| discriminate Eok'].
  apply in_str_set_true in Eok as (k & -> & Hk).
  exists tool, stage_model, ms, k.
  do 6 (split; [assumption |]).
  destruct (String.eqb tool "codex") eqn:Ec.
  - apply String.eqb_eq in Ec.
    apply bind_ok in H as (eff & Eeff & H).
    apply bind_ok in H as (ok & Eok & H).
    apply bind_ok in H as ([] & Eok2 & H).
    apply when_raise_ok in Eok2. destruct ok; [| discriminate Eok2].
    apply in_str_set_true in Eok as (e & -> & He).
    injection H as <-. cbn.
    do 3 (split; [reflexivity |]). left. exists e.
    split; [exact Ec |]. split; [exact He |]. split; [| reflexivity].
    intros d Hd. exact (stage_effort_first_set env stage _ _ _ Eeff Hd).
  - apply String.eqb_neq in Ec. injection H as <-. cbn.
    do 3 (split; [reflexivity |]). right. split; [exact Ec | reflexivity].
Qed.

End StageLoop.

(** ** What a dispatch plan records for its stages *)

Module DispatchStages.
Import ConfigValidate ConfigResolve Defaults.
Import ResolveFacts ValidFacts Selection StageModels StageLoop.

Lemma wrapper_defaults_get (cfg : value) (wd : dict) (tool key : string) :
  _resolve_tool_wrapper_defaults cfg = Ok wd ->
  In tool SERVANT_NAMES ->
  get2 wd tool key = wrapper_default cfg tool key.
Proof.
  unfold _resolve_tool_wrapper_defaults, SERVANT_NAMES. cbn [fold_m]. intros H Ht.
  apply bind_ok in H as (t1 & E1 & H).
  apply bind_ok in H as (t2 & E2 & H).
  apply bind_ok in H as (t3 & E3 & H). injection H as <-.
  apply bind_ok in E1 as (s1 & S1 & E1). apply bind_ok in E1 as (n1 & N1 & E1).
  apply bind_ok in E1 as (r1 & R1 & E1). apply bind_ok in E1 as ([] & _ & E1).
  apply bind_ok in E1 as (e1 & I1 & E1). injection E1 as <-.
  apply bind_ok in E2 as (s2 & S2 & E2). apply bind_ok in E2 as (n2 & N2 & E2).
  apply bind_ok in E2 as (r2 & R2 & E2). apply bind_ok in E2 as ([] & _ & E2).
  apply bind_ok in E2 as (e2 & I2 & E2). injection E2 as <-.
  apply bind_ok in E3 as (s3 & S3 & E3). apply bind_ok in E3 as (n3 & N3 & E3).
  apply bind_ok in E3 as (r3 & R3 & E3). apply bind_ok in E3 as ([] & _ & E3).
  apply bind_ok in E3 as (e3 & I3 & E3). injection E3 as <-.
  unfold wrapper_default, get2.
  destruct (por r1 (VDict [])) eqn:P1; try discriminate I1.
  destruct (por r2 (VDict [])) eqn:P2; try discriminate I2.
  destruct (por r3 (VDict [])) eqn:P3; try discriminate I3.
  simpl in I1, I2, I3. injection I1 as <-. injection I2 as <-. injection I3 as <-.
  simpl in Ht. destruct Ht as [<- | [<- | [<- | []]]]; cbn [dict_get dict_set String.eqb Ascii.eqb Bool.eqb].
  - rewrite S1; cbn [bind]. rewrite N1; cbn [bind]. rewrite R1; cbn [bind].
    rewrite P1. reflexivity.
  - rewrite S2; cbn [bind]. rewrite N2; cbn [bind]. rewrite R2; cbn [bind].
    rewrite P2. reflexivity.
  - rewrite S3; cbn [bind]. rewrite N3; cbn [bind]. rewrite R3; cbn [bind].
    rewrite P3. reflexivity.
Qed.

Lemma codex_purpose_efforts_get (cfg : value) (cpe : dict) (purpose : string) :
  _resolve_codex_purpose_efforts cfg = Ok cpe ->
  codex_purpose_effort cfg purpose = Ok (dget cpe purpose).
Proof.
  unfold _resolve_codex_purpose_efforts, codex_purpose_effort. intros H.
  apply bind_ok in H as (servants & E1 & H). rewrite E1; cbn [bind].
  apply bind_ok in H as (codex & E2 & H). rewrite E2; cbn [bind].
  apply bind_ok in H as (raw & E3 & H). rewrite E3; cbn [bind].
  apply bind_ok in H as ([] & _ & H).
  apply bind_ok in H as (entries & E4 & H).
  apply bind_ok in H as ([] & _ & H). injection H as <-.
  destruct (por raw (VDict [])); try discriminate E4.
  simpl in E4. injection E4 as <-. reflexivity.
Qed.

(** The parts of a successful run of [resolve_dispatch]. *)
Lemma resolve_dispatch_parts (cfg manifest : value) (plan_name intent_default : string)
    (plan : dispatch_plan) :
  resolve_dispatch cfg manifest plan_name intent_default = Ok plan ->
  exists rmo sel tm pm cpe wd maps,
    routing_model_overrides manifest = Ok rmo /\
    select_profile cfg manifest plan_name intent_default = Ok sel /\
    _apply_dispatch_flag_filters (Profile.stages (sel_runtime sel)) (sel_flags sel)
    = Ok (stage_plan plan) /\
    _resolve_tool_models cfg manifest = Ok tm /\
    _resolve_purpose_models cfg = Ok pm /\
    _resolve_codex_purpose_efforts cfg = Ok cpe /\
    _resolve_tool_wrapper_defaults cfg = Ok wd /\
    fold_m
      (resolve_stage
         {| e_pipeline := sel_pipeline sel;
            e_runtime_options := sel_options sel;
            e_routing_model_overrides := rmo;
            e_profile_stage_models := Profile.stage_models (sel_runtime sel);
            e_profile_stage_efforts := Profile.stage_efforts (sel_runtime sel);
            e_tool_models := tm;
            e_purpose_models := pm;
            e_codex_purpose_efforts := cpe;
            e_wrapper_defaults := wd;
            e_timeout_mode_override := dget (sel_options sel) "timeout_mode" |})
      (stage_plan plan)
      {| m_stage_models := []; m_stage_efforts := [];
         m_stage_timeout_ms := []; m_stage_timeout_modes := [] |} = Ok maps /\
    plan = {| pipeline_group := sel_pipeline sel;
              intent := sel_intent sel;
              profile := sel_profile sel;
              flags := sel_flags sel;
              options := sel_options sel;
              stage_plan := stage_plan plan;
              tool_models := tm;
              purpose_models := pm;
              stage_models := m_stage_models maps;
              stage_efforts := m_stage_efforts maps;
              stage_timeout_ms := m_stage_timeout_ms maps;
              stage_timeout_modes := m_stage_timeout_modes maps |}.
Proof.
  unfold resolve_dispatch. intros H.
  apply bind_ok in H as (rmo & Ermo & H).
  apply bind_ok in H as (sel & Esel & H).
  apply bind_ok in H as (sp & Esp & H).
  apply bind_ok in H as ([] & Ene & H).
  apply bind_ok in H as (tm & Etm & H).
  apply bind_ok in H as (pm & Epm & H).
  apply bind_ok in H as (cpe & Ecpe & H).
  apply bind_ok in H as (wd & Ewd & H).
  apply bind_ok in H as (bad & Ebad & H).
  apply bind_ok in H as ([] & Ebad' & H).
  apply bind_ok in H as ([] & Esm & H).
  apply bind_ok in H as ([] & Ese & H).
  apply bind_ok in H as (maps & Eloop & H).
  injection H as <-. cbn.
  exists rmo, sel, tm, pm, cpe, wd, maps. repeat split; assumption.
Qed.

(** X4: in a plan that [resolve_dispatch] returns, every codex stage has an
    effort among [low], [medium], [high] and [xhigh], chosen by precedence:
    the selected profile's [stage_efforts] entry for the stage, else codex's
    [purpose_efforts] entry for the stage's purpose, else codex's
    [wrapper_defaults.effort]. *)
Theorem codex_stage_effort_precedence
    (cfg manifest : value) (plan_name intent_default : string) (plan : dispatch_plan) :
  resolve_dispatch cfg manifest plan_name intent_default = Ok plan ->
  exists data default_effort,
    _profile_data cfg (pipeline_group plan) (profile plan) = Ok data /\
    wrapper_default cfg "codex" "effort" = Ok default_effort /\
    forall stage, In stage (stage_plan plan) -> _stage_tool stage = Ok "codex" ->
      exists effort purpose_effort,
        codex_purpose_effort cfg
          (_dispatch_stage_purpose stage (pipeline_group plan) (options plan))
        = Ok purpose_effort /\
        dict_get stage (stage_efforts plan) = Some (VStr effort) /\
        In effort CODEX_EFFORT_VALUES /\
        VStr effort
        = first_set [dget (Profile.stage_efforts data) stage; purpose_effort]
            default_effort.
Proof.
  intros H.
  apply resolve_dispatch_parts in H
    as (rmo & sel & tm & pm & cpe & wd & maps & _ & Hsel & _ & _ & _ & Hcpe & Hwd
        & Hloop & ->).
  cbn [pipeline_group profile options stage_plan stage_efforts].
  destruct (select_profile_ok _ _ _ _ _ Hsel) as (po & fo & oo & base & S).
  destruct (wrapper_defaults_total _ _ Hwd "codex" "effort") as (de & Hde).
  exists (sel_runtime sel), de.
  split; [exact (s_data _ _ _ _ _ _ _ _ _ S) |].
  split; [rewrite <- Hde; symmetry; apply wrapper_defaults_get;
          [exact Hwd | simpl; auto] |].
  match type of Hloop with
  | fold_m (resolve_stage ?env) _ _ = _ => set (env0 := env) in *
  end.
  destruct (fold_set_spec m_stage_efforts (resolve_stage env0)
              (fun s v => exists effort,
                   v = VStr effort /\ In effort CODEX_EFFORT_VALUES /\
                   VStr effort
                   = first_set
                       [dget (Profile.stage_efforts (sel_runtime sel)) s;
                        dget cpe (_dispatch_stage_purpose s (sel_pipeline sel)
                                    (sel_options sel))] de)
              (fun s => _stage_tool s <> Ok "codex")
              (stage_plan plan)) with (acc := {| m_stage_models := []; m_stage_efforts := [];
         m_stage_timeout_ms := []; m_stage_timeout_modes := [] |}) (r := maps)
    as (I1 & _ & _); [| exact Hloop |].
  { intros acc s acc' Hs.
    apply resolve_stage_full in Hs
      as (tool & model & ms & mode & Et & _ & _ & _ & _ & _ & _ & _ & _ & He).
    destruct He as [(e & -> & Hin & Hf & Hset) | (Hne & Hsame)].
    - left. exists (VStr e). split; [| exact Hset].
      exists e. split; [reflexivity |]. split; [exact Hin |]. exact (Hf de Hde).
    - right. split; [| exact Hsame]. rewrite Et. congruence. }
  intros stage Hin Hcodex.
  destruct (I1 stage Hin) as [(v & (e & -> & He & Hf) & Hg) | Hn]; [| contradiction].
  exists e, (dget cpe (_dispatch_stage_purpose stage (sel_pipeline sel) (sel_options sel))).
  split; [apply codex_purpose_efforts_get; exact Hcpe |]. auto.
Qed.

Lemma codex_stage_effort_witness :
  exists plan,
    resolve_dispatch Examples.cfg Examples.manifest_model "auto" "safe_impl" = Ok plan /\
    In "codex_impl" (stage_plan plan) /\
    _stage_tool "codex_impl" = Ok "codex" /\
    exists data default_effort effort,
      _profile_data Examples.cfg (pipeline_group plan) (profile plan) = Ok data /\
      wrapper_default Examples.cfg "codex" "effort" = Ok default_effort /\
      dict_get "codex_impl" (stage_efforts plan) = Some (VStr effort) /\
      In effort CODEX_EFFORT_VALUES.
Proof.
  destruct (resolve_dispatch Examples.cfg Examples.manifest_model "auto" "safe_impl")
    as [plan |] eqn:Hr; [| vm_compute in Hr; discriminate Hr].
  exists plan. split; [reflexivity |].
  assert (Hin : In "codex_impl" (stage_plan plan)).
  { vm_compute in Hr. injection Hr as <-. simpl. auto. }
  split; [exact Hin |]. split; [reflexivity |].
  destruct (codex_stage_effort_precedence
              Examples.cfg Examples.manifest_model "auto" "safe_impl" plan Hr)
    as (data & de & Hd & Hde & H).
  destruct (H "codex_impl" Hin eq_refl) as (effort & pe & _ & Hg & He & _).
  exists data, de, effort. auto.
Defined.

(** X5: in a plan that [resolve_dispatch] returns, every stage has its
    servant's [wrapper_defaults.timeout_ms], a non-negative integer, as
    timeout, and as timeout mode the [timeout_mode] option of the plan when
    one is set and its servant's [wrapper_defaults.timeout_mode] otherwise. *)
Theorem stage_timeouts_come_from_wrapper_defaults
    (cfg manifest : value) (plan_name intent_default : string) (plan : dispatch_plan) :
  resolve_dispatch cfg manifest plan_name intent_default = Ok plan ->
  forall stage, In stage (stage_plan plan) ->
    exists tool timeout_ms default_mode,
      _stage_tool stage = Ok tool /\
      wrapper_default cfg tool "timeout_ms" = Ok timeout_ms /\
      non_negative_int timeout_ms = true /\
      dict_get stage (stage_timeout_ms plan) = Some timeout_ms /\
      wrapper_default cfg tool "timeout_mode" = Ok default_mode /\
      dict_get stage (stage_timeout_modes plan)
      = Some (por (dget (options plan) "timeout_mode") default_mode).
Proof.
  intros H.
  apply resolve_dispatch_parts in H
    as (rmo & sel & tm & pm & cpe & wd & maps & _ & Hsel & _ & _ & _ & Hcpe & Hwd
        & Hloop & ->).
  cbn [options stage_plan stage_timeout_ms stage_timeout_modes].
  match type of Hloop with
  | fold_m (resolve_stage ?env) _ _ = _ => set (env0 := env) in *
  end.
  destruct (fold_set_spec m_stage_timeout_ms (resolve_stage env0)
              (fun s v => exists tool,
                   _stage_tool s = Ok tool /\
                   wrapper_default cfg tool "timeout_ms" = Ok v /\
                   non_negative_int v = true)
              (fun _ => False) (stage_plan plan) )
    with (acc := {| m_stage_models := []; m_stage_efforts := [];
                    m_stage_timeout_ms := []; m_stage_timeout_modes := [] |}) (r := maps)
    as (I1 & _ & _); [| exact Hloop |].
  { intros acc s acc' Hs.
    apply resolve_stage_full in Hs
      as (tool & model & ms & mode & Et & _ & Ems & Hms & _ & _ & _ & Hset & _).
    left. exists ms. split; [| exact Hset].
    exists tool. split; [exact Et |]. split; [| exact Hms].
    rewrite <- Ems. symmetry. apply wrapper_defaults_get; [exact Hwd |].
    exact (stage_tool_servant _ _ Et). }
  destruct (fold_set_spec m_stage_timeout_modes (resolve_stage env0)
              (fun s v => exists tool default_mode,
                   _stage_tool s = Ok tool /\
                   wrapper_default cfg tool "timeout_mode" = Ok default_mode /\
                   v = por (dget (sel_options sel) "timeout_mode") default_mode)
              (fun _ => False) (stage_plan plan))
    with (acc := {| m_stage_models := []; m_stage_efforts := [];
                    m_stage_timeout_ms := []; m_stage_timeout_modes := [] |}) (r := maps)
    as (J1 & _ & _); [| exact Hloop |].
  { intros acc s acc' Hs.
    apply resolve_stage_full in Hs
      as (tool & model & ms & mode & Et & _ & _ & _ & Emode & _ & _ & _ & Hset & _).
    left. exists (VStr mode). split; [| exact Hset].
    pose proof (stage_tool_servant _ _ Et) as Htool.
    destruct (wrapper_defaults_total _ _ Hwd tool "timeout_mode") as (dm & Hdm).
    exists tool, dm. split; [exact Et |].
    split; [rewrite <- Hdm; symmetry; apply wrapper_defaults_get; assumption |].
    subst env0. cbn [e_timeout_mode_override e_wrapper_defaults] in Emode.
    unfold por. destruct (truthy (dget (sel_options sel) "timeout_mode")); congruence. }
  intros stage Hin.
  destruct (I1 stage Hin) as [(ms & (tool & Et & Hms & Hnn) & Gms) | []].
  destruct (J1 stage Hin) as [(v & (tool' & dm & Et' & Hdm & ->) & Gmode) | []].
  rewrite Et in Et'. injection Et' as <-.
  exists tool, ms, dm. auto 10.
Qed.

Lemma stage_timeouts_witness :
  exists plan,
    resolve_dispatch Examples.cfg Examples.manifest_one_shot "auto" "safe_impl" = Ok plan /\
    In "codex_verify" (stage_plan plan) /\
    exists tool timeout_ms default_mode,
      _stage_tool "codex_verify" = Ok tool /\
      wrapper_default Examples.cfg tool "timeout_ms" = Ok timeout_ms /\
      non_negative_int timeout_ms = true /\
      dict_get "codex_verify" (stage_timeout_ms plan) = Some timeout_ms /\
      wrapper_default Examples.cfg tool "timeout_mode" = Ok default_mode /\
      dict_get "codex_verify" (stage_timeout_modes plan)
      = Some (por (dget (options plan) "timeout_mode") default_mode).
Proof.
  destruct (resolve_dispatch Examples.cfg Examples.manifest_one_shot "auto" "safe_impl")
    as [plan |] eqn:Hr; [| vm_compute in Hr; discriminate Hr].
  exists plan. split; [reflexivity |].
  assert (Hin : In "codex_verify" (stage_plan plan)).
  { vm_compute in Hr. injection Hr as <-. simpl. auto. }
  split; [exact Hin |].
  exact (stage_timeouts_come_from_wrapper_defaults
           Examples.cfg Examples.manifest_one_shot "auto" "safe_impl" plan Hr _ Hin).
Defined.

(** X6: in a plan that [resolve_dispatch] returns, the per-stage maps
    describe the stages of the stage plan and no other: [stage_models],
    [stage_timeout_ms] and [stage_timeout_modes] have exactly the stages of
    the plan as keys, and [stage_efforts] exactly its codex stages. *)
Theorem stage_maps_cover_the_stage_plan
    (cfg manifest : value) (plan_name intent_default : string) (plan : dispatch_plan) :
  resolve_dispatch cfg manifest plan_name intent_default = Ok plan ->
  forall stage,
    (In stage (dict_keys (stage_models plan)) <-> In stage (stage_plan plan)) /\
    (In stage (dict_keys (stage_timeout_ms plan)) <-> In stage (stage_plan plan)) /\
    (In stage (dict_keys (stage_timeout_modes plan)) <-> In stage (stage_plan plan)) /\
    (In stage (dict_keys (stage_efforts plan))
     <-> In stage (stage_plan plan) /\ _stage_tool stage = Ok "codex").
Proof.
  intros H.
  apply resolve_dispatch_parts in H
    as (rmo & sel & tm & pm & cpe & wd & maps & _ & _ & _ & _ & _ & _ & _ & Hloop & ->).
  cbn [stage_plan stage_models stage_efforts stage_timeout_ms stage_timeout_modes].
  match type of Hloop with
  | fold_m (resolve_stage ?env) _ _ = _ => set (env0 := env) in *
  end.
  set (empty := {| m_stage_models := []; m_stage_efforts := [];
                   m_stage_timeout_ms := []; m_stage_timeout_modes := [] |}) in *.
  assert (Plain : forall proj : stage_maps -> dict,
             proj empty = [] ->
             (forall acc s acc', resolve_stage env0 acc s = Ok acc' ->
                exists v, proj acc' = dict_set s v (proj acc)) ->
             forall stage, In stage (dict_keys (proj maps)) <-> In stage (stage_plan plan)).
  { intros proj Hempty Hstep stage.
    destruct (fold_set_spec proj (resolve_stage env0) (fun _ _ => True) (fun _ => False)
                (stage_plan plan)) with (acc := empty) (r := maps)
      as (I1 & I2 & _); [| exact Hloop |].
    { intros acc s acc' Hs. destruct (Hstep _ _ _ Hs) as (v & Hv). left. eauto. }
    rewrite dict_keys_get. split.
    - intros (v & Hg). destruct (I2 _ _ Hg) as [Hg0 | (Hin & _)]; [| exact Hin].
      rewrite Hempty in Hg0. discriminate Hg0.
    - intros Hin. destruct (I1 _ Hin) as [(v & _ & Hg) | []]. eauto. }
  intros stage.
  split; [| split; [| split]].
  - apply (Plain m_stage_models); [reflexivity |].
    intros acc s acc' Hs. apply resolve_stage_full in Hs
      as (tool & model & ms & mode & _ & _ & _ & _ & _ & _ & Hset & _). eauto.
  - apply (Plain m_stage_timeout_ms); [reflexivity |].
    intros acc s acc' Hs. apply resolve_stage_full in Hs
      as (tool & model & ms & mode & _ & _ & _ & _ & _ & _ & _ & Hset & _). eauto.
  - apply (Plain m_stage_timeout_modes); [reflexivity |].
    intros acc s acc' Hs. apply resolve_stage_full in Hs
      as (tool & model & ms & mode & _ & _ & _ & _ & _ & _ & _ & _ & Hset & _). eauto.
  - destruct (fold_set_spec m_stage_efforts (resolve_stage env0)
                (fun s _ => _stage_tool s = Ok "codex")
                (fun s => _stage_tool s <> Ok "codex")
                (stage_plan plan)) with (acc := empty) (r := maps)
      as (I1 & I2 & _); [| exact Hloop |].
    { intros acc s acc' Hs. apply resolve_stage_full in Hs
        as (tool & model & ms & mode & Et & _ & _ & _ & _ & _ & _ & _ & _ & He).
      destruct He as [(e & -> & _ & _ & Hset) | (Hne & Hsame)].
      - left. eauto.
      - right. split; [rewrite Et; congruence | exact Hsame]. }
    rewrite dict_keys_get. split.
    + intros (v & Hg). destruct (I2 _ _ Hg) as [Hg0 | (Hin & Hc)];
        [unfold empty in Hg0; discriminate Hg0 |].
      auto.
    + intros (Hin & Hc). destruct (I1 _ Hin) as [(v & _ & Hg) | Hn]; [eauto | contradiction].
Qed.

Lemma stage_maps_witness :
  exists plan,
    resolve_dispatch Examples.cfg Examples.manifest_model "auto" "safe_impl" = Ok plan /\
    (In "gemini_review" (dict_keys (stage_models plan))
     <-> In "gemini_review" (stage_plan plan)) /\
    (In "gemini_review" (dict_keys (stage_efforts plan))
     <-> In "gemini_review" (stage_plan plan) /\ _stage_tool "gemini_review" = Ok "codex").
Proof.
  destruct (resolve_dispatch Examples.cfg Examples.manifest_model "auto" "safe_impl")
    as [plan |] eqn:Hr; [| vm_compute in Hr; discriminate Hr].
  exists plan. split; [reflexivity |].
  destruct (stage_maps_cover_the_stage_plan
              Examples.cfg Examples.manifest_model "auto" "safe_impl" plan Hr
              "gemini_review") as (H1 & _ & _ & H4).
  split; assumption.
Defined.

(** X7: the intent of a plan that [resolve_dispatch] returns is the plan
    name when one other than [auto] is given, else the manifest's
    [routing.intent] when it is set, else the default intent; and it is the
    name of a profile of the plan's pipeline group, [impl] or [review]. *)
Theorem dispatch_intent_precedence
    (cfg manifest : value) (plan_name intent_default : string) (plan : dispatch_plan) :
  resolve_dispatch cfg manifest plan_name intent_default = Ok plan ->
  exists routing_intent profiles,
    (r <- routing manifest ;; get r "intent") = Ok routing_intent /\
    intent plan
    = (if String.eqb plan_name "auto" then por routing_intent (VStr intent_default)
       else VStr plan_name) /\
    In (pipeline_group plan) ["impl"; "review"] /\
    (pipelines <- item cfg "pipelines" ;;
     node <- item pipelines (pipeline_group plan) ;;
     item node "profiles") = Ok profiles /\
    py_in (intent plan) profiles = Ok true.
Proof.
  intros H.
  apply resolve_dispatch_parts in H
    as (rmo & sel & tm & pm & cpe & wd & maps & _ & Hsel & _ & _ & _ & _ & _ & _ & ->).
  cbn [intent pipeline_group].
  destruct (select_profile_ok _ _ _ _ _ Hsel) as (po & fo & oo & base & S).
  pose proof (s_intent _ _ _ _ _ _ _ _ _ S) as Hi.
  pose proof (s_pipeline _ _ _ _ _ _ _ _ _ S) as Hp.
  pose proof (s_pipeline_in _ _ _ _ _ _ _ _ _ S) as Hin.
  unfold requested_intent in Hi.
  apply bind_ok in Hi as (r & Er & Hi).
  apply bind_ok in Hi as (i & Ei & Hi). injection Hi as Hi.
  unfold _find_pipeline_for_profile_name in Hp.
  apply bind_ok in Hp as (pls & Epls & Hp).
  apply bind_ok in Hp as (n1 & En1 & Hp).
  apply bind_ok in Hp as (p1 & Ep1 & Hp).
  apply bind_ok in Hp as (f1 & Ef1 & Hp).
  assert (exists profiles,
             (pipelines <- item cfg "pipelines" ;;
              node <- item pipelines (sel_pipeline sel) ;;
              item node "profiles") = Ok profiles /\
             py_in (sel_intent sel) profiles = Ok true) as (profiles & Hpr & Hk).
  { rewrite Epls. cbn [bind].
    destruct f1.
    - injection Hp as <-. exists p1. rewrite En1; cbn [bind]. auto.
    - apply bind_ok in Hp as (n2 & En2 & Hp).
      apply bind_ok in Hp as (p2 & Ep2 & Hp).
      apply bind_ok in Hp as (f2 & Ef2 & Hp).
      destruct f2; [| discriminate Hp].
      injection Hp as <-. exists p2. rewrite En2; cbn [bind]. auto. }
  exists i, profiles.
  split; [rewrite Er; cbn [bind]; exact Ei |].
  split; [| auto].
  rewrite <- Hi. destruct (String.eqb plan_name "auto"); reflexivity.
Qed.

Lemma dispatch_intent_witness :
  exists plan routing_intent,
    resolve_dispatch Examples.cfg MoreExamples.manifest_intent "auto" "safe_impl"
    = Ok plan /\
    (r <- routing MoreExamples.manifest_intent ;; get r "intent") = Ok routing_intent /\
    intent plan = por routing_intent (VStr "safe_impl") /\
    In (pipeline_group plan) ["impl"; "review"].
Proof.
  destruct (resolve_dispatch Examples.cfg MoreExamples.manifest_intent "auto" "safe_impl")
    as [plan |] eqn:Hr; [| vm_compute in Hr; discriminate Hr].
  exists plan.
  destruct (dispatch_intent_precedence
              Examples.cfg MoreExamples.manifest_intent "auto" "safe_impl" plan Hr)
    as (ri & profiles & H1 & H2 & H3 & _).
  exists ri. auto.
Defined.

End DispatchStages.

(** ** Merging, stage names and flag filters at the edges *)

Module DispatchEdges.
Import ConfigValidate ConfigResolve.
Import ResolveFacts ValidFacts FlagFilters ProfileStages Dispatch.

(** X8: merging an override into a base mapping, as [_merge_dict] does for
    the flags and options of a profile: a key of the override has the
    override's value, every other key keeps the value of the base. *)
Theorem merge_dict_override_wins (base override : dict) (k : string) :
  dict_get k (_merge_dict base override)
  = match dict_get k override with
    | Some v => Some v
    | None => dict_get k base
    end.
Proof.
  unfold _merge_dict. rewrite dict_update_get. unfold dget.
  destruct (dict_get k override) as [v |] eqn:E.
  - assert (mem k (dict_keys override) = true) as ->; [| reflexivity].
    apply mem_In. unfold dict_keys. apply in_map_iff.
    exists (k, v). split; [reflexivity | apply dict_get_In; exact E].
  - assert (mem k (dict_keys override) = false) as ->; [| reflexivity].
    destruct (mem k (dict_keys override)) eqn:M; [| reflexivity].
    apply mem_In in M. apply StageLoop.dict_keys_get in M as (v & Hv). congruence.
Qed.

(** X9: on the stage names of the two dispatch pipelines, the validator's
    [_stage_to_tool] and the resolver's [_stage_tool] agree: one accepts a
    stage exactly when the other does, with the same servant. *)
Theorem validator_and_resolver_agree_on_stage_servant (stage pipeline tool : string) :
  In pipeline ["impl"; "review"] ->
  (_stage_to_tool stage pipeline = Some tool <-> _stage_tool stage = Ok tool).
Proof.
  intros Hp. unfold _stage_to_tool, _stage_tool.
  assert (String.eqb pipeline "plan" = false) as ->
    by (destruct Hp as [<- | [<- | []]]; reflexivity).
  destruct (contains_char "_" stage); cbn [negb]; [| split; discriminate].
  destruct (mem (hd stage (split1 "_" stage)) SERVANT_NAMES); cbn [negb];
    [| split; discriminate].
  split; intros [= <-]; reflexivity.
Qed.

Lemma stage_servant_agreement_witness :
  In "review" ["impl"; "review"] /\
  (_stage_to_tool "gemini_review" "review" = Some "gemini"
   <-> _stage_tool "gemini_review" = Ok "gemini").
Proof.
  split; [simpl; auto |].
  apply validator_and_resolver_agree_on_stage_servant. simpl; auto.
Defined.

Lemma endswith_brief_has_role (s : string) :
  endswith "_brief" s = true -> contains_char "_" s = true.
Proof.
  induction s as [| a s IH]; [discriminate |].
  cbn [endswith contains_char]. intros H. apply orb_true_iff in H as [H | H].
  - apply String.eqb_eq in H. injection H as <- <-. reflexivity.
  - rewrite (IH H). apply orb_true_r.
Qed.

Lemma filter_m_index_error (p : string -> bool) (l : list string) (s : string) :
  In s l -> contains_char "_" s = false ->
  filter_m (fun s => role <- index (split1 "_" s) 1 ;; Ok (p role)) l = Raise IndexError.
Proof.
  assert (Hrole : forall x, contains_char "_" x = false ->
                            index (split1 "_" x) 1 = Raise IndexError).
  { intros x Hx. unfold split1.
    assert (split_once "_" x = None) as ->; [| reflexivity].
    induction x as [| a x IH]; [reflexivity |].
    cbn [contains_char split_once] in *. apply orb_false_iff in Hx as [Ha Hx].
    rewrite Ha, (IH Hx). reflexivity. }
  induction l as [| y l IH]; intros Hin Hs; [contradiction |].
  cbn [filter_m].
  destruct (contains_char "_" y) eqn:Hy.
  - destruct Hin as [-> | Hin]; [congruence |].
    rewrite (role_index y Hy). cbn [bind]. rewrite (IH Hin Hs). reflexivity.
  - rewrite (Hrole y Hy). reflexivity.
Qed.

(** X10: a stage name without an underscore makes
    [_apply_dispatch_flag_filters] raise [IndexError], not a validation
    error, as soon as [enable_verify] or [enable_review] is false. *)
Theorem flag_filters_raise_on_stage_without_role
    (stages : list string) (flags : dict) (s : string) :
  In s stages ->
  contains_char "_" s = false ->
  disabled flags "enable_verify" = true \/ disabled flags "enable_review" = true ->
  _apply_dispatch_flag_filters stages flags = Raise IndexError.
Proof.
  intros Hin Hs Hd. unfold _apply_dispatch_flag_filters.
  assert (exists out, drop_brief flags stages = Ok out /\ In s out) as (out & -> & Hout).
  { unfold drop_brief. destruct (disabled flags "enable_brief"); [| eauto].
    eexists; split; [reflexivity |]. apply filter_In. split; [exact Hin |].
    destruct (endswith "_brief" s) eqn:E; [| reflexivity].
    apply endswith_brief_has_role in E. congruence. }
  cbn [bind]. unfold drop_verify, drop_review.
  destruct (disabled flags "enable_verify").
  - rewrite (filter_m_index_error _ out s Hout Hs). reflexivity.
  - cbn [bind]. destruct Hd as [Hd | Hd]; [discriminate Hd |]. rewrite Hd.
    rewrite (filter_m_index_error _ out s Hout Hs). reflexivity.
Qed.

Lemma flag_filters_raise_witness :
  In "lint" ["codex_impl"; "lint"] /\
  contains_char "_" "lint" = false /\
  disabled [("enable_review", VBool false)] "enable_review" = true /\
  _apply_dispatch_flag_filters ["codex_impl"; "lint"] [("enable_review", VBool false)]
  = Raise IndexError.
Proof.
  split; [simpl; auto |]. split; [reflexivity |]. split; [reflexivity |].
  apply (flag_filters_raise_on_stage_without_role _ _ "lint");
    [simpl; auto | reflexivity | right; reflexivity].
Defined.

End DispatchEdges.

(** ** What validation guarantees about servants *)

Module ServantFacts.
Import ConfigValidate ConfigResolve Shapes Defaults.
Import ResolveFacts ValidFacts.

Lemma dget_some (d : dict) (k : string) (v : value) :
  dget d k = v -> v <> VNone -> dict_get k d = Some v.
Proof.
  unfold dget. destruct (dict_get k d); intros <- N; [reflexivity | contradiction].
Qed.

Lemma filter_nil {A} (p : A -> bool) (l : list A) :
  filter p l = [] -> forall x, In x l -> p x = false.
Proof.
  induction l as [| y l IH]; simpl; intros H x Hx; [contradiction |].
  destruct (p y) eqn:E; [discriminate H |].
  destruct Hx as [<- | Hx]; [exact E | exact (IH H x Hx)].
Qed.

Lemma str_in_inv (v : value) (values : list string) :
  str_in v values = true -> exists s, v = VStr s /\ In s values.
Proof.
  destruct v; simpl; try discriminate. intros H. exists s. split; [reflexivity |].
  apply mem_In; exact H.
Qed.

(** What [validate_servant] establishes about the node of a servant. *)
Lemma validate_servant_checked (cfg : value) (cfg_path : string) (sd : dict)
    (servant : string) :
  item cfg "servants" = Ok (VDict sd) ->
  In servant SERVANT_NAMES ->
  validate_servant cfg_path (VDict sd) servant = Ok tt ->
  servant_checked cfg servant.
Proof.
  intros Hcfg Hs H. unfold validate_servant in H.
  apply bind_ok in H as (node & En & H). simpl in En. injection En as En.
  apply bind_ok in H as ([] & Ed & H). apply expect_dict in Ed as (nd & Hnd).
  rewrite Hnd in *.
  apply bind_ok in H as ([] & _ & H).
  apply bind_ok in H as (dm & Edm & H). simpl in Edm. injection Edm as Edm.
  apply bind_ok in H as ([] & Ene & H).
  apply when_raise_ok in Ene. apply negb_false_iff in Ene.
  apply non_empty_str_inv in Ene as (s & Hdm & _). rewrite Hdm in *.
  apply bind_ok in H as (dms & Edms & H). simpl in Edms. injection Edms as <-.
  apply bind_ok in H as (ar & Ear & H). simpl in Ear. injection Ear as Ear.
  apply bind_ok in H as (allowed & Eal & H).
  apply expect_str_set_map in Eal. rewrite Eal in *.
  apply bind_ok in H as ([] & Emem & H).
  apply when_raise_ok in Emem. apply negb_false_iff in Emem. apply mem_In in Emem.
  apply bind_ok in H as (wdv & Ewd & H). simpl in Ewd. injection Ewd as Ewd.
  apply bind_ok in H as ([] & Ewt & H). apply expect_dict in Ewt as (wd & Hwd).
  rewrite Hwd in *.
  apply bind_ok in H as (wkeys & Ewk & H).
  apply bind_ok in H as ([] & _ & H).
  apply bind_ok in H as (wd' & Ewd' & H). simpl in Ewd'. injection Ewd' as <-.
  apply bind_ok in H as ([] & Emiss & H).
  apply when_raise_ok in Emiss.
  assert (Hreq : forall k, In k wkeys -> exists v, dict_get k wd = Some v).
  { destruct (sorted_set _) eqn:Ess in Emiss; [| discriminate Emiss].
    apply sorted_set_nil in Ess. intros k Hk.
    pose proof (filter_nil _ _ Ess k Hk) as Hm. apply negb_false_iff in Hm.
    unfold dict_mem in Hm. destruct (dict_get k wd); [eauto | discriminate Hm]. }
  apply bind_ok in H as ([] & Ewv & H).
  apply bind_ok in H as (pr & Epr & H). simpl in Epr. injection Epr as <-.
  apply bind_ok in H as ([] & Ept & H). apply expect_dict in Ept as (pm & Hpm).
  rewrite Hpm in *.
  apply bind_ok in H as ([] & Epk & H).
  apply bind_ok in H as (pm' & Epm' & H). simpl in Epm'. injection Epm' as <-.
  apply bind_ok in H as ([] & Epv & H).
  apply bind_ok in H as (er & Eer & H). simpl in Eer. injection Eer as <-.
  apply bind_ok in H as ([] & Eet & H). apply expect_dict in Eet as (pe & Hpe).
  rewrite Hpe in *.
  apply bind_ok in H as ([] & _ & H).
  apply bind_ok in H as ([] & Eek & H).
  apply bind_ok in H as (pe' & Epe' & H). simpl in Epe'. injection Epe' as <-.
  assert (Hw : forall k v, dict_get k wd = Some v ->
                 validate_wrapper_default cfg_path servant (k, v) = Ok tt).
  { intros k v Hg. apply (for_each_ok _ _ _ Ewv). apply dict_get_In; exact Hg. }
  exists (VDict sd), nd, s, allowed, wd, pm, pe.
  split; [exact Hcfg |].
  split; [apply dget_item; [exact En | discriminate] |].
  split; [apply dget_some; [exact Edm | discriminate] |].
  split; [apply dget_some; [exact Ear | discriminate] |].
  split; [exact Emem |].
  split; [apply dget_some; [exact Ewd | discriminate] |].
  assert (Hk : In "timeout_ms" wkeys /\ In "timeout_mode" wkeys
               /\ (servant = "codex" -> In "effort" wkeys)).
  { simpl in Hs. destruct Hs as [<- | [<- | [<- | []]]];
      vm_compute in Ewk; injection Ewk as <-;
      (split; [simpl; auto 6 | split; [simpl; auto 6 |]]);
      intros E; try discriminate E; simpl; auto. }
  destruct Hk as (K1 & K2 & K3).
  split.
  { destruct (Hreq _ K1) as (ms & Hg). exists ms. split; [exact Hg |].
    pose proof (Hw _ _ Hg) as Hc. unfold validate_wrapper_default in Hc.
    cbn [String.eqb Ascii.eqb Bool.eqb] in Hc.
    apply when_raise_ok in Hc. apply negb_false_iff in Hc. exact Hc. }
  split.
  { destruct (Hreq _ K2) as (mode & Hg).
    pose proof (Hw _ _ Hg) as Hc. unfold validate_wrapper_default in Hc.
    cbn [String.eqb Ascii.eqb Bool.eqb] in Hc.
    apply when_raise_ok in Hc. apply negb_false_iff in Hc.
    apply str_in_inv in Hc as (m & -> & Hm). eauto. }
  split.
  { intros ->. destruct (Hreq _ (K3 eq_refl)) as (e & Hg).
    pose proof (Hw _ _ Hg) as Hc. unfold validate_wrapper_default in Hc.
    cbn [String.eqb Ascii.eqb Bool.eqb andb] in Hc.
    apply when_raise_ok in Hc. apply negb_false_iff in Hc.
    apply str_in_inv in Hc as (m & -> & Hm). eauto. }
  split; [exact Hpm |].
  split.
  { intros k v Hin. split.
    - unfold _ensure_keys in Epk. cbn [items bind] in Epk. apply when_raise_ok in Epk.
      apply (no_unknown_keys _ _ Epk). unfold dict_keys. apply in_map_iff.
      exists (k, v); auto.
    - pose proof (for_each_ok _ _ _ Epv _ Hin) as Hc. simpl in Hc.
      apply bind_ok in Hc as ([] & Hne & Hc).
      apply when_raise_ok in Hne. apply negb_false_iff in Hne.
      apply non_empty_str_inv in Hne as (m & -> & _). simpl in Hc.
      apply when_raise_ok in Hc. apply negb_false_iff in Hc. apply mem_In in Hc.
      eauto. }
  split; [exact Hpe |].
  intros k v Hin. split.
  - unfold _ensure_keys in Eek. cbn [items bind] in Eek. apply when_raise_ok in Eek.
    apply (no_unknown_keys _ _ Eek). unfold dict_keys. apply in_map_iff.
    exists (k, v); auto.
  - pose proof (for_each_ok _ _ _ H _ Hin) as Hc. simpl in Hc.
    apply when_raise_ok in Hc. apply negb_false_iff in Hc.
    apply str_in_inv in Hc. exact Hc.
Qed.

Lemma validated_servants_checked (cfg : value) (cfg_path : string) (r : value) :
  validate_runtime_config_dict cfg cfg_path = Ok r ->
  forall servant, In servant SERVANT_NAMES -> servant_checked cfg servant.
Proof.
  unfold validate_runtime_config_dict. intros H servant Hs.
  apply bind_ok in H as ([] & Ek & H).
  unfold _ensure_keys in Ek. apply bind_ok in Ek as (d & Ed & _).
  destruct cfg; try discriminate Ed. simpl in Ed. injection Ed as <-.
  apply bind_ok in H as (version & _ & H).
  apply bind_ok in H as ([] & _ & H).
  apply bind_ok in H as (servants & Es & H). simpl in Es. injection Es as Es.
  apply bind_ok in H as ([] & Esd & H).
  apply expect_dict in Esd as (sd & Hsd). rewrite Hsd in *.
  apply bind_ok in H as ([] & _ & H).
  apply bind_ok in H as ([] & Eloop & H).
  apply (validate_servant_checked _ cfg_path sd).
  - apply dget_item; [exact Es | discriminate].
  - exact Hs.
  - exact (for_each_ok _ _ _ Eloop servant Hs).
Qed.

End ServantFacts.

(** ** The per-servant tables of a validated config *)

Module ServantTables.
Import ConfigValidate ConfigResolve ConfigResolvePlan Shapes Defaults.
Import ResolveFacts ValidFacts StageModels StageLoop DispatchStages ServantFacts Rejection.

Lemma fold_m_total {A B} (step : B -> A -> result B) (l : list A) :
  (forall acc x, In x l -> exists acc', step acc x = Ok acc') ->
  forall acc, exists r, fold_m step l acc = Ok r.
Proof.
  induction l as [| y l IH]; simpl; intros H acc; [eauto |].
  destruct (H acc y (or_introl eq_refl)) as (acc' & ->). cbn [bind].
  apply IH. intros a x Hx. apply H. right; exact Hx.
Qed.

Lemma dget_of_get (d : dict) (k : string) (v : value) :
  dict_get k d = Some v -> dget d k = v.
Proof. unfold dget. intros ->. reflexivity. Qed.

Lemma item_of_get (d : dict) (k : string) (v : value) :
  dict_get k d = Some v -> item (VDict d) k = Ok v.
Proof. unfold item, ditem. intros ->. reflexivity. Qed.

Lemma wrapper_defaults_resolve (cfg : value) :
  all_checked cfg -> exists wd, _resolve_tool_wrapper_defaults cfg = Ok wd.
Proof.
  intros Hc. apply fold_m_total. intros acc tool Ht.
  destruct (Hc tool Ht)
    as (servants & nd & dm & allowed & wd & pm & pe & E1 & E2 & _ & _ & _ & Ewd & _).
  rewrite E1; cbn [bind]. rewrite E2; cbn [bind get].
  rewrite (dget_of_get _ _ _ Ewd). rewrite por_mapping. cbn. eauto.
Qed.

Lemma wrapper_default_value (cfg : value) (tool key : string) :
  all_checked cfg -> In tool SERVANT_NAMES ->
  exists wd, wrapper_default cfg tool key = Ok (dget wd key) /\
             forall servants nd,
               item cfg "servants" = Ok servants ->
               item servants tool = Ok (VDict nd) ->
               dict_get "wrapper_defaults" nd = Some (VDict wd).
Proof.
  intros Hc Ht.
  destruct (Hc tool Ht)
    as (servants & nd & dm & allowed & wd & pm & pe & E1 & E2 & _ & _ & _ & Ewd & _).
  exists wd. split.
  - unfold wrapper_default. rewrite E1; cbn [bind]. rewrite E2; cbn [bind get].
    rewrite (dget_of_get _ _ _ Ewd). rewrite por_mapping. reflexivity.
  - intros s n F1 F2. rewrite E1 in F1. injection F1 as <-.
    rewrite E2 in F2. injection F2 as <-. exact Ewd.
Qed.

Lemma wrapper_timeout_ms (cfg : value) (tool : string) :
  all_checked cfg -> In tool SERVANT_NAMES ->
  exists ms, wrapper_default cfg tool "timeout_ms" = Ok ms /\ non_negative_int ms = true.
Proof.
  intros Hc Ht.
  destruct (Hc tool Ht)
    as (servants & nd & dm & allowed & wd & pm & pe & E1 & E2 & _ & _ & _ & Ewd
        & (ms & Ems & Hms) & _).
  exists ms. split; [| exact Hms].
  unfold wrapper_default. rewrite E1; cbn [bind]. rewrite E2; cbn [bind get].
  rewrite (dget_of_get _ _ _ Ewd). rewrite por_mapping. cbn [get].
  rewrite (dget_of_get _ _ _ Ems). reflexivity.
Qed.

Lemma wrapper_timeout_mode (cfg : value) (tool : string) :
  all_checked cfg -> In tool SERVANT_NAMES ->
  exists mode, wrapper_default cfg tool "timeout_mode" = Ok (VStr mode)
               /\ In mode TIMEOUT_MODE_VALUES.
Proof.
  intros Hc Ht.
  destruct (Hc tool Ht)
    as (servants & nd & dm & allowed & wd & pm & pe & E1 & E2 & _ & _ & _ & Ewd
        & _ & (mode & Em & Hm) & _).
  exists mode. split; [| exact Hm].
  unfold wrapper_default. rewrite E1; cbn [bind]. rewrite E2; cbn [bind get].
  rewrite (dget_of_get _ _ _ Ewd). rewrite por_mapping. cbn [get].
  rewrite (dget_of_get _ _ _ Em). reflexivity.
Qed.

Lemma wrapper_codex_effort (cfg : value) :
  all_checked cfg ->
  exists e, wrapper_default cfg "codex" "effort" = Ok (VStr e)
            /\ In e CODEX_EFFORT_VALUES.
Proof.
  intros Hc.
  destruct (Hc "codex" (or_introl eq_refl))
    as (servants & nd & dm & allowed & wd & pm & pe & E1 & E2 & _ & _ & _ & Ewd
        & _ & _ & He & _).
  destruct (He eq_refl) as (e & Ee & Hin).
  exists e. split; [| exact Hin].
  unfold wrapper_default. rewrite E1; cbn [bind]. rewrite E2; cbn [bind get].
  rewrite (dget_of_get _ _ _ Ewd). rewrite por_mapping. cbn [get].
  rewrite (dget_of_get _ _ _ Ee). reflexivity.
Qed.

Lemma purpose_models_resolve (cfg : value) :
  all_checked cfg -> exists pm, _resolve_purpose_models cfg = Ok pm.
Proof.
  intros Hc. apply fold_m_total. intros acc tool Ht.
  destruct (Hc tool Ht)
    as (servants & nd & dm & allowed & wd & pm & pe & E1 & E2 & _ & Eal & _ & _ & _ & _
        & _ & Epm & Hpm & _).
  rewrite E1; cbn [bind]. rewrite E2; cbn [bind get].
  rewrite Epm. cbn [isinstance negb when bind].
  rewrite (item_of_get _ _ _ Eal). cbn [bind items].
  rewrite for_each_intro; [cbn; eauto |].
  intros [k v] Hin. destruct (Hpm k v Hin) as (Hk & m & -> & Hm).
  assert (mem k PURPOSE_NAMES = true) as -> by (apply mem_In; exact Hk).
  cbn [negb when bind py_in]. rewrite in_list_str.
  assert (mem m allowed = true) as -> by (apply mem_In; exact Hm). reflexivity.
Qed.

Lemma codex_purpose_efforts_resolve (cfg : value) :
  all_checked cfg ->
  exists cpe,
    _resolve_codex_purpose_efforts cfg = Ok cpe /\
    forall k v, In (k, v) cpe -> exists e, v = VStr e /\ In e CODEX_EFFORT_VALUES.
Proof.
  intros Hc.
  destruct (Hc "codex" (or_introl eq_refl))
    as (servants & nd & dm & allowed & wd & pm & pe & E1 & E2 & _ & _ & _ & _ & _ & _
        & _ & _ & _ & Epe & Hpe).
  exists pe. split; [| intros k v Hin; exact (proj2 (Hpe k v Hin))].
  unfold _resolve_codex_purpose_efforts.
  rewrite E1; cbn [bind]. rewrite E2; cbn [bind get].
  rewrite Epe. cbn [isinstance negb when bind items].
  rewrite for_each_intro; [reflexivity |].
  intros [k v] Hin. destruct (Hpe k v Hin) as (Hk & e & -> & He).
  assert (mem k PURPOSE_NAMES = true) as -> by (apply mem_In; exact Hk).
  cbn [negb when bind in_str_set].
  assert (mem e CODEX_EFFORT_VALUES = true) as -> by (apply mem_In; exact He).
  reflexivity.
Qed.

Lemma default_tool_models_resolve (cfg : value) :
  all_checked cfg -> exists tm, default_tool_models cfg = Ok tm.
Proof.
  intros Hc. apply fold_m_total. intros acc tool Ht.
  destruct (Hc tool Ht)
    as (servants & nd & dm & allowed & wd & pm & pe & E1 & E2 & Edm & _).
  rewrite E1; cbn [bind]. rewrite E2; cbn [bind].
  rewrite (item_of_get _ _ _ Edm). cbn. eauto.
Qed.

(** The per-servant table of models has a model for every servant. *)
Lemma tool_models_resolve (cfg manifest : value) (rmo : dict) :
  all_checked cfg ->
  routing_model_overrides manifest = Ok rmo ->
  (exists md, manifest = VDict md) ->
  exists tm,
    _resolve_tool_models cfg manifest = Ok tm /\
    forall tool, In tool SERVANT_NAMES -> exists v, dict_get tool tm = Some v.
Proof.
  intros Hc Hr (md & ->). unfold _resolve_tool_models.
  destruct (default_tool_models_resolve cfg Hc) as (tm0 & Htm0).
  pose proof Htm0 as Hspec. apply PlanPipeline.default_tool_models_spec in Hspec
    as (c & g & p & _ & _ & _ & ->).
  unfold default_tool_models in Htm0. rewrite Htm0. cbn [bind].
  unfold routing_model_overrides, routing in Hr.
  apply bind_ok in Hr as (r & Er & Hr). apply bind_ok in Er as (rr & Err & Er).
  injection Er as <-. simpl in Err. injection Err as <-.
  apply bind_ok in Hr as (m & Em & Hr).
  assert (por (VDict md) (VDict []) = VDict md) as -> by apply por_mapping.
  cbn [get bind]. rewrite Em. cbn [bind].
  destruct (truthy (por m (VDict []))) eqn:T.
  - destruct (por m (VDict [])) as [| | | s | xs | d] eqn:P; try discriminate Hr.
    + destruct s; [discriminate T | discriminate Hr].
    + destruct xs; [discriminate T | discriminate Hr].
    + cbn [items bind]. eexists. split; [reflexivity |].
      intros tool Ht.
      assert (G : forall (over base : dict),
                 (exists v, dict_get tool base = Some v) ->
                 exists v, dict_get tool (dict_set_all base over) = Some v).
      { unfold dict_set_all. induction over as [| [k v] over IH]; intros base Hb;
          [exact Hb |].
        cbn [fold_left]. apply IH. cbn [fst snd].
        destruct (string_dec tool k) as [-> | Ne].
        - rewrite dict_get_set_same. eauto.
        - rewrite dict_get_set_other by exact Ne. exact Hb. }
      apply G. simpl in Ht. destruct Ht as [<- | [<- | [<- | []]]]; cbn; eauto.
  - eexists. split; [reflexivity |].
    intros tool Ht. simpl in Ht. destruct Ht as [<- | [<- | [<- | []]]]; cbn; eauto.
Qed.

End ServantTables.

(** ** What validation guarantees about pipelines and profile data *)

Module ProfileShapes.
Import ConfigValidate ConfigResolve Shapes Defaults.
Import ResolveFacts ValidFacts FlagFilters StageModels ProfileStages ProfileFacts.
Import ServantFacts ServantTables Rejection.

Lemma controlled_bind {A B} (m : result A) (k : A -> result B) :
  controlled m -> (forall a, m = Ok a -> controlled (k a)) -> controlled (bind m k).
Proof.
  destruct m as [a | e]; simpl; intros Hm Hk; [apply Hk; reflexivity | exact Hm].
Qed.

Lemma controlled_when (c : bool) (msg : string) :
  controlled (when c (raise_validation msg)).
Proof. destruct c; exact I. Qed.

(** The node of a pipeline that [validate_runtime_config_dict] accepted. *)
Lemma pipeline_shape (cfg : value) (pipeline : string) :
  validated cfg ->
  In pipeline ["impl"; "review"; "plan"] ->
  exists pls pd ps dp cfg_path servants,
    item cfg "pipelines" = Ok pls /\
    item pls pipeline = Ok (VDict pd) /\
    item (VDict pd) "profiles" = Ok (VDict ps) /\
    item (VDict pd) "default_profile" = Ok (VStr dp) /\
    dict_mem dp ps = true /\
    item cfg "servants" = Ok servants /\
    forall name node, In (name, node) ps ->
      validate_profile cfg_path servants pipeline (name, node) = Ok tt.
Proof.
  intros [Hs (d & pls & cfg_path & -> & Ep & servants & Es & Hall)] Hp.
  specialize (Hall pipeline Hp). unfold validate_pipeline in Hall.
  apply bind_ok in Hall as (pnode & Epn & Hall).
  destruct pls as [| | | | | pl]; try discriminate Epn.
  simpl in Epn. injection Epn as Epn.
  apply bind_ok in Hall as ([] & Epd & Hall). apply expect_dict in Epd as (pd & Hpd).
  rewrite Hpd in *.
  apply bind_ok in Hall as ([] & _ & Hall).
  apply bind_ok in Hall as (dpv & Edp & Hall). simpl in Edp. injection Edp as Edp.
  apply bind_ok in Hall as ([] & Ene & Hall).
  apply when_raise_ok in Ene. apply negb_false_iff in Ene.
  apply non_empty_str_inv in Ene as (dp & Hdp & _). rewrite Hdp in *.
  apply bind_ok in Hall as (profiles & Epr & Hall). simpl in Epr. injection Epr as Epr.
  apply bind_ok in Hall as ([] & Edict & Hall).
  apply expect_dict in Edict as (ps & Hps). rewrite Hps in *.
  apply bind_ok in Hall as ([] & _ & Hall).
  apply bind_ok in Hall as (kn & Ekn & Hall). simpl in Ekn. injection Ekn as <-.
  apply bind_ok in Hall as ([] & Ek & Hall).
  apply when_raise_ok in Ek. apply negb_false_iff in Ek.
  apply bind_ok in Hall as (ps' & Eps & Hall). simpl in Eps. injection Eps as <-.
  simpl in Ep. injection Ep as Ep. simpl in Es. injection Es as Es.
  exists (VDict pl), pd, ps, dp, cfg_path, servants.
  split; [apply dget_item; [exact Ep | discriminate] |].
  split; [apply dget_item; [exact Epn | discriminate] |].
  split; [apply dget_item; [exact Epr | discriminate] |].
  split; [apply dget_item; [exact Edp | discriminate] |].
  split; [exact Ek |].
  split.
  - destruct (Hs "codex") as (sv & _ & _ & _ & E1 & _); [simpl; auto |].
    pose proof (item_get _ _ _ E1) as E1'. simpl in E1'. congruence.
  - intros name node Hin. exact (for_each_ok _ _ _ Hall _ Hin).
Qed.

(** The stage list of a profile of a dispatch pipeline is a list of
    strings. *)
Lemma validate_profile_stage_list (cfg_path : string) (servants : value)
    (pipeline name : string) (nd : dict) :
  In pipeline ["impl"; "review"] ->
  validate_profile cfg_path servants pipeline (name, VDict nd) = Ok tt ->
  exists names, dget nd "stages" = VList (map VStr names).
Proof.
  intros Hp H. unfold validate_profile in H.
  apply bind_ok in H as ([] & _ & H).
  apply bind_ok in H as ([] & _ & H).
  apply bind_ok in H as (st & Est & H). simpl in Est. injection Est as <-.
  apply bind_ok in H as ([] & Hst & _).
  assert (mem pipeline ["impl"; "review"] = true) as Hm by (apply mem_In; exact Hp).
  rewrite Hm in Hst.
  apply bind_ok in Hst as (names & Enames & _).
  apply expect_str_set_map in Enames. eauto.
Qed.

(** In a validated config, reading a profile of a dispatch pipeline gives
    its data or a validation error. *)
Lemma profile_data_controlled (cfg : value) (pipeline name : string) :
  validated cfg ->
  In pipeline ["impl"; "review"] ->
  controlled (_profile_data cfg pipeline (VStr name)).
Proof.
  intros Hv Hp.
  assert (Hp3 : In pipeline ["impl"; "review"; "plan"]) by (simpl in *; tauto).
  destruct (pipeline_shape cfg pipeline Hv Hp3)
    as (pls & pd & ps & dp & cp & servants & E1 & E2 & E3 & _ & _ & _ & Hall).
  unfold _profile_data. rewrite E1; cbn [bind]. rewrite E2; cbn [bind].
  rewrite E3; cbn [bind py_in].
  destruct (dict_mem name ps) eqn:M; cbn [negb]; [| exact I].
  unfold dict_mem in M. destruct (dict_get name ps) as [node |] eqn:G; [| discriminate M].
  cbn [item_v item]. unfold ditem. rewrite G. cbn [bind].
  pose proof (Hall _ _ (dict_get_In _ _ _ G)) as Hprof.
  destruct (validate_profile_tables _ _ _ _ _ Hprof)
    as (nd & fl & op & sm & se & -> & Efl & Eop & Esm & Ese & _).
  destruct (validate_profile_stage_list _ _ _ _ _ Hp Hprof) as (names & Est).
  cbn [get bind]. rewrite Est.
  assert (to_list (por (VList (map VStr names)) (VList [])) = Ok (map VStr names)) as ->
    by (destruct names; reflexivity).
  cbn [bind]. rewrite as_str_list_map. cbn [bind].
  rewrite Efl, Eop, Esm, Ese. cbn. exact I.
Qed.

(** What the validator established about the data of a profile of a
    dispatch pipeline. *)
Lemma profile_data_checked (cfg : value) (pipeline : string) (profile : value)
    (data : Profile.t) :
  validated cfg ->
  In pipeline ["impl"; "review"] ->
  _profile_data cfg pipeline profile = Ok data ->
  options_checked (Profile.options data) /\
  (forall k v, In (k, v) (Profile.stage_models data) ->
     exists tool servants node allowed,
       _stage_tool k = Ok tool /\
       item cfg "servants" = Ok servants /\
       item servants tool = Ok node /\
       item node "allowed_models" = Ok allowed /\
       py_in v allowed = Ok true) /\
  (forall k v, In (k, v) (Profile.stage_efforts data) ->
     _stage_tool k = Ok "codex" /\ exists e, v = VStr e /\ In e CODEX_EFFORT_VALUES).
Proof.
  intros Hv Hp H.
  assert (Hp3 : In pipeline ["impl"; "review"; "plan"]) by (simpl in *; tauto).
  unfold _profile_data in H.
  apply bind_ok in H as (pls & Epls & H).
  apply bind_ok in H as (pnode & Epn & H).
  apply bind_ok in H as (profiles & Epr & H).
  apply bind_ok in H as (known & Ek & H).
  destruct known; [| discriminate H]. cbn [negb] in H.
  apply bind_ok in H as (node & Enode & H).
  destruct (validated_profile_checked _ _ _ _ _ _ _ Hv Hp3 Epls Epn Epr Enode)
    as (cp & servants & name & -> & Es & Hprof).
  destruct (validate_profile_tables _ _ _ _ _ Hprof)
    as (nd & fl & op & sm & se & -> & Efl & Eop & Esm & Ese & _ & Vop & Vsm & Vse).
  apply bind_ok in H as (st & _ & H). apply bind_ok in H as (stl & _ & H).
  apply bind_ok in H as (stages & _ & H).
  apply bind_ok in H as (x1 & E1 & H). simpl in E1. injection E1 as <-.
  rewrite Efl in H. cbn [to_dict bind get] in H.
  rewrite Eop in H. cbn [to_dict bind get] in H.
  rewrite Esm in H. cbn [to_dict bind get] in H.
  rewrite Ese in H. cbn [to_dict bind get] in H.
  injection H as <-. cbn [Profile.options Profile.stage_models Profile.stage_efforts].
  split; [| split].
  - intros k v Hin. destruct (Vop k v Hin) as (s & table & allowed & -> & Et & _ & Ea & Hs).
    exists s. split; [reflexivity |]. intros ->.
    simpl in Hp. destruct Hp as [<- | [<- | []]];
      vm_compute in Et; injection Et as <-; vm_compute in Ea; injection Ea as <-;
      exact Hs.
  - intros k v Hin.
    destruct (Vsm k v Hin) as (_ & tool & servant & allowed & Et & E1 & E2 & E3).
    destruct (stage_to_tool_stage_tool _ _ _ Hp Et) as [Ht _].
    exists tool, servants, servant, allowed. auto.
  - intros k v Hin. destruct (Vse k v Hin) as (Hs & Et).
    destruct (stage_to_tool_stage_tool _ _ _ Hp Et) as [Ht _].
    split; [exact Ht |]. apply str_in_inv; exact Hs.
Qed.

End ProfileShapes.

(** ** What validation guarantees about a manifest *)

Module ManifestFacts.
Import ConfigValidate ConfigResolve Shapes Defaults.
Import ResolveFacts ValidFacts ServantFacts ServantTables Rejection Dispatch.

Lemma por_falsy_mapping (v : value) :
  truthy (por v (VDict [])) = false -> por v (VDict []) = VDict [].
Proof.
  unfold por. destruct (truthy v) eqn:T; [| reflexivity]. intros H. congruence.
Qed.

Lemma por_truthy (v : value) :
  truthy (por v (VDict [])) = true -> por v (VDict []) = v.
Proof.
  unfold por. destruct (truthy v) eqn:T; [reflexivity |]. intros H. discriminate H.
Qed.

(** A value looked up in a table of checked entries. *)
Lemma dget_checked (P : value -> Prop) (d : dict) (k : string) :
  (forall k v, In (k, v) d -> P v) -> dget d k = VNone \/ P (dget d k).
Proof.
  intros H. unfold dget. destruct (dict_get k d) as [v |] eqn:E; [| left; reflexivity].
  right. exact (H k v (dict_get_In _ _ _ E)).
Qed.

(** What [validate_manifest_extensions] establishes about the fields of a
    manifest that [resolve_dispatch] reads. *)
Lemma manifest_checked (cfg : value) (md : dict) (manifest_path : string) :
  validate_manifest_extensions cfg (VDict md) manifest_path = Ok tt ->
  exists rd mm pd fo oo,
    por (dget md "routing") (VDict []) = VDict rd /\
    (dget rd "intent" = VNone \/ exists s, dget rd "intent" = VStr s) /\
    to_dict (por (dget rd "model") (VDict [])) = Ok mm /\
    por (dget rd "pipeline") (VDict []) = VDict pd /\
    (dget pd "profile" = VNone \/ exists s, dget pd "profile" = VStr s) /\
    to_dict (por (dget pd "flags") (VDict [])) = Ok fo /\
    to_dict (por (dget pd "options") (VDict [])) = Ok oo /\
    options_checked oo.
Proof.
  unfold validate_manifest_extensions. intros H.
  destruct (truthy (VDict md)) eqn:Tm; cbn [negb] in H.
  2:{ destruct md; [| discriminate Tm].
      exists [], [], [], [], []. repeat split; auto. intros k v []. }
  cbn [isinstance negb when bind get] in H.
  apply bind_ok in H as ([] & Hr & H).
  assert (exists rd, por (dget md "routing") (VDict []) = VDict rd) as (rd & Erd).
  { destruct (truthy (por (dget md "routing") (VDict []))) eqn:T.
    - cbn [andb] in Hr. apply when_raise_ok in Hr. apply negb_false_iff in Hr.
      destruct (por (dget md "routing") (VDict [])); try discriminate Hr. eauto.
    - rewrite (por_falsy_mapping _ T). eauto. }
  rewrite Erd in *. clear Hr.
  apply bind_ok in H as ([] & _ & H).
  apply bind_ok in H as (hi & Ehi & H). simpl in Ehi. injection Ehi as <-.
  apply bind_ok in H as ([] & Hi & H).
  assert (Hintent : dget rd "intent" = VNone \/ exists s, dget rd "intent" = VStr s).
  { unfold dict_mem in Hi. unfold dget.
    destruct (dict_get "intent" rd) as [iv |] eqn:G; [| left; reflexivity].
    right. cbn [item] in Hi. unfold ditem in Hi. rewrite G in Hi. cbn [bind] in Hi.
    apply when_raise_ok in Hi. destruct iv; try discriminate Hi. eauto. }
  clear Hi.
  apply bind_ok in H as (mr & Emr & H). simpl in Emr. injection Emr as <-.
  apply bind_ok in H as ([] & Hm & H).
  assert (exists mm, to_dict (por (dget rd "model") (VDict [])) = Ok mm) as (mm & Emm).
  { destruct (truthy (por (dget rd "model") (VDict []))) eqn:T.
    - apply bind_ok in Hm as ([] & Hd & _). apply expect_dict in Hd as (mm & ->).
      simpl. eauto.
    - rewrite (por_falsy_mapping _ T). simpl. eauto. }
  clear Hm.
  apply bind_ok in H as (pr & Epr & H). simpl in Epr. injection Epr as <-.
  exists rd, mm.
  destruct (truthy (por (dget rd "pipeline") (VDict []))) eqn:T.
  2:{ rewrite (por_falsy_mapping _ T).
      exists [], [], []. repeat split; auto. intros k v []. }
  unfold validate_manifest_pipeline in H.
  apply bind_ok in H as ([] & Hd & H). apply expect_dict in Hd as (pd & Epd).
  rewrite Epd in *.
  apply bind_ok in H as ([] & _ & H).
  apply bind_ok in H as (profile & Ep & H). simpl in Ep. injection Ep as <-.
  apply bind_ok in H as ([] & Hp & H).
  apply when_raise_ok in Hp.
  apply bind_ok in H as (fr & Efr & H). simpl in Efr. injection Efr as <-.
  apply bind_ok in H as ([] & Hfd & H). apply expect_dict in Hfd as (fo & Efo).
  rewrite Efo in *.
  apply bind_ok in H as ([] & _ & H).
  apply bind_ok in H as (fl' & _ & H).
  apply bind_ok in H as ([] & _ & H).
  apply bind_ok in H as (orw & Eor & H). simpl in Eor. injection Eor as <-.
  apply bind_ok in H as ([] & Hod & H). apply expect_dict in Hod as (oo & Eoo).
  rewrite Eoo in *.
  apply bind_ok in H as ([] & _ & H).
  apply bind_ok in H as (ol' & Eol & H). simpl in Eol. injection Eol as <-.
  apply bind_ok in H as ([] & Hov & _).
  exists pd, fo, oo. repeat split; auto.
  - destruct (dget pd "profile"); simpl in Hp; try discriminate Hp; eauto.
  - rewrite Efo. reflexivity.
  - rewrite Eoo. reflexivity.
  - intros k v Hin. pose proof (for_each_ok _ _ _ Hov _ Hin) as Hc. simpl in Hc.
    apply bind_ok in Hc as ([] & Hs & Hc). apply when_raise_ok in Hs.
    destruct v; try discriminate Hs.
    exists s. split; [reflexivity |]. intros ->.
    assert (table_item allowed_options "timeout_mode" = Ok TIMEOUT_MODE_VALUES) as Et
      by (vm_compute; reflexivity).
    rewrite Et in Hc. cbn [bind] in Hc.
    apply when_raise_ok in Hc. apply negb_false_iff in Hc.
    apply mem_In. exact Hc.
Qed.

End ManifestFacts.

(** ** Resolution of validated inputs *)

Module DispatchTotal.
Import ConfigValidate ConfigResolve Shapes Defaults.
Import ResolveFacts ValidFacts FlagFilters Selection StageModels ProfileStages.
Import ProfileFacts StageLoop DispatchStages ServantFacts ServantTables ProfileShapes.
Import ManifestFacts Rejection Dispatch.

(** The manifest fields, as the accessors of [resolve_dispatch] read them
    from a validated manifest. *)
Lemma manifest_accessors (cfg : value) (md : dict) (manifest_path plan_name
    intent_default : string) :
  validate_manifest_extensions cfg (VDict md) manifest_path = Ok tt ->
  exists mm name po fo oo,
    routing_model_overrides (VDict md) = Ok mm /\
    requested_intent (VDict md) plan_name intent_default = Ok (VStr name) /\
    profile_override (VDict md) = Ok po /\
    (po = VNone \/ exists s, po = VStr s) /\
    flags_override (VDict md) = Ok fo /\
    options_override (VDict md) = Ok oo /\
    options_checked oo.
Proof.
  intros H.
  destruct (manifest_checked _ _ _ H)
    as (rd & mm & pd & fo & oo & Erd & Hi & Emm & Epd & Hp & Efo & Eoo & Hoo).
  assert (Hname : exists name,
             (if negb (String.eqb plan_name "auto") then VStr plan_name
              else por (dget rd "intent") (VStr intent_default)) = VStr name).
  { destruct (negb (String.eqb plan_name "auto")); [eauto |].
    destruct Hi as [Hi | (s & Hi)]; rewrite Hi; [unfold por; simpl; eauto |].
    unfold por. destruct (truthy (VStr s)); eauto. }
  destruct Hname as (name & Hname).
  exists mm, name, (dget pd "profile"), fo, oo.
  unfold routing_model_overrides, requested_intent, profile_override, flags_override,
    options_override, pipeline_override, routing.
  cbn [get bind]. rewrite Erd. cbn [get bind]. rewrite Epd. cbn [get bind].
  rewrite Emm, Efo, Eoo, Hname. auto 10.
Qed.

Lemma find_pipeline_total (cfg : value) (name : string) :
  validated cfg ->
  exists r, _find_pipeline_for_profile_name cfg (VStr name) = Ok r.
Proof.
  intros Hv.
  destruct (pipeline_shape cfg "impl" Hv) as (pls & pd1 & ps1 & _ & _ & _ & E1 & E2 & E3 & _);
    [simpl; auto |].
  destruct (pipeline_shape cfg "review" Hv)
    as (pls' & pd2 & ps2 & _ & _ & _ & F1 & F2 & F3 & _); [simpl; auto |].
  rewrite E1 in F1. injection F1 as <-.
  unfold _find_pipeline_for_profile_name. rewrite E1. cbn [bind].
  rewrite E2. cbn [bind]. rewrite E3. cbn [bind py_in].
  destruct (dict_mem name ps1); [eauto |].
  rewrite F2. cbn [bind]. rewrite F3. cbn [bind py_in].
  destruct (dict_mem name ps2); eauto.
Qed.

Lemma remap_impl_controlled (pipeline : string) (options : dict) (name : string) :
  controlled (remap_impl pipeline options (VStr name)) /\
  forall r, remap_impl pipeline options (VStr name) = Ok r -> exists n, r = VStr n.
Proof.
  unfold remap_impl. destruct (String.eqb pipeline "impl"); [| split; [exact I |]].
  - destruct (nonempty (unsupported_keys options ["impl_mode"; "timeout_mode"]));
      cbn [when bind raise_validation]; [split; [exact I | discriminate] |].
    split; [exact I |]. intros r [= <-].
    destruct (py_eq _ _); [eauto |]. destruct (py_eq _ _); eauto.
  - intros r [= <-]. eauto.
Qed.

Lemma remap_review_controlled (pipeline : string) (options : dict) (name : string) :
  controlled (remap_review pipeline options (VStr name)) /\
  forall r, remap_review pipeline options (VStr name) = Ok r -> exists n, r = VStr n.
Proof.
  unfold remap_review. destruct (String.eqb pipeline "review"); [| split; [exact I |]].
  - destruct (nonempty (unsupported_keys options
                          ["review_mode"; "timeout_mode"; "security_mode"]));
      cbn [when bind raise_validation]; [split; [exact I | discriminate] |].
    split; [exact I |]. intros r [= <-].
    destruct (py_eq _ _); [eauto |]. destruct (py_eq _ _); eauto.
  - intros r [= <-]. eauto.
Qed.

(** On validated inputs, profile selection gives a selection or a
    validation error. *)
Lemma select_profile_controlled (cfg : value) (md : dict)
    (manifest_path plan_name intent_default : string) :
  validated cfg ->
  validate_manifest_extensions cfg (VDict md) manifest_path = Ok tt ->
  controlled (select_profile cfg (VDict md) plan_name intent_default).
Proof.
  intros Hv Hm.
  destruct (manifest_accessors _ _ _ plan_name intent_default Hm)
    as (mm & name & po & fo & oo & Emm & Eri & Epo & Hpo & Efo & Eoo & _).
  unfold select_profile. rewrite Emm; cbn [bind]. rewrite Eri; cbn [bind].
  apply controlled_bind.
  { unfold _base_profile_from_intent.
    destruct (find_pipeline_total cfg name Hv) as ([p |] & ->); exact I. }
  intros [pipeline pfi] Ebase.
  assert (Hp : In pipeline ["impl"; "review"] /\ pfi = VStr name).
  { unfold _base_profile_from_intent in Ebase.
    apply bind_ok in Ebase as (r & Er & Ebase).
    destruct r as [p |]; [| discriminate Ebase]. injection Ebase as <- <-.
    split; [exact (find_pipeline_in _ _ _ Er) | reflexivity]. }
  destruct Hp as [Hp ->].
  rewrite Epo; cbn [bind].
  assert (exists sp, por po (VStr name) = VStr sp) as (sp & Hsp).
  { destruct Hpo as [Hpo | (s & Hpo)]; rewrite Hpo; [unfold por; simpl; eauto |].
    unfold por. destruct (truthy (VStr s)); eauto. }
  rewrite Hsp.
  apply controlled_bind; [apply profile_data_controlled; assumption |].
  intros data Edata. rewrite Efo; cbn [bind]. rewrite Eoo; cbn [bind].
  assert (exists af, table_item DISPATCH_ALLOWED_FLAGS pipeline = Ok af) as (af & ->).
  { simpl in Hp. destruct Hp as [<- | [<- | []]]; cbn; eauto. }
  cbn [bind].
  apply controlled_bind; [apply controlled_when |]. intros [] _.
  destruct (remap_impl_controlled pipeline (_merge_dict (Profile.options data) oo) sp)
    as [C1 R1].
  apply controlled_bind; [exact C1 |]. intros s1 E1.
  destruct (R1 _ E1) as (n1 & ->).
  destruct (remap_review_controlled pipeline (_merge_dict (Profile.options data) oo) n1)
    as [C2 R2].
  apply controlled_bind; [exact C2 |]. intros s2 E2.
  destruct (R2 _ E2) as (n2 & ->).
  destruct (negb (py_eq (VStr n2) (VStr sp))); [| exact I].
  apply controlled_bind; [apply profile_data_controlled; assumption |].
  intros data' _. exact I.
Qed.

(** A merged table of checked options is checked at every key. *)
Lemma merged_option (base override : dict) (k : string) :
  options_checked base -> options_checked override ->
  dget (_merge_dict base override) k = VNone \/
  exists s, dget (_merge_dict base override) k = VStr s
            /\ (k = "timeout_mode" -> In s TIMEOUT_MODE_VALUES).
Proof.
  intros Hb Ho. pose proof (dict_update_get k base override) as E.
  unfold dget, _merge_dict. rewrite E. clear E.
  destruct (mem k (dict_keys override)) eqn:M.
  - apply mem_In in M. apply dict_keys_get in M as (v & Hv).
    unfold dget. rewrite Hv. right. exact (Ho k v (dict_get_In _ _ _ Hv)).
  - destruct (dict_get k base) as [v |] eqn:G; [| left; reflexivity].
    right. exact (Hb k v (dict_get_In _ _ _ G)).
Qed.

Lemma resolve_stage_model_total (env : stage_env) (tool stage purpose : string) :
  (forall t p, exists v, get2 (e_purpose_models env) t p = Ok v) ->
  (exists v, dict_get tool (e_tool_models env) = Some v) ->
  exists model, resolve_stage_model env tool stage purpose = Ok model.
Proof.
  intros Hpm (tmv & Htm). unfold resolve_stage_model.
  destruct (is_none (dget (e_routing_model_overrides env) tool)); [| eauto].
  destruct (is_none (dget (e_profile_stage_models env) stage)) eqn:N.
  - destruct (Hpm tool purpose) as (v & ->). cbn [bind].
    destruct (is_none v); [| eauto]. unfold ditem. rewrite Htm. eauto.
  - cbn [bind]. rewrite N. eauto.
Qed.

Lemma in_str_set_member (s : string) (values : list string) :
  In s values -> in_str_set (VStr s) values = Ok true.
Proof. intros H. simpl. f_equal. apply mem_In; exact H. Qed.

(** One turn of the dispatch stage loop succeeds on a validated config. *)
Lemma resolve_stage_total (cfg : value) (env : stage_env) (acc : stage_maps)
    (stage tool : string) :
  all_checked cfg ->
  _resolve_purpose_models cfg = Ok (e_purpose_models env) ->
  _resolve_tool_wrapper_defaults cfg = Ok (e_wrapper_defaults env) ->
  (forall t, In t SERVANT_NAMES -> exists v, dict_get t (e_tool_models env) = Some v) ->
  (e_timeout_mode_override env = VNone \/
   exists m, e_timeout_mode_override env = VStr m /\ In m TIMEOUT_MODE_VALUES) ->
  (forall k v, In (k, v) (e_profile_stage_efforts env) ->
     exists e, v = VStr e /\ In e CODEX_EFFORT_VALUES) ->
  (forall k v, In (k, v) (e_codex_purpose_efforts env) ->
     exists e, v = VStr e /\ In e CODEX_EFFORT_VALUES) ->
  _stage_tool stage = Ok tool ->
  exists acc', resolve_stage env acc stage = Ok acc'.
Proof.
  intros Hc Hpm Hwd Htm Hov Hpse Hcpe Ht.
  pose proof (stage_tool_servant _ _ Ht) as Htool.
  unfold resolve_stage. rewrite Ht. cbn [bind].
  destruct (resolve_stage_model_total env tool stage
              (_dispatch_stage_purpose stage (e_pipeline env) (e_runtime_options env))
              (purpose_models_total _ _ Hpm) (Htm tool Htool)) as (model & ->).
  cbn [bind].
  rewrite (wrapper_defaults_get _ _ tool "timeout_ms" Hwd Htool).
  destruct (wrapper_timeout_ms cfg tool Hc Htool) as (ms & -> & Hms).
  cbn [bind]. rewrite Hms. cbn [negb when bind].
  rewrite (wrapper_defaults_get _ _ tool "timeout_mode" Hwd Htool).
  destruct (wrapper_timeout_mode cfg tool Hc Htool) as (dmode & Edm & Hdm).
  assert (exists mode,
             (if truthy (e_timeout_mode_override env)
              then Ok (e_timeout_mode_override env)
              else wrapper_default cfg tool "timeout_mode") = Ok (VStr mode)
             /\ In mode TIMEOUT_MODE_VALUES) as (mode & -> & Hmode).
  { destruct Hov as [-> | (m & -> & Hm)]; [simpl; eauto |].
    destruct (truthy (VStr m)); eauto. }
  cbn [bind]. rewrite (in_str_set_member _ _ Hmode). cbn [negb when bind].
  destruct (String.eqb tool "codex"); [| eauto].
  rewrite (wrapper_defaults_get _ _ "codex" "effort" Hwd (or_introl eq_refl)).
  destruct (wrapper_codex_effort cfg Hc) as (de & Ede & Hde).
  assert (exists e,
             (if is_none
                   (if is_none (dget (e_profile_stage_efforts env) stage)
                    then dget (e_codex_purpose_efforts env)
                           (_dispatch_stage_purpose stage (e_pipeline env)
                              (e_runtime_options env))
                    else dget (e_profile_stage_efforts env) stage)
              then wrapper_default cfg "codex" "effort"
              else Ok (if is_none (dget (e_profile_stage_efforts env) stage)
                       then dget (e_codex_purpose_efforts env)
                              (_dispatch_stage_purpose stage (e_pipeline env)
                                 (e_runtime_options env))
                       else dget (e_profile_stage_efforts env) stage))
             = Ok (VStr e) /\ In e CODEX_EFFORT_VALUES) as (e & -> & He).
  { destruct (dget_checked _ _ stage Hpse) as [-> | (e & -> & He)]; [| simpl; eauto].
    cbn [is_none].
    destruct (dget_checked _ _ (_dispatch_stage_purpose stage (e_pipeline env)
                                  (e_runtime_options env)) Hcpe)
      as [-> | (e & -> & He)]; [| simpl; eauto].
    cbn [is_none]. eauto. }
  cbn [bind]. rewrite (in_str_set_member _ _ He). cbn [negb when bind]. eauto.
Qed.

(** On validated inputs, once a profile is selected and its filtered stage
    list is not empty, every later step of [resolve_dispatch] succeeds. *)
Lemma dispatch_completes (cfg : value) (cfg_path : string) (md : dict)
    (manifest_path plan_name intent_default : string) (sel : selection)
    (sp : list string) :
  validate_runtime_config_dict cfg cfg_path = Ok cfg ->
  validate_manifest_extensions cfg (VDict md) manifest_path = Ok tt ->
  select_profile cfg (VDict md) plan_name intent_default = Ok sel ->
  _apply_dispatch_flag_filters (Profile.stages (sel_runtime sel)) (sel_flags sel) = Ok sp ->
  sp <> [] ->
  exists plan,
    resolve_dispatch cfg (VDict md) plan_name intent_default = Ok plan /\
    stage_plan plan = sp.
Proof.
  intros Hcfg Hm Hsel Hsp Hne.
  pose proof (validated_servants_checked _ _ _ Hcfg) as Hc.
  apply validate_runtime_config_dict_ok in Hcfg as [_ Hv].
  destruct (manifest_accessors _ _ _ plan_name intent_default Hm)
    as (mm & name & po & fo & oo & Emm & _ & _ & _ & _ & Eoo & Hoo).
  destruct (select_profile_ok _ _ _ _ _ Hsel) as (po' & fo' & oo' & base & S).
  pose proof (s_pipeline_in _ _ _ _ _ _ _ _ _ S) as Hp.
  pose proof (s_data _ _ _ _ _ _ _ _ _ S) as Hdata.
  pose proof (s_options _ _ _ _ _ _ _ _ _ S) as Hopt.
  pose proof (s_oo _ _ _ _ _ _ _ _ _ S) as Hoo'.
  rewrite Eoo in Hoo'. injection Hoo' as <-.
  destruct (profile_data_checked _ _ _ _ Hv Hp Hdata) as (Vop & Vsm & Vse).
  pose proof (validated_profile_stages _ _ _ _ Hv Hp Hdata) as Vst.
  assert (Hstages : forall s, In s sp -> exists tool, _stage_tool s = Ok tool).
  { intros s Hs.
    rewrite apply_filters_pure in Hsp by (intros x Hx; exact (proj2 (Vst x Hx))).
    injection Hsp as <-. apply filter_In in Hs as [Hs _]. exact (proj1 (Vst s Hs)). }
  destruct (tool_models_resolve cfg (VDict md) mm Hc Emm (ex_intro _ md eq_refl))
    as (tm & Etm & Htm).
  destruct (purpose_models_resolve cfg Hc) as (pm & Epm).
  destruct (codex_purpose_efforts_resolve cfg Hc) as (cpe & Ecpe & Hcpe).
  destruct (wrapper_defaults_resolve cfg Hc) as (wd & Ewd).
  assert (Hov : dget (sel_options sel) "timeout_mode" = VNone \/
                exists m, dget (sel_options sel) "timeout_mode" = VStr m
                          /\ In m TIMEOUT_MODE_VALUES).
  { rewrite Hopt.
    destruct (merged_option (Profile.options (sel_runtime sel)) oo "timeout_mode" Vop Hoo)
      as [-> | (s & -> & Hs)]; [left; reflexivity | right; eauto]. }
  unfold resolve_dispatch.
  rewrite Emm; cbn [bind]. rewrite Hsel; cbn [bind]. rewrite Hsp; cbn [bind].
  assert (nonempty sp = true) as -> by (destruct sp; [contradiction | reflexivity]).
  cbn [negb when bind].
  rewrite Etm; cbn [bind]. rewrite Epm; cbn [bind]. rewrite Ecpe; cbn [bind].
  rewrite Ewd; cbn [bind].
  assert ((if negb (is_none (dget (sel_options sel) "timeout_mode"))
           then ok <- in_str_set (dget (sel_options sel) "timeout_mode")
                        TIMEOUT_MODE_VALUES ;; Ok (negb ok)
           else Ok false) = Ok false) as ->.
  { destruct Hov as [-> | (m & -> & Hmode)]; [reflexivity |].
    cbn [is_none negb]. rewrite (in_str_set_member _ _ Hmode). reflexivity. }
  cbn [when bind].
  rewrite for_each_intro.
  2:{ intros [k v] Hin.
      destruct (Vsm k v Hin) as (tool & servants & node & allowed & E1 & E2 & E3 & E4 & E5).
      rewrite E1; cbn [bind]. rewrite E2; cbn [bind]. rewrite E3; cbn [bind].
      rewrite E4; cbn [bind]. rewrite E5. reflexivity. }
  cbn [bind].
  rewrite for_each_intro.
  2:{ intros [k v] Hin. destruct (Vse k v Hin) as (E1 & e & -> & He).
      rewrite E1; cbn [bind String.eqb Ascii.eqb Bool.eqb negb when].
      rewrite (in_str_set_member _ _ He). reflexivity. }
  cbn [bind].
  match goal with
  | |- context [fold_m (resolve_stage ?env) sp ?init] =>
      assert (exists maps, fold_m (resolve_stage env) sp init = Ok maps) as (maps & ->);
        [apply fold_m_total |]
  end.
  { intros acc s Hs. destruct (Hstages s Hs) as (tool & Ht).
    apply (resolve_stage_total cfg) with (tool := tool); try assumption.
    intros k v Hin. exact (proj2 (Vse k v Hin)). }
  cbn [bind]. eexists. split; reflexivity.
Qed.

(** X11: for a validated v1 config and a manifest accepted by
    manifest-extension validation, once [resolve_dispatch] has selected a
    profile of which at least one stage survives the flags, it returns a
    plan for those stages: none of its later errors (about models, timeouts
    and efforts) can occur. *)
Theorem dispatch_succeeds_once_stages_are_selected
    (cfg : value) (cfg_path : string) (md : dict)
    (manifest_path plan_name intent_default : string) (sel : selection) :
  validate_runtime_config_dict cfg cfg_path = Ok cfg ->
  validate_manifest_extensions cfg (VDict md) manifest_path = Ok tt ->
  select_profile cfg (VDict md) plan_name intent_default = Ok sel ->
  filter (kept (sel_flags sel)) (Profile.stages (sel_runtime sel)) <> [] ->
  exists plan,
    resolve_dispatch cfg (VDict md) plan_name intent_default = Ok plan /\
    stage_plan plan = filter (kept (sel_flags sel)) (Profile.stages (sel_runtime sel)).
Proof.
  intros Hcfg Hm Hsel Hne.
  apply (dispatch_completes cfg cfg_path md manifest_path plan_name intent_default sel);
    try assumption.
  apply validate_runtime_config_dict_ok in Hcfg as [_ Hv].
  destruct (select_profile_ok _ _ _ _ _ Hsel) as (po' & fo' & oo' & base & S).
  apply apply_filters_pure. intros s Hs.
  exact (proj2 (validated_profile_stages _ _ _ _ Hv (s_pipeline_in _ _ _ _ _ _ _ _ _ S)
                  (s_data _ _ _ _ _ _ _ _ _ S) s Hs)).
Qed.

Lemma dispatch_succeeds_witness :
  validate_runtime_config_dict Examples.cfg "config" = Ok Examples.cfg /\
  validate_manifest_extensions Examples.cfg Examples.manifest_one_shot "manifest" = Ok tt /\
  exists sel plan,
    select_profile Examples.cfg Examples.manifest_one_shot "auto" "safe_impl" = Ok sel /\
    filter (kept (sel_flags sel)) (Profile.stages (sel_runtime sel)) <> [] /\
    resolve_dispatch Examples.cfg Examples.manifest_one_shot "auto" "safe_impl" = Ok plan /\
    stage_plan plan = filter (kept (sel_flags sel)) (Profile.stages (sel_runtime sel)).
Proof.
  assert (Hc : validate_runtime_config_dict Examples.cfg "config" = Ok Examples.cfg)
    by (vm_compute; reflexivity).
  assert (Hm : validate_manifest_extensions Examples.cfg Examples.manifest_one_shot
                 "manifest" = Ok tt) by (vm_compute; reflexivity).
  split; [exact Hc |]. split; [exact Hm |].
  destruct (select_profile Examples.cfg Examples.manifest_one_shot "auto" "safe_impl")
    as [sel |] eqn:Hsel; [| vm_compute in Hsel; discriminate Hsel].
  assert (Hne : filter (kept (sel_flags sel)) (Profile.stages (sel_runtime sel)) <> []).
  { vm_compute in Hsel. injection Hsel as <-. vm_compute. discriminate. }
  exists sel.
  lazymatch eval cbv delta [Examples.manifest_one_shot] in Examples.manifest_one_shot with
  | VDict ?md =>
      destruct (dispatch_succeeds_once_stages_are_selected
                  Examples.cfg "config" md "manifest" "auto" "safe_impl" sel
                  Hc Hm Hsel Hne) as (plan & Hr & Hs)
  end.
  exists plan. auto.
Defined.

(** X12: for a validated v1 config and a manifest accepted by
    manifest-extension validation, [resolve_dispatch] returns a plan or
    raises a validation error, the one exception its caller handles: never
    a [KeyError], [TypeError], [AttributeError] or [IndexError]. *)
Theorem dispatch_raises_only_validation_errors
    (cfg : value) (cfg_path : string) (md : dict)
    (manifest_path plan_name intent_default : string) :
  validate_runtime_config_dict cfg cfg_path = Ok cfg ->
  validate_manifest_extensions cfg (VDict md) manifest_path = Ok tt ->
  controlled (resolve_dispatch cfg (VDict md) plan_name intent_default).
Proof.
  intros Hcfg Hm.
  pose proof Hcfg as Hcfg'. apply validate_runtime_config_dict_ok in Hcfg' as [_ Hv].
  pose proof (select_profile_controlled cfg md manifest_path plan_name intent_default
                Hv Hm) as Hsc.
  destruct (manifest_accessors _ _ _ plan_name intent_default Hm)
    as (mm & name & po & fo & oo & Emm & _).
  destruct (select_profile cfg (VDict md) plan_name intent_default) as [sel | e] eqn:Hsel.
  2:{ unfold resolve_dispatch. rewrite Emm; cbn [bind]. rewrite Hsel. exact Hsc. }
  destruct (select_profile_ok _ _ _ _ _ Hsel) as (po' & fo' & oo' & base & S).
  assert (Hsp : _apply_dispatch_flag_filters (Profile.stages (sel_runtime sel))
                  (sel_flags sel)
                = Ok (filter (kept (sel_flags sel)) (Profile.stages (sel_runtime sel)))).
  { apply apply_filters_pure. intros s Hs.
    exact (proj2 (validated_profile_stages _ _ _ _ Hv (s_pipeline_in _ _ _ _ _ _ _ _ _ S)
                    (s_data _ _ _ _ _ _ _ _ _ S) s Hs)). }
  destruct (filter (kept (sel_flags sel)) (Profile.stages (sel_runtime sel)))
    as [| s0 sp] eqn:Ef.
  - unfold resolve_dispatch. rewrite Emm; cbn [bind]. rewrite Hsel; cbn [bind].
    rewrite Hsp. exact I.
  - destruct (dispatch_completes cfg cfg_path md manifest_path plan_name intent_default
                sel (s0 :: sp) Hcfg Hm Hsel Hsp) as (plan & -> & _); [discriminate |].
    exact I.
Qed.

Lemma dispatch_controlled_witness :
  validate_runtime_config_dict Examples.cfg "config" = Ok Examples.cfg /\
  validate_manifest_extensions Examples.cfg Examples.manifest_no_review "manifest" = Ok tt /\
  controlled (resolve_dispatch Examples.cfg Examples.manifest_no_review "auto" "safe_impl") /\
  is_validation_error
    (resolve_dispatch Examples.cfg Examples.manifest_no_review "auto" "safe_impl") = true.
Proof.
  assert (Hc : validate_runtime_config_dict Examples.cfg "config" = Ok Examples.cfg)
    by (vm_compute; reflexivity).
  assert (Hm : validate_manifest_extensions Examples.cfg Examples.manifest_no_review
                 "manifest" = Ok tt) by (vm_compute; reflexivity).
  split; [exact Hc |]. split; [exact Hm |].
  split; [| vm_compute; reflexivity].
  lazymatch eval cbv delta [Examples.manifest_no_review] in Examples.manifest_no_review with
  | VDict ?md =>
      exact (dispatch_raises_only_validation_errors
               Examples.cfg "config" md "manifest" "auto" "safe_impl" Hc Hm)
  end.
Defined.

End DispatchTotal.

(** ** Plan pipeline resolution of validated inputs *)

Module PlanTotal.
Import ConfigValidate ConfigResolve ConfigResolvePlan Plans Shapes Defaults.
Import ResolveFacts ValidFacts StageModels ProfileStages ProfileFacts StageLoop.
Import DispatchStages ServantFacts ServantTables ProfileShapes ManifestFacts.
Import DispatchTotal PlanPipeline Rejection.

Lemma controlled_for_each {A} (body : A -> result unit) (l : list A) :
  (forall x, In x l -> controlled (body x)) -> controlled (for_each body l).
Proof.
  induction l as [| y l IH]; simpl; intros H; [exact I |].
  apply controlled_bind; [apply H; left; reflexivity |].
  intros _ _. apply IH. intros x Hx. apply H. right; exact Hx.
Qed.

Lemma controlled_fold_m {A B} (step : B -> A -> result B) (l : list A) :
  (forall acc x, In x l -> controlled (step acc x)) ->
  forall acc, controlled (fold_m step l acc).
Proof.
  induction l as [| y l IH]; simpl; intros H acc; [exact I |].
  apply controlled_bind; [apply H; left; reflexivity |].
  intros acc' _. apply IH. intros a x Hx. apply H. right; exact Hx.
Qed.

Lemma stage_tool_or_controlled (stage msg : string) :
  controlled (stage_tool_or stage msg) /\
  forall tool, stage_tool_or stage msg = Ok tool -> In tool SERVANT_NAMES.
Proof.
  unfold stage_tool_or. destruct (_stage_tool stage) as [tool | e] eqn:E.
  - split; [exact I |]. intros t [= <-]. exact (stage_tool_servant _ _ E).
  - unfold _stage_tool in E.
    destruct (negb (contains_char "_" stage)); [injection E as <- |].
    + split; [exact I | discriminate].
    + destruct (negb (mem _ SERVANT_NAMES)); [injection E as <- | discriminate E].
      split; [exact I | discriminate].
Qed.

Lemma allowed_models_list (cfg : value) (tool : string) :
  all_checked cfg -> In tool SERVANT_NAMES ->
  exists servants nd allowed,
    item cfg "servants" = Ok servants /\
    item servants tool = Ok (VDict nd) /\
    item (VDict nd) "allowed_models" = Ok (VList (map VStr allowed)).
Proof.
  intros Hc Ht.
  destruct (Hc tool Ht) as (servants & nd & dm & allowed & wd & pm & pe & E1 & E2 & _ & Eal & _).
  exists servants, nd, allowed. split; [exact E1 |]. split; [exact E2 |].
  apply item_of_get; exact Eal.
Qed.

(** One turn of the plan stage loop succeeds on a validated config. *)
Lemma resolve_plan_stage_total (cfg : value) (env : plan_env) (acc : stage_maps)
    (stage tool : string) :
  all_checked cfg ->
  _resolve_purpose_models cfg = Ok (p_purpose_models env) ->
  _resolve_tool_wrapper_defaults cfg = Ok (p_wrapper_defaults env) ->
  (forall t, In t SERVANT_NAMES -> exists v, dict_get t (p_tool_models env) = Some v) ->
  (p_timeout_mode_override env = VNone \/
   exists m, p_timeout_mode_override env = VStr m /\ In m TIMEOUT_MODE_VALUES) ->
  (forall k v, In (k, v) (p_profile_stage_efforts env) ->
     exists e, v = VStr e /\ In e CODEX_EFFORT_VALUES) ->
  (forall k v, In (k, v) (p_codex_purpose_efforts env) ->
     exists e, v = VStr e /\ In e CODEX_EFFORT_VALUES) ->
  _stage_tool stage = Ok tool ->
  exists acc', resolve_plan_stage env acc stage = Ok acc'.
Proof.
  intros Hc Hpm Hwd Htm Hov Hpse Hcpe Ht.
  pose proof (stage_tool_servant _ _ Ht) as Htool.
  unfold resolve_plan_stage. rewrite Ht. cbn [bind].
  assert (exists model, plan_stage_model env tool stage = Ok model) as (model & ->).
  { destruct (Htm tool Htool) as (tmv & Etm). unfold plan_stage_model.
    destruct (is_none (dget (p_model_overrides env) tool)); [| eauto].
    destruct (is_none (dget (p_profile_stage_models env) stage)) eqn:N.
    - destruct (purpose_models_total _ _ Hpm tool (_plan_stage_purpose stage)) as (v & ->).
      cbn [bind]. destruct (is_none v); [| eauto]. unfold ditem. rewrite Etm. eauto.
    - cbn [bind]. rewrite N. eauto. }
  cbn [bind].
  rewrite (wrapper_defaults_get _ _ tool "timeout_ms" Hwd Htool).
  destruct (wrapper_timeout_ms cfg tool Hc Htool) as (ms & -> & Hms).
  cbn [bind]. rewrite Hms. cbn [negb when bind].
  rewrite (wrapper_defaults_get _ _ tool "timeout_mode" Hwd Htool).
  destruct (wrapper_timeout_mode cfg tool Hc Htool) as (dmode & Edm & Hdm).
  assert (exists mode,
             (if truthy (p_timeout_mode_override env)
              then Ok (p_timeout_mode_override env)
              else wrapper_default cfg tool "timeout_mode") = Ok (VStr mode)
             /\ In mode TIMEOUT_MODE_VALUES) as (mode & -> & Hmode).
  { destruct Hov as [-> | (m & -> & Hm)]; [simpl; eauto |].
    destruct (truthy (VStr m)); eauto. }
  cbn [bind]. rewrite (in_str_set_member _ _ Hmode). cbn [negb when bind].
  destruct (String.eqb tool "codex"); [| eauto].
  rewrite (wrapper_defaults_get _ _ "codex" "effort" Hwd (or_introl eq_refl)).
  destruct (wrapper_codex_effort cfg Hc) as (de & Ede & Hde).
  assert (exists e,
             (if is_none
                   (if is_none (dget (p_profile_stage_efforts env) stage)
                    then dget (p_codex_purpose_efforts env) (_plan_stage_purpose stage)
                    else dget (p_profile_stage_efforts env) stage)
              then wrapper_default cfg "codex" "effort"
              else Ok (if is_none (dget (p_profile_stage_efforts env) stage)
                       then dget (p_codex_purpose_efforts env) (_plan_stage_purpose stage)
                       else dget (p_profile_stage_efforts env) stage))
             = Ok (VStr e) /\ In e CODEX_EFFORT_VALUES) as (e & -> & He).
  { destruct (dget_checked _ _ stage Hpse) as [-> | (e & -> & He)]; [| simpl; eauto].
    cbn [is_none].
    destruct (dget_checked _ _ (_plan_stage_purpose stage) Hcpe)
      as [-> | (e & -> & He)]; [| simpl; eauto].
    cbn [is_none]. eauto. }
  cbn [bind]. rewrite (in_str_set_member _ _ He). cbn [negb when bind]. eauto.
Qed.

(** On a config whose servants and pipelines passed validation,
    [resolve_plan_pipeline] raises validation errors only. *)
Lemma plan_pipeline_controlled
    (cfg : value) (profile_override : value) (model_overrides : dict) :
  validated cfg ->
  all_checked cfg ->
  (profile_override = VNone \/ exists s, profile_override = VStr s) ->
  (forall tool model, In (tool, model) model_overrides ->
     In tool SERVANT_NAMES /\ (model = VNone \/ exists s, model = VStr s)) ->
  controlled (resolve_plan_pipeline cfg profile_override model_overrides).
Proof.
  intros Hv Hc Hpo Hmo.
  destruct (pipeline_shape cfg "plan" Hv)
    as (pls & pd & ps & dp & cp & servants & E1 & E2 & E3 & E4 & _ & _ & Hall);
    [simpl; auto |].
  unfold resolve_plan_pipeline. rewrite E1; cbn [bind]. rewrite E2; cbn [bind].
  assert (exists name,
             (if truthy profile_override then Ok profile_override
              else item (VDict pd) "default_profile") = Ok (VStr name)) as (name & ->).
  { destruct Hpo as [-> | (s & ->)]; [cbn [truthy]; eauto |].
    destruct (truthy (VStr s)); eauto. }
  cbn [bind]. rewrite E3; cbn [bind py_in].
  destruct (dict_mem name ps) eqn:M; cbn [negb when bind]; [| exact I].
  unfold dict_mem in M. destruct (dict_get name ps) as [node |] eqn:G; [| discriminate M].
  cbn [item_v item]. unfold ditem at 1. rewrite G. cbn [bind].
  pose proof (Hall _ _ (dict_get_In _ _ _ G)) as Hprof.
  destruct (validate_profile_tables _ _ _ _ _ Hprof)
    as (nd & fl & op & sm & se & -> & Efl & Eop & Esm & Ese & _ & Vop & Vsm & Vse).
  cbn [get bind]. rewrite Efl, Eop, Esm, Ese. cbn [to_dict bind].
  destruct (default_tool_models_resolve cfg Hc) as (tm0 & Etm0). rewrite Etm0; cbn [bind].
  destruct (purpose_models_resolve cfg Hc) as (pm & Epm). rewrite Epm; cbn [bind].
  destruct (codex_purpose_efforts_resolve cfg Hc) as (cpe & Ecpe & Hcpe).
  rewrite Ecpe; cbn [bind].
  destruct (wrapper_defaults_resolve cfg Hc) as (wd & Ewd). rewrite Ewd; cbn [bind].
  assert (Hov : dget op "timeout_mode" = VNone \/
                exists m, dget op "timeout_mode" = VStr m /\ In m TIMEOUT_MODE_VALUES).
  { unfold dget. destruct (dict_get "timeout_mode" op) as [v0 |] eqn:G0;
      [right | left; reflexivity].
    destruct (Vop _ _ (dict_get_In _ _ _ G0)) as (s & table & allowed & -> & Et & _ & Ea & Hs).
    exists s. split; [reflexivity |].
    vm_compute in Et. injection Et as <-. vm_compute in Ea. injection Ea as <-. exact Hs. }
  assert ((if negb (is_none (dget op "timeout_mode"))
           then ok <- in_str_set (dget op "timeout_mode") TIMEOUT_MODE_VALUES ;;
                Ok (negb ok)
           else Ok false) = Ok false) as ->.
  { destruct Hov as [-> | (m & -> & Hmode)]; [reflexivity |].
    cbn [is_none negb]. rewrite (in_str_set_member _ _ Hmode). reflexivity. }
  cbn [when bind].
  apply controlled_bind.
  { apply controlled_fold_m. intros acc [tool model] Hin.
    destruct (Hmo _ _ Hin) as (Ht & [-> | (s & ->)]); cbn [apply_model_override is_none];
      [exact I |].
    destruct (allowed_models_list cfg tool Hc Ht) as (sv & snd & allowed & F1 & F2 & F3).
    rewrite F1; cbn [bind]. rewrite F2; cbn [bind]. rewrite F3; cbn [bind py_in].
    apply controlled_bind; [apply controlled_when | intros [] _; exact I]. }
  intros tm Etm.
  assert (Htm : forall t, In t SERVANT_NAMES -> exists v, dict_get t tm = Some v).
  { destruct (model_overrides_applied _ _ _ _ Etm) as (_ & I2 & _).
    destruct (default_tool_models_spec _ _ Etm0) as (c & g & p & _ & _ & _ & ->).
    intros t Ht. simpl in Ht.
    destruct Ht as [<- | [<- | [<- | []]]]; eapply I2; reflexivity. }
  apply controlled_bind.
  { apply controlled_for_each. intros [k v] Hin. unfold check_stage_model.
    match goal with
    | |- controlled (bind (stage_tool_or k ?msg) _) =>
        destruct (stage_tool_or_controlled k msg) as [C T]
    end.
    apply controlled_bind; [exact C |]. intros tool Et.
    destruct (allowed_models_list cfg tool Hc (T tool Et))
      as (sv & snd & allowed & F1 & F2 & F3).
    rewrite F1; cbn [bind]. rewrite F2; cbn [bind]. rewrite F3; cbn [bind py_in].
    apply controlled_when. }
  intros [] _.
  apply controlled_bind.
  { apply controlled_for_each. intros [k v] Hin. unfold check_stage_effort.
    destruct (Vse k v Hin) as (Hs & _). apply str_in_inv in Hs as (e & -> & He).
    match goal with
    | |- controlled (bind (stage_tool_or k ?msg) _) =>
        destruct (stage_tool_or_controlled k msg) as [C T]
    end.
    apply controlled_bind; [exact C |]. intros tool Et.
    apply controlled_bind; [apply controlled_when |]. intros [] _.
    cbn [in_str_set bind]. apply controlled_when. }
  intros [] _.
  match goal with
  | |- context [fold_m (resolve_plan_stage ?env) stage_order ?init] =>
      assert (exists maps, fold_m (resolve_plan_stage env) stage_order init = Ok maps)
        as (maps & ->); [apply fold_m_total |]
  end.
  { intros acc s Hs.
    assert (exists tool, _stage_tool s = Ok tool) as (tool & Ht).
    { simpl in Hs.
      destruct Hs as [<- | [<- | [<- | [<- | [<- | [<- | []]]]]]]; eexists; reflexivity. }
    apply (resolve_plan_stage_total cfg) with (tool := tool); try assumption.
    intros k v Hin. cbn [p_profile_stage_efforts] in Hin.
    destruct (Vse k v Hin) as (Hs' & _). apply str_in_inv; exact Hs'. }
  exact I.
Qed.

(** X13: for a validated v1 config, a profile override that is absent or a
    string, and CLI model overrides that name servants and give each a
    string or nothing, [resolve_plan_pipeline] returns a plan or raises a
    validation error, the one exception its caller handles. *)
Theorem plan_pipeline_raises_only_validation_errors
    (cfg : value) (cfg_path : string) (profile_override : value)
    (model_overrides : dict) :
  validate_runtime_config_dict cfg cfg_path = Ok cfg ->
  (profile_override = VNone \/ exists s, profile_override = VStr s) ->
  (forall tool model, In (tool, model) model_overrides ->
     In tool SERVANT_NAMES /\ (model = VNone \/ exists s, model = VStr s)) ->
  controlled (resolve_plan_pipeline cfg profile_override model_overrides).
Proof.
  intros Hcfg Hpo Hmo.
  pose proof (validated_servants_checked _ _ _ Hcfg) as Hc.
  apply validate_runtime_config_dict_ok in Hcfg as [_ Hv].
  exact (plan_pipeline_controlled cfg profile_override model_overrides Hv Hc Hpo Hmo).
Qed.

Lemma plan_pipeline_controlled_witness :
  validate_runtime_config_dict Examples.cfg "config" = Ok Examples.cfg /\
  controlled
    (resolve_plan_pipeline Examples.cfg (VStr "thorough")
       [("copilot", VNone); ("gemini", VNone); ("codex", VStr "gpt-task")]) /\
  is_validation_error
    (resolve_plan_pipeline Examples.cfg (VStr "thorough")
       [("copilot", VNone); ("gemini", VNone); ("codex", VStr "gpt-task")]) = true.
Proof.
  assert (Hc : validate_runtime_config_dict Examples.cfg "config" = Ok Examples.cfg)
    by (vm_compute; reflexivity).
  split; [exact Hc |]. split; [| vm_compute; reflexivity].
  apply (plan_pipeline_raises_only_validation_errors Examples.cfg "config");
    [exact Hc | right; eauto |].
  intros tool model Hin. simpl in Hin.
  destruct Hin as [[= <- <-] | [[= <- <-] | [[= <- <-] | []]]]; simpl; eauto 10.
Defined.

End PlanTotal.

(** ** What v2 validation guarantees about a loaded config *)

Module ConfigShapeV2.
Import ConfigValidateV2 ManifestV2 ConfigResolveV2 ShapesV2.
Import ResolveFacts ValidFacts SkillSteps ProfileStages ServantFacts ServantTables.
Import DefaultModel Loading.

(** Every file that a loading loop read is in the mapping it returns, as
    the validator returned it. *)
Lemma load_dir_get (validate : value -> string -> string -> result value)
    (t : Fs.tree) (root subdir : string) (names : list string) :
  forall acc d,
    load_dir validate t root subdir names acc = Ok d ->
    (forall name, In name names ->
       exists raw node,
         validate raw name (Fs.join (Fs.join root subdir) (name ++ ".yaml")) = Ok node /\
         dict_get name d = Some node) /\
    (forall name, ~ In name names -> dict_get name d = dict_get name acc).
Proof.
  induction names as [| n names IH]; simpl; intros acc d H.
  - injection H as <-. split; [intros name [] | reflexivity].
  - apply bind_ok in H as (raw & Eraw & H).
    apply bind_ok in H as (node & Enode & H).
    destruct (IH _ _ H) as (I1 & I2). split.
    + intros name [<- | Hn].
      * destruct (in_dec string_dec n names) as [Hin | Hout]; [exact (I1 n Hin) |].
        exists raw, node. split; [exact Enode |].
        rewrite (I2 n Hout). apply dict_get_set_same.
      * exact (I1 name Hn).
    + intros name Hn. rewrite I2 by tauto.
      apply dict_get_set_other. intros ->. apply Hn. left; reflexivity.
Qed.

Lemma blank_not_empty (s : string) : is_blank s = false -> s <> "".
Proof. intros H ->. discriminate H. Qed.

Lemma validate_step_default_checked (path : string) (nd : dict) :
  _validate_step_default path (VDict nd) = Ok tt -> step_default_checked (VDict nd).
Proof.
  unfold _validate_step_default. intros H.
  apply bind_ok in H as ([] & _ & H).
  apply bind_ok in H as (v1 & E1 & H). simpl in E1. injection E1 as <-.
  apply bind_ok in H as (tool & Et & H).
  apply expect_non_empty_string_ok in Et as (Et & _).
  apply bind_ok in H as ([] & Ht & H).
  apply when_raise_ok in Ht. apply negb_false_iff in Ht. apply mem_In in Ht.
  apply bind_ok in H as (v2 & E2 & H). simpl in E2. injection E2 as <-.
  apply bind_ok in H as (mode & Em & H).
  apply expect_non_empty_string_ok in Em as (Em & _).
  apply bind_ok in H as ([] & Hm & H).
  apply when_raise_ok in Hm. apply negb_false_iff in Hm. apply mem_In in Hm.
  apply bind_ok in H as (v3 & E3 & H). simpl in E3. injection E3 as <-.
  apply bind_ok in H as (web & Ew & H).
  apply expect_non_empty_string_ok in Ew as (Ew & _).
  apply bind_ok in H as ([] & Hw & H).
  apply when_raise_ok in Hw. apply negb_false_iff in Hw. apply mem_In in Hw.
  apply bind_ok in H as (modes & Emodes & H).
  apply when_raise_ok in H.
  exists nd, tool, mode, web. split; [reflexivity |].
  split; [apply dget_some; [exact Et | discriminate] |]. split; [exact Ht |].
  split; [apply dget_some; [exact Em | discriminate] |]. split; [exact Hm |].
  split; [apply dget_some; [exact Ew | discriminate] |]. split; [exact Hw |].
  unfold web_mode_fits. cbn [py_eq table_item_v in_str_set].
  destruct (String.eqb web "off"); [left; reflexivity | right].
  cbn [negb andb] in H. apply negb_false_iff in H.
  exists modes. rewrite H. auto.
Qed.

(** What [_validate_skill_file] establishes about a skill file. *)
Lemma validate_skill_file_checked (node : value) (skill path : string) (r : value) :
  _validate_skill_file node skill path = Ok r ->
  r = node /\
  exists nd first_default other_defaults methods step_defaults,
    node = VDict nd /\
    dict_get "default_method_ids" nd
    = Some (VList (map VStr (first_default :: other_defaults))) /\
    dict_get "methods" nd = Some (VDict methods) /\
    dict_get "step_defaults" nd = Some (VDict step_defaults) /\
    (forall m mnode, dict_get m methods = Some mnode ->
       exists md enabled steps,
         mnode = VDict md /\
         dict_get "enabled" md = Some (VBool enabled) /\
         dict_get "steps" md = Some (VList (map VStr steps)) /\
         steps <> [] /\
         forall s, In s steps -> exists snode, dict_get s step_defaults = Some snode) /\
    (forall s snode, dict_get s step_defaults = Some snode -> step_default_checked snode).
Proof.
  unfold _validate_skill_file. intros H.
  apply bind_ok in H as ([] & Ek & H).
  unfold _ensure_keys in Ek. apply bind_ok in Ek as (nd & End & _).
  destruct node as [| | | | | nd']; try discriminate End.
  simpl in End. injection End as <-.
  apply bind_ok in H as (version & _ & H). apply bind_ok in H as ([] & _ & H).
  apply bind_ok in H as (sk & _ & H). apply bind_ok in H as ([] & _ & H).
  apply bind_ok in H as (dmi & Edmi & H). simpl in Edmi. injection Edmi as <-.
  apply bind_ok in H as (ids & Eids & H).
  apply expect_string_list_ok in Eids as (Eids & _ & Hne).
  apply bind_ok in H as (methods & Em & H). simpl in Em. injection Em as <-.
  apply bind_ok in H as ([] & Emd & H). apply expect_mapping in Emd as (ms & Ems).
  rewrite Ems in *.
  apply bind_ok in H as ([] & _ & H).
  apply bind_ok in H as (ms' & Ems' & H). simpl in Ems'. injection Ems' as <-.
  apply bind_ok in H as ([] & Hmethods & H).
  apply bind_ok in H as ([] & _ & H).
  apply bind_ok in H as (sdv & Esd & H). simpl in Esd. injection Esd as <-.
  apply bind_ok in H as ([] & Esdd & H). apply expect_mapping in Esdd as (sd & Esd).
  rewrite Esd in *.
  apply bind_ok in H as ([] & _ & H).
  apply bind_ok in H as (all & Hall & H).
  apply bind_ok in H as (sd' & Esd' & H). simpl in Esd'. injection Esd' as <-.
  apply bind_ok in H as ([] & _ & H).
  apply bind_ok in H as ([] & Hsteps & H).
  injection H as <-. split; [reflexivity |].
  destruct ids as [| first_default other_defaults]; [exfalso; exact (Hne eq_refl eq_refl) |].
  exists nd', first_default, other_defaults, ms, sd.
  split; [reflexivity |].
  split; [apply dget_some; [exact Eids | discriminate] |].
  split; [apply dget_some; [exact Ems | discriminate] |].
  split; [apply dget_some; [exact Esd | discriminate] |].
  split.
  - intros m mnode Hget.
    pose proof (dict_get_In _ _ _ Hget) as Hin.
    pose proof (for_each_ok _ _ _ Hmethods _ Hin) as Hv.
    unfold validate_method in Hv.
    apply bind_ok in Hv as ([] & Ed & Hv). apply expect_mapping in Ed as (md & ->).
    apply bind_ok in Hv as ([] & _ & Hv).
    apply bind_ok in Hv as (en & Een & Hv). simpl in Een. injection Een as <-.
    apply bind_ok in Hv as ([] & Eb & Hv).
    apply when_raise_ok in Eb. apply negb_false_iff in Eb.
    destruct (dget md "enabled") as [| enabled | | | |] eqn:Een; try discriminate Eb.
    apply bind_ok in Hv as (sv & Esv & Hv). simpl in Esv. injection Esv as <-.
    apply bind_ok in Hv as (steps & Esteps & Hv).
    apply expect_string_list_ok in Esteps as (Esteps & _ & Hsne).
    exists md, enabled, steps. split; [reflexivity |].
    split; [apply dget_some; [exact Een | discriminate] |].
    split; [apply dget_some; [exact Esteps | discriminate] |].
    split; [exact (Hsne eq_refl) |].
    destruct (collect_all _ _ _ _ _ Hall) as (Hc & _).
    destruct (Hc _ Hin) as (steps' & Hms & Hknown).
    unfold method_steps in Hms. cbn [snd get bind] in Hms. rewrite Esteps in Hms.
    assert (to_list (por (VList (map VStr steps)) (VList [])) = Ok (map VStr steps)) as Hl
      by (destruct steps; reflexivity).
    rewrite Hl in Hms. cbn [bind] in Hms. rewrite as_str_list_map in Hms.
    injection Hms as <-.
    intros s Hs. specialize (Hknown s Hs). simpl in Hknown. injection Hknown as Hk.
    unfold dict_mem in Hk. destruct (dict_get s sd); [eauto | discriminate Hk].
  - intros s snode Hget.
    pose proof (for_each_ok _ _ _ Hsteps _ (dict_get_In _ _ _ Hget)) as Hv.
    simpl in Hv. apply bind_ok in Hv as ([] & Ed & Hv).
    apply expect_mapping in Ed as (sn & ->).
    exact (validate_step_default_checked _ _ Hv).
Qed.

(** What [load_and_validate_v2_config] establishes about the config it
    returns. *)
Lemma loaded_config_checked (t : Fs.tree) (root : string) (cfg : value) :
  load_and_validate_v2_config t root = Ok cfg -> config_checked cfg.
Proof.
  unfold load_and_validate_v2_config. intros H.
  apply bind_ok in H as ([] & _ & H).
  apply bind_ok in H as (skills & Esk & H).
  apply bind_ok in H as (servants & Esv & H).
  apply bind_ok in H as (r1 & _ & H). apply bind_ok in H as (p1 & _ & H).
  apply bind_ok in H as (r2 & _ & H). apply bind_ok in H as (p2 & _ & H).
  apply bind_ok in H as (r3 & _ & H). apply bind_ok in H as (p3 & _ & H).
  injection H as <-.
  destruct (load_dir_get _ _ _ _ _ _ _ Esk) as (Gsk & _).
  destruct (load_dir_get _ _ _ _ _ _ _ Esv) as (Gsv & _).
  split.
  - intros phase Hp. destruct (Gsk phase Hp) as (raw & node & Hv & Hg).
    apply validate_skill_file_checked in Hv
      as (-> & nd & fd & od & ms & sd & -> & E1 & E2 & E3 & Hm & Hs).
    exists (VDict skills), nd, fd, od, ms, sd.
    split; [reflexivity |]. split; [apply item_of_get; exact Hg |]. auto.
  - intros tool Ht. destruct (Gsv tool Ht) as (raw & node & Hv & Hg).
    pose proof Hv as Hv'. apply validate_servant_file_ok in Hv'
      as (dm & allowed & E1 & E2 & Hin).
    assert (node = raw) as ->.
    { unfold _validate_servant_file in Hv.
      repeat (apply bind_ok in Hv as (? & _ & Hv)). congruence. }
    destruct raw as [| | | | | nd]; try discriminate E1.
    simpl in E1, E2. injection E1 as E1. injection E2 as E2.
    exists (VDict servants), nd, dm, allowed.
    split; [reflexivity |]. split; [apply item_of_get; exact Hg |].
    split; [apply dget_some; [exact E1 | discriminate] |].
    split; [apply dget_some; [exact E2 | discriminate] |]. exact Hin.
Qed.

End ConfigShapeV2.

(** ** Manifest overrides of a v2 config *)

Module OverridesV2.
Import ConfigValidateV2 ManifestV2 ConfigResolveV2 ShapesV2.
Import ResolveFacts ValidFacts SkillSteps ProfileStages StageLoop ServantFacts ServantTables.
Import Rejection ConfigShapeV2.

Lemma dict_set_In (k k' : string) (v v' : value) (d : dict) :
  In (k, v) (dict_set k' v' d) -> (k = k' /\ v = v') \/ In (k, v) d.
Proof.
  induction d as [| [k0 v0] d IH]; simpl.
  - intros [[= <- <-] | []]. left; auto.
  - destruct (String.eqb k' k0); simpl.
    + intros [[= <- <-] | H]; [left; auto | right; right; exact H].
    + intros [H | H]; [right; left; exact H |].
      destruct (IH H) as [? | ?]; [left; assumption | right; right; assumption].
Qed.

Lemma dict_keys_set (k : string) (v : value) (d : dict) :
  In k (dict_keys d) -> dict_keys (dict_set k v d) = dict_keys d.
Proof.
  induction d as [| [k0 v0] d IH]; simpl; [contradiction |].
  destruct (String.eqb k k0) eqn:E; simpl.
  - apply String.eqb_eq in E. subst. reflexivity.
  - intros [-> | H]; [rewrite String.eqb_refl in E; discriminate E |].
    f_equal. exact (IH H).
Qed.

(** What one of the three choice blocks does to the normalized step. *)
Lemma normalize_choice_spec (step_node : value) (step_path key : string)
    (choices : list string) (ns ns' : dict) :
  normalize_choice step_node step_path key choices ns = Ok ns' ->
  (forall k, k <> key -> dict_get k ns' = dict_get k ns) /\
  (ns' = ns \/
   exists s, dict_get key ns' = Some (VStr s) /\ s <> "" /\ In s choices).
Proof.
  unfold normalize_choice. intros H.
  apply bind_ok in H as (v & _ & H).
  destruct (negb (is_none v)).
  - apply bind_ok in H as (s & Es & H).
    apply expect_non_empty_string_ok in Es as (_ & Hb).
    apply bind_ok in H as ([] & Hc & H). injection H as <-.
    apply when_raise_ok in Hc. apply negb_false_iff in Hc. apply mem_In in Hc.
    split; [intros k Hk; apply dict_get_set_other; exact Hk |].
    right. exists s. split; [apply dict_get_set_same |].
    split; [apply blank_not_empty; exact Hb | exact Hc].
  - injection H as <-. split; [reflexivity | left; reflexivity].
Qed.

Lemma effective_same (ns ns' : dict) (key : string) (sd : value) (sid bk : string) :
  dict_get key ns' = dict_get key ns ->
  effective ns' key sd sid bk = effective ns key sd sid bk.
Proof. unfold effective, dget. intros ->. reflexivity. Qed.

Lemma choice_of_get (ns : dict) (key : string) (choices : list string) :
  (dict_get key ns = None \/
   exists s, dict_get key ns = Some (VStr s) /\ s <> "" /\ In s choices) ->
  choice_checked ns key choices.
Proof.
  unfold choice_checked, dget. intros [-> | (s & -> & H)]; [left; reflexivity |].
  right. exists s. auto.
Qed.

(** What one turn of the loop over the step overrides establishes. *)
Lemma normalize_step_override_spec (cfg : value) (phase path : string) (sd : value)
    (acc acc' : dict) (sid : string) (node : value) :
  normalize_step_override cfg phase path sd acc (sid, node) = Ok acc' ->
  exists ns,
    acc' = dict_set sid (VDict ns) acc /\
    py_in (VStr sid) sd = Ok true /\
    step_override_checked cfg sd sid ns.
Proof.
  unfold normalize_step_override. intros H.
  apply bind_ok in H as (known & Ek & H).
  apply bind_ok in H as ([] & Hk & H).
  apply when_raise_ok in Hk. destruct known; [| discriminate Hk].
  apply bind_ok in H as ([] & _ & H).
  apply bind_ok in H as ([] & _ & H).
  apply bind_ok in H as (ns1 & E1 & H).
  apply bind_ok in H as (ns2 & E2 & H).
  apply bind_ok in H as (ns3 & E3 & H).
  apply bind_ok in H as (model & _ & H).
  apply bind_ok in H as (ns4 & E4 & H).
  apply bind_ok in H as (et & Eet & H).
  apply bind_ok in H as (ew & Eew & H).
  apply bind_ok in H as (bad & Ebad & H).
  apply bind_ok in H as ([] & Hbad & H). injection H as <-.
  apply when_raise_ok in Hbad. subst bad.
  apply normalize_choice_spec in E1 as (K1 & C1).
  apply normalize_choice_spec in E2 as (K2 & C2).
  apply normalize_choice_spec in E3 as (K3 & C3).
  assert (M : (forall k, k <> "model" -> dict_get k ns4 = dict_get k ns3) /\
              (ns4 = ns3 \/
               exists m tfm,
                 dict_get "model" ns4 = Some (VStr m) /\
                 effective ns3 "tool" sd sid "default_tool" = Ok tfm /\
                 model_allowed cfg tfm (VStr m))).
  { destruct (negb (is_none model)).
    - apply bind_ok in E4 as (m & _ & E4).
      apply bind_ok in E4 as (tfm & Etfm & E4).
      apply bind_ok in E4 as (servants & Es & E4).
      apply bind_ok in E4 as (servant & Esv & E4).
      apply bind_ok in E4 as (allowed & Ea & E4).
      apply bind_ok in E4 as (ok & Eok & E4).
      apply bind_ok in E4 as ([] & Hok & E4). injection E4 as <-.
      apply when_raise_ok in Hok. destruct ok; [| discriminate Hok].
      split; [intros k Hne; apply dict_get_set_other; exact Hne |].
      right. exists m, tfm. split; [apply dict_get_set_same |].
      split; [exact Etfm |]. exists servants, servant, allowed. auto.
    - injection E4 as <-. split; [reflexivity | left; reflexivity]. }
  destruct M as (K4 & C4).
  assert (Gt : dict_get "tool" ns4 = dict_get "tool" ns1).
  { rewrite K4, K3, K2 by discriminate. reflexivity. }
  assert (Gt3 : dict_get "tool" ns3 = dict_get "tool" ns4).
  { rewrite K4 by discriminate. reflexivity. }
  assert (Gm : dict_get "default_mode" ns4 = dict_get "default_mode" ns2).
  { rewrite K4, K3 by discriminate. reflexivity. }
  assert (Gw : dict_get "web_research_mode" ns4 = dict_get "web_research_mode" ns3).
  { rewrite K4 by discriminate. reflexivity. }
  exists ns4. split; [reflexivity |]. split; [exact Ek |].
  split.
  { apply choice_of_get. rewrite Gt.
    destruct C1 as [-> | C1]; [left; reflexivity | right; exact C1]. }
  split.
  { apply choice_of_get. rewrite Gm.
    destruct C2 as [-> | C2]; [left | right; exact C2].
    rewrite K1 by discriminate. reflexivity. }
  split.
  { apply choice_of_get. rewrite Gw.
    destruct C3 as [-> | C3]; [left | right; exact C3].
    rewrite K2, K1 by discriminate. reflexivity. }
  exists et, ew. split; [exact Eet |]. split; [exact Eew |].
  split.
  { unfold web_mode_fits.
    destruct (py_eq ew (VStr "off")); [left; reflexivity | right].
    cbn [negb] in Ebad.
    apply bind_ok in Ebad as (modes & Em & Ebad).
    apply bind_ok in Ebad as (ok & Eok & Ebad). injection Ebad as Ebad.
    apply negb_false_iff in Ebad. subst ok. eauto. }
  intros v Hv.
  destruct C4 as [-> | (m & tfm & Gmod & Etfm & Hal)].
  - exfalso. rewrite K3, K2, K1 in Hv by discriminate. discriminate Hv.
  - rewrite Gmod in Hv. injection Hv as <-. split; [eauto |].
    rewrite <- (effective_same ns4 ns3 _ _ _ _ Gt3) in Eet.
    rewrite Etfm in Eet. injection Eet as <-. exact Hal.
Qed.

(** What [_normalize_phase_override] establishes about the overrides of a
    phase. *)
Lemma normalize_phase_override_checked (cfg : value) (phase : string) (node : value)
    (path : string) (r : value) :
  _normalize_phase_override cfg phase node path = Ok r ->
  exists po, r = VDict po /\ override_checked cfg phase po.
Proof.
  unfold _normalize_phase_override. intros H.
  apply bind_ok in H as ([] & _ & H).
  apply bind_ok in H as (has & _ & H).
  apply bind_ok in H as (out & Eout & H).
  apply bind_ok in H as (tmv & _ & H).
  apply bind_ok in H as ([] & _ & H).
  apply bind_ok in H as ([] & Ekeys & H).
  apply bind_ok in H as (entries & Eent & H).
  apply bind_ok in H as (tm & Etm & H).
  apply bind_ok in H as (sov & _ & H).
  apply bind_ok in H as ([] & _ & H).
  apply bind_ok in H as (skills & Es & H).
  apply bind_ok in H as (pc & Epc & H).
  apply bind_ok in H as (sd & Esd & H).
  apply bind_ok in H as (sentries & _ & H).
  apply bind_ok in H as (so & Eso & H).
  injection H as <-. eexists. split; [reflexivity |].
  assert (Hout : (out = [] \/
                  exists m methods,
                    out = [("method_id", VStr m)] /\ m <> "" /\
                    phase_item cfg phase "methods" = Ok methods /\
                    py_in (VStr m) methods = Ok true)).
  { destruct has; [| injection Eout as <-; left; reflexivity].
    apply bind_ok in Eout as (v & _ & Eout).
    apply bind_ok in Eout as (m & Em & Eout).
    apply expect_non_empty_string_ok in Em as (_ & Hb).
    apply bind_ok in Eout as (sk & E1 & Eout).
    apply bind_ok in Eout as (pc' & E2 & Eout).
    apply bind_ok in Eout as (methods & E3 & Eout).
    apply bind_ok in Eout as (known & E4 & Eout).
    apply bind_ok in Eout as ([] & Hk & Eout). injection Eout as <-.
    apply when_raise_ok in Hk. destruct known; [| discriminate Hk].
    right. exists m, methods. split; [reflexivity |].
    split; [apply blank_not_empty; exact Hb |].
    split; [| exact E4].
    unfold phase_item. rewrite E1; cbn [bind]. rewrite E2; cbn [bind]. exact E3. }
  assert (Htm : forall tool model, In (tool, model) tm ->
                  In tool TOOLS /\ (exists m, model = VStr m)
                  /\ model_allowed cfg (VStr tool) model).
  { destruct (por tmv (VDict [])) as [| | | | | tmd] eqn:P; try discriminate Eent.
    simpl in Eent. injection Eent as <-.
    unfold _ensure_keys in Ekeys. cbn [items bind] in Ekeys. apply when_raise_ok in Ekeys.
    pose proof (no_unknown_keys _ _ Ekeys) as Hallowed.
    refine (fold_m_inv _
              (fun acc => forall tool model, In (tool, model) acc ->
                 In tool TOOLS /\ (exists m, model = VStr m)
                 /\ model_allowed cfg (VStr tool) model)
              _ _ _ _ _ Etm).
    - intros tool model [].
    - intros acc [t mv] acc' Hin Hacc Hstep tool model Hx.
      unfold normalize_tool_model in Hstep.
      apply bind_ok in Hstep as (m & _ & Hstep).
      apply bind_ok in Hstep as (servants & F1 & Hstep).
      apply bind_ok in Hstep as (servant & F2 & Hstep).
      apply bind_ok in Hstep as (allowed & F3 & Hstep).
      apply bind_ok in Hstep as (ok & F4 & Hstep).
      apply bind_ok in Hstep as ([] & Hok & Hstep). injection Hstep as <-.
      apply when_raise_ok in Hok. destruct ok; [| discriminate Hok].
      apply dict_set_In in Hx as [[-> ->] | Hx]; [| exact (Hacc _ _ Hx)].
      split; [apply Hallowed; unfold dict_keys; apply in_map_iff; exists (t, mv); auto |].
      split; [eauto |]. exists servants, servant, allowed. auto. }
  assert (Hso : forall sid snode, In (sid, snode) so ->
                  exists sd' ns,
                    phase_item cfg phase "step_defaults" = Ok sd' /\
                    py_in (VStr sid) sd' = Ok true /\
                    snode = VDict ns /\
                    step_override_checked cfg sd' sid ns).
  { assert (Hsd : phase_item cfg phase "step_defaults" = Ok sd).
    { unfold phase_item. rewrite Es; cbn [bind]. rewrite Epc; cbn [bind]. exact Esd. }
    refine (fold_m_inv _
              (fun acc => forall sid snode, In (sid, snode) acc ->
                 exists sd' ns,
                   phase_item cfg phase "step_defaults" = Ok sd' /\
                   py_in (VStr sid) sd' = Ok true /\
                   snode = VDict ns /\
                   step_override_checked cfg sd' sid ns)
              _ _ _ _ _ Eso).
    - intros sid snode [].
    - intros acc [s n] acc' Hin Hacc Hstep sid snode Hx.
      apply normalize_step_override_spec in Hstep as (ns & -> & Hk & Hc).
      apply dict_set_In in Hx as [[-> ->] | Hx]; [| exact (Hacc _ _ Hx)].
      exists sd, ns. auto. }
  destruct Hout as [-> | (m & methods & -> & Hm & Hp & Hin)].
  - split; [left; reflexivity |].
    split; [exists tm; split; [reflexivity | exact Htm] |].
    exists so. split; [reflexivity | exact Hso].
  - split; [right; exists m, methods; auto |].
    split; [exists tm; split; [reflexivity | exact Htm] |].
    exists so. split; [reflexivity | exact Hso].
Qed.

(** What [parse_manifest_v2_overrides] returns. *)
Lemma parse_overrides_checked (cfg manifest : value) (manifest_path : string)
    (mo : value) :
  parse_manifest_v2_overrides cfg manifest manifest_path = Ok mo ->
  exists out,
    mo = VDict [("phase_overrides", VDict out)] /\
    dict_keys out = PHASES /\
    forall phase node, dict_get phase out = Some node ->
      exists po, node = VDict po /\ override_checked cfg phase po.
Proof.
  assert (Hdefault : forall phase node, dict_get phase no_overrides = Some node ->
                       exists po, node = VDict po /\ override_checked cfg phase po).
  { intros phase node Hg. apply dict_get_In in Hg. simpl in Hg.
    destruct Hg as [[= <- <-] | [[= <- <-] | [[= <- <-] | []]]];
      (eexists; split; [reflexivity |]);
      (split; [left; reflexivity |]);
      (split; [exists []; split; [reflexivity | intros ? ? []] |]);
      (exists []; split; [reflexivity | intros ? ? []]). }
  unfold parse_manifest_v2_overrides. intros H.
  destruct (is_none manifest).
  { injection H as <-. exists no_overrides. auto. }
  apply bind_ok in H as ([] & _ & H).
  apply bind_ok in H as (cv & _ & H).
  destruct (is_none cv).
  { injection H as <-. exists no_overrides. auto. }
  apply bind_ok in H as ([] & _ & H).
  apply bind_ok in H as ([] & _ & H).
  apply bind_ok in H as (pov & _ & H).
  apply bind_ok in H as ([] & _ & H).
  apply bind_ok in H as ([] & Ekeys & H).
  apply bind_ok in H as (entries & Eent & H).
  apply bind_ok in H as (out & Eout & H). injection H as <-.
  exists out. split; [reflexivity |].
  destruct (por pov (VDict [])) as [| | | | | pd] eqn:P; try discriminate Eent.
  simpl in Eent. injection Eent as <-.
  unfold _ensure_keys in Ekeys. cbn [items bind] in Ekeys. apply when_raise_ok in Ekeys.
  pose proof (no_unknown_keys _ _ Ekeys) as Hallowed.
  refine (fold_m_inv _
            (fun acc => dict_keys acc = PHASES /\
               forall phase node, dict_get phase acc = Some node ->
                 exists po, node = VDict po /\ override_checked cfg phase po)
            _ _ _ _ _ Eout).
  - split; [reflexivity | exact Hdefault].
  - intros acc [ph nd] acc' Hin (Hk & Hacc) Hstep.
    apply bind_ok in Hstep as ([] & _ & Hstep).
    apply bind_ok in Hstep as (n & En & Hstep). injection Hstep as <-.
    apply normalize_phase_override_checked in En as (po & -> & Hpo).
    assert (Hph : In ph PHASES).
    { apply Hallowed. unfold dict_keys. apply in_map_iff. exists (ph, nd); auto. }
    split; [rewrite dict_keys_set; [exact Hk | rewrite Hk; exact Hph] |].
    intros phase node Hg. destruct (string_dec phase ph) as [-> | Ne].
    + rewrite dict_get_set_same in Hg. injection Hg as <-. eauto.
    + rewrite dict_get_set_other in Hg by exact Ne. exact (Hacc _ _ Hg).
Qed.

(** X14: whatever the config, the overrides that
    [parse_manifest_v2_overrides] returns have an entry for each of the
    three phases and no other, and every entry was checked against the
    config: a method id names a method of the phase, each tool model is a
    model of the tool's allowed models, and each step override changes a
    step that has step defaults, with a model allowed for the tool the step
    will run with and a web research mode that is off or one of that
    tool's. *)
Theorem parsed_overrides_are_checked
    (cfg manifest : value) (manifest_path : string) (manifest_overrides : value) :
  parse_manifest_v2_overrides cfg manifest manifest_path = Ok manifest_overrides ->
  exists phase_overrides,
    manifest_overrides = VDict [("phase_overrides", VDict phase_overrides)] /\
    dict_keys phase_overrides = PHASES /\
    forall phase, In phase PHASES ->
      exists po,
        phase_override manifest_overrides phase = Ok (VDict po) /\
        override_checked cfg phase po.
Proof.
  intros H. apply parse_overrides_checked in H as (out & -> & Hk & Hout).
  exists out. split; [reflexivity |]. split; [exact Hk |].
  intros phase Hp.
  assert (exists node, dict_get phase out = Some node) as (node & Hg).
  { apply dict_keys_get. rewrite Hk. exact Hp. }
  destruct (Hout _ _ Hg) as (po & -> & Hpo).
  exists po. split; [| exact Hpo].
  unfold phase_override. cbn [get bind dget dict_get String.eqb Ascii.eqb Bool.eqb].
  rewrite por_mapping. cbn [get bind]. unfold dget. rewrite Hg.
  rewrite por_mapping. reflexivity.
Qed.

Lemma parsed_overrides_witness :
  exists manifest_overrides po,
    parse_manifest_v2_overrides ExamplesV2.cfg MoreExamples.manifest_v2 "manifest"
    = Ok manifest_overrides /\
    In "impl" PHASES /\
    phase_override manifest_overrides "impl" = Ok (VDict po) /\
    dict_mem "codex" (match dget po "tool_models" with VDict tm => tm | _ => [] end) = true /\
    override_checked ExamplesV2.cfg "impl" po.
Proof.
  destruct (parse_manifest_v2_overrides ExamplesV2.cfg MoreExamples.manifest_v2 "manifest")
    as [mo |] eqn:Hp; [| vm_compute in Hp; discriminate Hp].
  exists mo.
  destruct (parsed_overrides_are_checked _ _ _ _ Hp) as (out & Hmo & Hk & H).
  assert (Hin : In "impl" PHASES) by (simpl; auto).
  destruct (H "impl" Hin) as (po & Hpo & Hc).
  exists po. split; [reflexivity |]. split; [exact Hin |]. split; [exact Hpo |].
  split; [| exact Hc].
  vm_compute in Hp. injection Hp as <-. vm_compute in Hpo. injection Hpo as <-.
  reflexivity.
Defined.

End OverridesV2.

(** ** Resolution of validated v2 inputs *)

Module ResolveV2Total.
Import ConfigValidateV2 ManifestV2 ConfigResolveV2 ShapesV2 Defaults.
Import ResolveFacts ValidFacts SkillSteps ProfileStages StageLoop ServantFacts ServantTables.
Import ProfileShapes ManifestFacts DispatchTotal PlanTotal Rejection ConfigShapeV2 OverridesV2.

Lemma truthy_nonempty (s : string) : s <> "" -> truthy (VStr s) = true.
Proof.
  intros H. simpl. destruct (String.eqb s "") eqn:E; [| reflexivity].
  apply String.eqb_eq in E. contradiction.
Qed.

(** Without a step override, the step defaults themselves pass the checks
    made on a step override. *)
Lemma no_step_override_checked (cfg : value) (sd : dict) (sid : string) (snode : value) :
  dict_get sid sd = Some snode ->
  step_default_checked snode ->
  step_override_checked cfg (VDict sd) sid [].
Proof.
  intros Hg (bn & tool & mode & web & -> & Et & _ & _ & _ & Ew & _ & Hfit).
  split; [left; reflexivity |]. split; [left; reflexivity |].
  split; [left; reflexivity |].
  exists (VStr tool), (VStr web).
  unfold effective. cbn [dget dict_get truthy item]. unfold ditem. rewrite Hg.
  cbn [bind item]. unfold ditem. rewrite Et, Ew.
  split; [reflexivity |]. split; [reflexivity |]. split; [exact Hfit |].
  intros v Hv. discriminate Hv.
Qed.

(** The tool a step runs with is one of the three tools. *)
Lemma effective_tool_known (cfg : value) (sd : dict) (sid : string) (snode : value)
    (ns : dict) (et : value) :
  dict_get sid sd = Some snode ->
  step_default_checked snode ->
  choice_checked ns "tool" TOOLS ->
  effective ns "tool" (VDict sd) sid "default_tool" = Ok et ->
  exists t, et = VStr t /\ In t TOOLS.
Proof.
  intros Hg (bn & tool & mode & web & -> & Et & Ht & _) Hc He.
  unfold effective in He. destruct Hc as [Hc | (s & Hc & Hs & Hin)]; rewrite Hc in He.
  - cbn [truthy item] in He. unfold ditem in He. rewrite Hg in He.
    cbn [bind item] in He. unfold ditem in He. rewrite Et in He.
    injection He as <-. eauto.
  - rewrite (truthy_nonempty _ Hs) in He. injection He as <-. eauto.
Qed.

(** On a validated config with parsed overrides, [_resolve_step] succeeds
    for every step that has step defaults. *)
Lemma resolve_step_total (cfg : value) (phase : string) (method_node : value)
    (sid : string) (po : dict) :
  skill_checked cfg phase ->
  (forall tool, In tool TOOLS -> servant_checked cfg tool) ->
  override_checked cfg phase po ->
  (forall sd, phase_item cfg phase "step_defaults" = Ok sd ->
              py_in (VStr sid) sd = Ok true) ->
  exists sp, _resolve_step cfg phase method_node (VStr sid) (VDict po) = Ok sp.
Proof.
  intros (skills & nd & fd & od & ms & sd & E1 & E2 & _ & _ & Esd & _ & Hsd) Hsv
         (_ & (tm & Etm & Htm) & (so & Eso & Hso)) Hsid.
  assert (Hpi : phase_item cfg phase "step_defaults" = Ok (VDict sd)).
  { unfold phase_item. rewrite E1; cbn [bind]. rewrite E2; cbn [bind].
    apply item_of_get; exact Esd. }
  specialize (Hsid _ Hpi). simpl in Hsid. injection Hsid as Hsid.
  unfold dict_mem in Hsid.
  destruct (dict_get sid sd) as [snode |] eqn:Gs; [| discriminate Hsid]. clear Hsid.
  pose proof (Hsd _ _ Gs) as Hdef.
  assert (exists ns,
             to_dict (por (dget so sid) (VDict [])) = Ok ns /\
             step_override_checked cfg (VDict sd) sid ns) as (ns & Ens & Hns).
  { unfold dget. destruct (dict_get sid so) as [node |] eqn:G.
    - destruct (Hso _ _ (dict_get_In _ _ _ G)) as (sd' & ns & F1 & _ & -> & Hc).
      rewrite Hpi in F1. injection F1 as <-.
      exists ns. rewrite por_mapping. auto.
    - exists []. split; [reflexivity |].
      exact (no_step_override_checked cfg sd sid snode Gs Hdef). }
  destruct Hns as (Ct & Cm & Cw & et & ew & Eet & Eew & Hfit & Hmodel).
  destruct (effective_tool_known cfg sd sid snode ns et Gs Hdef Ct Eet) as (t & -> & Ht).
  destruct Hdef as (bn & tool0 & mode0 & web0 & -> & Bt & _ & Bm & _ & Bw & _ & _).
  assert (Oe : forall key bk,
             effective ns key (VDict sd) sid bk
             = or_item (dget ns key) (VDict bn) bk).
  { intros key bk. unfold effective, or_item.
    destruct (truthy (dget ns key)); [reflexivity |].
    cbn [item]. unfold ditem at 1. rewrite Gs. reflexivity. }
  unfold _resolve_step. rewrite E1; cbn [bind]. rewrite E2; cbn [bind].
  rewrite (item_of_get _ _ _ Esd); cbn [bind item_v item].
  unfold ditem at 1. rewrite Gs. cbn [bind to_dict get].
  rewrite (dget_of_get _ _ _ Eso). rewrite por_mapping. cbn [get_v items bind].
  rewrite Ens. cbn [bind].
  rewrite <- Oe, Eet. cbn [bind].
  assert (exists dmode,
             or_item (dget ns "default_mode") (VDict bn) "default_mode" = Ok dmode)
    as (dmode & ->).
  { unfold or_item. destruct Cm as [-> | (s & -> & Hs & _)].
    - cbn [truthy item]. unfold ditem. rewrite Bm. eauto.
    - rewrite (truthy_nonempty _ Hs). eauto. }
  cbn [bind]. rewrite <- Oe, Eew. cbn [bind].
  assert ((if negb (py_eq ew (VStr "off"))
           then modes <- table_item_v TOOL_WEB_MODE_MAP (VStr t) ;;
                ok <- in_str_set ew modes ;; Ok (negb ok)
           else Ok false) = Ok false) as ->.
  { destruct (py_eq ew (VStr "off")) eqn:Eoff; [reflexivity |].
    destruct Hfit as [Hoff | (modes & Em & Ein)]; [congruence |].
    cbn [negb]. rewrite Em; cbn [bind]. rewrite Ein. reflexivity. }
  cbn [when bind].
  destruct (Hsv t Ht) as (servants & snd & dm & allowed & F1 & F2 & Fdm & Fal & Hdm).
  rewrite F1; cbn [bind item_v]. rewrite F2; cbn [bind].
  rewrite (item_of_get _ _ _ Fdm); cbn [bind get].
  rewrite (dget_of_get _ _ _ Etm). rewrite por_mapping. cbn [py_in bind].
  assert (Allowed : forall v, model_allowed cfg (VStr t) v ->
                              py_in v (VList (map VStr allowed)) = Ok true).
  { intros v (sv' & s' & al' & G1 & G2 & G3 & G4).
    rewrite F1 in G1. injection G1 as <-. cbn [item_v] in G2.
    rewrite F2 in G2. injection G2 as <-.
    rewrite (item_of_get _ _ _ Fal) in G3. injection G3 as <-. exact G4. }
  assert (exists m1,
             (if dict_mem t tm then item (VDict tm) t else Ok (VStr dm)) = Ok m1
             /\ py_in m1 (VList (map VStr allowed)) = Ok true) as (m1 & -> & Hm1).
  { unfold dict_mem. destruct (dict_get t tm) as [v |] eqn:G.
    - exists v. cbn [item]. unfold ditem. rewrite G. split; [reflexivity |].
      apply Allowed. exact (proj2 (proj2 (Htm _ _ (dict_get_In _ _ _ G)))).
    - exists (VStr dm). split; [reflexivity |].
      cbn [py_in]. rewrite in_list_str. f_equal. apply mem_In; exact Hdm. }
  cbn [bind].
  assert (exists m2,
             (if dict_mem "model" ns then ditem ns "model" else Ok m1) = Ok m2
             /\ py_in m2 (VList (map VStr allowed)) = Ok true) as (m2 & -> & Hm2).
  { unfold dict_mem, ditem. destruct (dict_get "model" ns) as [v |] eqn:G.
    - exists v. split; [reflexivity |]. apply Allowed. exact (proj2 (Hmodel v eq_refl)).
    - exists m1. auto. }
  cbn [bind]. rewrite (item_of_get _ _ _ Fal); cbn [bind].
  rewrite Hm2. cbn [negb when bind]. eauto.
Qed.

(** On a validated config, method selection gives a method id or a
    validation error. *)
Lemma selected_method_controlled (cfg : value) (phase : string) (po : dict)
    (method_id : option string) :
  skill_checked cfg phase ->
  override_checked cfg phase po ->
  controlled (_resolve_selected_method cfg phase (VDict po) method_id).
Proof.
  intros (skills & nd & fd & od & ms & sd & E1 & E2 & Eids & Ems & _ & Hms & _)
         (Hmid & _).
  unfold _resolve_selected_method. rewrite E1; cbn [bind]. rewrite E2; cbn [bind get].
  rewrite (dget_of_get _ _ _ Eids). cbn [map por truthy negb when bind item0 get].
  assert (exists x,
             (match given method_id with
              | Some m => VStr m
              | None => if truthy (dget po "method_id") then dget po "method_id"
                        else VStr fd
              end) = VStr x) as (x & ->).
  { destruct (given method_id); [eauto |].
    destruct Hmid as [-> | (m & methods & -> & _)]; [simpl; eauto |].
    destruct (truthy (VStr m)); eauto. }
  rewrite (item_of_get _ _ _ Ems); cbn [bind py_in].
  unfold dict_mem. destruct (dict_get x ms) as [mnode |] eqn:G; cbn [negb when bind];
    [| exact I].
  cbn [item_v item]. unfold ditem. rewrite G. cbn [bind].
  destruct (Hms _ _ G) as (md & enabled & steps & -> & _).
  cbn [get_or_false items bind]. apply controlled_bind; [apply controlled_when |].
  intros [] _. exact I.
Qed.

(** On a validated config with parsed overrides, once the method is
    selected [resolve_v2] returns a plan, unless a step id is given that is
    not a step of the method. *)
Lemma resolve_v2_after_selection (cfg : value) (phase : string) (out po : dict)
    (selected : value) (method_id step_id : option string) :
  config_checked cfg ->
  In phase PHASES ->
  phase_override (VDict [("phase_overrides", VDict out)]) phase = Ok (VDict po) ->
  override_checked cfg phase po ->
  _resolve_selected_method cfg phase (VDict po) method_id = Ok selected ->
  (exists plan,
      resolve_v2 cfg phase (VDict [("phase_overrides", VDict out)]) method_id step_id
      = Ok plan) \/
  (exists sid,
      given step_id = Some sid /\
      resolve_v2 cfg phase (VDict [("phase_overrides", VDict out)]) method_id step_id
      = Raise (ValidationError
                 ("step_id '" ++ sid ++ "' is not part of resolved method '"
                  ++ py_str selected ++ "'"))).
Proof.
  intros (Hskills & Hservants) Hphase Hpo Hoc Hsel.
  pose proof (Hskills phase Hphase) as Hskill.
  destruct Hskill as (skills & nd & fd & od & ms & sd & E1 & E2 & Eids & Ems & Esd & Hms & Hsd).
  assert (exists m mnode, selected = VStr m /\ dict_get m ms = Some mnode)
    as (m & mnode & -> & Gm).
  { unfold _resolve_selected_method in Hsel.
    apply bind_ok in Hsel as (sk & F1 & Hsel). rewrite E1 in F1. injection F1 as <-.
    apply bind_ok in Hsel as (pc & F2 & Hsel). rewrite E2 in F2. injection F2 as <-.
    apply bind_ok in Hsel as (v & _ & Hsel).
    apply bind_ok in Hsel as ([] & _ & Hsel).
    apply bind_ok in Hsel as (s0 & _ & Hsel).
    apply bind_ok in Hsel as (mm & _ & Hsel).
    apply bind_ok in Hsel as (methods & F3 & Hsel).
    rewrite (item_of_get _ _ _ Ems) in F3. injection F3 as <-.
    apply bind_ok in Hsel as (defined & _ & Hsel).
    apply bind_ok in Hsel as ([] & _ & Hsel).
    apply bind_ok in Hsel as (mnode & Enode & Hsel).
    apply bind_ok in Hsel as (en & _ & Hsel).
    apply bind_ok in Hsel as ([] & _ & Hsel). injection Hsel as <-.
    match type of Enode with
    | item_v _ ?sel = _ => destruct sel as [| | | m | |]; try discriminate Enode
    end.
    cbn [item_v item] in Enode. unfold ditem in Enode.
    destruct (dict_get m ms) as [n |] eqn:G; [| discriminate Enode].
    injection Enode as <-. exists m, n. split; [| exact G].
    destruct (given method_id); [| destruct (truthy mm)]; congruence. }
  destruct (Hms _ _ Gm) as (md & enabled & steps & -> & _ & Esteps & Hne & Hknown).
  unfold resolve_v2. rewrite Hpo; cbn [bind]. rewrite Hsel; cbn [bind].
  rewrite E1; cbn [bind]. rewrite E2; cbn [bind].
  rewrite (item_of_get _ _ _ Ems); cbn [bind item_v item].
  unfold ditem. rewrite Gm. cbn [bind get].
  rewrite (dget_of_get _ _ _ Esteps).
  assert (to_list (por (VList (map VStr steps)) (VList [])) = Ok (map VStr steps)) as ->
    by (destruct steps; reflexivity).
  cbn [bind].
  assert (nonempty (map VStr steps) = true) as ->
    by (destruct steps; [contradiction | reflexivity]).
  cbn [negb when bind].
  assert (Loop : forall resolved,
             (forall x, In x resolved -> exists s, x = VStr s /\ In s steps) ->
             exists step_map,
               fold_m (fun step_map sid =>
                         r <- _resolve_step cfg phase (VDict md) sid (VDict po) ;;
                         k <- as_key sid ;;
                         Ok (table_set k r step_map))
                      resolved [] = Ok step_map).
  { intros resolved Hr. apply fold_m_total. intros acc x Hx.
    destruct (Hr x Hx) as (s & -> & Hs).
    destruct (resolve_step_total cfg phase (VDict md) s po) as (sp & ->); try assumption.
    - exists skills, nd, fd, od, ms, sd. auto 10.
    - intros sdv Hsdv. unfold phase_item in Hsdv.
      rewrite E1 in Hsdv; cbn [bind] in Hsdv. rewrite E2 in Hsdv; cbn [bind] in Hsdv.
      rewrite (item_of_get _ _ _ Esd) in Hsdv. injection Hsdv as <-.
      destruct (Hknown s Hs) as (snode & Gs). simpl. unfold dict_mem. rewrite Gs.
      reflexivity.
    - cbn. eauto. }
  destruct (given step_id) as [sid |] eqn:Eg.
  - rewrite in_list_str. destruct (mem sid steps) eqn:M; cbn [negb when bind].
    + left. destruct (Loop [VStr sid]) as (step_map & ->).
      { intros x [<- | []]. exists sid. split; [reflexivity | apply mem_In; exact M]. }
      cbn. eauto.
    + right. exists sid. split; reflexivity.
  - left. cbn [bind]. destruct (Loop (map VStr steps)) as (step_map & ->).
    { intros x Hx. apply in_map_iff in Hx as (s & <- & Hs). eauto. }
    cbn. eauto.
Qed.

(** The override of a phase, read from parsed overrides. *)
Lemma parsed_phase_override (cfg manifest : value) (manifest_path : string)
    (mo : value) (phase : string) :
  parse_manifest_v2_overrides cfg manifest manifest_path = Ok mo ->
  In phase PHASES ->
  exists out po,
    mo = VDict [("phase_overrides", VDict out)] /\
    phase_override mo phase = Ok (VDict po) /\
    override_checked cfg phase po.
Proof.
  intros H Hp. apply parse_overrides_checked in H as (out & -> & Hk & Hout).
  assert (exists node, dict_get phase out = Some node) as (node & Hg).
  { apply dict_keys_get. rewrite Hk. exact Hp. }
  destruct (Hout _ _ Hg) as (po & -> & Hpo).
  exists out, po. split; [reflexivity |]. split; [| exact Hpo].
  unfold phase_override. cbn [get bind dget dict_get String.eqb Ascii.eqb Bool.eqb].
  rewrite por_mapping. cbn [get bind]. unfold dget. rewrite Hg.
  rewrite por_mapping. reflexivity.
Qed.



(** On a checked config with parsed overrides, [resolve_v2] raises
    validation errors only. *)
Lemma resolve_v2_controlled
    (cfg manifest : value) (manifest_path phase : string)
    (manifest_overrides : value) (method_id step_id : option string) :
  config_checked cfg ->
  parse_manifest_v2_overrides cfg manifest manifest_path = Ok manifest_overrides ->
  In phase PHASES ->
  controlled (resolve_v2 cfg phase manifest_overrides method_id step_id).
Proof.
  intros Hcfg Hparse Hphase.
  destruct (parsed_phase_override _ _ _ _ _ Hparse Hphase) as (out & po & -> & Hpo & Hoc).
  pose proof (selected_method_controlled cfg phase po method_id
                (proj1 Hcfg phase Hphase) Hoc) as Hctl.
  destruct (_resolve_selected_method cfg phase (VDict po) method_id) as [selected | e]
    eqn:Hsel.
  - destruct (resolve_v2_after_selection cfg phase out po selected method_id step_id
                Hcfg Hphase Hpo Hoc Hsel) as [(plan & ->) | (sid & _ & ->)]; exact I.
  - unfold resolve_v2. rewrite Hpo; cbn [bind]. rewrite Hsel; cbn [bind]. exact Hctl.
Qed.

(** X16: for a validated v2 config and the overrides parsed from a
    manifest, [resolve_v2] on one of the three phases returns a plan or
    raises a validation error, whatever the method id and the step id: no
    [KeyError], [TypeError] or [AttributeError] escapes. *)
Theorem resolve_v2_raises_only_validation_errors
    (t : Fs.tree) (root : string) (cfg manifest : value) (manifest_path phase : string)
    (manifest_overrides : value) (method_id step_id : option string) :
  load_and_validate_v2_config t root = Ok cfg ->
  parse_manifest_v2_overrides cfg manifest manifest_path = Ok manifest_overrides ->
  In phase PHASES ->
  controlled (resolve_v2 cfg phase manifest_overrides method_id step_id).
Proof.
  intros Hcfg Hparse Hphase.
  apply loaded_config_checked in Hcfg.
  exact (resolve_v2_controlled cfg manifest manifest_path phase manifest_overrides
           method_id step_id Hcfg Hparse Hphase).
Qed.

Lemma resolve_v2_controlled_witness :
  exists cfg manifest_overrides,
    load_and_validate_v2_config ExamplesV2.config_root "/repo/configs-v2" = Ok cfg /\
    parse_manifest_v2_overrides cfg MoreExamples.manifest_v2 "manifest"
    = Ok manifest_overrides /\
    In "impl" PHASES /\
    controlled (resolve_v2 cfg "impl" manifest_overrides (Some "deep") None) /\
    is_ok (resolve_v2 cfg "impl" manifest_overrides (Some "deep") None) = false.
Proof.
  destruct (load_and_validate_v2_config ExamplesV2.config_root "/repo/configs-v2")
    as [cfg |] eqn:Hc; [| vm_compute in Hc; discriminate Hc].
  destruct (parse_manifest_v2_overrides cfg MoreExamples.manifest_v2 "manifest")
    as [mo |] eqn:Hp;
    [| vm_compute in Hc; injection Hc as <-; vm_compute in Hp; discriminate Hp].
  assert (Hin : In "impl" PHASES) by (simpl; auto).
  exists cfg, mo. repeat (split; [first [reflexivity | assumption] |]).
  split.
  - exact (resolve_v2_raises_only_validation_errors
             ExamplesV2.config_root "/repo/configs-v2" cfg MoreExamples.manifest_v2
             "manifest" "impl" mo (Some "deep") None Hc Hp Hin).
  - vm_compute in Hc; injection Hc as <-; vm_compute in Hp; injection Hp as <-.
    vm_compute. reflexivity.
Defined.

End ResolveV2Total.

(** ** Resolved steps and their models *)

Module ResolvedSteps.
Import ConfigValidateV2 ManifestV2 ConfigResolveV2 ShapesV2 StepsV2 Defaults.

Lemma table_get_set_same {A} (t : list (string * A)) (k : string) (a : A) :
  table_get (table_set k a t) k = Some a.
Proof.
  induction t as [| [k' a'] t IH]; simpl.
  - rewrite String.eqb_refl. reflexivity.
  - destruct (String.eqb k k') eqn:E; simpl.
    + rewrite String.eqb_refl. reflexivity.
    + rewrite E. exact IH.
Qed.

Lemma table_get_set_other {A} (t : list (string * A)) (k k' : string) (a : A) :
  k' <> k -> table_get (table_set k a t) k' = table_get t k'.
Proof.
  intros Hne. induction t as [| [k0 a0] t IH]; simpl.
  - apply String.eqb_neq in Hne. rewrite Hne. reflexivity.
  - destruct (String.eqb k k0) eqn:E; simpl.
    + apply String.eqb_eq in E; subst k0.
      apply String.eqb_neq in Hne. rewrite Hne. reflexivity.
    + rewrite IH. reflexivity.
Qed.

(** A loop that stores under each key what [f] returns for it. *)
Lemma fold_table_set_spec {R} (f : value -> result R) (l : list value) :
  forall acc map,
    fold_m (fun acc x => r <- f x ;; k <- as_key x ;; Ok (table_set k r acc)) l acc
    = Ok map ->
    (forall s r, table_get acc s = Some r -> f (VStr s) = Ok r ->
                 table_get map s = Some r) /\
    (forall x, In x l ->
       exists s r, x = VStr s /\ f x = Ok r /\ table_get map s = Some r).
Proof.
  induction l as [| y l IH]; simpl; intros acc map H.
  - injection H as <-. split; [auto | intros x []].
  - apply bind_ok in H as (acc' & Hstep & H).
    apply bind_ok in Hstep as (r0 & Hf & Hstep).
    apply bind_ok in Hstep as (k & Hk & Hstep). injection Hstep as <-.
    destruct y as [| | | k0 | |]; try discriminate Hk. injection Hk as ->.
    destruct (IH _ _ H) as (Ha & Hb).
    assert (Hk : table_get map k = Some r0)
      by (apply Ha; [apply table_get_set_same | exact Hf]).
    split.
    + intros s r Hg Hfs. apply Ha; [| exact Hfs].
      destruct (String.eqb s k) eqn:E.
      * apply String.eqb_eq in E; subst s.
        rewrite table_get_set_same. congruence.
      * apply String.eqb_neq in E. rewrite table_get_set_other by exact E. exact Hg.
    + intros x [<- | Hx]; [eauto | exact (Hb x Hx)].
Qed.

(** What [_resolve_step] returns passed its two checks. *)
Lemma resolved_step_checked (cfg : value) (phase : string)
    (method_node step_id phase_override : value) (sp : step_plan) :
  _resolve_step cfg phase method_node step_id phase_override = Ok sp ->
  step_checked cfg sp.
Proof.
  unfold _resolve_step. intros H.
  apply bind_ok in H as (skills & _ & H).
  apply bind_ok in H as (phase_cfg & _ & H).
  apply bind_ok in H as (step_defaults & _ & H).
  apply bind_ok in H as (base & _ & H).
  apply bind_ok in H as (base_step & _ & H).
  apply bind_ok in H as (so & _ & H).
  apply bind_ok in H as (so' & _ & H).
  apply bind_ok in H as (step_override & _ & H).
  apply bind_ok in H as (tl & _ & H).
  apply bind_ok in H as (dm & _ & H).
  apply bind_ok in H as (web & _ & H).
  apply bind_ok in H as (bad & Hbad & H).
  apply bind_ok in H as ([] & Hw & H).
  apply bind_ok in H as (servants & Es & H).
  apply bind_ok in H as (servant & Ev & H).
  apply bind_ok in H as (model0 & _ & H).
  apply bind_ok in H as (tm & _ & H).
  apply bind_ok in H as (overridden & _ & H).
  apply bind_ok in H as (model1 & _ & H).
  apply bind_ok in H as (model2 & _ & H).
  apply bind_ok in H as (allowed & Ea & H).
  apply bind_ok in H as (ok & Eok & H).
  apply bind_ok in H as ([] & Hw2 & H). injection H as <-.
  split; cbn [tool model web_research_mode].
  - exists servants, servant, allowed. repeat split; try assumption.
    destruct ok; [exact Eok | discriminate Hw2].
  - destruct bad; [discriminate Hw |].
    destruct (py_eq web (VStr "off")) eqn:Eoff; [left; exact Eoff |].
    right. cbn [negb] in Hbad.
    apply bind_ok in Hbad as (modes & Em & Hbad).
    apply bind_ok in Hbad as (b & Eb & Hbad). injection Hbad as Hb.
    exists modes. split; [exact Em |]. destruct b; [exact Eb | discriminate Hb].
Qed.

(** X17: whatever the config and the overrides, a plan that [resolve_v2]
    returns has at least one step, the only step is the requested one when a
    step id was given, and every step of the plan has an entry in the step
    map whose model is one of the allowed models of the entry's tool and
    whose web research mode is off or one of that tool's. *)
Theorem resolved_plan_steps_are_checked
    (cfg : value) (phase : string) (manifest_overrides : value)
    (method_id step_id : option string) (plan : phase_plan) :
  resolve_v2 cfg phase manifest_overrides method_id step_id = Ok plan ->
  resolved_steps plan <> [] /\
  (forall sid, given step_id = Some sid -> resolved_steps plan = [VStr sid]) /\
  forall step, In step (resolved_steps plan) ->
    exists s sp,
      step = VStr s /\
      table_get (step_agent_model_map plan) s = Some sp /\
      step_checked cfg sp.
Proof.
  unfold resolve_v2. intros H.
  apply bind_ok in H as (po & _ & H).
  apply bind_ok in H as (selected & _ & H).
  apply bind_ok in H as (skills & _ & H).
  apply bind_ok in H as (phase_cfg & _ & H).
  apply bind_ok in H as (methods & _ & H).
  apply bind_ok in H as (method_node & _ & H).
  apply bind_ok in H as (st & _ & H).
  apply bind_ok in H as (steps & _ & H).
  apply bind_ok in H as ([] & Hne & H).
  apply bind_ok in H as (resolved & Hres & H).
  apply bind_ok in H as (step_map & Hfold & H). injection H as <-.
  cbn [resolved_steps step_agent_model_map].
  apply fold_table_set_spec in Hfold as (_ & Hfold).
  split; [| split].
  - destruct (given step_id) as [sid |].
    + apply bind_ok in Hres as ([] & _ & Hres). injection Hres as <-. discriminate.
    + injection Hres as <-. intros ->. discriminate Hne.
  - intros sid Hsid. rewrite Hsid in Hres.
    apply bind_ok in Hres as ([] & _ & Hres). injection Hres as <-. reflexivity.
  - intros step Hstep. destruct (Hfold step Hstep) as (s & sp & -> & Hsp & Hg).
    exists s, sp. split; [reflexivity |]. split; [exact Hg |].
    exact (resolved_step_checked _ _ _ _ _ _ Hsp).
Qed.

Lemma resolved_plan_witness :
  exists plan,
    resolve_v2 ExamplesV2.cfg "impl" (VDict []) None (Some "check") = Ok plan /\
    resolved_steps plan <> [] /\
    (forall sid, given (Some "check") = Some sid -> resolved_steps plan = [VStr sid]) /\
    forall step, In step (resolved_steps plan) ->
      exists s sp,
        step = VStr s /\
        table_get (step_agent_model_map plan) s = Some sp /\
        step_checked ExamplesV2.cfg sp.
Proof.
  destruct (resolve_v2 ExamplesV2.cfg "impl" (VDict []) None (Some "check"))
    as [plan |] eqn:H; [| vm_compute in H; discriminate H].
  exists plan. split; [reflexivity |].
  exact (resolved_plan_steps_are_checked _ _ _ _ _ _ H).
Defined.

(** X18: the model of a resolved step is the model of the step's own
    override when that override has one; otherwise the model the phase
    override gives to the tool the step runs with (the tool after the
    step's tool override); otherwise the default model of that tool's
    servant. *)
Theorem step_model_precedence
    (cfg : value) (phase : string) (method_node : value) (step_id : string)
    (po tool_models step_overrides : dict) (sp : step_plan) :
  dget po "tool_models" = VDict tool_models ->
  dget po "step_overrides" = VDict step_overrides ->
  _resolve_step cfg phase method_node (VStr step_id) (VDict po) = Ok sp ->
  match step_override_model step_overrides step_id with
  | Some m => model sp = m
  | None =>
      match phase_tool_model tool_models (tool sp) with
      | Some m => model sp = m
      | None => servant_default_model cfg (tool sp) (model sp)
      end
  end.
Proof.
  intros Etm Eso. unfold _resolve_step. intros H.
  apply bind_ok in H as (skills & _ & H).
  apply bind_ok in H as (phase_cfg & _ & H).
  apply bind_ok in H as (step_defaults & _ & H).
  apply bind_ok in H as (base & _ & H).
  apply bind_ok in H as (base_step & _ & H).
  apply bind_ok in H as (so & Hso & H).
  cbn [get] in Hso. injection Hso as <-. rewrite Eso in H.
  apply bind_ok in H as (so' & Hso' & H).
  apply bind_ok in H as (step_override & Hov & H).
  apply bind_ok in H as (tl & _ & H).
  apply bind_ok in H as (dm & _ & H).
  apply bind_ok in H as (web & _ & H).
  apply bind_ok in H as (bad & _ & H).
  apply bind_ok in H as ([] & _ & H).
  apply bind_ok in H as (servants & Es & H).
  apply bind_ok in H as (servant & Ev & H).
  apply bind_ok in H as (model0 & Em0 & H).
  apply bind_ok in H as (tm & Htm & H).
  cbn [get] in Htm. injection Htm as <-. rewrite Etm in H.
  apply bind_ok in H as (overridden & Hin & H).
  apply bind_ok in H as (model1 & Em1 & H).
  apply bind_ok in H as (model2 & Em2 & H).
  apply bind_ok in H as (allowed & _ & H).
  apply bind_ok in H as (ok & _ & H).
  apply bind_ok in H as ([] & _ & H). injection H as <-.
  cbn [tool model].
  assert (Hmodel : step_override_model step_overrides step_id
                   = dict_get "model" step_override).
  { unfold step_override_model.
    assert (por (VDict step_overrides) (VDict []) = VDict step_overrides) as E
      by (destruct step_overrides; reflexivity).
    rewrite E in Hso'. cbn [get_v get] in Hso'. injection Hso' as <-.
    unfold dget in Hov.
    destruct (dict_get step_id step_overrides) as [v |]; [| injection Hov as <-; reflexivity].
    destruct v as [| b | z | s | l | ns].
    - injection Hov as <-; reflexivity.
    - destruct b; [discriminate Hov | injection Hov as <-; reflexivity].
    - unfold por in Hov. destruct (truthy (VInt z)); simpl in Hov; [discriminate Hov |].
      injection Hov as <-; reflexivity.
    - destruct s; [injection Hov as <-; reflexivity | discriminate Hov].
    - destruct l; [injection Hov as <-; reflexivity | discriminate Hov].
    - destruct ns as [| kv ns]; injection Hov as <-; reflexivity. }
  rewrite Hmodel. unfold dict_mem in Em2.
  destruct (dict_get "model" step_override) as [m |] eqn:Gm.
  - unfold ditem in Em2. rewrite Gm in Em2. injection Em2 as <-. reflexivity.
  - injection Em2 as <-.
    assert (por (VDict tool_models) (VDict []) = VDict tool_models) as E
      by (destruct tool_models; reflexivity).
    rewrite E in Hin, Em1.
    destruct tl as [| b | z | t | l | d]; try discriminate Ev.
    + destruct servants; discriminate Ev.
    + destruct servants; discriminate Ev.
    + destruct servants; discriminate Ev.
    + cbn [phase_tool_model]. cbn [py_in] in Hin. injection Hin as <-.
      unfold dict_mem in Em1. cbn [item_v item] in Em1. unfold ditem in Em1.
      destruct (dict_get t tool_models) as [m |].
      * injection Em1 as <-. reflexivity.
      * injection Em1 as <-. exists servants, servant. auto.
Qed.

Lemma step_model_precedence_witness :
  exists po tool_models step_overrides sp,
    dget po "tool_models" = VDict tool_models /\
    dget po "step_overrides" = VDict step_overrides /\
    _resolve_step ExamplesV2.cfg "impl" VNone (VStr "check") (VDict po) = Ok sp /\
    step_override_model step_overrides "check" = Some (VStr "gemini-pro") /\
    match step_override_model step_overrides "check" with
    | Some m => model sp = m
    | None =>
        match phase_tool_model tool_models (tool sp) with
        | Some m => model sp = m
        | None => servant_default_model ExamplesV2.cfg (tool sp) (model sp)
        end
    end.
Proof.
  pose (po := [ ("tool_models", VDict [ ("codex", VStr "gpt-task") ]);
                ("step_overrides",
                 VDict [ ("check", VDict [ ("tool", VStr "gemini");
                                           ("web_research_mode", VStr "gemini_auto");
                                           ("model", VStr "gemini-pro") ]) ]) ]).
  destruct (_resolve_step ExamplesV2.cfg "impl" VNone (VStr "check") (VDict po))
    as [sp |] eqn:H; [| vm_compute in H; discriminate H].
  exists po, [ ("codex", VStr "gpt-task") ],
         [ ("check", VDict [ ("tool", VStr "gemini");
                             ("web_research_mode", VStr "gemini_auto");
                             ("model", VStr "gemini-pro") ]) ], sp.
  split; [reflexivity |]. split; [reflexivity |]. split; [exact H |].
  split; [reflexivity |].
  exact (step_model_precedence ExamplesV2.cfg "impl" VNone "check" po _ _ sp
           eq_refl eq_refl H).
Defined.

End ResolvedSteps.

(** ** The v1 validators on arbitrary mappings *)

Module ValidatorTotal.
Import ConfigValidate Defaults.
Import ValidFacts ProfileShapes PlanTotal.
Import Validated.

Lemma controlled_if_when (c : bool) (body : result unit) :
  controlled body -> controlled (when c body).
Proof. destruct c; [auto | intros _; exact I]. Qed.

Lemma controlled_expect_type (v : value) (t : pytype) (path : string) :
  controlled (_expect_type v t path).
Proof. unfold _expect_type. apply controlled_if_when. exact I. Qed.

Lemma controlled_ensure_keys (d : dict) (allowed : list string) (path : string) :
  controlled (_ensure_keys (VDict d) allowed path).
Proof. unfold _ensure_keys. cbn [items bind]. apply controlled_if_when. exact I. Qed.

Lemma controlled_str_set_items (path : string) (xs : list value) :
  forall i, controlled (str_set_items path i xs).
Proof.
  induction xs as [| x xs IH]; intros i; simpl; [exact I |].
  destruct x; try exact I. destruct (is_blank s); [exact I |].
  apply controlled_bind; [apply IH |]. intros out _. exact I.
Qed.

Lemma controlled_expect_str_set (v : value) (path : string) :
  controlled (_expect_str_set v path).
Proof.
  unfold _expect_str_set. apply controlled_bind; [apply controlled_expect_type |].
  intros [] H. apply expect_list in H as (xs & ->). cbn [to_list bind].
  apply controlled_str_set_items.
Qed.

Lemma controlled_for_each_i {A} (body : nat -> A -> result unit) (l : list A) :
  (forall i x, In x l -> controlled (body i x)) ->
  forall i, controlled (for_each_i body i l).
Proof.
  induction l as [| y l IH]; simpl; intros H i; [exact I |].
  apply controlled_bind; [apply H; left; reflexivity |].
  intros _ _. apply IH. intros j x Hx. apply H. right; exact Hx.
Qed.

Lemma controlled_wrapper_default (cfg_path servant : string) (kv : string * value) :
  controlled (validate_wrapper_default cfg_path servant kv).
Proof.
  unfold validate_wrapper_default. destruct kv as [key raw].
  repeat match goal with
         | |- controlled (if ?c then _ else _) => destruct c
         end;
    try apply controlled_if_when; exact I.
Qed.

Lemma stage_to_tool_servant (stage pipeline tool : string) :
  _stage_to_tool stage pipeline = Some tool -> In tool SERVANT_NAMES.
Proof.
  unfold _stage_to_tool. destruct (String.eqb pipeline "plan").
  - intros H. apply ProfileFacts.table_get_In in H. simpl in H.
    repeat (destruct H as [[= <- <-] | H]; [simpl; auto |]). contradiction.
  - destruct (contains_char "_" stage); cbn [negb]; [| discriminate].
    destruct (mem (hd stage (split1 "_" stage)) SERVANT_NAMES) eqn:M; [| discriminate].
    intros [= <-]. apply mem_In. exact M.
Qed.

Lemma table_item_of_key {A} (t : list (string * A)) (k : string) :
  In k (map fst t) -> exists a, table_item t k = Ok a.
Proof.
  unfold table_item. induction t as [| [k0 a0] t IH]; simpl; [contradiction |].
  intros H. destruct (String.eqb k k0) eqn:E; [eauto |].
  destruct H as [-> | H]; [rewrite String.eqb_refl in E; discriminate E |].
  exact (IH H).
Qed.

(** The checks of one servant raise validation errors only. *)
Lemma controlled_validate_servant (cfg_path : string) (sd : dict) (servant : string) :
  In servant SERVANT_NAMES ->
  controlled (validate_servant cfg_path (VDict sd) servant).
Proof.
  intros Hs. unfold validate_servant. cbn [get bind].
  apply controlled_bind; [apply controlled_expect_type |].
  intros [] Hn. apply expect_dict in Hn as (nd & Hnd). rewrite Hnd.
  apply controlled_bind; [apply controlled_ensure_keys |]. intros [] _. cbn [get bind].
  apply controlled_bind; [apply controlled_if_when; exact I |]. intros [] Hdm.
  destruct (non_empty_str (dget nd "default_model")) eqn:E; [| discriminate Hdm].
  apply non_empty_str_inv in E as (dm & Edm & _). rewrite Edm. cbn [as_str bind].
  apply controlled_bind; [apply controlled_expect_str_set |]. intros allowed _.
  apply controlled_bind; [apply controlled_if_when; exact I |]. intros [] _.
  apply controlled_bind; [apply controlled_expect_type |].
  intros [] Hwd. apply expect_dict in Hwd as (wd & Hwd). rewrite Hwd.
  assert (exists keys, table_item WRAPPER_DEFAULT_KEYS servant = Ok keys) as (keys & ->).
  { simpl in Hs. destruct Hs as [<- | [<- | [<- | []]]]; eexists; reflexivity. }
  cbn [bind]. apply controlled_bind; [apply controlled_ensure_keys |].
  intros [] _. cbn [items bind].
  apply controlled_bind; [apply controlled_if_when; exact I |]. intros [] _.
  apply controlled_bind;
    [apply controlled_for_each; intros; apply controlled_wrapper_default |].
  intros [] _.
  apply controlled_bind; [apply controlled_expect_type |].
  intros [] Hpm. apply expect_dict in Hpm as (pm & Hpm). rewrite Hpm.
  apply controlled_bind; [apply controlled_ensure_keys |]. intros [] _. cbn [items bind].
  apply controlled_bind.
  { apply controlled_for_each. intros [k m] _.
    apply controlled_bind; [apply controlled_if_when; exact I |]. intros [] Hm.
    destruct (non_empty_str m) eqn:E; [| discriminate Hm].
    apply non_empty_str_inv in E as (s & -> & _). cbn [as_str bind].
    apply controlled_if_when; exact I. }
  intros [] _.
  apply controlled_bind; [apply controlled_expect_type |].
  intros [] Hpe. apply expect_dict in Hpe as (pe & Hpe). rewrite Hpe.
  apply controlled_bind; [apply controlled_if_when; exact I |]. intros [] _.
  apply controlled_bind; [apply controlled_ensure_keys |]. intros [] _. cbn [items bind].
  apply controlled_for_each. intros [k e] _. apply controlled_if_when; exact I.
Qed.

(** The checks of one profile raise validation errors only, once the
    servants are validated. *)
Lemma controlled_validate_profile (cfg_path : string) (sd : dict)
    (pipeline_name : string) (kv : string * value) :
  (forall servant, In servant SERVANT_NAMES ->
                   validate_servant cfg_path (VDict sd) servant = Ok tt) ->
  In pipeline_name ["impl"; "review"; "plan"] ->
  controlled (validate_profile cfg_path (VDict sd) pipeline_name kv).
Proof.
  intros Hsv Hp. unfold validate_profile. destruct kv as [profile_name profile].
  apply controlled_bind; [apply controlled_expect_type |].
  intros [] Hpr. apply expect_dict in Hpr as (pd & ->).
  apply controlled_bind; [apply controlled_ensure_keys |]. intros [] _. cbn [get bind].
  apply controlled_bind.
  { destruct (mem pipeline_name ["impl"; "review"]).
    - apply controlled_bind; [apply controlled_expect_str_set |]. intros stages _.
      apply controlled_bind; [apply controlled_if_when; exact I |]. intros [] _.
      apply controlled_for_each_i. intros i x _. apply controlled_if_when; exact I.
    - cbn [py_in bind]. apply controlled_if_when; exact I. }
  intros [] _.
  apply controlled_bind; [apply controlled_expect_type |].
  intros [] Hfl. apply expect_dict in Hfl as (fl & Hfl). rewrite Hfl.
  assert (exists names, table_item PIPELINE_FLAGS pipeline_name = Ok names) as (names & ->).
  { simpl in Hp. destruct Hp as [<- | [<- | [<- | []]]]; eexists; reflexivity. }
  cbn [bind]. apply controlled_bind; [apply controlled_ensure_keys |].
  intros [] _. cbn [items bind].
  apply controlled_bind.
  { apply controlled_for_each. intros [k v] _. apply controlled_if_when; exact I. }
  intros [] _.
  apply controlled_bind; [apply controlled_expect_type |].
  intros [] Hop. apply expect_dict in Hop as (ol & Hop). rewrite Hop.
  assert (exists table, table_item PIPELINE_OPTIONS pipeline_name = Ok table)
    as (table & ->).
  { simpl in Hp. destruct Hp as [<- | [<- | [<- | []]]]; eexists; reflexivity. }
  cbn [bind]. apply controlled_bind; [apply controlled_ensure_keys |].
  intros [] Hkeys. cbn [items bind].
  apply controlled_bind.
  { apply controlled_for_each. intros [k v] Hin.
    apply controlled_bind; [apply controlled_if_when; exact I |]. intros [] _.
    assert (exists vals, table_item table k = Ok vals) as (vals & ->).
    { unfold _ensure_keys in Hkeys. cbn [items bind] in Hkeys.
      assert (Hk : mem k (map fst table) = true).
      { destruct (mem k (map fst table)) eqn:M; [reflexivity |].
        exfalso.
        destruct (nonempty (sorted_set (filter (fun k0 => negb (mem k0 (map fst table)))
                                               (dict_keys ol)))) eqn:N;
          [discriminate Hkeys |].
        assert (Hnil : sorted_set (filter (fun k0 => negb (mem k0 (map fst table)))
                                          (dict_keys ol)) = [])
          by (destruct (sorted_set _); [reflexivity | discriminate N]).
        apply sorted_set_nil in Hnil.
        assert (Hf : In k (filter (fun k0 => negb (mem k0 (map fst table))) (dict_keys ol))).
        { apply filter_In. split; [| rewrite M; reflexivity].
          unfold dict_keys. apply in_map_iff. exists (k, v). auto. }
        rewrite Hnil in Hf. exact Hf. }
      apply mem_In in Hk. apply table_item_of_key. exact Hk. }
    cbn [bind]. apply controlled_if_when; exact I. }
  intros [] _.
  apply controlled_bind; [apply controlled_expect_type |].
  intros [] Hsm. apply expect_dict in Hsm as (sm & Hsm). rewrite Hsm. cbn [items bind].
  apply controlled_bind.
  { apply controlled_for_each. intros [k m] _.
    apply controlled_bind; [apply controlled_if_when; exact I |]. intros [] Hm.
    destruct (non_empty_str m) eqn:E; [| discriminate Hm].
    apply non_empty_str_inv in E as (s & -> & _).
    destruct (_stage_to_tool k pipeline_name) as [tool |] eqn:T; [| exact I].
    apply stage_to_tool_servant in T.
    destruct (validate_servant_ok _ _ _ (Hsv tool T))
      as (node & dm & allowed & E1 & _ & E2 & _).
    rewrite E1; cbn [bind]. rewrite E2; cbn [bind py_in]. apply controlled_if_when; exact I. }
  intros [] _.
  apply controlled_bind; [apply controlled_expect_type |].
  intros [] Hse. apply expect_dict in Hse as (se & Hse). rewrite Hse. cbn [items bind].
  apply controlled_for_each. intros [k e] _.
  apply controlled_bind; [apply controlled_if_when; exact I |]. intros [] _.
  destruct (_stage_to_tool k pipeline_name); [apply controlled_if_when |]; exact I.
Qed.

Lemma controlled_validate_pipeline (cfg_path : string) (sd pd : dict)
    (pipeline_name : string) :
  (forall servant, In servant SERVANT_NAMES ->
                   validate_servant cfg_path (VDict sd) servant = Ok tt) ->
  In pipeline_name ["impl"; "review"; "plan"] ->
  controlled (validate_pipeline cfg_path (VDict sd) (VDict pd) pipeline_name).
Proof.
  intros Hsv Hp. unfold validate_pipeline. cbn [get bind].
  apply controlled_bind; [apply controlled_expect_type |].
  intros [] Hn. apply expect_dict in Hn as (nd & Hnd). rewrite Hnd.
  apply controlled_bind; [apply controlled_ensure_keys |]. intros [] _. cbn [get bind].
  apply controlled_bind; [apply controlled_if_when; exact I |]. intros [] Hdp.
  destruct (non_empty_str (dget nd "default_profile")) eqn:E; [| discriminate Hdp].
  apply non_empty_str_inv in E as (dp & Edp & _). rewrite Edp.
  apply controlled_bind; [apply controlled_expect_type |].
  intros [] Hps. apply expect_dict in Hps as (ps & Hps). rewrite Hps.
  apply controlled_bind; [apply controlled_if_when; exact I |]. intros [] _.
  cbn [py_in bind].
  apply controlled_bind; [apply controlled_if_when; exact I |]. intros [] _.
  cbn [items bind].
  apply controlled_for_each. intros kv _. apply controlled_validate_profile; assumption.
Qed.

(** [validate_runtime_config_dict] on a mapping: the mapping itself or a
    validation error. *)
Lemma validate_controlled (d : dict) (cfg_path : string) :
  controlled (validate_runtime_config_dict (VDict d) cfg_path).
Proof.
  unfold validate_runtime_config_dict.
  apply controlled_bind; [apply controlled_ensure_keys |]. intros [] _. cbn [get bind].
  apply controlled_bind; [apply controlled_if_when; exact I |]. intros [] _.
  apply controlled_bind; [apply controlled_expect_type |].
  intros [] Hs. apply expect_dict in Hs as (sd & Hsd). rewrite Hsd.
  apply controlled_bind; [apply controlled_ensure_keys |]. intros [] _.
  apply controlled_bind;
    [apply controlled_for_each; intros; apply controlled_validate_servant; assumption |].
  intros [] Hsv. pose proof (for_each_ok _ _ _ Hsv) as Hsv'.
  apply controlled_bind; [apply controlled_expect_type |].
  intros [] Hp. apply expect_dict in Hp as (pd & Hpd). rewrite Hpd.
  apply controlled_bind; [apply controlled_ensure_keys |]. intros [] _.
  apply controlled_bind;
    [apply controlled_for_each; intros; apply controlled_validate_pipeline; assumption |].
  intros [] _. exact I.
Qed.





End ValidatorTotal.

(** ** What the v1 validators can raise *)

Module ValidatorOutcomes.
Import ConfigValidate Defaults Validated.
Import ValidFacts ValidatorTotal.

(** X19: on any mapping, [validate_runtime_config_dict] returns the mapping
    it was given, unchanged, or raises a validation error: no malformed
    config makes it raise another exception. *)
Theorem validator_returns_config_or_validation_error (d : dict) (cfg_path : string) :
  validate_runtime_config_dict (VDict d) cfg_path = Ok (VDict d) \/
  exists msg,
    validate_runtime_config_dict (VDict d) cfg_path = Raise (ValidationError msg).
Proof.
  pose proof (validate_controlled d cfg_path) as H.
  destruct (validate_runtime_config_dict (VDict d) cfg_path) as [r | e] eqn:E.
  - left. apply validate_runtime_config_dict_ok in E as (-> & _). reflexivity.
  - right. destruct e; try contradiction. eauto.
Qed.



End ValidatorOutcomes.

(** ** What loading a v1 config root can raise *)

Module LoaderOutcomes.
Import ConfigValidate Defaults Outcomes.
Import ValidFacts ProfileShapes PlanTotal ValidatorTotal.

Lemma load_outcome_bind {A B} (keys : list string) (m : result A) (k : A -> result B) :
  load_outcome keys m -> (forall a, m = Ok a -> load_outcome keys (k a)) ->
  load_outcome keys (bind m k).
Proof.
  destruct m as [a | e]; simpl; intros Hm Hk; [apply Hk; reflexivity | exact Hm].
Qed.

Lemma controlled_load_outcome {A} (keys : list string) (r : result A) :
  controlled r -> load_outcome keys r.
Proof. destruct r as [a | []]; simpl; auto; contradiction. Qed.








(** X22: a [servant/codex.yaml] in the full form (it has the key [version]
    or [tool]) with version 1, tool [codex] and only keys of the full form,
    but without one of [default_model], [allowed_models] and
    [wrapper_defaults], makes [load_and_validate_split_config] raise a
    [KeyError] for the first of the three that is missing, not a validation
    error, whatever the other files hold. *)
Theorem full_form_servant_without_required_key_raises_key_error
    (t : Fs.tree) (root : string) (d : dict) (key : string) :
  Fs.lookup2 t "servant" "codex.yaml" = Some (Fs.File (Some (VDict d))) ->
  dict_mem "version" d || dict_mem "tool" d = true ->
  (forall k, In k (dict_keys d) ->
             In k ["version"; "tool"; "default_model"; "allowed_models";
                   "wrapper_defaults"; "purpose_models"; "purpose_efforts"]) ->
  dget d "version" = VInt 1 ->
  dget d "tool" = VStr "codex" ->
  find (fun k => negb (dict_mem k d))
       ["default_model"; "allowed_models"; "wrapper_defaults"] = Some key ->
  load_and_validate_split_config t root = Raise (KeyError key).
Proof.
  intros Hfile Hfull Hkeys Hv Ht Hmissing.
  unfold load_and_validate_split_config.
  cbn [SERVANT_FILES load_files]. rewrite Hfile. cbn [_load_yaml is_none isinstance when negb bind].
  unfold _normalize_servant_file. cbn [py_in bind]. rewrite Hfull.
  unfold _ensure_keys. cbn [items bind].
  rewrite (no_unknown_keys_intro _ _ Hkeys). cbn [nonempty when bind get].
  rewrite Hv, Ht. cbn [py_eq]. rewrite String.eqb_refl. cbn [Z.eqb Pos.eqb negb when bind item].
  unfold ditem, dict_mem in *. cbn [find] in Hmissing.
  destruct (dict_get "default_model" d); cbn [negb bind] in *;
    [| injection Hmissing as <-; reflexivity].
  destruct (dict_get "allowed_models" d); cbn [negb bind] in *;
    [| injection Hmissing as <-; reflexivity].
  destruct (dict_get "wrapper_defaults" d); cbn [negb bind] in *;
    [discriminate Hmissing | injection Hmissing as <-; reflexivity].
Qed.

Lemma full_form_servant_witness :
  exists t d,
    Fs.lookup2 t "servant" "codex.yaml" = Some (Fs.File (Some (VDict d))) /\
    dict_mem "version" d || dict_mem "tool" d = true /\
    (forall k, In k (dict_keys d) ->
               In k ["version"; "tool"; "default_model"; "allowed_models";
                     "wrapper_defaults"; "purpose_models"; "purpose_efforts"]) /\
    dget d "version" = VInt 1 /\
    dget d "tool" = VStr "codex" /\
    find (fun k => negb (dict_mem k d))
         ["default_model"; "allowed_models"; "wrapper_defaults"]
    = Some "allowed_models" /\
    load_and_validate_split_config t "/repo/configs" = Raise (KeyError "allowed_models").
Proof.
  pose (d := [ ("version", VInt 1); ("tool", VStr "codex");
               ("default_model", VStr "gpt-default") ]).
  pose (t := [ ("servant", Fs.Dir [ ("codex.yaml", Fs.File (Some (VDict d))) ]) ]).
  assert (Hkeys : forall k, In k (dict_keys d) ->
                    In k ["version"; "tool"; "default_model"; "allowed_models";
                          "wrapper_defaults"; "purpose_models"; "purpose_efforts"]).
  { intros k Hk. simpl in Hk. simpl. tauto. }
  exists t, d. repeat (split; [first [reflexivity | exact Hkeys] |]).
  exact (full_form_servant_without_required_key_raises_key_error
           t "/repo/configs" d "allowed_models" eq_refl eq_refl Hkeys eq_refl eq_refl
           eq_refl).
Defined.

End LoaderOutcomes.

(** ** The v2 validators on arbitrary mappings *)

Module ValidatorTotalV2.
Import ConfigValidateV2 Defaults Outcomes.
Import ValidFacts SkillSteps ProfileShapes PlanTotal ValidatorTotal LoaderOutcomes.

Lemma controlled_expect_type_v2 (v : value) (t : pytype) (path : string) :
  controlled (_expect_type v t path).
Proof. unfold _expect_type. apply controlled_if_when. exact I. Qed.

Lemma controlled_ensure_keys_v2 (d : dict) (allowed : list string) (path : string) :
  controlled (_ensure_keys (VDict d) allowed path).
Proof. unfold _ensure_keys. cbn [items bind]. apply controlled_if_when. exact I. Qed.

Lemma controlled_expect_non_empty_string (v : value) (path : string) :
  controlled (_expect_non_empty_string v path).
Proof.
  unfold _expect_non_empty_string. destruct v; try exact I.
  destruct (is_blank s); exact I.
Qed.

Lemma controlled_string_list_items (path : string) (xs : list value) :
  forall i, controlled (string_list_items path i xs).
Proof.
  induction xs as [| x xs IH]; intros i; simpl; [exact I |].
  apply controlled_bind; [apply controlled_expect_non_empty_string |]. intros s _.
  apply controlled_bind; [apply IH |]. intros out _. exact I.
Qed.

Lemma controlled_expect_string_list (v : value) (path : string) (non_empty : bool) :
  controlled (_expect_string_list v path non_empty).
Proof.
  unfold _expect_string_list.
  apply controlled_bind; [apply controlled_expect_type_v2 |].
  intros [] H. apply expect_sequence in H as (xs & ->). cbn [to_list bind].
  apply controlled_bind; [apply controlled_string_list_items |]. intros out _.
  apply controlled_bind; [apply controlled_if_when; exact I |]. intros [] _. exact I.
Qed.

Lemma controlled_when_present (d : dict) (key : string) (check : value -> result unit) :
  (forall v, controlled (check v)) -> controlled (when_present (VDict d) key check).
Proof.
  intros H. unfold when_present. cbn [py_in bind].
  destruct (dict_mem key d); [| exact I]. cbn [get bind]. apply H.
Qed.

Lemma controlled_expect_pinned (d : dict) (path key pinned : string) :
  controlled (expect_pinned (VDict d) path key pinned).
Proof.
  unfold expect_pinned. cbn [get bind].
  apply controlled_bind; [apply controlled_expect_non_empty_string |]. intros s _.
  apply controlled_if_when. exact I.
Qed.

(** One step of a walk through a validator: the guard at the head raises
    validation errors only, and what it establishes is recorded. *)
Ltac ctl_atom :=
  first [ exact I
        | apply controlled_if_when; exact I
        | apply controlled_expect_type_v2
        | apply controlled_ensure_keys_v2
        | apply controlled_expect_non_empty_string
        | apply controlled_expect_string_list
        | apply controlled_expect_pinned ].

Ltac ctl_step_with extra :=
  lazymatch goal with
  | |- controlled (Ok _) => exact I
  | |- controlled (_die _ _) => exact I
  | |- controlled (when _ _) => apply controlled_if_when
  | |- controlled (match ?kv with pair _ _ => _ end) => destruct kv
  | |- controlled (if ?c then _ else _) => destruct c
  | |- controlled (bind (_expect_type ?v TDict _) _) =>
      let d := fresh "d" in
      let E := fresh "E" in
      apply controlled_bind; [apply controlled_expect_type_v2 |];
      intros [] E; apply expect_mapping in E as (d & E);
      first [subst v | rewrite E]
  | |- controlled (bind (_expect_type ?v TList _) _) =>
      let xs := fresh "xs" in
      let E := fresh "E" in
      apply controlled_bind; [apply controlled_expect_type_v2 |];
      intros [] E; apply expect_sequence in E as (xs & E);
      first [subst v | rewrite E]
  | |- controlled (bind (get (VDict _) _) _) => cbn [get bind]
  | |- controlled (bind (items (VDict _)) _) => cbn [items bind]
  | |- controlled (bind (py_in (VStr _) (VDict _)) _) => cbn [py_in bind]
  | |- controlled (bind (to_list (VList _)) _) => cbn [to_list bind]
  | |- controlled (bind (for_each _ _) _) =>
      apply controlled_bind; [apply controlled_for_each; intros ? ? | intros [] ?]
  | |- controlled (bind (for_each_i _ _ _) _) =>
      apply controlled_bind; [apply controlled_for_each_i; intros ? ? ? | intros [] ?]
  | |- controlled (for_each _ _) => apply controlled_for_each; intros ? ?
  | |- controlled (for_each_i _ _ _) => apply controlled_for_each_i; intros ? ? ?
  | |- controlled (bind (when_present (VDict _) _ _) _) =>
      apply controlled_bind; [apply controlled_when_present; intros ? | intros [] ?]
  | |- controlled (when_present (VDict _) _ _) =>
      apply controlled_when_present; intros ?
  | |- controlled (bind _ _) =>
      apply controlled_bind; [first [ctl_atom | extra] | intros ? ?]
  | |- controlled _ => first [ctl_atom | extra]
  end.

Ltac ctl_step := ctl_step_with fail.

Lemma tool_web_modes (tool : string) :
  In tool TOOLS -> exists modes, table_item TOOL_WEB_MODE_MAP tool = Ok modes.
Proof.
  intros H. simpl in H. destruct H as [<- | [<- | [<- | []]]]; eexists; reflexivity.
Qed.

Lemma controlled_validate_step_default (path : string) (d : dict) :
  controlled (_validate_step_default path (VDict d)).
Proof.
  unfold _validate_step_default.
  do 2 ctl_step.
  apply controlled_bind; [apply controlled_expect_non_empty_string |].
  intros default_tool _.
  apply controlled_bind; [apply controlled_if_when; exact I |]. intros [] Ht.
  destruct (mem default_tool TOOLS) eqn:M; [| discriminate Ht].
  apply mem_In in M. destruct (tool_web_modes _ M) as (modes & Em).
  repeat ctl_step. rewrite Em. cbn [bind]. ctl_step. exact I.
Qed.

Lemma controlled_validate_method (path : string) (kv : string * value) :
  controlled (validate_method path kv).
Proof. unfold validate_method. repeat ctl_step. Qed.

(** What the first loop over the methods establishes for the second. *)
Lemma validated_method_steps (path : string) (method_id : string) (method_node : value) :
  validate_method path (method_id, method_node) = Ok tt ->
  exists md steps,
    method_node = VDict md /\ dget md "steps" = VList (map VStr steps) /\ steps <> [].
Proof.
  unfold validate_method. intros H.
  apply bind_ok in H as ([] & Ed & H). apply expect_mapping in Ed as (md & ->).
  apply bind_ok in H as ([] & _ & H). cbn [get bind] in H.
  apply bind_ok in H as ([] & _ & H).
  apply bind_ok in H as (steps & Es & _).
  apply expect_string_list_ok in Es as (Es & _ & Hne).
  exists md, steps. split; [reflexivity |]. split; [exact Es | apply Hne; reflexivity].
Qed.

Lemma controlled_collect_method_steps (path : string) (sd : dict) (all : list string)
    (method_id : string) (method_node : value) :
  validate_method path (method_id, method_node) = Ok tt ->
  controlled (collect_method_steps path (VDict sd) all (method_id, method_node)).
Proof.
  intros H. apply validated_method_steps in H as (md & steps & -> & Es & Hne).
  unfold collect_method_steps. cbn [get bind]. rewrite Es.
  assert (por (VList (map VStr steps)) (VList []) = VList (map VStr steps)) as ->
    by (destruct steps; [contradiction | reflexivity]).
  cbn [to_list bind]. rewrite ProfileStages.as_str_list_map. cbn [bind].
  repeat ctl_step.
Qed.

Lemma controlled_validate_skill_file (d : dict) (skill path : string) :
  controlled (_validate_skill_file (VDict d) skill path).
Proof.
  unfold _validate_skill_file.
  repeat ctl_step_with
    ltac:(first
            [ apply controlled_validate_method
            | apply controlled_validate_step_default
            | apply controlled_fold_m; intros ? [? ?] ?;
              apply controlled_collect_method_steps;
              match goal with
              | Hms : for_each (validate_method _) _ = Ok _, Hin : In _ _ |- _ =>
                  exact (for_each_ok _ _ _ Hms _ Hin)
              end ]).
Qed.

Lemma controlled_validate_servant_file (d : dict) (tool path : string) :
  In tool TOOLS -> controlled (_validate_servant_file (VDict d) tool path).
Proof.
  intros Ht. destruct (tool_web_modes _ Ht) as (modes & Em).
  unfold _validate_servant_file. rewrite Em. repeat ctl_step.
Qed.

Lemma controlled_validate_stop_condition (path : string) (idx : nat) (cond : value) :
  controlled (validate_stop_condition path idx cond).
Proof. unfold validate_stop_condition. repeat ctl_step. Qed.

Lemma controlled_validate_routing_policy (d : dict) (path : string) :
  controlled (_validate_routing_policy (VDict d) path).
Proof.
  unfold _validate_routing_policy.
  repeat ctl_step_with ltac:(apply controlled_validate_stop_condition).
Qed.

Lemma controlled_validate_review_parallel_policy (d : dict) (path : string) :
  controlled (_validate_review_parallel_policy (VDict d) path).
Proof. unfold _validate_review_parallel_policy. repeat ctl_step. Qed.

Lemma controlled_validate_web_evidence_policy (d : dict) (path : string) :
  controlled (_validate_web_evidence_policy (VDict d) path).
Proof. unfold _validate_web_evidence_policy. repeat ctl_step. Qed.

Lemma controlled_validate_expected_files (t : Fs.tree) (root subdir : string) :
  In subdir ["skills"; "servants"; "policies"] ->
  controlled (_validate_expected_files t root subdir).
Proof.
  intros H. unfold _validate_expected_files.
  destruct (Fs.entry subdir t) as [[doc | entries] |]; try exact I.
  assert (exists expected, table_item EXPECTED_FILES subdir = Ok expected) as (e & ->).
  { simpl in H. destruct H as [<- | [<- | [<- | []]]]; eexists; reflexivity. }
  cbn [bind]. repeat ctl_step.
Qed.

Lemma load_yaml_outcome_v2 (e : option Fs.node) (path : string) :
  load_outcome [] (_load_yaml e path) /\
  forall raw, _load_yaml e path = Ok raw -> exists d, raw = VDict d.
Proof.
  unfold _load_yaml. destruct e as [[[data |] | es] |]; try (split; [exact I | discriminate]).
  destruct data; cbn; try (split; [exact I | discriminate]).
  split; [exact I |]. intros raw [= <-]. eauto.
Qed.

Lemma load_dir_outcome (validate : value -> string -> string -> result value)
    (t : Fs.tree) (root subdir : string) (names : list string) :
  (forall d name path, In name names -> controlled (validate (VDict d) name path)) ->
  forall acc, load_outcome [] (load_dir validate t root subdir names acc).
Proof.
  induction names as [| name names IH]; intros Hv acc; simpl; [exact I |].
  apply load_outcome_bind; [apply load_yaml_outcome_v2 |].
  intros raw Hraw. destruct (proj2 (load_yaml_outcome_v2 _ _) _ Hraw) as (d & ->).
  apply load_outcome_bind;
    [apply controlled_load_outcome, Hv; left; reflexivity |].
  intros node _. apply IH. intros d' n p Hn. apply Hv. right; exact Hn.
Qed.

(** Loading a v2 config root: a config, a validation error, or the error of
    the YAML parser. *)
Lemma load_v2_outcome (t : Fs.tree) (root : string) :
  load_outcome [] (load_and_validate_v2_config t root).
Proof.
  unfold load_and_validate_v2_config.
  apply load_outcome_bind.
  { apply controlled_load_outcome, controlled_for_each.
    intros subdir H. apply controlled_validate_expected_files. exact H. }
  intros [] _.
  apply load_outcome_bind;
    [apply load_dir_outcome; intros; apply controlled_validate_skill_file |].
  intros skills _.
  apply load_outcome_bind;
    [apply load_dir_outcome; intros; apply controlled_validate_servant_file; assumption |].
  intros servants _.
  apply load_outcome_bind; [apply load_yaml_outcome_v2 |].
  intros raw Hraw. destruct (proj2 (load_yaml_outcome_v2 _ _) _ Hraw) as (d & ->).
  apply load_outcome_bind;
    [apply controlled_load_outcome, controlled_validate_routing_policy |].
  intros routing _.
  apply load_outcome_bind; [apply load_yaml_outcome_v2 |].
  intros raw Hraw'. destruct (proj2 (load_yaml_outcome_v2 _ _) _ Hraw') as (d' & ->).
  apply load_outcome_bind;
    [apply controlled_load_outcome, controlled_validate_review_parallel_policy |].
  intros review _.
  apply load_outcome_bind; [apply load_yaml_outcome_v2 |].
  intros raw Hraw''. destruct (proj2 (load_yaml_outcome_v2 _ _) _ Hraw'') as (d'' & ->).
  apply load_outcome_bind;
    [apply controlled_load_outcome, controlled_validate_web_evidence_policy |].
  intros web _. exact I.
Qed.

End ValidatorTotalV2.

(** ** Parsing manifest overrides against a validated v2 config *)

Module OverridesTotalV2.
Import ConfigValidateV2 ManifestV2 ConfigResolveV2 ShapesV2 Defaults Outcomes.
Import ValidFacts SkillSteps ProfileShapes PlanTotal ServantTables ValidatorTotal.
Import Rejection ConfigShapeV2 OverridesV2 ResolveV2Total ValidatorTotalV2.









End OverridesTotalV2.

(** ** What the v2 loader and the override parser can raise *)

Module OutcomesV2.
Import ConfigValidateV2 ManifestV2 ShapesV2 Defaults Outcomes.
Import ConfigShapeV2 ValidatorTotalV2 OverridesTotalV2.

(** X23: whatever the directory holds, [load_and_validate_v2_config]
    returns a config, raises a validation error, or raises the error of the
    YAML parser: no malformed file makes it raise a [KeyError], a
    [TypeError] or an [AttributeError]. *)
Theorem v2_config_load_outcomes (t : Fs.tree) (root : string) :
  (exists cfg, load_and_validate_v2_config t root = Ok cfg) \/
  (exists msg, load_and_validate_v2_config t root = Raise (ValidationError msg)) \/
  load_and_validate_v2_config t root = Raise YAMLError.
Proof.
  pose proof (load_v2_outcome t root) as H.
  destruct (load_and_validate_v2_config t root) as [cfg | e]; [left; eauto |].
  destruct e; simpl in H; try contradiction; eauto.
Qed.



End OutcomesV2.

(** ** The exit status of the v1 commands *)

Module CliOutcomes.
Import ConfigValidate ConfigResolve ConfigResolvePlan Cli Defaults Outcomes Shapes.
Import Validated.
Import ResolveFacts ValidFacts FlagFilters Selection ProfileStages Loading.
Import ServantFacts ServantTables ProfileShapes ManifestFacts DispatchTotal PlanTotal.
Import ValidatorTotal LoaderOutcomes.









End CliOutcomes.

(** ** The exit status of the v2 commands *)

Module CliOutcomesV2.
Import ConfigValidateV2 ManifestV2 ConfigResolveV2 Cli Defaults Outcomes ShapesV2.
Import ServantTables ProfileShapes LoaderOutcomes.
Import ConfigShapeV2 ResolveV2Total ValidatorTotalV2 OverridesTotalV2.








End CliOutcomesV2.

(** ** What a loaded v2 config holds *)

Module LoadedDocuments.
Import ConfigValidateV2.
Import Loading SkillSteps.

(** Every file that a loading loop read is in the mapping it returns, under
    its name. *)
Lemma load_dir_documents (validate : value -> string -> string -> result value)
    (t : Fs.tree) (root subdir : string) (names : list string) :
  forall acc d,
    load_dir validate t root subdir names acc = Ok d ->
    NoDup names ->
    (forall name, In name names ->
       exists raw node,
         Fs.lookup2 t subdir (name ++ ".yaml") = Some (Fs.File (Some raw)) /\
         validate raw name (Fs.join (Fs.join root subdir) (name ++ ".yaml")) = Ok node /\
         dict_get name d = Some node) /\
    (forall k, ~ In k names -> dict_get k d = dict_get k acc).
Proof.
  induction names as [| n names IH]; simpl; intros acc d H Hnd.
  - injection H as <-. split; [intros ? [] | reflexivity].
  - apply bind_ok in H as (raw & Eraw & H).
    apply bind_ok in H as (node & Enode & H).
    inversion_clear Hnd as [| ? ? Hn Hrest].
    destruct (IH _ _ H Hrest) as [IH1 IH2].
    apply load_yaml_v2 in Eraw as [Elook _].
    split.
    + intros name [<- | Hin].
      * exists raw, node. split; [exact Elook |]. split; [exact Enode |].
        rewrite IH2 by exact Hn. apply dict_get_set_same.
      * exact (IH1 _ Hin).
    + intros k Hk. rewrite IH2 by tauto.
      apply dict_get_set_other. intros ->. apply Hk. left; reflexivity.
Qed.

(** A validator of a file returns the document it was given. *)
Ltac returns_document H :=
  repeat (apply bind_ok in H as (? & _ & H)); injection H as <-; reflexivity.

Lemma skill_file_returned (node : value) (skill path : string) (r : value) :
  _validate_skill_file node skill path = Ok r -> r = node.
Proof. unfold _validate_skill_file. intros H. returns_document H. Qed.

Lemma servant_file_returned (node : value) (tool path : string) (r : value) :
  _validate_servant_file node tool path = Ok r -> r = node.
Proof. unfold _validate_servant_file. intros H. returns_document H. Qed.

Lemma routing_policy_returned (node : value) (path : string) (r : value) :
  _validate_routing_policy node path = Ok r -> r = node.
Proof. unfold _validate_routing_policy. intros H. returns_document H. Qed.

Lemma review_parallel_policy_returned (node : value) (path : string) (r : value) :
  _validate_review_parallel_policy node path = Ok r -> r = node.
Proof. unfold _validate_review_parallel_policy. intros H. returns_document H. Qed.

Lemma web_evidence_policy_returned (node : value) (path : string) (r : value) :
  _validate_web_evidence_policy node path = Ok r -> r = node.
Proof. unfold _validate_web_evidence_policy. intros H. returns_document H. Qed.

(** X29: a config that [load_and_validate_v2_config] returns has version 2
    and the root it was loaded from, and holds under [skills], [servants]
    and [policies] the documents of the nine files as the YAML parser gave
    them: validation changes nothing in what the resolver will read. *)
Theorem loaded_v2_config_holds_the_documents
    (t : Fs.tree) (root : string) (cfg : value) :
  load_and_validate_v2_config t root = Ok cfg ->
  item cfg "version" = Ok (VInt 2) /\
  item cfg "root" = Ok (VStr root) /\
  (forall phase, In phase PHASES ->
     exists doc,
       Fs.lookup2 t "skills" (phase ++ ".yaml") = Some (Fs.File (Some doc)) /\
       (skills <- item cfg "skills" ;; item skills phase) = Ok doc) /\
  (forall tool, In tool TOOLS ->
     exists doc,
       Fs.lookup2 t "servants" (tool ++ ".yaml") = Some (Fs.File (Some doc)) /\
       (servants <- item cfg "servants" ;; item servants tool) = Ok doc) /\
  (forall policy, In policy ["routing"; "review_parallel"; "web_evidence"] ->
     exists doc,
       Fs.lookup2 t "policies" (policy ++ ".yaml") = Some (Fs.File (Some doc)) /\
       (policies <- item cfg "policies" ;; item policies policy) = Ok doc).
Proof.
  unfold load_and_validate_v2_config. intros H.
  apply bind_ok in H as ([] & _ & H).
  apply bind_ok in H as (skills & Esk & H).
  apply bind_ok in H as (servants & Esv & H).
  apply bind_ok in H as (r1 & El1 & H). apply bind_ok in H as (v1 & Ev1 & H).
  apply bind_ok in H as (r2 & El2 & H). apply bind_ok in H as (v2 & Ev2 & H).
  apply bind_ok in H as (r3 & El3 & H). apply bind_ok in H as (v3 & Ev3 & H).
  injection H as <-.
  apply load_yaml_v2 in El1 as [El1 _]. apply load_yaml_v2 in El2 as [El2 _].
  apply load_yaml_v2 in El3 as [El3 _].
  apply routing_policy_returned in Ev1. apply review_parallel_policy_returned in Ev2.
  apply web_evidence_policy_returned in Ev3. subst v1 v2 v3.
  assert (Np : NoDup PHASES) by (repeat constructor; simpl; intuition discriminate).
  assert (Nt : NoDup TOOLS) by (repeat constructor; simpl; intuition discriminate).
  destruct (load_dir_documents _ _ _ _ _ _ _ Esk Np) as [Hsk _].
  destruct (load_dir_documents _ _ _ _ _ _ _ Esv Nt) as [Hsv _].
  split; [reflexivity |]. split; [reflexivity |]. split; [| split].
  - intros phase Hin. destruct (Hsk phase Hin) as (raw & node & Hl & Hv & Hg).
    apply skill_file_returned in Hv. subst node.
    exists raw. split; [exact Hl |]. cbn. unfold ditem. rewrite Hg. reflexivity.
  - intros tool Hin. destruct (Hsv tool Hin) as (raw & node & Hl & Hv & Hg).
    apply servant_file_returned in Hv. subst node.
    exists raw. split; [exact Hl |]. cbn. unfold ditem. rewrite Hg. reflexivity.
  - intros policy Hin. simpl in Hin.
    destruct Hin as [<- | [<- | [<- | []]]]; eexists; (split; [eassumption | reflexivity]).
Qed.

Lemma loaded_v2_config_witness :
  exists cfg,
    load_and_validate_v2_config ExamplesV2.config_root "/repo/configs-v2" = Ok cfg /\
    In "impl" PHASES /\
    (skills <- item cfg "skills" ;; item skills "impl") = Ok (ExamplesV2.skill_yaml "impl").
Proof.
  destruct (load_and_validate_v2_config ExamplesV2.config_root "/repo/configs-v2")
    as [cfg |] eqn:Hc; [| vm_compute in Hc; discriminate Hc].
  exists cfg. split; [reflexivity |].
  assert (Hin : In "impl" PHASES) by (simpl; auto).
  split; [exact Hin |].
  destruct (loaded_v2_config_holds_the_documents _ _ _ Hc) as (_ & _ & Hsk & _).
  destruct (Hsk "impl" Hin) as (doc & Hl & ->).
  vm_compute in Hl. injection Hl as <-. reflexivity.
Defined.

End LoadedDocuments.

(** ** What a loaded v1 config holds *)

Module LoadedDocumentsV1.
Import ConfigValidate.
Import ValidFacts Loading.





End LoadedDocumentsV1.
